(** * MouseFood: a shallow embedding of [assignment_2.py]

    The simulation core of the program (grid, scent field, player, decision
    policy, game manager with its save/rewind history) is transcribed below,
    class by class, with the names of the source.  Rendering, fonts and the
    keyboard loop are left out.

    Modelling conventions.
    - Python integers are [Z]; directions are the integers 0..3 the program
      passes around ([Direction.X.value]).
    - Scent values are the 5-decimal numbers produced by [round(_, 5)]; a value
      [v] is represented by the integer [100000 * v] (fixed point).  Sums of
      contributions and the exact comparisons of [smart_mouse] are computed on
      these integers, that is, on the decimal values themselves and not on
      their binary floating-point approximations.
    - numpy arrays are lists of rows; an index goes through [np_index], which
      wraps a negative index and raises [IndexError] out of range, as numpy does.
    - The random module is an explicit tape of raw draws which every call of
      [randint] / [choice] consumes; an exhausted tape is [OutOfDraws].
    - Exceptions are the [Raise] results of a small error monad. *)

From Stdlib Require Import ZArith List Bool Lia.
From stdpp Require Import base list list_numbers.
Import ListNotations.
Local Open Scope Z_scope.

(** ** Faults and the two monads *)

Inductive fault : Type :=
| IndexError
| ValueError
| SystemExit (code : Z)
| OutOfDraws.

Inductive result (A : Type) : Type :=
| Ok (a : A)
| Raise (e : fault).

Arguments Ok {A} a.
Arguments Raise {A} e.

Definition bind {A B : Type} (r : result A) (k : A -> result B) : result B :=
  match r with
  | Ok a => k a
  | Raise e => Raise e
  end.

(** Computations that draw from the random tape. *)
Definition tape : Type := list Z.
Definition M (A : Type) : Type := tape -> result (A * tape).

Definition ret {A : Type} (a : A) : M A := fun t => Ok (a, t).

Definition bindM {A B : Type} (m : M A) (k : A -> M B) : M B :=
  fun t =>
    match m t with
    | Ok (a, t') => k a t'
    | Raise e => Raise e
    end.

Definition lift {A : Type} (r : result A) : M A :=
  fun t =>
    match r with
    | Ok a => Ok (a, t)
    | Raise e => Raise e
    end.

Notation "x <- e ;; k" := (bind e (fun x => k))
  (at level 20, e at level 99, k at level 200, only parsing).
Notation "x <~ e ;; k" := (bindM e (fun x => k))
  (at level 20, e at level 99, k at level 200, only parsing).

(** ** The random module *)

(** [random.randint(a, b)]: an integer of the closed interval [a..b],
    [ValueError] when the interval is empty. *)
Definition randint (a b : Z) : M Z :=
  fun t =>
    if b <? a then Raise ValueError
    else
      match t with
      | [] => Raise OutOfDraws
      | r :: t' => Ok (a + r mod (b - a + 1), t')
      end.

(** [random.choice(seq)]: [seq[randbelow(len(seq))]], [IndexError] when empty. *)
Definition choice {A : Type} (l : list A) : M A :=
  fun t =>
    match l with
    | [] => Raise IndexError
    | _ :: _ =>
        match t with
        | [] => Raise OutOfDraws
        | r :: t' =>
            match l !! Z.to_nat (r mod Z.of_nat (length l)) with
            | Some a => Ok (a, t')
            | None => Raise IndexError
            end
        end
    end.

(** ** numpy arrays *)

Definition np_zeros (n m : Z) : list (list Z) :=
  replicate (Z.to_nat n) (replicate (Z.to_nat m) 0).

Definition np_index (n : nat) (i : Z) : result nat :=
  if (0 <=? i) && (i <? Z.of_nat n) then Ok (Z.to_nat i)
  else if (- Z.of_nat n <=? i) && (i <? 0) then Ok (Z.to_nat (Z.of_nat n + i))
  else Raise IndexError.

(** [a[i][j]] *)
Definition np_get2 (a : list (list Z)) (i j : Z) : result Z :=
  r <- np_index (length a) i ;;
  match a !! r with
  | None => Raise IndexError
  | Some row =>
      c <- np_index (length row) j ;;
      match row !! c with
      | None => Raise IndexError
      | Some v => Ok v
      end
  end.

(** [a[i][j] = v] *)
Definition np_set2 (a : list (list Z)) (i j v : Z) : result (list (list Z)) :=
  r <- np_index (length a) i ;;
  match a !! r with
  | None => Raise IndexError
  | Some row =>
      c <- np_index (length row) j ;;
      Ok (<[r := <[c := v]> row]> a)
  end.

(** Accesses whose indices come from [range] over the array's own shape
    cannot fault; they are written with the total operations. *)
Definition cell (a : list (list Z)) (i j : Z) : Z :=
  match a !! Z.to_nat i with
  | None => 0
  | Some row => default 0 (row !! Z.to_nat j)
  end.

Definition set_cell (a : list (list Z)) (i j v : Z) : list (list Z) :=
  match a !! Z.to_nat i with
  | None => a
  | Some row => <[Z.to_nat i := <[Z.to_nat j := v]> row]> a
  end.

(** [l[start:stop]] for a Python list or one numpy axis. *)
Definition py_bound (n : nat) (k : Z) : nat :=
  if k <? 0 then Z.to_nat (Z.max 0 (Z.of_nat n + k))
  else Z.to_nat (Z.min k (Z.of_nat n)).

Definition py_slice {A : Type} (l : list A) (start stop : Z) : list A :=
  let s := py_bound (length l) start in
  let e := py_bound (length l) stop in
  take (e - s)%nat (drop s l).

(** [l[:stop]] *)
Definition py_prefix {A : Type} (l : list A) (stop : Z) : list A :=
  take (py_bound (length l) stop) l.

(** [l[start:]] *)
Definition py_suffix {A : Type} (l : list A) (start : Z) : list A :=
  drop (py_bound (length l) start) l.

(** [np.pad(a, pad_width=1)] on a 2-d array: a border of zeros. *)
Definition np_pad1 (a : list (list Z)) : list (list Z) :=
  let m := match a with [] => 0%nat | row :: _ => length row end in
  let zero_row := replicate (S (S m)) 0 in
  zero_row :: map (fun row => 0 :: row ++ [0]) a ++ [zero_row].

(** ** Module constants *)

Definition GAME_GRID_WIDTH : Z := 10.
Definition GAME_GRID_HEIGHT : Z := GAME_GRID_WIDTH.
Definition NUM_SPACES : Z := GAME_GRID_WIDTH * GAME_GRID_HEIGHT.
Definition DEFAULT_TERRAIN_DIFFICULTY : Z := 1.
Definition DEATH_PENALTY : bool := true.
Definition ENERGY_PER_FOOD : Z := 20.
Definition FOOD_PER_ROUND : Z := 20.
Definition MAX_ENERGY : Z := 100.
Definition MAX_SAVED_GAME_STATES : Z := MAX_ENERGY.
Definition MAX_NUM_FOOD_ON_GRID : Z := 2.
Definition USE_DIAGONAL_SCENT : bool := false.

(** [Direction.X.value] *)
Definition NORTH : Z := 0.
Definition SOUTH : Z := 1.
Definition WEST : Z := 2.
Definition EAST : Z := 3.

(** ** Scent values in fixed point *)

(** One unit of scent, [1.0], is [SCENT_ONE]. *)
Definition SCENT_ONE : Z := 100000.
Definition SQRT_PRECISION : Z := 10 ^ 20.

(** [round(1 / (sqrt(d2) + 1), 5)] for a squared distance [d2], in units of
    [1e-5]: the nearest integer to [100000 / (sqrt d2 + 1)], the square root
    taken to 20 decimal places. *)
Definition round5_inv_dist (d2 : Z) : Z :=
  let s := Z.sqrt (d2 * SQRT_PRECISION * SQRT_PRECISION) in
  (2 * SCENT_ONE * SQRT_PRECISION + (s + SQRT_PRECISION)) / (2 * (s + SQRT_PRECISION)).

(** [round(1 / (distance.euclidean(p, q) + 1), 5)] *)
Definition scent_between (p q : Z * Z) : Z :=
  round5_inv_dist ((p.1 - q.1) * (p.1 - q.1) + (p.2 - q.2) * (p.2 - q.2)).

(** ** class GridSpace *)

Inductive kind : Type :=
| KPlayer
| KFood.

Module GridSpace.

Record t : Type := mk {
  type : option kind;
  difficulty : Z;
  x : Z;
  y : Z
}.

Definition init (x y : Z) : t := mk None DEFAULT_TERRAIN_DIFFICULTY x y.

Definition setPlayer (s : t) : t := mk (Some KPlayer) (difficulty s) (x s) (y s).

Definition setFood (s : t) : t := mk (Some KFood) (difficulty s) (x s) (y s).

Definition set_x (v : Z) (s : t) : t := mk (type s) (difficulty s) v (y s).

Definition set_y (v : Z) (s : t) : t := mk (type s) (difficulty s) (x s) v.

Definition pos (s : t) : Z * Z := (x s, y s).

Definition is_food (s : t) : bool :=
  match type s with
  | Some KFood => true
  | _ => false
  end.

End GridSpace.

(** ** class Player *)

Module Player.

Record t : Type := mk {
  tile : GridSpace.t;
  food_eaten : Z;
  max_energy : Z;
  energy : Z;
  alive : bool;
  smell_matrix : list (list Z);
  score : Z
}.

Definition init (x y : Z) : t :=
  mk (GridSpace.setPlayer (GridSpace.init x y)) 0 MAX_ENERGY MAX_ENERGY true
     (np_zeros 3 3) 0.

Definition set_tile (v : GridSpace.t) (p : t) : t :=
  mk v (food_eaten p) (max_energy p) (energy p) (alive p) (smell_matrix p) (score p).

Definition set_food_eaten (v : Z) (p : t) : t :=
  mk (tile p) v (max_energy p) (energy p) (alive p) (smell_matrix p) (score p).

Definition set_energy (v : Z) (p : t) : t :=
  mk (tile p) (food_eaten p) (max_energy p) v (alive p) (smell_matrix p) (score p).

Definition set_alive (v : bool) (p : t) : t :=
  mk (tile p) (food_eaten p) (max_energy p) (energy p) v (smell_matrix p) (score p).

Definition set_smell_matrix (v : list (list Z)) (p : t) : t :=
  mk (tile p) (food_eaten p) (max_energy p) (energy p) (alive p) v (score p).

Definition set_score (v : Z) (p : t) : t :=
  mk (tile p) (food_eaten p) (max_energy p) (energy p) (alive p) (smell_matrix p) v.

Definition teleport (x y : Z) (p : t) : t :=
  set_tile (GridSpace.set_y y (GridSpace.set_x x (tile p))) p.

Definition die (p : t) : t := set_alive false p.

Definition useEnergy (amnt : Z) (p : t) : t :=
  let p := set_energy (energy p - amnt) p in
  if energy p <? 0 then die p else p.

(** Returns the player and the pair [self.tile.x, self.tile.y]. *)
Definition move (direction difficulty : Z) (p : t) : t * (Z * Z) :=
  let p :=
    if alive p then
      let tl := tile p in
      let tl :=
        if direction =? 0 then
          (if 0 <? GridSpace.y tl then GridSpace.set_y (GridSpace.y tl - 1) tl else tl)
        else if direction =? 1 then
          (if GridSpace.y tl <? GAME_GRID_HEIGHT - 1
           then GridSpace.set_y (GridSpace.y tl + 1) tl else tl)
        else if direction =? 2 then
          (if 0 <? GridSpace.x tl then GridSpace.set_x (GridSpace.x tl - 1) tl else tl)
        else if direction =? 3 then
          (if GridSpace.x tl <? GAME_GRID_WIDTH - 1
           then GridSpace.set_x (GridSpace.x tl + 1) tl else tl)
        else tl in
      useEnergy difficulty (set_tile tl p)
    else p in
  (p, (GridSpace.x (tile p), GridSpace.y (tile p))).

Definition eatFood (p : t) : t :=
  let p := set_food_eaten (food_eaten p + 1) p in
  let p := set_score (score p + energy p) p in
  let p := set_energy (energy p + ENERGY_PER_FOOD) p in
  if max_energy p <? energy p then set_energy (max_energy p) p else p.

End Player.

(** ** Loops with faults or random draws *)

Fixpoint fold_result {A S : Type} (f : S -> A -> result S) (l : list A) (s : S)
  : result S :=
  match l with
  | [] => Ok s
  | a :: l' => s' <- f s a ;; fold_result f l' s'
  end.

Fixpoint foldM {A S : Type} (f : S -> A -> M S) (l : list A) (s : S) : M S :=
  match l with
  | [] => ret s
  | a :: l' => s' <~ f s a ;; foldM f l' s'
  end.

(** ** class GameGrid *)

Module GameGrid.

Record t : Type := mk {
  width : Z;
  height : Z;
  smell_grid : list (list Z);
  occupied_grid : list (list Z);
  occupied_spaces : list GridSpace.t;
  player : Player.t
}.

Definition set_smell_grid (v : list (list Z)) (g : t) : t :=
  mk (width g) (height g) v (occupied_grid g) (occupied_spaces g) (player g).

Definition set_occupied_grid (v : list (list Z)) (g : t) : t :=
  mk (width g) (height g) (smell_grid g) v (occupied_spaces g) (player g).

Definition set_occupied_spaces (v : list GridSpace.t) (g : t) : t :=
  mk (width g) (height g) (smell_grid g) (occupied_grid g) v (player g).

Definition set_player (v : Player.t) (g : t) : t :=
  mk (width g) (height g) (smell_grid g) (occupied_grid g) (occupied_spaces g) v.

Definition reset (g : t) : t :=
  mk (width g) (height g)
     (np_zeros (width g) (height g))
     (np_zeros (width g) (height g))
     []
     (Player.init 0 0).

(** [__init__]: the drawing attributes are not part of the model. *)
Definition init (width height : Z) : t :=
  set_player (Player.init 0 0) (reset (mk width height [] [] [] (Player.init 0 0))).

(** One pass of the body of the two [range] loops of [calcSmellMatrix]
    at indices [i], [j] for the source [tile]. *)
Definition smell_step (SCENT_STACKING : bool) (tile : GridSpace.t) (i j : Z)
  (sg : list (list Z)) : list (list Z) :=
  let dist := scent_between (i, j) (GridSpace.x tile, GridSpace.y tile) in
  if negb SCENT_STACKING then
    if cell sg j i <? dist then set_cell sg j i dist else sg
  else if (j =? GridSpace.x tile) && (i =? GridSpace.y tile) then set_cell sg j i dist
  else set_cell sg j i (cell sg j i + dist).

Definition smell_source (SCENT_STACKING : bool) (w h : Z) (sg : list (list Z))
  (tile : GridSpace.t) : result (list (list Z)) :=
  sg <- np_set2 sg (GridSpace.x tile) (GridSpace.y tile) SCENT_ONE ;;
  Ok (fold_left
        (fun sg i =>
           fold_left (fun sg j => smell_step SCENT_STACKING tile i j sg) (seqZ 0 w) sg)
        (seqZ 0 h) sg).

Definition calcSmellMatrix (SCENT_STACKING : bool) (g : t) : result t :=
  sg <- fold_result (smell_source SCENT_STACKING (width g) (height g))
          (occupied_spaces g) (np_zeros (width g) (height g)) ;;
  Ok (set_smell_grid sg g).

Definition calcPlayerSense (g : t) : t :=
  let padded_grid := np_pad1 (smell_grid g) in
  let x := GridSpace.x (Player.tile (player g)) in
  let y := GridSpace.y (Player.tile (player g)) in
  let window := map (fun row => py_slice row x (x + 3)) (py_slice padded_grid y (y + 3)) in
  set_player (Player.set_smell_matrix window (player g)) g.

Definition checkValidTile (x y : Z) : bool :=
  if (0 <=? x) && (0 <=? y) then
    if (x <? GAME_GRID_WIDTH) && (y <? GAME_GRID_HEIGHT) then true else false
  else false.

Definition getTile (x y : Z) (g : t) : option GridSpace.t :=
  if negb (checkValidTile x y) then None
  else find (fun tile => (GridSpace.x tile =? x) && (GridSpace.y tile =? y))
         (occupied_spaces g).

Definition addTile (tile : GridSpace.t) (g : t) : result t :=
  let g := set_occupied_spaces (occupied_spaces g ++ [tile]) g in
  og <- np_set2 (occupied_grid g) (GridSpace.x tile) (GridSpace.y tile) 1 ;;
  Ok (set_occupied_grid og g).

Definition randGridX : M Z := randint 0 (GAME_GRID_WIDTH - 1).

Definition randGridY : M Z := randint 0 (GAME_GRID_HEIGHT - 1).

Definition randGridSpace : M (Z * Z) :=
  x <~ randGridX ;;
  y <~ randGridY ;;
  ret (x, y).

(** The [while found == False] loop: every iteration consumes the two draws
    of [randGridSpace]; the recursion is on the tape. *)
Fixpoint rejection_loop (og : list (list Z)) (tp : tape) : result ((Z * Z) * tape) :=
  match tp with
  | rx :: ry :: tp' =>
      let x := 0 + rx mod (GAME_GRID_WIDTH - 1 - 0 + 1) in
      let y := 0 + ry mod (GAME_GRID_HEIGHT - 1 - 0 + 1) in
      v <- np_get2 og x y ;;
      if v =? 0 then Ok ((x, y), tp') else rejection_loop og tp'
  | _ => Raise OutOfDraws
  end.

(** The index pairs visited by [for i in range(h): for j in range(w)]. *)
Definition scan_order (w h : Z) : list (Z * Z) :=
  flat_map (fun i => map (fun j => (i, j)) (seqZ 0 w)) (seqZ 0 h).

(** One of the two counting passes: [inl] is an early [return i, j],
    [inr] the value of [count] when the loops fall through. *)
Fixpoint scan_pass (og : list (list Z)) (choice : Z) (cells : list (Z * Z)) (count : Z)
  : result ((Z * Z) + Z) :=
  match cells with
  | [] => Ok (inr count)
  | (i, j) :: rest =>
      v <- np_get2 og i j ;;
      if v =? 0 then
        if choice <=? count then Ok (inl (i, j))
        else scan_pass og choice rest (count + 1)
      else scan_pass og choice rest count
  end.

(** The [else] branch of [randEmptySpace] once [choice] is drawn. *)
Definition scan_empty (g : t) (choice : Z) : result (Z * Z) :=
  let cells := scan_order (width g) (height g) in
  r1 <- scan_pass (occupied_grid g) choice cells 0 ;;
  match r1 with
  | inl c => Ok c
  | inr count =>
      r2 <- scan_pass (occupied_grid g) choice cells count ;;
      match r2 with
      | inl c => Ok c
      | inr _ => Raise (SystemExit 9)
      end
  end.

Definition randEmptySpace (g : t) : M (Z * Z) :=
  if 2 * Z.of_nat (length (occupied_spaces g)) <? NUM_SPACES then
    rejection_loop (occupied_grid g)
  else
    let empty_left := NUM_SPACES - Z.of_nat (length (occupied_spaces g)) in
    choice <~ randint 0 empty_left ;;
    lift (scan_empty g choice).

Definition genTile (x y : Z) (g : t) : M (option GridSpace.t) :=
  if NUM_SPACES <=? Z.of_nat (length (occupied_spaces g)) then ret None
  else
    let orig_x := x in
    let orig_y := y in
    if (orig_x <? 0) || (GAME_GRID_WIDTH <? orig_x)
       || (orig_y <? 0) || (GAME_GRID_HEIGHT <? orig_y)
    then
      xy <~ randEmptySpace g ;;
      ret (Some (GridSpace.init xy.1 xy.2))
    else ret (Some (GridSpace.init x y)).

Definition checkOccupied (x y : Z) (g : t) : result bool :=
  if checkValidTile x y then
    v <- np_get2 (occupied_grid g) x y ;;
    Ok (v =? 1)
  else Ok false.

(** [for tile in self.occupied_spaces: ... self.occupied_spaces.remove(tile)]:
    the list iterator is an index into the list being mutated, so the element
    that follows a removed one is never visited. *)
Fixpoint remove_loop (x y : Z) (l : list GridSpace.t) (tile_type : option kind)
  : list GridSpace.t * option kind :=
  match l with
  | [] => ([], tile_type)
  | tile :: rest =>
      if (GridSpace.x tile =? x) && (GridSpace.y tile =? y) then
        match rest with
        | [] => ([], GridSpace.type tile)
        | skipped :: rest' =>
            let r := remove_loop x y rest' (GridSpace.type tile) in
            (skipped :: r.1, r.2)
        end
      else
        let r := remove_loop x y rest tile_type in
        (tile :: r.1, r.2)
  end.

Definition removeTile (x y : Z) (g : t) : result (t * option kind) :=
  occ <- checkOccupied x y g ;;
  if occ then
    og <- np_set2 (occupied_grid g) x y 0 ;;
    let r := remove_loop x y (occupied_spaces g) None in
    Ok (set_occupied_spaces r.1 (set_occupied_grid og g), r.2)
  else Ok (g, None).

Definition movePlayer (SCENT_STACKING : bool) (direction : Z) (g : t) : result t :=
  let mv := Player.move direction 1 (player g) in
  let g := set_player mv.1 g in
  let x := mv.2.1 in
  let y := mv.2.2 in
  r <- removeTile x y g ;;
  let g := r.1 in
  match r.2 with
  | Some KFood =>
      let g := set_player (Player.eatFood (player g)) g in
      calcSmellMatrix SCENT_STACKING g
  | _ => Ok g
  end.

Definition addPlayer (x y : Z) (g : t) : M t :=
  temp_tile <~ genTile x y g ;;
  match temp_tile with
  | Some tl => lift (addTile (GridSpace.setPlayer tl) g)
  | None => ret g
  end.

Definition addFood (SCENT_STACKING : bool) (x y : Z) (g : t) : M t :=
  temp_tile <~ genTile x y g ;;
  g <~ match temp_tile with
       | Some tl => lift (addTile (GridSpace.setFood tl) g)
       | None => ret g
       end ;;
  lift (calcSmellMatrix SCENT_STACKING g).

Definition checkForFood (x y : Z) (g : t) : result bool :=
  occ <- checkOccupied x y g ;;
  if occ then
    match getTile x y g with
    | Some tile => Ok (GridSpace.is_food tile)
    | None => Ok false
    end
  else Ok false.

Definition isPlayerNext2Food (g : t) : result (option (list Z)) :=
  let x := GridSpace.x (Player.tile (player g)) in
  let y := GridSpace.y (Player.tile (player g)) in
  let food_tiles := [] in
  w <- checkForFood (x - 1) y g ;;
  let food_tiles := if w then food_tiles ++ [WEST] else food_tiles in
  e <- checkForFood (x + 1) y g ;;
  let food_tiles := if e then food_tiles ++ [EAST] else food_tiles in
  n <- checkForFood x (y - 1) g ;;
  let food_tiles := if n then food_tiles ++ [NORTH] else food_tiles in
  s <- checkForFood x (y + 1) g ;;
  let food_tiles := if s then food_tiles ++ [SOUTH] else food_tiles in
  match food_tiles with
  | [] => Ok None
  | _ :: _ => Ok (Some food_tiles)
  end.

End GameGrid.

(** ** The decision policies *)

Definition simple_mouse : M Z := choice (seqZ 0 4).

(** [np.any(scent_matrix)] *)
Definition np_any (m : list (list Z)) : bool :=
  existsb (existsb (fun v => negb (v =? 0))) m.

(** [np.sum(m, axis=1)[i]] and [np.sum(m, axis=0)[j]] *)
Definition np_row_sum (m : list (list Z)) (i : Z) : result Z :=
  r <- np_index (length m) i ;;
  match m !! r with
  | Some row => Ok (fold_left Z.add row 0)
  | None => Raise IndexError
  end.

Definition np_col_sum (m : list (list Z)) (j : Z) : result Z :=
  let n := match m with [] => 0%nat | row :: _ => length row end in
  c <- np_index n j ;;
  Ok (fold_left (fun acc row => acc + default 0 (row !! c)) m 0).

(** [max(movement_array)] for the four-element list built by [smart_mouse]. *)
Definition list_max (l : list Z) : Z :=
  match l with
  | [] => 0
  | a :: l' => fold_left Z.max l' a
  end.

(** [[i for i, x in enumerate(arr) if x == max(arr)]] *)
Definition argmax_indexes (arr : list Z) : list Z :=
  map fst (filter (fun ix => ix.2 = list_max arr) (zip (seqZ 0 (Z.of_nat (length arr))) arr)).

(** [smart_mouse] reads the global [gm.game_grid]; here it is the argument [g]. *)
Definition smart_mouse (scent_matrix : list (list Z)) (g : GameGrid.t) : M Z :=
  if negb (np_any scent_matrix) then simple_mouse
  else
    north <~ lift (if USE_DIAGONAL_SCENT then np_row_sum scent_matrix 0
                   else np_get2 scent_matrix 0 1) ;;
    south <~ lift (if USE_DIAGONAL_SCENT then np_row_sum scent_matrix 2
                   else np_get2 scent_matrix 2 1) ;;
    west <~ lift (if USE_DIAGONAL_SCENT then np_col_sum scent_matrix 0
                  else np_get2 scent_matrix 1 0) ;;
    east <~ lift (if USE_DIAGONAL_SCENT then np_col_sum scent_matrix 2
                  else np_get2 scent_matrix 1 2) ;;
    let movement_array := [north; south; west; east] in
    nearby_food <~ lift (GameGrid.isPlayerNext2Food g) ;;
    match nearby_food with
    | Some dirs => choice dirs
    | None => choice (argmax_indexes movement_array)
    end.

(** ** class GameState *)

Module GameState.

(** [foods_loc] holds the two-element lists [[tile.x, tile.y]] as pairs. *)
Record t : Type := mk {
  player_loc_x : Z;
  player_loc_y : Z;
  player_energy : Z;
  player_food_eaten : Z;
  player_score : Z;
  foods_loc : list (Z * Z)
}.

Definition init (game_grid : GameGrid.t) : t :=
  let p := GameGrid.player game_grid in
  mk (GridSpace.x (Player.tile p))
     (GridSpace.y (Player.tile p))
     (Player.energy p)
     (Player.food_eaten p)
     (Player.score p)
     (map GridSpace.pos (filter (fun tile => GridSpace.is_food tile = true)
                           (GameGrid.occupied_spaces game_grid))).

Definition restorePlayer (s : t) : Player.t :=
  let player := Player.init (player_loc_x s) (player_loc_y s) in
  let player := Player.set_energy (player_energy s) player in
  let player := Player.set_food_eaten (player_food_eaten s) player in
  Player.set_score (player_score s) player.

End GameState.

(** ** class GameManager *)

Module GameManager.

Record t : Type := mk {
  game_grid : GameGrid.t;
  round : Z;
  paused : bool;
  game_states : list GameState.t;
  round_scores : list Z
}.

Definition set_game_grid (v : GameGrid.t) (m : t) : t :=
  mk v (round m) (paused m) (game_states m) (round_scores m).

Definition set_game_states (v : list GameState.t) (m : t) : t :=
  mk (game_grid m) (round m) (paused m) v (round_scores m).

Definition set_paused (v : bool) (m : t) : t :=
  mk (game_grid m) (round m) v (game_states m) (round_scores m).

Definition init (SCENT_STACKING : bool) (width height : Z) : M t :=
  g <~ GameGrid.addFood SCENT_STACKING (-1) (-1) (GameGrid.init height width) ;;
  ret (mk g 0 false [] []).

Definition reset (m : t) : t := set_game_states [] m.

Definition endRound (m : t) : t :=
  let m := mk (GameGrid.reset (game_grid m)) (round m + 1) (paused m) (game_states m)
              (round_scores m ++ [Player.score (GameGrid.player (game_grid m))]) in
  reset m.

Definition checkEndStates (m : t) : t :=
  let p := GameGrid.player (game_grid m) in
  if FOOD_PER_ROUND <=? Player.food_eaten p then endRound m
  else if negb (Player.alive p) then
    let m :=
      if DEATH_PENALTY
      then set_game_grid (GameGrid.set_player (Player.set_score 0 p) (game_grid m)) m
      else m in
    endRound m
  else m.

Definition saveGameState (m : t) : t :=
  let m :=
    if MAX_SAVED_GAME_STATES <=? Z.of_nat (length (game_states m))
    then set_game_states (py_suffix (game_states m) 1) m
    else m in
  set_game_states (game_states m ++ [GameState.init (game_grid m)]) m.

Definition restoreGameState (SCENT_STACKING : bool) (game_state : GameState.t) (m : t)
  : M t :=
  let g := GameGrid.reset (game_grid m) in
  let g := GameGrid.set_player (GameState.restorePlayer game_state) g in
  g <~ foldM (fun g food => GameGrid.addFood SCENT_STACKING food.1 food.2 g)
         (GameState.foods_loc game_state) g ;;
  ret (set_game_grid g m).

Definition rewindGameState (SCENT_STACKING : bool) (num_to_rewind : Z) (m : t) : M t :=
  if Z.of_nat (length (game_states m)) <=? 1 then ret m
  else
    let num_to_rewind :=
      if Z.of_nat (length (game_states m)) <=? num_to_rewind
      then Z.of_nat (length (game_states m)) - 1
      else num_to_rewind in
    let m := set_game_states (py_prefix (game_states m) (- num_to_rewind)) m in
    i <~ lift (np_index (length (game_states m)) (-1)) ;;
    match game_states m !! i with
    | Some game_state => restoreGameState SCENT_STACKING game_state m
    | None => lift (Raise IndexError)
    end.

(** The body of [logicTick] up to and including [movePlayer]: the grid in the
    middle of a tick, before the end-of-round check. *)
Definition logicTick_move (SCENT_STACKING : bool) (m : t) : M GameGrid.t :=
  g <~ (match GameGrid.occupied_spaces (game_grid m) with
        | [] =>
            foldM (fun g _ => GameGrid.addFood SCENT_STACKING (-1) (-1) g)
              (seqZ 0 MAX_NUM_FOOD_ON_GRID) (game_grid m)
        | _ :: _ => ret (game_grid m)
        end) ;;
  g <~ lift (GameGrid.calcSmellMatrix SCENT_STACKING g) ;;
  let g := GameGrid.calcPlayerSense g in
  movement <~ smart_mouse (Player.smell_matrix (GameGrid.player g)) g ;;
  lift (GameGrid.movePlayer SCENT_STACKING movement g).

Definition logicTick (SCENT_STACKING : bool) (m : t) : M t :=
  g <~ logicTick_move SCENT_STACKING m ;;
  let m := set_game_grid g m in
  let m := checkEndStates m in
  ret (saveGameState m).

End GameManager.

(** ** Well-formed arrays and grids *)

(** An array of [n] rows of [m] entries. *)
Definition shape (n m : nat) (a : list (list Z)) : Prop :=
  length a = n /\ Forall (fun row => length row = m) a.

Definition in_bounds (p : Z * Z) : Prop :=
  (0 <= p.1 < GAME_GRID_WIDTH) /\ (0 <= p.2 < GAME_GRID_HEIGHT).

Definition positions (g : GameGrid.t) : list (Z * Z) :=
  map GridSpace.pos (GameGrid.occupied_spaces g).

(** The occupancy array and the tile list describe the same set of cells. *)
Definition marks_agree (og : list (list Z)) (ps : list (Z * Z)) : Prop :=
  forall x y, 0 <= x < GAME_GRID_WIDTH -> 0 <= y < GAME_GRID_HEIGHT ->
    cell og x y = if bool_decide ((x, y) ∈ ps) then 1 else 0.

Record grid_wf (g : GameGrid.t) : Prop := {
  wf_width : GameGrid.width g = GAME_GRID_WIDTH;
  wf_height : GameGrid.height g = GAME_GRID_HEIGHT;
  wf_shape : shape 10 10 (GameGrid.occupied_grid g);
  wf_bounds : Forall in_bounds (positions g);
  wf_marks : marks_agree (GameGrid.occupied_grid g) (positions g)
}.

(** The value one pass of the loop body leaves in the cell it visits. *)
Definition smell_value (st : bool) (tile : GridSpace.t) (i j old : Z) : Z :=
  let dist := scent_between (i, j) (GridSpace.x tile, GridSpace.y tile) in
  if negb st then (if old <? dist then dist else old)
  else if (j =? GridSpace.x tile) && (i =? GridSpace.y tile) then dist
  else old + dist.

(** The sum of the contributions the sources [l] make at the point [c]. *)
Definition scent_sum (c : Z * Z) (l : list GridSpace.t) : Z :=
  fold_right (fun tile acc => scent_between c (GridSpace.pos tile) + acc) 0 l.

(** A tile whose coordinates index an array of shape [(w, h)]. *)
Definition tile_in (w h : Z) (tile : GridSpace.t) : Prop :=
  (0 <= GridSpace.x tile < w) /\ (0 <= GridSpace.y tile < h).

(** The grid after [addTile] of a tile. *)
Definition with_tile (tile : GridSpace.t) (g : GameGrid.t) : GameGrid.t :=
  GameGrid.set_occupied_grid
    (set_cell (GameGrid.occupied_grid g) (GridSpace.x tile) (GridSpace.y tile) 1)
    (GameGrid.set_occupied_spaces (GameGrid.occupied_spaces g ++ [tile]) g).

(** The free cells of the grid, in the order the counting scan visits them. *)
Definition empty_cells (g : GameGrid.t) : list (Z * Z) :=
  filter (fun c => cell (GameGrid.occupied_grid g) c.1 c.2 = 0)
    (GameGrid.scan_order (GameGrid.width g) (GameGrid.height g)).

(** Test data: a board on which only the cells [(9, 8)] and [(9, 9)] are free. *)
Definition crowded_grid : GameGrid.t :=
  let cells := take 98 (GameGrid.scan_order 10 10) in
  match fold_result
          (fun g c => GameGrid.addTile (GridSpace.setFood (GridSpace.init c.1 c.2)) g)
          cells (GameGrid.init 10 10) with
  | Ok g => g
  | Raise _ => GameGrid.init 10 10
  end.

(** Test data: one food tile at [(0, 0)], the player one tile south of it. *)
Definition food_north_grid : GameGrid.t :=
  let g := GameGrid.init 10 10 in
  let g :=
    match GameGrid.addTile (GridSpace.setFood (GridSpace.init 0 0)) g with
    | Ok g' => g'
    | Raise _ => g
    end in
  GameGrid.set_player (Player.teleport 0 1 (GameGrid.player g)) g.

(** Test data: the manager after two ticks of a fresh game. *)
Definition two_tick_manager : option GameManager.t :=
  match GameManager.init true 10 10 [3; 2] with
  | Ok (m, _) =>
      match GameManager.logicTick true m [0] with
      | Ok (m, _) =>
          match GameManager.logicTick true m [0] with
          | Ok (m, _) => Some m
          | Raise _ => None
          end
      | Raise _ => None
      end
  | Raise _ => None
  end.

(** Test data: food placed at [(0, 0)] and then at [(1, 1)], and the same two
    placements in the other order. *)
Definition two_food_grid : GameGrid.t :=
  match bindM (GameGrid.addFood true 0 0 (GameGrid.init 10 10))
          (GameGrid.addFood true 1 1) [] with
  | Ok (g, _) => g
  | Raise _ => GameGrid.init 10 10
  end.

Definition two_food_grid_rev : GameGrid.t :=
  match bindM (GameGrid.addFood true 1 1 (GameGrid.init 10 10))
          (GameGrid.addFood true 0 0) [] with
  | Ok (g, _) => g
  | Raise _ => GameGrid.init 10 10
  end.

(** Test data: a fresh game whose first food falls on [(3, 2)], and the same
    game one tick later. *)
Definition fresh_manager : GameManager.t :=
  match GameManager.init true GAME_GRID_WIDTH GAME_GRID_HEIGHT [3; 2] with
  | Ok (m, _) => m
  | Raise _ => GameManager.mk (GameGrid.init 10 10) 0 false [] []
  end.

Definition ticked_manager : GameManager.t :=
  match GameManager.logicTick true fresh_manager [0] with
  | Ok (m, _) => m
  | Raise _ => fresh_manager
  end.

(** Test data: a fresh game whose first food falls on [(0, 0)], the cell of the
    player. *)
Definition food_on_player_manager : GameManager.t :=
  match GameManager.init true GAME_GRID_WIDTH GAME_GRID_HEIGHT [0; 0] with
  | Ok (m, _) => m
  | Raise _ => GameManager.mk (GameGrid.init 10 10) 0 false [] []
  end.

(** Test data: a dead player standing on the only food tile, at [(0, 0)]. *)
Definition dead_on_food_grid : GameGrid.t :=
  let g := GameGrid.init 10 10 in
  let g :=
    match GameGrid.addTile (GridSpace.setFood (GridSpace.init 0 0)) g with
    | Ok g' => g'
    | Raise _ => g
    end in
  GameGrid.set_player (Player.die (GameGrid.player g)) g.


(** [saveGameState] called once for each grid of [gs], in order. *)
Definition push_all (gs : list GameGrid.t) (m : GameManager.t) : GameManager.t :=
  fold_left (fun m g => GameManager.saveGameState (GameManager.set_game_grid g m)) gs m.


(** Test data: a board with a food tile on every cell. *)
Definition full_grid : GameGrid.t :=
  match fold_result
          (fun g c => GameGrid.addTile (GridSpace.setFood (GridSpace.init c.1 c.2)) g)
          (GameGrid.scan_order 10 10) (GameGrid.init 10 10) with
  | Ok g => g
  | Raise _ => GameGrid.init 10 10
  end.

(** A move in [direction] from [(x, y)] that the walls, or the direction
    itself, do not allow. *)
Definition blocked (direction x y : Z) : Prop :=
  (direction = 0 /\ y = 0) \/ (direction = 1 /\ y = GAME_GRID_HEIGHT - 1) \/
  (direction = 2 /\ x = 0) \/ (direction = 3 /\ x = GAME_GRID_WIDTH - 1) \/
  direction < 0 \/ 3 < direction.

(** Test data: the fresh game two ticks later. *)
Definition ticked_twice_manager : GameManager.t :=
  match GameManager.logicTick true ticked_manager [0] with
  | Ok (m, _) => m
  | Raise _ => ticked_manager
  end.

(** The history and the round ledger of the running game: the history never
    exceeds its capacity, its last snapshot describes the live grid, and one
    score is recorded per round played. *)
Record history_inv (m : GameManager.t) : Prop := {
  hist_length : Z.of_nat (length (GameManager.game_states m)) <= MAX_SAVED_GAME_STATES;
  hist_last : GameManager.game_states m = [] \/
              last (GameManager.game_states m)
              = Some (GameState.init (GameManager.game_grid m));
  hist_ledger : Z.of_nat (length (GameManager.round_scores m)) = GameManager.round m
}.

(** ** Invariants of the running game *)

Record player_ok (p : Player.t) : Prop := {
  ok_alive : Player.alive p = true;
  ok_energy : 0 <= Player.energy p <= MAX_ENERGY;
  ok_max_energy : Player.max_energy p = MAX_ENERGY;
  ok_score : 0 <= Player.score p;
  ok_food_eaten : 0 <= Player.food_eaten p;
  ok_pos : in_bounds (GridSpace.pos (Player.tile p));
  ok_tile_type : GridSpace.type (Player.tile p) = Some KPlayer
}.

Record snapshot_ok (s : GameState.t) : Prop := {
  snap_energy : 0 <= GameState.player_energy s <= MAX_ENERGY;
  snap_score : 0 <= GameState.player_score s;
  snap_food_eaten : 0 <= GameState.player_food_eaten s;
  snap_pos : in_bounds (GameState.player_loc_x s, GameState.player_loc_y s);
  snap_bounds : Forall in_bounds (GameState.foods_loc s);
  snap_nodup : NoDup (GameState.foods_loc s);
  snap_count : Z.of_nat (length (GameState.foods_loc s)) <= MAX_NUM_FOOD_ON_GRID
}.

(** The facts about the tiles that every operation of the game preserves:
    food tiles only, at pairwise distinct cells of the grid, each marked in
    the occupancy array. *)
Record tiles_ok (g : GameGrid.t) : Prop := {
  tiles_wf : grid_wf g;
  tiles_nodup : NoDup (positions g);
  tiles_food : Forall (fun tile => GridSpace.type tile = Some KFood)
                 (GameGrid.occupied_spaces g)
}.

(** The player in the middle of a tick, after [movePlayer]: it may be dead. *)
Record player_mid (p : Player.t) : Prop := {
  mid_pos : in_bounds (GridSpace.pos (Player.tile p));
  mid_tile_type : GridSpace.type (Player.tile p) = Some KPlayer;
  mid_max_energy : Player.max_energy p = MAX_ENERGY;
  mid_alive : Player.alive p = true ->
              0 <= Player.energy p <= MAX_ENERGY /\ 0 <= Player.score p /\
              0 <= Player.food_eaten p;
  mid_dead : Player.energy p < 0 -> Player.alive p = false
}.

Record manager_inv (m : GameManager.t) : Prop := {
  inv_tiles : tiles_ok (GameManager.game_grid m);
  inv_count : Z.of_nat (length (GameGrid.occupied_spaces (GameManager.game_grid m)))
              <= MAX_NUM_FOOD_ON_GRID;
  inv_player : player_ok (GameGrid.player (GameManager.game_grid m));
  inv_history : Forall snapshot_ok (GameManager.game_states m)
}.

(** The states the program can be in between two events of its main loop:
    after construction, after a tick, after a rewind, after [p] is pressed. *)
Inductive reachable : GameManager.t -> Prop :=
| reach_init (st : bool) (tp tp' : tape) (m : GameManager.t) :
    GameManager.init st GAME_GRID_WIDTH GAME_GRID_HEIGHT tp = Ok (m, tp') ->
    reachable m
| reach_tick (st : bool) (tp tp' : tape) (m m' : GameManager.t) :
    reachable m ->
    GameManager.logicTick st m tp = Ok (m', tp') ->
    reachable m'
| reach_rewind (st : bool) (n : Z) (tp tp' : tape) (m m' : GameManager.t) :
    reachable m ->
    GameManager.rewindGameState st n m tp = Ok (m', tp') ->
    reachable m'
| reach_pause (m : GameManager.t) :
    reachable m ->
    reachable (GameManager.set_paused (negb (GameManager.paused m)) m).

(** ** Objects and references *)

(** The pure model above gives every use of a value its own copy.  Whether a
    restored grid shares objects with a snapshot is a question about
    references, so the classes on the path of save and rewind are modelled a
    second time over a store of objects:
    a field that holds a mutable object holds its address, lists of objects
    are lists of addresses, and creation allocates a new address. *)

Abbreviation addr := nat (only parsing).

Inductive obj : Type :=
| OInts (l : list Z)
| ORefs (l : list addr)
| OArray (a : list (list Z))
| OGridSpace (s : GridSpace.t)
| OPlayer (tile : addr) (food_eaten max_energy energy : Z) (alive : bool)
    (smell_matrix : addr) (score : Z)
| OGameState (player_loc_x player_loc_y player_energy player_food_eaten player_score : Z)
    (foods_loc : addr)
| OGameGrid (width height : Z) (smell_grid occupied_grid occupied_spaces player : addr)
| OGameManager (game_grid : addr) (round : Z) (paused : bool)
    (game_states round_scores : addr).

Abbreviation heap := (list obj) (only parsing).
Definition world : Type := (heap * tape)%type.

(** [Stuck]: a reference does not lead to an object of the expected class,
    which no Python run does.  [Unmodelled]: the list a [for] loop iterates
    over grew in the loop, a case the loop below does not follow. *)
Inductive outcome (A : Type) : Type :=
| Done (a : A) (w : world)
| Fault (e : fault)
| Stuck
| Unmodelled.

Arguments Done {A} a w.
Arguments Fault {A} e.
Arguments Stuck {A}.
Arguments Unmodelled {A}.

Definition HM (A : Type) : Type := world -> outcome A.

Definition hret {A : Type} (a : A) : HM A := fun w => Done a w.

Definition hbind {A B : Type} (m : HM A) (k : A -> HM B) : HM B :=
  fun w =>
    match m w with
    | Done a w' => k a w'
    | Fault e => Fault e
    | Stuck => Stuck
    | Unmodelled => Unmodelled
    end.

Notation "x <-- e ;; k" := (hbind e (fun x => k))
  (at level 20, e at level 99, k at level 200, only parsing).

Definition stuck {A : Type} : HM A := fun _ => Stuck.

Definition hlift {A : Type} (r : result A) : HM A :=
  fun w =>
    match r with
    | Ok a => Done a w
    | Raise e => Fault e
    end.

(** A computation of the pure model that draws from the random source. *)
Definition draw {A : Type} (m : M A) : HM A :=
  fun w =>
    match m w.2 with
    | Ok (a, t) => Done a (w.1, t)
    | Raise e => Fault e
    end.

Definition alloc (o : obj) : HM addr :=
  fun w => Done (length w.1) (w.1 ++ [o], w.2).

Definition load (a : addr) : HM obj :=
  fun w =>
    match w.1 !! a with
    | Some o => Done o w
    | None => Stuck
    end.

Definition store (a : addr) (o : obj) : HM unit :=
  fun w =>
    match w.1 !! a with
    | Some _ => Done tt (<[a := o]> w.1, w.2)
    | None => Stuck
    end.

(** [l[i]] on a Python list. *)
Definition py_item (l : list Z) (i : Z) : result Z :=
  k <- np_index (length l) i ;;
  match l !! k with
  | Some v => Ok v
  | None => Raise IndexError
  end.

(** [for x in <list object at la>: body(x)].  The iterator is an index into
    the list object, read again at every turn; [fuel] is the length of the
    list when the loop starts. *)
Fixpoint for_loop (fuel i : nat) (la : addr) (body : addr -> HM unit) : HM unit :=
  fun w =>
    match w.1 !! la with
    | Some (ORefs l) =>
        match l !! i with
        | None => Done tt w
        | Some x =>
            match fuel with
            | O => Unmodelled
            | S fuel' => hbind (body x) (fun _ => for_loop fuel' (S i) la body) w
            end
        end
    | _ => Stuck
    end.

Definition for_each (la : addr) (body : addr -> HM unit) : HM unit :=
  fun w =>
    match w.1 !! la with
    | Some (ORefs l) => for_loop (length l) 0 la body w
    | _ => Stuck
    end.

(** *** The store read as values of the pure model *)

Definition read_tile (h : heap) (a : addr) : option GridSpace.t :=
  match h !! a with
  | Some (OGridSpace s) => Some s
  | _ => None
  end.

Definition read_array (h : heap) (a : addr) : option (list (list Z)) :=
  match h !! a with
  | Some (OArray x) => Some x
  | _ => None
  end.

Definition read_refs (h : heap) (a : addr) : option (list addr) :=
  match h !! a with
  | Some (ORefs l) => Some l
  | _ => None
  end.

Fixpoint read_all {A : Type} (f : addr -> option A) (l : list addr) : option (list A) :=
  match l with
  | [] => Some []
  | a :: l' =>
      match f a, read_all f l' with
      | Some x, Some xs => Some (x :: xs)
      | _, _ => None
      end
  end.

Definition read_player (h : heap) (a : addr) : option Player.t :=
  match h !! a with
  | Some (OPlayer tile fe me en al sm sc) =>
      match read_tile h tile, read_array h sm with
      | Some tl, Some m => Some (Player.mk tl fe me en al m sc)
      | _, _ => None
      end
  | _ => None
  end.

Definition read_grid (h : heap) (a : addr) : option GameGrid.t :=
  match h !! a with
  | Some (OGameGrid w hh sg og os p) =>
      match read_array h sg, read_array h og, read_refs h os, read_player h p with
      | Some s, Some o, Some l, Some pl =>
          match read_all (read_tile h) l with
          | Some ts => Some (GameGrid.mk w hh s o ts pl)
          | None => None
          end
      | _, _, _, _ => None
      end
  | _ => None
  end.

Definition read_cell (h : heap) (a : addr) : option (Z * Z) :=
  match h !! a with
  | Some (OInts [x; y]) => Some (x, y)
  | _ => None
  end.

Definition read_snapshot (h : heap) (a : addr) : option GameState.t :=
  match h !! a with
  | Some (OGameState x y en fe sc fl) =>
      match read_refs h fl with
      | Some l =>
          match read_all (read_cell h) l with
          | Some cs => Some (GameState.mk x y en fe sc cs)
          | None => None
          end
      | None => None
      end
  | _ => None
  end.

(** *** class GridSpace, class Player *)

Module HGridSpace.

Definition init (x y : Z) : HM addr := alloc (OGridSpace (GridSpace.init x y)).

Definition setPlayer (a : addr) : HM unit :=
  o <-- load a ;;
  match o with
  | OGridSpace s => store a (OGridSpace (GridSpace.setPlayer s))
  | _ => stuck
  end.

Definition setFood (a : addr) : HM unit :=
  o <-- load a ;;
  match o with
  | OGridSpace s => store a (OGridSpace (GridSpace.setFood s))
  | _ => stuck
  end.

End HGridSpace.

Module HPlayer.

Definition init (x y : Z) : HM addr :=
  tile <-- HGridSpace.init x y ;;
  _ <-- HGridSpace.setPlayer tile ;;
  sm <-- alloc (OArray (np_zeros 3 3)) ;;
  alloc (OPlayer tile 0 MAX_ENERGY MAX_ENERGY true sm 0).

End HPlayer.

(** *** class GameState *)

Module HGameState.

(** The body of the loop of [__init__]: a food tile gives a new two-element
    list, appended to [foods_loc]. *)
Definition record_food (foods_loc : addr) (tile : addr) : HM unit :=
  o <-- load tile ;;
  match o with
  | OGridSpace ts =>
      if GridSpace.is_food ts then
        c <-- alloc (OInts [GridSpace.x ts; GridSpace.y ts]) ;;
        fl <-- load foods_loc ;;
        match fl with
        | ORefs l => store foods_loc (ORefs (l ++ [c]))
        | _ => stuck
        end
      else hret tt
  | _ => stuck
  end.

(** [__init__]: numbers are copied, and the food cells go to a new list. *)
Definition init (game_grid : addr) : HM addr :=
  g <-- load game_grid ;;
  match g with
  | OGameGrid _ _ _ _ occupied_spaces player =>
      p <-- load player ;;
      match p with
      | OPlayer tile fe _ en _ _ sc =>
          t <-- load tile ;;
          match t with
          | OGridSpace s =>
              foods_loc <-- alloc (ORefs []) ;;
              _ <-- for_each occupied_spaces (record_food foods_loc) ;;
              alloc (OGameState (GridSpace.x s) (GridSpace.y s) en fe sc foods_loc)
          | _ => stuck
          end
      | _ => stuck
      end
  | _ => stuck
  end.

Definition restorePlayer (self : addr) : HM addr :=
  s <-- load self ;;
  match s with
  | OGameState x y en fe sc _ =>
      player <-- HPlayer.init x y ;;
      p <-- load player ;;
      match p with
      | OPlayer tile _ me _ al sm _ =>
          _ <-- store player (OPlayer tile fe me en al sm sc) ;;
          hret player
      | _ => stuck
      end
  | _ => stuck
  end.

End HGameState.

(** *** class GameGrid *)

Module HGameGrid.

Definition reset (self : addr) : HM unit :=
  g <-- load self ;;
  match g with
  | OGameGrid w h _ _ _ _ =>
      sg <-- alloc (OArray (np_zeros w h)) ;;
      og <-- alloc (OArray (np_zeros w h)) ;;
      os <-- alloc (ORefs []) ;;
      p <-- HPlayer.init 0 0 ;;
      store self (OGameGrid w h sg og os p)
  | _ => stuck
  end.

(** The grid as the pure functions see it. *)
Definition view (self : addr) : HM GameGrid.t :=
  fun w =>
    match read_grid w.1 self with
    | Some g => Done g w
    | None => Stuck
    end.

(** [genTile] reads the grid and creates a [GridSpace]. *)
Definition genTile (x y : Z) (self : addr) : HM (option addr) :=
  g <-- view self ;;
  t <-- draw (GameGrid.genTile x y g) ;;
  match t with
  | Some s => a <-- alloc (OGridSpace s) ;; hret (Some a)
  | None => hret None
  end.

Definition addTile (tile : addr) (self : addr) : HM unit :=
  g <-- load self ;;
  match g with
  | OGameGrid _ _ _ og os _ =>
      l <-- load os ;;
      match l with
      | ORefs tiles =>
          _ <-- store os (ORefs (tiles ++ [tile])) ;;
          t <-- load tile ;;
          match t with
          | OGridSpace s =>
              a <-- load og ;;
              match a with
              | OArray marks =>
                  marks' <-- hlift (np_set2 marks (GridSpace.x s) (GridSpace.y s) 1) ;;
                  store og (OArray marks')
              | _ => stuck
              end
          | _ => stuck
          end
      | _ => stuck
      end
  | _ => stuck
  end.

(** [calcSmellMatrix] reads the tiles and fills an array it has created. *)
Definition calcSmellMatrix (SCENT_STACKING : bool) (self : addr) : HM unit :=
  g <-- view self ;;
  g' <-- hlift (GameGrid.calcSmellMatrix SCENT_STACKING g) ;;
  sg <-- alloc (OArray (GameGrid.smell_grid g')) ;;
  o <-- load self ;;
  match o with
  | OGameGrid w h _ og os p => store self (OGameGrid w h sg og os p)
  | _ => stuck
  end.

Definition addFood (SCENT_STACKING : bool) (x y : Z) (self : addr) : HM unit :=
  temp_tile <-- genTile x y self ;;
  _ <-- match temp_tile with
        | Some t => _ <-- HGridSpace.setFood t ;; addTile t self
        | None => hret tt
        end ;;
  calcSmellMatrix SCENT_STACKING self.

End HGameGrid.

(** *** class GameManager *)

Module HGameManager.

Definition game_grid (self : addr) : HM addr :=
  m <-- load self ;;
  match m with
  | OGameManager g _ _ _ _ => hret g
  | _ => stuck
  end.

Definition game_states (self : addr) : HM addr :=
  m <-- load self ;;
  match m with
  | OGameManager _ _ _ gs _ => hret gs
  | _ => stuck
  end.

Definition set_game_states (gs : addr) (self : addr) : HM unit :=
  m <-- load self ;;
  match m with
  | OGameManager g r p _ rs => store self (OGameManager g r p gs rs)
  | _ => stuck
  end.

Definition len_game_states (self : addr) : HM Z :=
  gs <-- game_states self ;;
  l <-- load gs ;;
  match l with
  | ORefs states => hret (Z.of_nat (length states))
  | _ => stuck
  end.

Definition saveGameState (self : addr) : HM unit :=
  n <-- len_game_states self ;;
  _ <-- (if MAX_SAVED_GAME_STATES <=? n then
           gs <-- game_states self ;;
           l <-- load gs ;;
           match l with
           | ORefs states =>
               gs' <-- alloc (ORefs (py_suffix states 1)) ;;
               set_game_states gs' self
           | _ => stuck
           end
         else hret tt) ;;
  gs <-- game_states self ;;
  g <-- game_grid self ;;
  s <-- HGameState.init g ;;
  l <-- load gs ;;
  match l with
  | ORefs states => store gs (ORefs (states ++ [s]))
  | _ => stuck
  end.

(** The body of the loop of [restoreGameState]. *)
Definition restore_food (SCENT_STACKING : bool) (self : addr) (food : addr) : HM unit :=
  c <-- load food ;;
  match c with
  | OInts l =>
      x <-- hlift (py_item l 0) ;;
      y <-- hlift (py_item l 1) ;;
      g <-- game_grid self ;;
      HGameGrid.addFood SCENT_STACKING x y g
  | _ => stuck
  end.

Definition restoreGameState (SCENT_STACKING : bool) (game_state : addr) (self : addr)
  : HM unit :=
  g <-- game_grid self ;;
  _ <-- HGameGrid.reset g ;;
  g <-- game_grid self ;;
  p <-- HGameState.restorePlayer game_state ;;
  o <-- load g ;;
  match o with
  | OGameGrid w h sg og os _ =>
      _ <-- store g (OGameGrid w h sg og os p) ;;
      s <-- load game_state ;;
      match s with
      | OGameState _ _ _ _ _ foods_loc =>
          for_each foods_loc (restore_food SCENT_STACKING self)
      | _ => stuck
      end
  | _ => stuck
  end.

Definition rewindGameState (SCENT_STACKING : bool) (num_to_rewind : Z) (self : addr)
  : HM unit :=
  n <-- len_game_states self ;;
  if n <=? 1 then hret tt
  else
    n <-- len_game_states self ;;
    let num_to_rewind := if n <=? num_to_rewind then n - 1 else num_to_rewind in
    gs <-- game_states self ;;
    l <-- load gs ;;
    match l with
    | ORefs states =>
        gs' <-- alloc (ORefs (py_prefix states (- num_to_rewind))) ;;
        _ <-- set_game_states gs' self ;;
        gs <-- game_states self ;;
        l <-- load gs ;;
        match l with
        | ORefs states =>
            i <-- hlift (np_index (length states) (-1)) ;;
            match states !! i with
            | Some s => restoreGameState SCENT_STACKING s self
            | None => hlift (Raise IndexError)
            end
        | _ => stuck
        end
    | _ => stuck
    end.

End HGameManager.

(** *** What an object reaches *)

(** The objects of the live grid: the grid, its arrays, its tile list and
    tiles, its player with tile and window. *)
Definition fp_grid (h : heap) (a : addr) : list addr :=
  match h !! a with
  | Some (OGameGrid _ _ sg og os p) =>
      a :: sg :: og :: os :: p ::
      ((match h !! os with Some (ORefs l) => l | _ => [] end)
       ++ (match h !! p with Some (OPlayer t _ _ _ _ sm _) => [t; sm] | _ => [] end))
  | _ => [a]
  end.

(** The objects of a snapshot: the [GameState], its list and the lists in it. *)
Definition fp_snapshot (h : heap) (a : addr) : list addr :=
  match h !! a with
  | Some (OGameState _ _ _ _ _ fl) =>
      a :: fl :: (match h !! fl with Some (ORefs l) => l | _ => [] end)
  | _ => [a]
  end.

Definition grid_of (h : heap) (am : addr) : option addr :=
  match h !! am with
  | Some (OGameManager g _ _ _ _) => Some g
  | _ => None
  end.

Definition history_of (h : heap) (am : addr) : option (list addr) :=
  match h !! am with
  | Some (OGameManager _ _ _ gs _) => read_refs h gs
  | _ => None
  end.

Definition fp_live (h : heap) (am : addr) : list addr :=
  match grid_of h am with
  | Some g => fp_grid h g
  | None => []
  end.

(** The values a snapshot taken now would hold. *)
Definition capture (h : heap) (am : addr) : option GameState.t :=
  match grid_of h am with
  | Some g =>
      match read_grid h g with
      | Some v => Some (GameState.init v)
      | None => None
      end
  | None => None
  end.

Definition live_ok (h : heap) (am : addr) : Prop :=
  exists g v, grid_of h am = Some g /\ read_grid h g = Some v /\
    GameGrid.width v = GAME_GRID_WIDTH /\ GameGrid.height v = GAME_GRID_HEIGHT.

(** The live grid laid out in the store: the objects of [fp_grid], holding
    the value [v]. *)
Record grid_at (h : heap) (ag sg og os p t sm : addr) (l : list addr) (v : GameGrid.t)
  : Prop := {
  ga_grid : h !! ag = Some (OGameGrid (GameGrid.width v) (GameGrid.height v) sg og os p);
  ga_smell : h !! sg = Some (OArray (GameGrid.smell_grid v));
  ga_marks : h !! og = Some (OArray (GameGrid.occupied_grid v));
  ga_list : h !! os = Some (ORefs l);
  ga_tiles : Forall2 (fun b s => h !! b = Some (OGridSpace s)) l (GameGrid.occupied_spaces v);
  ga_player : h !! p = Some (OPlayer t (Player.food_eaten (GameGrid.player v))
                               (Player.max_energy (GameGrid.player v))
                               (Player.energy (GameGrid.player v))
                               (Player.alive (GameGrid.player v)) sm
                               (Player.score (GameGrid.player v)));
  ga_tile : h !! t = Some (OGridSpace (Player.tile (GameGrid.player v)));
  ga_window : h !! sm = Some (OArray (Player.smell_matrix (GameGrid.player v)))
}.

(** Any run of code that works on the live grid only: it may change the
    objects of the live grid and create objects, the live grid afterwards is
    made of objects it had and objects created since, and every other object
    is left as it was. *)
Record live_step (am : addr) (h h' : heap) : Prop := {
  ls_grow : (length h <= length h')%nat;
  ls_frame : forall a, (a < length h)%nat -> a ∉ fp_live h am -> h' !! a = h !! a;
  ls_fp : forall a, a ∈ fp_live h' am -> a ∈ fp_live h am \/ (length h <= a)%nat;
  ls_ok : live_ok h' am
}.

(** A manager with an empty history, none of its own objects being part of
    the live grid. *)
Definition history_empty (h : heap) (am : addr) : Prop :=
  exists g r p gs rs,
    h !! am = Some (OGameManager g r p gs rs) /\ h !! gs = Some (ORefs []) /\
    (am ∉ fp_grid h g) /\ (gs ∉ fp_grid h g).

(** [pushes am h0 caps h]: from [h0], snapshots were pushed by
    [saveGameState], the live grid being worked on before each push; [caps]
    are the values captured, in order. *)
Inductive pushes (am : addr) (h0 : heap) : list GameState.t -> heap -> Prop :=
| pushes_nil : pushes am h0 [] h0
| pushes_snoc (caps : list GameState.t) (h h1 h2 : heap) (s : GameState.t) (tp : tape) :
    pushes am h0 caps h ->
    live_step am h h1 ->
    capture h1 am = Some s ->
    HGameManager.saveGameState am (h1, tp) = Done tt (h2, tp) ->
    pushes am h0 (caps ++ [s]) h2.

(** Test data: a store that holds a game with one food tile, on [(3, 2)], and
    an empty history; the manager is the object 10. *)
Definition small_store : heap :=
  [ OArray (np_zeros 10 10);
    OArray (set_cell (np_zeros 10 10) 3 2 1);
    ORefs [5%nat];
    OGridSpace (GridSpace.setPlayer (GridSpace.init 0 0));
    OArray (np_zeros 3 3);
    OGridSpace (GridSpace.setFood (GridSpace.init 3 2));
    OPlayer 3%nat 0 MAX_ENERGY MAX_ENERGY true 4%nat 0;
    OGameGrid 10 10 0%nat 1%nat 2%nat 6%nat;
    ORefs [];
    OInts [];
    OGameManager 7%nat 0 false 8%nat 9%nat ].

(** Test data: [small_store] after a first push; then with the energy of
    the live player set to 99 in place; then after a second push. *)
Definition pushed_once : heap :=
  match HGameManager.saveGameState 10%nat (small_store, []) with
  | Done _ (h, _) => h
  | _ => []
  end.

Definition moved_store : heap :=
  <[6%nat := OPlayer 3%nat 0 MAX_ENERGY 99 true 4%nat 0]> pushed_once.

Definition pushed_twice : heap :=
  match HGameManager.saveGameState 10%nat (moved_store, []) with
  | Done _ (h, _) => h
  | _ => []
  end.

(** The objects [GameState(game_grid)] creates in a store of [n] objects for
    the food cells [cs]: the list [foods_loc], then one list per cell. *)
Definition snapshot_objs (n : nat) (cs : list (Z * Z)) : list obj :=
  ORefs (seq (S n) (length cs)) :: map (fun c => OInts [c.1; c.2]) cs.

(** The food cells of a list of tiles, as [GameState] records them. *)
Definition food_cells (ts : list GridSpace.t) : list (Z * Z) :=
  map GridSpace.pos (filter (fun tile => GridSpace.is_food tile = true) ts).

(** What holds of the history between two pushes: the snapshots read as the
    captured values, and their objects are objects of the store that are
    neither the manager, nor its list, nor part of the live grid. *)
Definition hist_inv (am : addr) (h : heap) (caps : list GameState.t) : Prop :=
  exists g r p gs rs snaps,
    h !! am = Some (OGameManager g r p gs rs) /\
    h !! gs = Some (ORefs snaps) /\
    Forall2 (fun a s => read_snapshot h a = Some s) snaps caps /\
    (am ∉ fp_grid h g) /\ (gs ∉ fp_grid h g) /\
    forall a b, a ∈ snaps -> b ∈ fp_snapshot h a ->
      (b ∉ fp_grid h g) /\ b <> am /\ b <> gs /\ (b < length h)%nat.

(** * Theorems *)

(** ** The error monads *)

Lemma bind_Ok {A B : Type} (r : result A) (k : A -> result B) (b : B) :
  bind r k = Ok b -> exists a, r = Ok a /\ k a = Ok b.
Proof. destruct r as [a|e]; simpl; [eauto | discriminate]. Qed.

Lemma bindM_Ok {A B : Type} (m : M A) (k : A -> M B) (tp tp' : tape) (b : B) :
  bindM m k tp = Ok (b, tp') ->
  exists a tp1, m tp = Ok (a, tp1) /\ k a tp1 = Ok (b, tp').
Proof.
  unfold bindM. destruct (m tp) as [[a tp1]|e]; [eauto | discriminate].
Qed.

Lemma lift_Ok {A : Type} (r : result A) (tp tp' : tape) (a : A) :
  lift r tp = Ok (a, tp') -> r = Ok a /\ tp' = tp.
Proof. destruct r; simpl; intros H; inversion H; auto. Qed.

Lemma ret_Ok {A : Type} (a b : A) (tp tp' : tape) :
  ret a tp = Ok (b, tp') -> b = a /\ tp' = tp.
Proof. unfold ret. intros H; inversion H; auto. Qed.

(** ** Player.eatFood *)

(** The three updates of [eatFood] and its clamp, as one record update. *)
Lemma eatFood_unfold (p : Player.t) :
  Player.eatFood p
  = Player.set_energy (Z.min (Player.energy p + ENERGY_PER_FOOD) (Player.max_energy p))
      (Player.set_score (Player.score p + Player.energy p)
         (Player.set_food_eaten (Player.food_eaten p + 1) p)).
Proof.
  destruct p as [tl fe me en al sm sc].
  unfold Player.eatFood; cbn.
  destruct (Z.ltb_spec me (en + ENERGY_PER_FOOD)); cbn.
  - rewrite Z.min_r by lia. reflexivity.
  - rewrite Z.min_l by lia. reflexivity.
Qed.

(** C6. [eatFood] adds one to [food_eaten], adds the energy held before the
    call to [score], then adds [ENERGY_PER_FOOD] to [energy] and clamps it to
    [max_energy]; the tile (position), [max_energy], [alive] and the sensed
    window are unchanged.  This holds for every player, living ones included. *)
Theorem eatFood_spec (p : Player.t) :
  Player.food_eaten (Player.eatFood p) = Player.food_eaten p + 1 /\
  Player.score (Player.eatFood p) = Player.score p + Player.energy p /\
  Player.energy (Player.eatFood p)
    = Z.min (Player.energy p + ENERGY_PER_FOOD) (Player.max_energy p) /\
  Player.tile (Player.eatFood p) = Player.tile p /\
  Player.max_energy (Player.eatFood p) = Player.max_energy p /\
  Player.alive (Player.eatFood p) = Player.alive p /\
  Player.smell_matrix (Player.eatFood p) = Player.smell_matrix p.
Proof.
  rewrite eatFood_unfold. destruct p as [tl fe me en al sm sc]. cbn.
  repeat split.
Qed.

(** ** GameManager.rewindGameState *)

Lemma py_prefix_zero {A : Type} (l : list A) : py_prefix l (- 0) = [].
Proof.
  unfold py_prefix, py_bound. change (- 0) with 0.
  destruct (Z.ltb_spec 0 0); [lia|].
  rewrite Z.min_l by lia. reflexivity.
Qed.

(** With at most one snapshot a rewind request changes nothing, whatever [n]. *)
Lemma rewind_short_history (st : bool) (n : Z) (m : GameManager.t) (tp : tape) :
  (length (GameManager.game_states m) <= 1)%nat ->
  GameManager.rewindGameState st n m tp = Ok (m, tp).
Proof.
  intros Hlen. unfold GameManager.rewindGameState.
  destruct (Z.leb_spec (Z.of_nat (length (GameManager.game_states m))) 1);
    [reflexivity | lia].
Qed.

(** C2. [rewindGameState(0)] on a history of two or more snapshots does not
    leave the state unchanged: [game_states[:-0]] is the empty list, and the
    following [game_states[-1]] raises [IndexError]. *)
Theorem rewind_zero_faults (st : bool) (m : GameManager.t) (tp : tape) :
  (2 <= length (GameManager.game_states m))%nat ->
  GameManager.rewindGameState st 0 m tp = Raise IndexError.
Proof.
  intros Hlen. unfold GameManager.rewindGameState.
  destruct (Z.leb_spec (Z.of_nat (length (GameManager.game_states m))) 1); [lia|].
  destruct (Z.leb_spec (Z.of_nat (length (GameManager.game_states m))) 0); [lia|].
  cbn [GameManager.set_game_states GameManager.game_states].
  rewrite py_prefix_zero. reflexivity.
Qed.

Lemma rewind_zero_faults_witness :
  exists m, two_tick_manager = Some m /\
    (2 <= length (GameManager.game_states m))%nat /\
    GameManager.rewindGameState true 0 m [] = Raise IndexError.
Proof.
  destruct two_tick_manager as [m|] eqn:E; [|vm_compute in E; discriminate].
  exists m. split; [reflexivity|].
  assert (Hlen : (2 <= length (GameManager.game_states m))%nat).
  { vm_compute in E. injection E as <-. simpl. lia. }
  split; [exact Hlen|]. exact (rewind_zero_faults true m [] Hlen).
Defined.

(** ** smart_mouse *)

Lemma np_index_in_range (n : nat) (i : Z) :
  0 <= i < Z.of_nat n -> np_index n i = Ok (Z.to_nat i).
Proof.
  intros H. unfold np_index.
  destruct (Z.leb_spec 0 i); [|lia].
  destruct (Z.ltb_spec i (Z.of_nat n)); [reflexivity | lia].
Qed.

Lemma shape_lookup (n m : nat) (a : list (list Z)) (i : nat) :
  shape n m a -> (i < n)%nat -> exists row, a !! i = Some row /\ length row = m.
Proof.
  intros [Hlen Hrows] Hi.
  destruct (lookup_lt_is_Some_2 a i) as [row Hrow]; [lia|].
  exists row. split; [exact Hrow|].
  rewrite Forall_lookup in Hrows. exact (Hrows i row Hrow).
Qed.

(** On a well-shaped array an in-range read cannot fault and is [cell]. *)
Lemma np_get2_in_range (n m : nat) (a : list (list Z)) (i j : Z) :
  shape n m a -> 0 <= i < Z.of_nat n -> 0 <= j < Z.of_nat m ->
  np_get2 a i j = Ok (cell a i j).
Proof.
  intros Hs Hi Hj. pose proof Hs as [Hlen _].
  destruct (shape_lookup n m a (Z.to_nat i) Hs) as (row & Hrow & Hrl); [lia|].
  unfold np_get2, cell. rewrite Hlen, (np_index_in_range n i Hi). cbn [bind].
  rewrite Hrow, Hrl, (np_index_in_range m j Hj). cbn [bind].
  destruct (lookup_lt_is_Some_2 row (Z.to_nat j)) as [v Hv]; [lia|].
  rewrite Hv. reflexivity.
Qed.

Lemma choice_singleton {A : Type} (a : A) (r : Z) (tp : tape) :
  choice [a] (r :: tp) = Ok (a, tp).
Proof.
  unfold choice. cbn [length]. rewrite Z.mod_1_r. reflexivity.
Qed.

(** C1 (amended). An all-zero window sends [smart_mouse] to [simple_mouse],
    whatever lies next to the player.  When the 3x3 window is not all zeros
    and the tile directly north is the only orthogonally adjacent tile holding
    food, [smart_mouse] returns North for every draw of the random source. *)
Theorem smart_mouse_adjacent_north (w : list (list Z)) (g : GameGrid.t) :
  let x := GridSpace.x (Player.tile (GameGrid.player g)) in
  let y := GridSpace.y (Player.tile (GameGrid.player g)) in
  (np_any w = false -> forall tp, smart_mouse w g tp = simple_mouse tp) /\
  (np_any w = true -> shape 3 3 w ->
   GameGrid.checkForFood (x - 1) y g = Ok false ->
   GameGrid.checkForFood (x + 1) y g = Ok false ->
   GameGrid.checkForFood x (y - 1) g = Ok true ->
   GameGrid.checkForFood x (y + 1) g = Ok false ->
   forall r tp, smart_mouse w g (r :: tp) = Ok (NORTH, tp)).
Proof.
  intros x y. split.
  - intros Hz tp. unfold smart_mouse. rewrite Hz. reflexivity.
  - intros Hnz Hs Hw He Hn Hso r tp. unfold smart_mouse. rewrite Hnz.
    cbn [negb USE_DIAGONAL_SCENT].
    unfold bindM at 1.
    rewrite (np_get2_in_range 3 3 w 0 1 Hs) by lia. cbn [lift].
    unfold bindM at 1.
    rewrite (np_get2_in_range 3 3 w 2 1 Hs) by lia. cbn [lift].
    unfold bindM at 1.
    rewrite (np_get2_in_range 3 3 w 1 0 Hs) by lia. cbn [lift].
    unfold bindM at 1.
    rewrite (np_get2_in_range 3 3 w 1 2 Hs) by lia. cbn [lift].
    unfold bindM, GameGrid.isPlayerNext2Food.
    fold x. fold y. rewrite Hw, He, Hn, Hso. cbn [bind app lift].
    apply choice_singleton.
Qed.

Lemma smart_mouse_adjacent_north_witness :
  np_any [[0; 0; 0]; [0; 5; 0]; [0; 0; 0]] = true /\
  smart_mouse [[0; 0; 0]; [0; 5; 0]; [0; 0; 0]] food_north_grid [3; 7] = Ok (NORTH, [7]).
Proof.
  split; [reflexivity|].
  apply (proj2 (smart_mouse_adjacent_north [[0; 0; 0]; [0; 5; 0]; [0; 0; 0]]
                  food_north_grid)).
  - reflexivity.
  - split; [reflexivity | repeat constructor].
  - reflexivity.
  - reflexivity.
  - reflexivity.
  - reflexivity.
Defined.

(** C1 (as stated) fails: food lies directly north of the player at [(0, 1)],
    the window is all zeros, and the draw [1] makes [smart_mouse] return South. *)
Lemma smart_mouse_zero_window_counterexample :
  GameGrid.checkForFood 0 0 food_north_grid = Ok true /\
  GridSpace.pos (Player.tile (GameGrid.player food_north_grid)) = (0, 1) /\
  np_any (np_zeros 3 3) = false /\
  smart_mouse (np_zeros 3 3) food_north_grid [1] = Ok (SOUTH, []).
Proof. repeat split. Qed.

(** ** GameGrid.randEmptySpace *)

(** C5. On [crowded_grid] (98 tiles, two free cells) the counting scan is used,
    [randint(0, 2)] has three equally likely outcomes, and two of them select
    the free cell [(9, 8)]: the result is not uniform over the free cells. *)
Theorem randEmptySpace_scan_not_uniform :
  length (GameGrid.occupied_spaces crowded_grid) = 98%nat /\
  empty_cells crowded_grid = [(9, 8); (9, 9)] /\
  GameGrid.randEmptySpace crowded_grid [0] = Ok ((9, 8), []) /\
  GameGrid.randEmptySpace crowded_grid [1] = Ok ((9, 9), []) /\
  GameGrid.randEmptySpace crowded_grid [2] = Ok ((9, 8), []).
Proof. repeat split; vm_compute; reflexivity. Qed.

(** ** Arrays *)

Lemma shape_np_zeros (n m : Z) : shape (Z.to_nat n) (Z.to_nat m) (np_zeros n m).
Proof.
  split.
  - unfold np_zeros. apply length_replicate.
  - unfold np_zeros. apply Forall_replicate, length_replicate.
Qed.

Lemma cell_np_zeros (n m i j : Z) : cell (np_zeros n m) i j = 0.
Proof.
  unfold cell, np_zeros.
  destruct (replicate (Z.to_nat n) (replicate (Z.to_nat m) 0) !! Z.to_nat i)
    as [row|] eqn:E; [|reflexivity].
  apply lookup_replicate_1 in E as [-> _].
  destruct (replicate (Z.to_nat m) 0 !! Z.to_nat j) as [v|] eqn:E2; [|reflexivity].
  apply lookup_replicate_1 in E2 as [-> _]. reflexivity.
Qed.

Lemma shape_set_cell (n m : nat) (a : list (list Z)) (i j v : Z) :
  shape n m a -> shape n m (set_cell a i j v).
Proof.
  intros [Hlen Hrows]. unfold set_cell.
  destruct (a !! Z.to_nat i) as [row|] eqn:E; [|split; assumption].
  split.
  - rewrite length_insert. exact Hlen.
  - apply Forall_insert; [exact Hrows|].
    rewrite length_insert. rewrite Forall_lookup in Hrows. exact (Hrows _ _ E).
Qed.

(** Reading a cell after a write, for non-negative indices. *)
Lemma cell_set_cell (n m : nat) (a : list (list Z)) (i j v i' j' : Z) :
  shape n m a -> 0 <= i < Z.of_nat n -> 0 <= j < Z.of_nat m -> 0 <= i' -> 0 <= j' ->
  cell (set_cell a i j v) i' j' = if bool_decide (i' = i /\ j' = j) then v else cell a i' j'.
Proof.
  intros Hs Hi Hj Hi' Hj'. pose proof Hs as [Hlen _].
  destruct (shape_lookup n m a (Z.to_nat i) Hs) as (row & Hrow & Hrl); [lia|].
  unfold set_cell, cell. rewrite Hrow.
  destruct (decide (i' = i)) as [->|Hne].
  - rewrite list_lookup_insert_eq by lia.
    destruct (decide (j' = j)) as [->|Hnej].
    + rewrite list_lookup_insert_eq by lia.
      rewrite bool_decide_eq_true_2 by auto. reflexivity.
    + rewrite list_lookup_insert_ne by lia.
      rewrite bool_decide_eq_false_2 by tauto. rewrite Hrow. reflexivity.
  - rewrite list_lookup_insert_ne by lia.
    rewrite bool_decide_eq_false_2 by tauto. reflexivity.
Qed.

Lemma np_set2_in_range (n m : nat) (a : list (list Z)) (i j v : Z) :
  shape n m a -> 0 <= i < Z.of_nat n -> 0 <= j < Z.of_nat m ->
  np_set2 a i j v = Ok (set_cell a i j v).
Proof.
  intros Hs Hi Hj. pose proof Hs as [Hlen _].
  destruct (shape_lookup n m a (Z.to_nat i) Hs) as (row & Hrow & Hrl); [lia|].
  unfold np_set2, set_cell. rewrite Hlen, (np_index_in_range n i Hi). cbn [bind].
  rewrite Hrow, Hrl, (np_index_in_range m j Hj). reflexivity.
Qed.

(** ** The scent field *)

Section SmellLoops.

Variables (st : bool) (tile : GridSpace.t) (n m : nat).

Lemma smell_step_shape (i j : Z) (sg : list (list Z)) :
  shape n m sg -> shape n m (GameGrid.smell_step st tile i j sg).
Proof.
  intros Hs. unfold GameGrid.smell_step.
  repeat match goal with |- context [if ?c then _ else _] => destruct c end;
    auto using shape_set_cell.
Qed.

Lemma smell_step_cell (i j a b : Z) (sg : list (list Z)) :
  shape n m sg -> 0 <= j < Z.of_nat n -> 0 <= i < Z.of_nat m -> 0 <= a -> 0 <= b ->
  cell (GameGrid.smell_step st tile i j sg) a b
  = if bool_decide (a = j /\ b = i) then smell_value st tile i j (cell sg a b)
    else cell sg a b.
Proof.
  intros Hs Hj Hi Ha Hb. unfold GameGrid.smell_step, smell_value.
  destruct (negb st).
  - destruct (Z.ltb_spec (cell sg j i) (scent_between (i, j) (GridSpace.x tile, GridSpace.y tile))).
    + rewrite (cell_set_cell n m) by assumption.
      case_bool_decide as Hab; [|reflexivity].
      destruct Hab as [-> ->].
      destruct (Z.ltb_spec (cell sg j i)
                  (scent_between (i, j) (GridSpace.x tile, GridSpace.y tile))); [reflexivity|lia].
    + case_bool_decide as Hab; [|reflexivity].
      destruct Hab as [-> ->].
      destruct (Z.ltb_spec (cell sg j i)
                  (scent_between (i, j) (GridSpace.x tile, GridSpace.y tile))); [lia|reflexivity].
  - destruct ((j =? GridSpace.x tile) && (i =? GridSpace.y tile)).
    + rewrite (cell_set_cell n m) by assumption. reflexivity.
    + rewrite (cell_set_cell n m) by assumption.
      case_bool_decide as Hab; [|reflexivity].
      destruct Hab as [-> ->]. reflexivity.
Qed.

(** The inner loop over [j] for a fixed [i]. *)
Lemma smell_inner_shape (i : Z) (js : list Z) (sg : list (list Z)) :
  shape n m sg ->
  shape n m (fold_left (fun sg j => GameGrid.smell_step st tile i j sg) js sg).
Proof.
  revert sg. induction js as [|j js IH]; intros sg Hs; cbn [fold_left]; [exact Hs|].
  apply IH, smell_step_shape, Hs.
Qed.

Lemma smell_inner_cell (i a b : Z) (js : list Z) (sg : list (list Z)) :
  shape n m sg -> NoDup js -> Forall (fun j => 0 <= j < Z.of_nat n) js ->
  0 <= i < Z.of_nat m -> 0 <= a -> 0 <= b ->
  cell (fold_left (fun sg j => GameGrid.smell_step st tile i j sg) js sg) a b
  = if bool_decide (a ∈ js /\ b = i) then smell_value st tile i a (cell sg a b)
    else cell sg a b.
Proof.
  intros Hs Hnd Hjs Hi Ha Hb. revert sg Hs.
  induction js as [|j js IH]; intros sg Hs; cbn [fold_left].
  - rewrite bool_decide_eq_false_2; [reflexivity|].
    intros [Hin _]. inversion Hin.
  - apply NoDup_cons in Hnd as [Hnotin Hnd].
    apply Forall_cons in Hjs as [Hj Hjs].
    rewrite (IH Hnd Hjs) by (apply smell_step_shape, Hs).
    rewrite (smell_step_cell i j a b sg Hs Hj Hi Ha Hb).
    destruct (decide (a = j /\ b = i)) as [[-> ->]|Hne].
    + rewrite (bool_decide_eq_true_2 (j = j /\ i = i)) by auto.
      rewrite (bool_decide_eq_false_2 (j ∈ js /\ i = i)) by tauto.
      rewrite bool_decide_eq_true_2; [reflexivity|].
      split; [apply elem_of_cons; auto | reflexivity].
    + rewrite (bool_decide_eq_false_2 (a = j /\ b = i)) by assumption.
      apply (f_equal (fun c : bool => if c then _ else _)).
      apply bool_decide_ext. rewrite elem_of_cons. intuition congruence.
Qed.

(** Both loops: every cell of the array is visited exactly once. *)
Lemma smell_loops_shape (rows js : list Z) (sg : list (list Z)) :
  shape n m sg ->
  shape n m (fold_left
               (fun sg i => fold_left (fun sg j => GameGrid.smell_step st tile i j sg) js sg)
               rows sg).
Proof.
  revert sg. induction rows as [|i rows IH]; intros sg Hs; cbn [fold_left]; [exact Hs|].
  apply IH, smell_inner_shape, Hs.
Qed.

Lemma smell_loops_cell (a b : Z) (rows js : list Z) (sg : list (list Z)) :
  shape n m sg -> NoDup rows -> NoDup js ->
  Forall (fun i => 0 <= i < Z.of_nat m) rows ->
  Forall (fun j => 0 <= j < Z.of_nat n) js ->
  0 <= a -> 0 <= b ->
  cell (fold_left
          (fun sg i => fold_left (fun sg j => GameGrid.smell_step st tile i j sg) js sg)
          rows sg) a b
  = if bool_decide (a ∈ js /\ b ∈ rows) then smell_value st tile b a (cell sg a b)
    else cell sg a b.
Proof.
  intros Hs Hndi Hndj His Hjs Ha Hb. revert sg Hs.
  induction rows as [|i rows IH]; intros sg Hs; cbn [fold_left].
  - rewrite bool_decide_eq_false_2; [reflexivity|].
    intros [_ Hin]. inversion Hin.
  - apply NoDup_cons in Hndi as [Hnotin Hndi].
    apply Forall_cons in His as [Hi His].
    rewrite (IH Hndi His) by (apply smell_inner_shape, Hs).
    rewrite (smell_inner_cell i a b js sg Hs Hndj Hjs Hi Ha Hb).
    destruct (decide (a ∈ js /\ b = i)) as [[Hin ->]|Hne].
    + rewrite (bool_decide_eq_true_2 (a ∈ js /\ i = i)) by auto.
      rewrite (bool_decide_eq_false_2 (a ∈ js /\ i ∈ rows)) by tauto.
      rewrite bool_decide_eq_true_2; [reflexivity|].
      split; [exact Hin | apply elem_of_cons; auto].
    + rewrite (bool_decide_eq_false_2 (a ∈ js /\ b = i)) by assumption.
      apply (f_equal (fun c : bool => if c then _ else _)).
      apply bool_decide_ext. rewrite elem_of_cons. intuition congruence.
Qed.

End SmellLoops.

Lemma fold_result_app {A S : Type} (f : S -> A -> result S) (l1 l2 : list A) (s : S) :
  fold_result f (l1 ++ l2) s = bind (fold_result f l1 s) (fold_result f l2).
Proof.
  revert s. induction l1 as [|a l1 IH]; intros s; cbn [fold_result app bind].
  - reflexivity.
  - destruct (f s a) as [s'|e]; cbn [bind]; [apply IH | reflexivity].
Qed.

Section SmellSources.

Variables (n m : nat) (w h : Z).
Hypothesis (Hw : w = Z.of_nat n) (Hh : h = Z.of_nat m).

(** One source: the write of line 315 cannot fault for a tile inside the
    array, and the loops then rewrite each cell once. *)
Lemma smell_source_ok (st : bool) (sg : list (list Z)) (tile : GridSpace.t) :
  shape n m sg -> tile_in w h tile ->
  exists sg', GameGrid.smell_source st w h sg tile = Ok sg' /\ shape n m sg' /\
    forall a b, 0 <= a < w -> 0 <= b < h ->
      cell sg' a b
      = smell_value st tile b a
          (cell (set_cell sg (GridSpace.x tile) (GridSpace.y tile) SCENT_ONE) a b).
Proof.
  intros Hs [Hx Hy]. unfold GameGrid.smell_source.
  rewrite (np_set2_in_range n m) by (try assumption; lia). cbn [bind].
  eexists. split; [reflexivity|]. split.
  - apply smell_loops_shape, shape_set_cell, Hs.
  - intros a b Ha Hb.
    rewrite (smell_loops_cell st tile n m a b); try lia.
    + rewrite bool_decide_eq_true_2; [reflexivity|].
      split; apply elem_of_seqZ; lia.
    + apply shape_set_cell, Hs.
    + apply NoDup_seqZ.
    + apply NoDup_seqZ.
    + apply Forall_seqZ. intros; lia.
    + apply Forall_seqZ. intros; lia.
Qed.

(** In stacking mode the source's own cell is assigned, every other cell
    accumulates. *)
Lemma smell_source_stacking (sg : list (list Z)) (tile : GridSpace.t) :
  shape n m sg -> tile_in w h tile ->
  exists sg', GameGrid.smell_source true w h sg tile = Ok sg' /\ shape n m sg' /\
    forall a b, 0 <= a < w -> 0 <= b < h ->
      cell sg' a b
      = if bool_decide ((a, b) = GridSpace.pos tile)
        then scent_between (b, a) (GridSpace.pos tile)
        else cell sg a b + scent_between (b, a) (GridSpace.pos tile).
Proof.
  intros Hs Ht.
  destruct (smell_source_ok true sg tile Hs Ht) as (sg' & Hok & Hs' & Hcell).
  exists sg'. split; [exact Hok|]. split; [exact Hs'|].
  intros a b Ha Hb. rewrite (Hcell a b Ha Hb).
  destruct Ht as [Hx Hy].
  unfold smell_value, GridSpace.pos. cbn [negb].
  rewrite (cell_set_cell n m) by (try assumption; lia).
  destruct (Z.eqb_spec a (GridSpace.x tile)) as [->|Hne];
    [destruct (Z.eqb_spec b (GridSpace.y tile)) as [->|Hne]|]; cbn [andb].
  - rewrite bool_decide_eq_true_2 by reflexivity. reflexivity.
  - rewrite !bool_decide_eq_false_2 by (intuition congruence). reflexivity.
  - rewrite !bool_decide_eq_false_2 by (intuition congruence). reflexivity.
Qed.

(** The fold over the sources never faults when every tile is inside. *)
Lemma smell_fold_ok (st : bool) (l : list GridSpace.t) (sg : list (list Z)) :
  shape n m sg -> Forall (tile_in w h) l ->
  exists sg', fold_result (GameGrid.smell_source st w h) l sg = Ok sg' /\ shape n m sg'.
Proof.
  revert sg. induction l as [|tile l IH]; intros sg Hs Hl; cbn [fold_result].
  - exists sg. auto.
  - apply Forall_cons in Hl as [Ht Hl].
    destruct (smell_source_ok st sg tile Hs Ht) as (sg1 & -> & Hs1 & _). cbn [bind].
    apply IH; assumption.
Qed.

(** A cell that is no source's own cell accumulates every contribution. *)
Lemma smell_fold_other (l : list GridSpace.t) (sg : list (list Z)) (a b : Z) :
  shape n m sg -> Forall (tile_in w h) l -> 0 <= a < w -> 0 <= b < h ->
  (a, b) ∉ map GridSpace.pos l ->
  exists sg', fold_result (GameGrid.smell_source true w h) l sg = Ok sg' /\
    shape n m sg' /\ cell sg' a b = cell sg a b + scent_sum (b, a) l.
Proof.
  revert sg. induction l as [|tile l IH]; intros sg Hs Hl Ha Hb Hnotin;
    cbn [fold_result scent_sum fold_right].
  - exists sg. repeat split; [apply Hs | apply Hs | lia].
  - apply Forall_cons in Hl as [Ht Hl].
    cbn [map] in Hnotin. apply not_elem_of_cons in Hnotin as [Hne Hnotin].
    destruct (smell_source_stacking sg tile Hs Ht) as (sg1 & -> & Hs1 & Hc1). cbn [bind].
    destruct (IH sg1 Hs1 Hl Ha Hb Hnotin) as (sg' & Hok & Hs' & Hc').
    exists sg'. split; [exact Hok|]. split; [exact Hs'|].
    rewrite Hc', (Hc1 a b Ha Hb).
    rewrite bool_decide_eq_false_2 by exact Hne.
    fold (scent_sum (b, a) l). lia.
Qed.

(** The cell of a source: its own term, plus the terms of the sources that
    are processed after it. *)
Lemma smell_fold_own (pre post : list GridSpace.t) (tile : GridSpace.t)
  (sg : list (list Z)) :
  shape n m sg -> Forall (tile_in w h) (pre ++ tile :: post) ->
  GridSpace.pos tile ∉ map GridSpace.pos post ->
  exists sg', fold_result (GameGrid.smell_source true w h) (pre ++ tile :: post) sg = Ok sg' /\
    shape n m sg' /\
    cell sg' (GridSpace.x tile) (GridSpace.y tile)
    = scent_between (GridSpace.y tile, GridSpace.x tile) (GridSpace.pos tile)
      + scent_sum (GridSpace.y tile, GridSpace.x tile) post.
Proof.
  intros Hs Hall Hnotin.
  apply Forall_app in Hall as [Hpre Hrest].
  apply Forall_cons in Hrest as [Ht Hpost].
  rewrite fold_result_app.
  destruct (smell_fold_ok true pre sg Hs Hpre) as (sg1 & -> & Hs1). cbn [bind fold_result].
  destruct (smell_source_stacking sg1 tile Hs1 Ht) as (sg2 & -> & Hs2 & Hc2). cbn [bind].
  pose proof Ht as [Hx Hy].
  destruct (smell_fold_other post sg2 (GridSpace.x tile) (GridSpace.y tile)
              Hs2 Hpost Hx Hy Hnotin) as (sg' & Hok & Hs' & Hc').
  exists sg'. split; [exact Hok|]. split; [exact Hs'|].
  rewrite Hc', (Hc2 _ _ Hx Hy).
  rewrite bool_decide_eq_true_2 by reflexivity. reflexivity.
Qed.

End SmellSources.

Lemma round5_inv_dist_zero : round5_inv_dist 0 = SCENT_ONE.
Proof. reflexivity. Qed.

Lemma in_bounds_tile_in (g : GameGrid.t) :
  GameGrid.width g = GAME_GRID_WIDTH -> GameGrid.height g = GAME_GRID_HEIGHT ->
  Forall in_bounds (positions g) ->
  Forall (tile_in (GameGrid.width g) (GameGrid.height g)) (GameGrid.occupied_spaces g).
Proof.
  intros -> -> H. unfold positions in H. rewrite Forall_map in H.
  eapply Forall_impl; [exact H|]. intros tile Hb. exact Hb.
Qed.

(** Under the grid's dimensions the scent computation returns. *)
Lemma calcSmellMatrix_ok (st : bool) (g : GameGrid.t) :
  GameGrid.width g = GAME_GRID_WIDTH -> GameGrid.height g = GAME_GRID_HEIGHT ->
  Forall in_bounds (positions g) ->
  exists sg, GameGrid.calcSmellMatrix st g = Ok (GameGrid.set_smell_grid sg g).
Proof.
  intros Hw Hh Hb. unfold GameGrid.calcSmellMatrix.
  pose proof (in_bounds_tile_in g Hw Hh Hb) as Hin.
  rewrite Hw, Hh in *.
  destruct (smell_fold_ok 10 10 GAME_GRID_WIDTH GAME_GRID_HEIGHT eq_refl eq_refl st
              (GameGrid.occupied_spaces g)
              (np_zeros GAME_GRID_WIDTH GAME_GRID_HEIGHT)) as (sg & Hok & _).
  - exact (shape_np_zeros 10 10).
  - exact Hin.
  - exists sg. rewrite Hok. reflexivity.
Qed.

(** C3 (amended). In stacking mode, on a grid whose tiles lie at pairwise
    distinct in-range positions, the field at the cell of a source on the
    diagonal ([x = y]) is exactly 1 plus the contributions of the sources
    processed after it: it is 1 for the source processed last, whatever was
    processed before it, and every later source adds its own term. *)
Theorem stacking_self_term (g : GameGrid.t) (pre post : list GridSpace.t)
  (tile : GridSpace.t) :
  GameGrid.width g = GAME_GRID_WIDTH -> GameGrid.height g = GAME_GRID_HEIGHT ->
  GameGrid.occupied_spaces g = pre ++ tile :: post ->
  Forall in_bounds (positions g) -> NoDup (positions g) ->
  GridSpace.x tile = GridSpace.y tile ->
  exists g', GameGrid.calcSmellMatrix true g = Ok g' /\
    cell (GameGrid.smell_grid g') (GridSpace.x tile) (GridSpace.y tile)
    = SCENT_ONE + scent_sum (GridSpace.pos tile) post.
Proof.
  intros Hw Hh Hl Hb Hnd Hdiag.
  pose proof (in_bounds_tile_in g Hw Hh Hb) as Hin.
  unfold GameGrid.calcSmellMatrix. rewrite Hw, Hh, Hl in *.
  assert (Hnotin : GridSpace.pos tile ∉ map GridSpace.pos post).
  { unfold positions in Hnd. rewrite Hl, map_app in Hnd. cbn [map] in Hnd.
    apply NoDup_app in Hnd as (_ & _ & Hnd). apply NoDup_cons in Hnd. tauto. }
  destruct (smell_fold_own 10 10 GAME_GRID_WIDTH GAME_GRID_HEIGHT eq_refl eq_refl
              pre post tile (np_zeros GAME_GRID_WIDTH GAME_GRID_HEIGHT)
              (shape_np_zeros 10 10) Hin Hnotin) as (sg & Hok & _ & Hc).
  rewrite Hok. cbn [bind].
  eexists. split; [reflexivity|]. cbn [GameGrid.smell_grid GameGrid.set_smell_grid].
  rewrite Hc. unfold GridSpace.pos. rewrite <- Hdiag.
  unfold scent_between. cbn [fst snd].
  replace ((GridSpace.x tile - GridSpace.x tile) * (GridSpace.x tile - GridSpace.x tile)
           + (GridSpace.x tile - GridSpace.x tile) * (GridSpace.x tile - GridSpace.x tile))
    with 0 by lia.
  rewrite round5_inv_dist_zero. reflexivity.
Qed.

Lemma stacking_self_term_witness :
  exists g', GameGrid.calcSmellMatrix true two_food_grid = Ok g' /\
    cell (GameGrid.smell_grid g') 0 0
    = SCENT_ONE + scent_sum (0, 0) [GridSpace.setFood (GridSpace.init 1 1)].
Proof.
  apply (stacking_self_term two_food_grid []
           [GridSpace.setFood (GridSpace.init 1 1)]
           (GridSpace.setFood (GridSpace.init 0 0))).
  - vm_compute; reflexivity.
  - vm_compute; reflexivity.
  - vm_compute; reflexivity.
  - assert (E : positions two_food_grid = [(0, 0); (1, 1)]) by (vm_compute; reflexivity).
    rewrite E. repeat constructor; cbn; lia.
  - apply (bool_decide_unpack _). vm_compute. exact I.
  - reflexivity.
Defined.

(** C3 (as stated) fails: with food placed at [(0, 0)] and then at [(1, 1)],
    the field at [(0, 0)] is 1.41421, not 1; placed in the other order it is 1
    at [(0, 0)] and 1.41421 at [(1, 1)]. *)
Lemma stacking_food_cell_counterexample :
  positions two_food_grid = [(0, 0); (1, 1)] /\
  cell (GameGrid.smell_grid two_food_grid) 0 0 = 141421 /\
  cell (GameGrid.smell_grid two_food_grid) 0 0 <> SCENT_ONE /\
  positions two_food_grid_rev = [(1, 1); (0, 0)] /\
  cell (GameGrid.smell_grid two_food_grid_rev) 0 0 = SCENT_ONE /\
  cell (GameGrid.smell_grid two_food_grid_rev) 1 1 = 141421.
Proof.
  split; [vm_compute; reflexivity|].
  split; [vm_compute; reflexivity|].
  split; [vm_compute; congruence|].
  split; [vm_compute; reflexivity|].
  split; vm_compute; reflexivity.
Qed.

(** ** Occupancy: the array and the tile list *)

Lemma marks_zeros : marks_agree (np_zeros GAME_GRID_WIDTH GAME_GRID_HEIGHT) [].
Proof.
  intros x y _ _. rewrite cell_np_zeros.
  rewrite bool_decide_eq_false_2; [reflexivity|]. intros H; inversion H.
Qed.

Lemma marks_add (og : list (list Z)) (ps : list (Z * Z)) (c : Z * Z) :
  shape 10 10 og -> marks_agree og ps -> in_bounds c ->
  marks_agree (set_cell og c.1 c.2 1) (ps ++ [c]).
Proof.
  intros Hs Hm [Hc1 Hc2] x y Hx Hy.
  unfold GAME_GRID_HEIGHT, GAME_GRID_WIDTH in *.
  rewrite (cell_set_cell 10 10) by (try assumption; lia).
  destruct (decide ((x, y) = c)) as [<-|Hne].
  - rewrite bool_decide_eq_true_2 by auto.
    rewrite bool_decide_eq_true_2; [reflexivity|].
    apply elem_of_app. right. apply list_elem_of_singleton. reflexivity.
  - rewrite bool_decide_eq_false_2.
    + rewrite (Hm x y) by (unfold GAME_GRID_HEIGHT, GAME_GRID_WIDTH; lia).
      apply (f_equal (fun b : bool => if b then _ else _)).
      apply bool_decide_ext. rewrite elem_of_app, list_elem_of_singleton. tauto.
    + intros [E1 E2]. apply Hne. destruct c; cbn in *; congruence.
Qed.

Lemma marks_remove (og : list (list Z)) (ps : list (Z * Z)) (x0 y0 : Z) :
  shape 10 10 og -> marks_agree og ps -> in_bounds (x0, y0) ->
  marks_agree (set_cell og x0 y0 0) (filter (fun p => p <> (x0, y0)) ps).
Proof.
  intros Hs Hm [Hc1 Hc2] x y Hx Hy. cbn [fst snd] in *.
  unfold GAME_GRID_HEIGHT, GAME_GRID_WIDTH in *.
  rewrite (cell_set_cell 10 10) by (try assumption; lia).
  destruct (decide ((x, y) = (x0, y0))) as [E|Hne].
  - injection E as -> ->.
    rewrite bool_decide_eq_true_2 by auto.
    rewrite bool_decide_eq_false_2; [reflexivity|].
    rewrite list_elem_of_filter. tauto.
  - rewrite bool_decide_eq_false_2 by (intros [-> ->]; auto).
    rewrite (Hm x y) by (unfold GAME_GRID_HEIGHT, GAME_GRID_WIDTH; lia).
    apply (f_equal (fun b : bool => if b then _ else _)).
    apply bool_decide_ext. rewrite list_elem_of_filter. tauto.
Qed.

(** A cell the array marks free holds no tile. *)
Lemma free_cell_not_in (g : GameGrid.t) (c : Z * Z) :
  grid_wf g -> in_bounds c -> cell (GameGrid.occupied_grid g) c.1 c.2 = 0 ->
  c ∉ positions g.
Proof.
  intros Hwf [Hc1 Hc2] Hz Hin.
  pose proof (wf_marks g Hwf c.1 c.2 Hc1 Hc2) as Hm.
  rewrite bool_decide_eq_true_2 in Hm by (destruct c; exact Hin).
  congruence.
Qed.

Lemma held_cell_marked (g : GameGrid.t) (c : Z * Z) :
  grid_wf g -> in_bounds c -> c ∈ positions g ->
  cell (GameGrid.occupied_grid g) c.1 c.2 = 1.
Proof.
  intros Hwf [Hc1 Hc2] Hin.
  rewrite (wf_marks g Hwf c.1 c.2 Hc1 Hc2).
  rewrite bool_decide_eq_true_2 by (destruct c; exact Hin). reflexivity.
Qed.

Lemma grid_wf_set_smell_grid (sg : list (list Z)) (g : GameGrid.t) :
  grid_wf g -> grid_wf (GameGrid.set_smell_grid sg g).
Proof. intros [H1 H2 H3 H4 H5]. split; assumption. Qed.

Lemma grid_wf_set_player (p : Player.t) (g : GameGrid.t) :
  grid_wf g -> grid_wf (GameGrid.set_player p g).
Proof. intros [H1 H2 H3 H4 H5]. split; assumption. Qed.

Lemma grid_wf_reset (g : GameGrid.t) : grid_wf g -> grid_wf (GameGrid.reset g).
Proof.
  intros [H1 H2 H3 H4 H5]. split; cbn.
  - exact H1.
  - exact H2.
  - rewrite H1, H2. exact (shape_np_zeros 10 10).
  - constructor.
  - rewrite H1, H2. exact marks_zeros.
Qed.

Lemma grid_wf_init : grid_wf (GameGrid.init GAME_GRID_HEIGHT GAME_GRID_WIDTH).
Proof.
  split; cbn.
  - reflexivity.
  - reflexivity.
  - exact (shape_np_zeros 10 10).
  - constructor.
  - exact marks_zeros.
Qed.

Lemma addTile_in_bounds (tile : GridSpace.t) (g : GameGrid.t) :
  grid_wf g -> in_bounds (GridSpace.pos tile) ->
  GameGrid.addTile tile g = Ok (with_tile tile g) /\ grid_wf (with_tile tile g).
Proof.
  intros Hwf Hb. pose proof Hb as [Hx Hy]. cbn [GridSpace.pos fst snd] in Hx, Hy.
  unfold GAME_GRID_HEIGHT, GAME_GRID_WIDTH in Hx, Hy.
  split.
  - unfold GameGrid.addTile. cbn [GameGrid.occupied_grid GameGrid.set_occupied_spaces].
    rewrite (np_set2_in_range 10 10) by (try apply Hwf; lia). reflexivity.
  - destruct Hwf as [H1 H2 H3 H4 H5]. split; cbn.
    + exact H1.
    + exact H2.
    + apply shape_set_cell, H3.
    + unfold positions in *. cbn. rewrite map_app. apply Forall_app. split; [exact H4|].
      repeat constructor; apply Hb.
    + unfold positions in *. cbn. rewrite map_app.
      exact (marks_add _ _ (GridSpace.pos tile) H3 H5 Hb).
Qed.

(** A successful write at non-negative indices was in range. *)
Lemma np_set2_Ok_inv (n m : nat) (a a' : list (list Z)) (i j v : Z) :
  shape n m a -> 0 <= i -> 0 <= j -> np_set2 a i j v = Ok a' ->
  i < Z.of_nat n /\ j < Z.of_nat m.
Proof.
  intros Hs Hi Hj H. pose proof Hs as [Hlen _]. unfold np_set2 in H.
  apply bind_Ok in H as (r & Hr & H).
  assert (Hin : i < Z.of_nat n).
  { unfold np_index in Hr. rewrite Hlen in Hr.
    destruct (Z.leb_spec 0 i); [|lia].
    destruct (Z.ltb_spec i (Z.of_nat n)); [assumption|]. cbn in Hr.
    destruct (Z.ltb_spec i 0); [lia|]. rewrite andb_false_r in Hr. discriminate. }
  split; [exact Hin|].
  rewrite Hlen, np_index_in_range in Hr by lia. injection Hr as <-.
  destruct (shape_lookup n m a (Z.to_nat i) Hs) as (row & Hrow & Hrl); [lia|].
  rewrite Hrow in H. apply bind_Ok in H as (c & Hc & _).
  unfold np_index in Hc. rewrite Hrl in Hc.
  destruct (Z.leb_spec 0 j); [|lia].
  destruct (Z.ltb_spec j (Z.of_nat m)); [assumption|]. cbn in Hc.
  destruct (Z.ltb_spec j 0); [lia|]. rewrite andb_false_r in Hc. discriminate.
Qed.

(** ** Drawing an empty cell *)

(** The loop of [randEmptySpace] is the iteration of [randGridSpace]. *)
Lemma rejection_loop_unfold (og : list (list Z)) (tp : tape) :
  GameGrid.rejection_loop og tp
  = match GameGrid.randGridSpace tp with
    | Ok (xy, tp') =>
        bind (np_get2 og xy.1 xy.2)
          (fun v => if v =? 0 then Ok (xy, tp') else GameGrid.rejection_loop og tp')
    | Raise e => Raise e
    end.
Proof.
  destruct tp as [|rx [|ry tp']]; reflexivity.
Qed.

Lemma rejection_loop_spec (og : list (list Z)) (n : nat) :
  shape 10 10 og ->
  forall (tp tp' : tape) (c : Z * Z), (length tp <= n)%nat ->
    GameGrid.rejection_loop og tp = Ok (c, tp') ->
    in_bounds c /\ cell og c.1 c.2 = 0.
Proof.
  intros Hs. induction n as [|n IH]; intros tp tp' c Hlen H.
  - destruct tp; [discriminate | cbn in Hlen; lia].
  - destruct tp as [|rx [|ry tp1]]; try discriminate.
    cbn [GameGrid.rejection_loop] in H.
    change (0 + rx mod (GAME_GRID_WIDTH - 1 - 0 + 1)) with (rx mod 10) in H.
    change (0 + ry mod (GAME_GRID_HEIGHT - 1 - 0 + 1)) with (ry mod 10) in H.
    pose proof (Z.mod_pos_bound rx 10 ltac:(lia)) as Hx.
    pose proof (Z.mod_pos_bound ry 10 ltac:(lia)) as Hy.
    rewrite (np_get2_in_range 10 10) in H by (try assumption; lia).
    cbn [bind] in H.
    destruct (Z.eqb_spec (cell og (rx mod 10) (ry mod 10)) 0) as [Hz|Hnz].
    + injection H as <- <-. split; [|exact Hz].
      split; cbn [fst snd]; unfold GAME_GRID_HEIGHT, GAME_GRID_WIDTH; lia.
    + apply (IH tp1 tp' c); [cbn in Hlen; lia | exact H].
Qed.

(** A free cell is accepted as soon as it is drawn. *)
Lemma rejection_loop_hit (og : list (list Z)) (rx ry : Z) (tp : tape) :
  shape 10 10 og -> cell og (rx mod 10) (ry mod 10) = 0 ->
  GameGrid.rejection_loop og (rx :: ry :: tp) = Ok ((rx mod 10, ry mod 10), tp).
Proof.
  intros Hs Hz. cbn [GameGrid.rejection_loop].
  change (0 + rx mod (GAME_GRID_WIDTH - 1 - 0 + 1)) with (rx mod 10).
  change (0 + ry mod (GAME_GRID_HEIGHT - 1 - 0 + 1)) with (ry mod 10).
  pose proof (Z.mod_pos_bound rx 10 ltac:(lia)).
  pose proof (Z.mod_pos_bound ry 10 ltac:(lia)).
  rewrite (np_get2_in_range 10 10) by (try assumption; lia).
  cbn [bind]. rewrite Hz. reflexivity.
Qed.

Lemma scan_order_bounds (w h : Z) (c : Z * Z) :
  In c (GameGrid.scan_order w h) -> (0 <= c.1 < h) /\ (0 <= c.2 < w).
Proof.
  unfold GameGrid.scan_order. rewrite in_flat_map.
  intros (i & Hi & Hc). apply in_map_iff in Hc as (j & <- & Hj).
  apply list_elem_of_In, elem_of_seqZ in Hi.
  apply list_elem_of_In, elem_of_seqZ in Hj.
  cbn [fst snd]. lia.
Qed.

(** A counting pass only ever returns a cell it visited and found free. *)
Lemma scan_pass_inl (og : list (list Z)) (choice : Z) (cells : list (Z * Z)) :
  shape 10 10 og ->
  Forall (fun c => 0 <= c.1 < 10 /\ 0 <= c.2 < 10) cells ->
  forall (count : Z) (c : Z * Z),
    GameGrid.scan_pass og choice cells count = Ok (inl c) ->
    In c cells /\ cell og c.1 c.2 = 0.
Proof.
  intros Hs Hcells. induction Hcells as [|[i j] cells [Hi Hj] Hrest IH];
    intros count c H; cbn [GameGrid.scan_pass] in H.
  - discriminate.
  - cbn [fst snd] in Hi, Hj.
    rewrite (np_get2_in_range 10 10) in H by (try assumption; lia). cbn [bind] in H.
    destruct (Z.eqb_spec (cell og i j) 0) as [Hz|Hnz].
    + destruct (choice <=? count).
      * injection H as <-. split; [left; reflexivity | exact Hz].
      * destruct (IH _ _ H) as [Hin Hc]. split; [right; exact Hin | exact Hc].
    + destruct (IH _ _ H) as [Hin Hc]. split; [right; exact Hin | exact Hc].
Qed.

Lemma scan_empty_spec (g : GameGrid.t) (choice : Z) (c : Z * Z) :
  grid_wf g -> GameGrid.scan_empty g choice = Ok c ->
  in_bounds c /\ cell (GameGrid.occupied_grid g) c.1 c.2 = 0.
Proof.
  intros Hwf H. unfold GameGrid.scan_empty in H.
  rewrite (wf_width g Hwf), (wf_height g Hwf) in H.
  assert (Hcells : Forall (fun c => 0 <= c.1 < 10 /\ 0 <= c.2 < 10)
                     (GameGrid.scan_order GAME_GRID_WIDTH GAME_GRID_HEIGHT)).
  { apply List.Forall_forall. intros c' Hc'. apply scan_order_bounds in Hc'. exact Hc'. }
  assert (Hfound : forall count r,
             GameGrid.scan_pass (GameGrid.occupied_grid g) choice
               (GameGrid.scan_order GAME_GRID_WIDTH GAME_GRID_HEIGHT) count = Ok (inl r) ->
             in_bounds r /\ cell (GameGrid.occupied_grid g) r.1 r.2 = 0).
  { intros count r Hr.
    destruct (scan_pass_inl _ _ _ (wf_shape g Hwf) Hcells _ _ Hr) as [Hin Hz].
    split; [|exact Hz]. apply scan_order_bounds in Hin. exact Hin. }
  apply bind_Ok in H as ([r1|count1] & Hr1 & H).
  - injection H as <-. exact (Hfound _ _ Hr1).
  - apply bind_Ok in H as ([r2|count2] & Hr2 & H); [|discriminate].
    injection H as <-. exact (Hfound _ _ Hr2).
Qed.

(** Whichever strategy runs, the cell returned is inside the grid and free. *)
Lemma randEmptySpace_spec (g : GameGrid.t) (tp tp' : tape) (c : Z * Z) :
  grid_wf g -> GameGrid.randEmptySpace g tp = Ok (c, tp') ->
  in_bounds c /\ c ∉ positions g.
Proof.
  intros Hwf H.
  assert (Hfree : in_bounds c /\ cell (GameGrid.occupied_grid g) c.1 c.2 = 0).
  { unfold GameGrid.randEmptySpace in H.
    destruct (2 * Z.of_nat (length (GameGrid.occupied_spaces g)) <? NUM_SPACES).
    - exact (rejection_loop_spec _ (length tp) (wf_shape g Hwf) tp tp' c (le_n _) H).
    - apply bindM_Ok in H as (choice & tp1 & _ & H).
      apply lift_Ok in H as [H _]. exact (scan_empty_spec g choice c Hwf H). }
  destruct Hfree as [Hb Hz]. split; [exact Hb|].
  exact (free_cell_not_in g c Hwf Hb Hz).
Qed.

(** ** Placing a tile *)

Lemma calcSmellMatrix_frame (st : bool) (g g' : GameGrid.t) :
  GameGrid.calcSmellMatrix st g = Ok g' -> exists sg, g' = GameGrid.set_smell_grid sg g.
Proof.
  unfold GameGrid.calcSmellMatrix. intros H.
  apply bind_Ok in H as (sg & _ & H). injection H as <-. exists sg. reflexivity.
Qed.

Lemma calcSmellMatrix_wf (st : bool) (g : GameGrid.t) :
  grid_wf g -> exists sg, GameGrid.calcSmellMatrix st g = Ok (GameGrid.set_smell_grid sg g).
Proof.
  intros Hwf.
  exact (calcSmellMatrix_ok st g (wf_width g Hwf) (wf_height g Hwf) (wf_bounds g Hwf)).
Qed.

Lemma positions_with_tile (tile : GridSpace.t) (g : GameGrid.t) :
  positions (with_tile tile g) = positions g ++ [GridSpace.pos tile].
Proof. unfold positions, with_tile. cbn. apply map_app. Qed.

(** What a returned [addFood] did: nothing on a full grid; otherwise one food
    tile more, at a free drawn cell when a coordinate is negative or exceeds
    the grid size, at the requested cell when not. *)
Lemma addFood_inv (st : bool) (x y : Z) (g g' : GameGrid.t) (tp tp' : tape) :
  grid_wf g -> GameGrid.addFood st x y g tp = Ok (g', tp') ->
  exists sg,
    (NUM_SPACES <= Z.of_nat (length (GameGrid.occupied_spaces g)) /\
     g' = GameGrid.set_smell_grid sg g)
    \/ (exists c,
          g' = GameGrid.set_smell_grid sg
                 (with_tile (GridSpace.setFood (GridSpace.init c.1 c.2)) g) /\
          in_bounds c /\
          Z.of_nat (length (GameGrid.occupied_spaces g)) < NUM_SPACES /\
          ((x < 0 \/ GAME_GRID_WIDTH < x \/ y < 0 \/ GAME_GRID_HEIGHT < y) /\
           c ∉ positions g
           \/ c = (x, y) /\ tp' = tp)).
Proof.
  intros Hwf H. unfold GameGrid.addFood in H.
  apply bindM_Ok in H as (temp_tile & tp1 & Hgen & H).
  apply bindM_Ok in H as (g1 & tp2 & Hadd & H).
  apply lift_Ok in H as [Hcalc ->].
  apply calcSmellMatrix_frame in Hcalc as [sg ->]. exists sg.
  unfold GameGrid.genTile in Hgen.
  destruct (Z.leb_spec NUM_SPACES (Z.of_nat (length (GameGrid.occupied_spaces g))))
    as [Hfull|Hroom].
  - apply ret_Ok in Hgen as [-> ->]. apply ret_Ok in Hadd as [-> ->].
    left. auto.
  - right.
    destruct ((x <? 0) || (GAME_GRID_WIDTH <? x) || (y <? 0) || (GAME_GRID_HEIGHT <? y))
      eqn:Hoob.
    + apply bindM_Ok in Hgen as (c & tp3 & Hrand & Hgen).
      apply ret_Ok in Hgen as [-> ->].
      destruct (randEmptySpace_spec g _ _ c Hwf Hrand) as [Hb Hfree].
      apply lift_Ok in Hadd as [Hadd ->].
      destruct (addTile_in_bounds (GridSpace.setFood (GridSpace.init c.1 c.2)) g Hwf)
        as [Hok _]; [destruct c; exact Hb|].
      rewrite Hok in Hadd. injection Hadd as <-.
      exists c. repeat split; try assumption; try apply Hb. left. split; [|exact Hfree].
      rewrite !orb_true_iff in Hoob. rewrite !Z.ltb_lt in Hoob. tauto.
    + apply ret_Ok in Hgen as [-> ->].
      apply lift_Ok in Hadd as [Hadd ->].
      rewrite !orb_false_iff in Hoob. rewrite !Z.ltb_ge in Hoob.
      destruct Hoob as [[[Hx0 Hx1] Hy0] Hy1].
      assert (Hb : in_bounds (x, y)).
      { unfold GameGrid.addTile in Hadd. apply bind_Ok in Hadd as (og & Hset & _).
        cbn in Hset.
        destruct (np_set2_Ok_inv 10 10 _ _ _ _ _ (wf_shape g Hwf) Hx0 Hy0 Hset).
        split; cbn [fst snd]; unfold GAME_GRID_HEIGHT, GAME_GRID_WIDTH; lia. }
      destruct (addTile_in_bounds (GridSpace.setFood (GridSpace.init x y)) g Hwf Hb)
        as [Hok _].
      rewrite Hok in Hadd. injection Hadd as <-.
      exists (x, y). repeat split; try assumption; try apply Hb. right. auto.
Qed.

(** Placement at a requested cell of the grid returns, with that tile. *)
Lemma addFood_given (st : bool) (x y : Z) (g : GameGrid.t) (tp : tape) :
  grid_wf g -> in_bounds (x, y) ->
  Z.of_nat (length (GameGrid.occupied_spaces g)) < NUM_SPACES ->
  exists sg,
    GameGrid.addFood st x y g tp
    = Ok (GameGrid.set_smell_grid sg
            (with_tile (GridSpace.setFood (GridSpace.init x y)) g), tp).
Proof.
  intros Hwf Hb Hroom. pose proof Hb as [Hx Hy]. cbn [fst snd] in Hx, Hy.
  destruct (addTile_in_bounds (GridSpace.setFood (GridSpace.init x y)) g Hwf Hb)
    as [Hok Hwf1].
  destruct (calcSmellMatrix_wf st _ Hwf1) as [sg Hsg]. exists sg.
  unfold GameGrid.addFood, GameGrid.genTile, bindM, lift, ret.
  destruct (Z.leb_spec NUM_SPACES (Z.of_nat (length (GameGrid.occupied_spaces g))));
    [lia|].
  destruct (Z.ltb_spec x 0); [lia|].
  destruct (Z.ltb_spec GAME_GRID_WIDTH x); [lia|].
  destruct (Z.ltb_spec y 0); [lia|].
  destruct (Z.ltb_spec GAME_GRID_HEIGHT y); [lia|].
  cbn [orb]. rewrite Hok. cbn [orb]. rewrite Hsg. reflexivity.
Qed.

(** Placement without coordinates on a grid under half full: the first drawn
    cell that is free receives the tile. *)
Lemma addFood_draw (st : bool) (g : GameGrid.t) (rx ry : Z) (tp : tape) :
  grid_wf g ->
  2 * Z.of_nat (length (GameGrid.occupied_spaces g)) < NUM_SPACES ->
  (rx mod 10, ry mod 10) ∉ positions g ->
  exists sg,
    GameGrid.addFood st (-1) (-1) g (rx :: ry :: tp)
    = Ok (GameGrid.set_smell_grid sg
            (with_tile (GridSpace.setFood (GridSpace.init (rx mod 10) (ry mod 10))) g),
          tp).
Proof.
  intros Hwf Hhalf Hfree.
  pose proof (Z.mod_pos_bound rx 10 ltac:(lia)) as Hx.
  pose proof (Z.mod_pos_bound ry 10 ltac:(lia)) as Hy.
  assert (Hb : in_bounds (rx mod 10, ry mod 10)) by (split; exact Hx || exact Hy).
  assert (Hz : cell (GameGrid.occupied_grid g) (rx mod 10) (ry mod 10) = 0).
  { rewrite (wf_marks g Hwf) by (exact Hx || exact Hy).
    rewrite bool_decide_eq_false_2 by exact Hfree. reflexivity. }
  destruct (addTile_in_bounds
              (GridSpace.setFood (GridSpace.init (rx mod 10) (ry mod 10))) g Hwf Hb)
    as [Hok Hwf1].
  destruct (calcSmellMatrix_wf st _ Hwf1) as [sg Hsg]. exists sg.
  unfold GameGrid.addFood, GameGrid.genTile, GameGrid.randEmptySpace, bindM, lift, ret.
  destruct (Z.leb_spec NUM_SPACES (Z.of_nat (length (GameGrid.occupied_spaces g))));
    [unfold NUM_SPACES in *; cbn in *; lia|].
  cbn [Z.ltb orb Z.compare].
  destruct (Z.ltb_spec (2 * Z.of_nat (length (GameGrid.occupied_spaces g))) NUM_SPACES);
    [|lia].
  rewrite (rejection_loop_hit _ rx ry tp (wf_shape g Hwf) Hz).
  cbn [fst snd]. rewrite Hok. cbn [orb]. rewrite Hsg. reflexivity.
Qed.

(** ** Removing a tile *)

Lemma remove_loop_no_match (x y : Z) (l : list GridSpace.t) (ty : option kind) :
  Forall (fun tile => GridSpace.pos tile <> (x, y)) l ->
  GameGrid.remove_loop x y l ty = (l, ty).
Proof.
  induction 1 as [|tile l Hne Hl IH]; cbn [GameGrid.remove_loop]; [reflexivity|].
  destruct (Z.eqb_spec (GridSpace.x tile) x) as [Hx|Hx];
    [destruct (Z.eqb_spec (GridSpace.y tile) y) as [Hy|Hy]|]; cbn [andb].
  - exfalso. apply Hne. unfold GridSpace.pos. congruence.
  - rewrite IH. reflexivity.
  - rewrite IH. reflexivity.
Qed.

Lemma filter_no_match (x y : Z) (l : list GridSpace.t) :
  Forall (fun tile => GridSpace.pos tile <> (x, y)) l ->
  filter (fun tile => GridSpace.pos tile <> (x, y)) l = l.
Proof.
  induction 1 as [|tile l Hne Hl IH]; [reflexivity|].
  rewrite filter_cons_True by exact Hne. rewrite IH. reflexivity.
Qed.

Lemma not_in_positions (c : Z * Z) (l : list GridSpace.t) :
  c ∉ map GridSpace.pos l -> Forall (fun tile => GridSpace.pos tile <> c) l.
Proof.
  intros Hnotin. apply List.Forall_forall. intros tile Hin E.
  apply Hnotin. apply list_elem_of_In. apply in_map_iff. exists tile. auto.
Qed.

(** With distinct positions the loop removes the one tile at [(x, y)], and the
    element it skips is never another match. *)
Lemma remove_loop_nodup (x y : Z) (l : list GridSpace.t) (ty : option kind) :
  NoDup (map GridSpace.pos l) -> (x, y) ∈ map GridSpace.pos l ->
  exists tile, In tile l /\ GridSpace.pos tile = (x, y) /\
    GameGrid.remove_loop x y l ty
    = (filter (fun tile => GridSpace.pos tile <> (x, y)) l, GridSpace.type tile).
Proof.
  induction l as [|tile l IH]; intros Hnd Hin; cbn [map] in *.
  - inversion Hin.
  - apply NoDup_cons in Hnd as [Hnotin Hnd].
    cbn [GameGrid.remove_loop].
    destruct (decide (GridSpace.pos tile = (x, y))) as [E|Hne].
    + pose proof E as E'. unfold GridSpace.pos in E'. injection E' as Hx Hy.
      rewrite Hx, Hy, !Z.eqb_refl. cbn [andb].
      rewrite E in Hnotin. apply not_in_positions in Hnotin.
      exists tile. split; [left; reflexivity|]. split; [exact E|].
      rewrite filter_cons_False by tauto.
      rewrite (filter_no_match x y l Hnotin).
      destruct l as [|skipped rest]; [reflexivity|].
      apply Forall_cons in Hnotin as [_ Hrest].
      rewrite (remove_loop_no_match x y rest _ Hrest). reflexivity.
    + assert (Hb : (GridSpace.x tile =? x) && (GridSpace.y tile =? y) = false).
      { apply andb_false_iff.
        destruct (Z.eqb_spec (GridSpace.x tile) x) as [Hx|Hx]; [|auto].
        destruct (Z.eqb_spec (GridSpace.y tile) y) as [Hy|Hy]; [|auto].
        exfalso. apply Hne. unfold GridSpace.pos. congruence. }
      rewrite Hb.
      apply elem_of_cons in Hin as [Hin|Hin]; [congruence|].
      destruct (IH Hnd Hin) as (t & Ht & Hpos & Hloop).
      exists t. split; [right; exact Ht|]. split; [exact Hpos|].
      rewrite Hloop. cbn [fst snd]. rewrite filter_cons_True by exact Hne. reflexivity.
Qed.

Lemma positions_filter (c : Z * Z) (l : list GridSpace.t) :
  map GridSpace.pos (filter (fun tile => GridSpace.pos tile <> c) l)
  = filter (fun p => p <> c) (map GridSpace.pos l).
Proof.
  induction l as [|tile l IH]; [reflexivity|]. cbn [map].
  destruct (decide (GridSpace.pos tile = c)) as [E|Hne].
  - rewrite !filter_cons_False by tauto. exact IH.
  - rewrite !filter_cons_True by exact Hne. cbn [map]. rewrite IH. reflexivity.
Qed.

Lemma checkValidTile_spec (x y : Z) :
  GameGrid.checkValidTile x y = true <-> in_bounds (x, y).
Proof.
  unfold GameGrid.checkValidTile, in_bounds. cbn [fst snd].
  destruct (Z.leb_spec 0 x), (Z.leb_spec 0 y), (Z.ltb_spec x GAME_GRID_WIDTH),
    (Z.ltb_spec y GAME_GRID_HEIGHT); cbn; split; intros; try discriminate; try lia;
    reflexivity.
Qed.

Lemma checkOccupied_wf (x y : Z) (g : GameGrid.t) :
  grid_wf g ->
  GameGrid.checkOccupied x y g = Ok (bool_decide (in_bounds (x, y) /\ (x, y) ∈ positions g)).
Proof.
  intros Hwf. unfold GameGrid.checkOccupied.
  destruct (GameGrid.checkValidTile x y) eqn:Hv.
  - apply checkValidTile_spec in Hv. pose proof Hv as [Hx Hy]. cbn [fst snd] in Hx, Hy.
    unfold GAME_GRID_HEIGHT, GAME_GRID_WIDTH in Hx, Hy.
    rewrite (np_get2_in_range 10 10) by (try apply Hwf; lia). cbn [bind].
    rewrite (wf_marks g Hwf x y) by assumption.
    destruct (decide ((x, y) ∈ positions g)) as [Hin|Hnotin].
    + rewrite bool_decide_eq_true_2 by exact Hin.
      rewrite bool_decide_eq_true_2 by tauto. reflexivity.
    + rewrite bool_decide_eq_false_2 by exact Hnotin.
      rewrite bool_decide_eq_false_2 by tauto. reflexivity.
  - rewrite bool_decide_eq_false_2; [reflexivity|].
    intros [Hb _]. apply checkValidTile_spec in Hb. congruence.
Qed.

(** The grid after removing what lies at [(x, y)]. *)
Lemma removeTile_wf (x y : Z) (g : GameGrid.t) :
  grid_wf g -> NoDup (positions g) ->
  exists g' k, GameGrid.removeTile x y g = Ok (g', k) /\
    grid_wf g' /\
    GameGrid.player g' = GameGrid.player g /\
    GameGrid.occupied_spaces g'
    = filter (fun tile => GridSpace.pos tile <> (x, y)) (GameGrid.occupied_spaces g) /\
    (forall kd, k = Some kd ->
       exists tile, In tile (GameGrid.occupied_spaces g) /\
         GridSpace.pos tile = (x, y) /\ GridSpace.type tile = Some kd).
Proof.
  intros Hwf Hnd. unfold GameGrid.removeTile.
  rewrite (checkOccupied_wf x y g Hwf). cbn [bind].
  case_bool_decide as Hocc.
  - destruct Hocc as [Hb Hin]. pose proof Hb as [Hx Hy]. cbn [fst snd] in Hx, Hy.
    unfold GAME_GRID_HEIGHT, GAME_GRID_WIDTH in Hx, Hy.
    rewrite (np_set2_in_range 10 10) by (try apply Hwf; lia). cbn [bind].
    destruct (remove_loop_nodup x y (GameGrid.occupied_spaces g) None Hnd Hin)
      as (tile & Htile & Hpos & Hloop).
    rewrite Hloop. cbn [fst snd].
    eexists _, _. split; [reflexivity|].
    split; [|split; [reflexivity|split; [reflexivity|]]].
    + destruct Hwf as [H1 H2 H3 H4 H5]. split; cbn.
      * exact H1.
      * exact H2.
      * apply shape_set_cell, H3.
      * unfold positions in *. cbn. rewrite positions_filter.
        apply List.Forall_forall. intros p Hp.
        apply list_elem_of_In, list_elem_of_filter in Hp as [_ Hp].
        rewrite List.Forall_forall in H4. apply H4, list_elem_of_In, Hp.
      * unfold positions in *. cbn. rewrite positions_filter.
        exact (marks_remove _ _ x y H3 H5 Hb).
    + intros kd Hk. exists tile. auto.
  - exists g, None. split; [reflexivity|]. split; [exact Hwf|]. split; [reflexivity|].
    split.
    + symmetry. apply filter_no_match, not_in_positions.
      intros Hin. apply Hocc. split; [|exact Hin].
      pose proof (wf_bounds g Hwf) as Hbs. rewrite List.Forall_forall in Hbs.
      apply Hbs, list_elem_of_In, Hin.
    + intros kd Hk. discriminate.
Qed.

(** ** The player *)

Lemma move_dead (direction difficulty : Z) (p : Player.t) :
  Player.alive p = false ->
  Player.move direction difficulty p
  = (p, (GridSpace.x (Player.tile p), GridSpace.y (Player.tile p))).
Proof. intros H. unfold Player.move. rewrite H. reflexivity. Qed.

Lemma useEnergy_spec (amnt : Z) (p : Player.t) :
  Player.energy (Player.useEnergy amnt p) = Player.energy p - amnt /\
  Player.alive (Player.useEnergy amnt p)
  = (if Player.energy p - amnt <? 0 then false else Player.alive p) /\
  Player.tile (Player.useEnergy amnt p) = Player.tile p /\
  Player.score (Player.useEnergy amnt p) = Player.score p /\
  Player.food_eaten (Player.useEnergy amnt p) = Player.food_eaten p /\
  Player.max_energy (Player.useEnergy amnt p) = Player.max_energy p.
Proof.
  unfold Player.useEnergy. cbn.
  destruct (Player.energy p - amnt <? 0); cbn; repeat split.
Qed.

(** A living player's move: the position stays on the grid whatever the
    direction, the cost is deducted, and the player dies exactly when the
    energy drops below zero. *)
Lemma move_alive (direction difficulty : Z) (p : Player.t) :
  Player.alive p = true ->
  let p' := (Player.move direction difficulty p).1 in
  (Player.move direction difficulty p).2 = GridSpace.pos (Player.tile p') /\
  Player.energy p' = Player.energy p - difficulty /\
  Player.alive p' = negb (Player.energy p - difficulty <? 0) /\
  Player.score p' = Player.score p /\
  Player.food_eaten p' = Player.food_eaten p /\
  Player.max_energy p' = Player.max_energy p /\
  GridSpace.type (Player.tile p') = GridSpace.type (Player.tile p) /\
  (in_bounds (GridSpace.pos (Player.tile p)) -> in_bounds (GridSpace.pos (Player.tile p'))).
Proof.
  intros Halive. unfold Player.move. rewrite Halive. cbn [fst snd].
  match goal with |- context [Player.useEnergy difficulty ?q] => set (p1 := q) end.
  destruct (useEnergy_spec difficulty p1) as (He & Ha & Ht & Hs & Hf & Hm).
  rewrite He, Ha, Ht, Hs, Hf, Hm.
  assert (Hp1 : Player.energy p1 = Player.energy p /\ Player.alive p1 = true /\
                Player.score p1 = Player.score p /\
                Player.food_eaten p1 = Player.food_eaten p /\
                Player.max_energy p1 = Player.max_energy p)
    by (subst p1; cbn; auto).
  destruct Hp1 as (-> & -> & -> & -> & ->).
  split; [reflexivity|]. split; [reflexivity|].
  split; [destruct (Player.energy p - difficulty <? 0); reflexivity|].
  split; [reflexivity|]. split; [reflexivity|]. split; [reflexivity|].
  split.
  { subst p1. cbn [Player.tile Player.set_tile].
    repeat match goal with
           | |- context [if ?c then _ else _] => destruct c
           end; reflexivity. }
  intros [Hx Hy]. subst p1. cbn [Player.tile Player.set_tile].
  unfold in_bounds, GridSpace.pos in *. cbn [fst snd] in *.
  unfold GAME_GRID_HEIGHT, GAME_GRID_WIDTH in *.
  repeat match goal with
         | |- context [if ?c then _ else _] =>
             match c with
             | Z.eqb _ _ => destruct c
             | Z.ltb ?a ?b => destruct (Z.ltb_spec a b)
             end
         end; cbn; split; lia.
Qed.

(** ** Moving the player on the grid *)

Lemma tiles_ok_set_smell_grid (sg : list (list Z)) (g : GameGrid.t) :
  tiles_ok g -> tiles_ok (GameGrid.set_smell_grid sg g).
Proof.
  intros [H1 H2 H3]. split; try assumption. apply grid_wf_set_smell_grid, H1.
Qed.

Lemma tiles_ok_set_player (p : Player.t) (g : GameGrid.t) :
  tiles_ok g -> tiles_ok (GameGrid.set_player p g).
Proof.
  intros [H1 H2 H3]. split; try assumption. apply grid_wf_set_player, H1.
Qed.

Lemma tiles_ok_reset (g : GameGrid.t) : tiles_ok g -> tiles_ok (GameGrid.reset g).
Proof.
  intros [H1 H2 H3]. split.
  - apply grid_wf_reset, H1.
  - constructor.
  - constructor.
Qed.

Lemma tiles_ok_filter (c : Z * Z) (g g' : GameGrid.t) :
  tiles_ok g -> grid_wf g' ->
  GameGrid.occupied_spaces g'
  = filter (fun tile => GridSpace.pos tile <> c) (GameGrid.occupied_spaces g) ->
  tiles_ok g'.
Proof.
  intros [H1 H2 H3] Hwf Hl. split.
  - exact Hwf.
  - unfold positions in *. rewrite Hl, positions_filter. apply NoDup_filter, H2.
  - rewrite Hl. apply List.Forall_forall. intros tile Ht.
    apply list_elem_of_In, list_elem_of_filter in Ht as [_ Ht].
    rewrite List.Forall_forall in H3. apply H3, list_elem_of_In, Ht.
Qed.

(** [movePlayer] on a grid of the running game returns; the tiles stay well
    formed, and the player's fields change by the move and, when food was on
    the destination, by [eatFood]. *)
Lemma movePlayer_spec (st : bool) (direction : Z) (g : GameGrid.t) :
  tiles_ok g ->
  exists (g' : GameGrid.t) (k : bool), GameGrid.movePlayer st direction g = Ok g' /\
    tiles_ok g' /\
    GameGrid.player g'
    = (if k then Player.eatFood (Player.move direction 1 (GameGrid.player g)).1
       else (Player.move direction 1 (GameGrid.player g)).1) /\
    (k = true ->
     (Player.move direction 1 (GameGrid.player g)).2 ∈ positions g) /\
    (length (GameGrid.occupied_spaces g') <= length (GameGrid.occupied_spaces g))%nat.
Proof.
  intros Hok. unfold GameGrid.movePlayer.
  set (mv := Player.move direction 1 (GameGrid.player g)).
  pose proof (tiles_ok_set_player mv.1 g Hok) as Hok1.
  destruct (removeTile_wf mv.2.1 mv.2.2 (GameGrid.set_player mv.1 g)
              (tiles_wf _ Hok1) (tiles_nodup _ Hok1))
    as (g1 & k & Hrm & Hwf1 & Hp1 & Hl1 & Hk).
  rewrite Hrm. cbn [bind fst snd].
  assert (Hok2 : tiles_ok g1) by exact (tiles_ok_filter _ _ _ Hok1 Hwf1 Hl1).
  assert (Hlen : (length (GameGrid.occupied_spaces g1)
                  <= length (GameGrid.occupied_spaces g))%nat).
  { rewrite Hl1. apply length_filter. }
  destruct k as [[|]|].
  - exists g1, false. split; [reflexivity|]. split; [exact Hok2|].
    split; [exact Hp1|]. split; [discriminate | exact Hlen].
  - pose proof (tiles_ok_set_player (Player.eatFood (GameGrid.player g1)) g1 Hok2)
      as Hok3.
    destruct (calcSmellMatrix_wf st _ (tiles_wf _ Hok3)) as [sg Hsg].
    rewrite Hsg. eexists _, true. split; [reflexivity|].
    split; [apply tiles_ok_set_smell_grid, Hok3|].
    split; [cbn; rewrite Hp1; reflexivity|].
    split; [|exact Hlen].
    intros _. destruct (Hk KFood eq_refl) as (tile & Hin & Hpos & _).
    unfold positions. apply list_elem_of_In, in_map_iff.
    exists tile. split; [|exact Hin]. rewrite Hpos. destruct (mv.2); reflexivity.
  - exists g1, false. split; [reflexivity|]. split; [exact Hok2|].
    split; [exact Hp1|]. split; [discriminate | exact Hlen].
Qed.

(** ** Invariants of placement *)

Lemma tiles_ok_with_food (c : Z * Z) (g : GameGrid.t) :
  tiles_ok g -> in_bounds c -> c ∉ positions g ->
  tiles_ok (with_tile (GridSpace.setFood (GridSpace.init c.1 c.2)) g).
Proof.
  intros [H1 H2 H3] Hb Hfree. split.
  - apply addTile_in_bounds; [exact H1 | destruct c; exact Hb].
  - rewrite positions_with_tile. apply NoDup_app. split; [exact H2|]. split.
    + intros p Hp Hin. apply list_elem_of_singleton in Hin. subst p.
      apply Hfree. destruct c; exact Hp.
    + apply NoDup_singleton.
  - cbn. apply Forall_app. split; [exact H3|]. repeat constructor.
Qed.

(** Placement with a coordinate that is negative or exceeds the grid size:
    the new tile, if any, goes to a cell that held none. *)
Lemma addFood_random_tiles_ok (st : bool) (x y : Z) (g g' : GameGrid.t)
  (tp tp' : tape) :
  tiles_ok g ->
  (x < 0 \/ GAME_GRID_WIDTH < x \/ y < 0 \/ GAME_GRID_HEIGHT < y) ->
  GameGrid.addFood st x y g tp = Ok (g', tp') ->
  tiles_ok g' /\ GameGrid.player g' = GameGrid.player g /\
  (positions g' = positions g \/
   exists c, in_bounds c /\ (c ∉ positions g) /\ positions g' = positions g ++ [c]).
Proof.
  intros Hok Hoob H.
  destruct (addFood_inv st x y g g' tp tp' (tiles_wf g Hok) H)
    as [sg [[_ ->]|(c & -> & Hb & _ & Hcase)]].
  - split; [apply tiles_ok_set_smell_grid, Hok|]. split; [reflexivity|]. left. reflexivity.
  - assert (Hfree : c ∉ positions g).
    { destruct Hcase as [[_ Hfree]|[-> _]]; [exact Hfree|].
      exfalso. destruct Hb as [Hx Hy]. cbn [fst snd] in Hx, Hy. lia. }
    split; [apply tiles_ok_set_smell_grid, tiles_ok_with_food; assumption|].
    split; [reflexivity|]. right. exists c. split; [exact Hb|]. split; [exact Hfree|].
    change (positions (GameGrid.set_smell_grid sg
                         (with_tile (GridSpace.setFood (GridSpace.init c.1 c.2)) g)))
      with (positions (with_tile (GridSpace.setFood (GridSpace.init c.1 c.2)) g)).
    rewrite positions_with_tile. destruct c; reflexivity.
Qed.

(** Placement at a requested cell of the grid that holds no tile. *)
Lemma addFood_free_tiles_ok (st : bool) (x y : Z) (g : GameGrid.t) (tp : tape) :
  tiles_ok g -> in_bounds (x, y) -> (x, y) ∉ positions g ->
  Z.of_nat (length (GameGrid.occupied_spaces g)) < NUM_SPACES ->
  exists g', GameGrid.addFood st x y g tp = Ok (g', tp) /\
    tiles_ok g' /\ GameGrid.player g' = GameGrid.player g /\
    GameGrid.width g' = GameGrid.width g /\ GameGrid.height g' = GameGrid.height g /\
    GameGrid.occupied_spaces g'
    = GameGrid.occupied_spaces g ++ [GridSpace.setFood (GridSpace.init x y)].
Proof.
  intros Hok Hb Hfree Hroom.
  destruct (addFood_given st x y g tp (tiles_wf g Hok) Hb Hroom) as [sg Hadd].
  eexists. split; [exact Hadd|].
  split; [apply tiles_ok_set_smell_grid; exact (tiles_ok_with_food (x, y) g Hok Hb Hfree)|].
  repeat split.
Qed.

(** ** Invariants of a tick *)

Lemma player_ok_set_smell_matrix (w : list (list Z)) (p : Player.t) :
  player_ok p -> player_ok (Player.set_smell_matrix w p).
Proof. intros [H1 H2 H3 H4 H5 H6 H7]. split; assumption. Qed.

Lemma player_ok_init : player_ok (Player.init 0 0).
Proof.
  split; cbn; try reflexivity; unfold MAX_ENERGY; try lia.
  split; cbn; unfold GAME_GRID_HEIGHT, GAME_GRID_WIDTH; lia.
Qed.

(** After the move, and after the feeding that may follow it. *)
Lemma player_mid_move (direction : Z) (p : Player.t) :
  player_ok p ->
  player_mid (Player.move direction 1 p).1 /\
  player_mid (Player.eatFood (Player.move direction 1 p).1).
Proof.
  intros [Ha He Hm Hs Hf Hp Hty].
  destruct (move_alive direction 1 p Ha)
    as (_ & He1 & Ha1 & Hs1 & Hf1 & Hm1 & Hty1 & Hp1).
  set (p1 := (Player.move direction 1 p).1) in *.
  assert (Heat : Player.food_eaten (Player.eatFood p1) = Player.food_eaten p1 + 1 /\
                 Player.score (Player.eatFood p1) = Player.score p1 + Player.energy p1 /\
                 Player.energy (Player.eatFood p1)
                 = Z.min (Player.energy p1 + ENERGY_PER_FOOD) (Player.max_energy p1) /\
                 Player.tile (Player.eatFood p1) = Player.tile p1 /\
                 Player.max_energy (Player.eatFood p1) = Player.max_energy p1 /\
                 Player.alive (Player.eatFood p1) = Player.alive p1)
    by (rewrite eatFood_unfold; cbn; repeat split).
  destruct Heat as (Hf2 & Hs2 & He2 & Ht2 & Hm2 & Ha2).
  split; split; unfold MAX_ENERGY, ENERGY_PER_FOOD in *.
  - auto.
  - congruence.
  - congruence.
  - rewrite Ha1. destruct (Z.ltb_spec (Player.energy p - 1) 0); [discriminate|].
    intros _. lia.
  - rewrite Ha1. destruct (Z.ltb_spec (Player.energy p - 1) 0); [reflexivity|lia].
  - rewrite Ht2. auto.
  - congruence.
  - congruence.
  - rewrite Ha2, Ha1. destruct (Z.ltb_spec (Player.energy p - 1) 0); [discriminate|].
    intros _. lia.
  - lia.
Qed.

Lemma filter_all_food (l : list GridSpace.t) :
  Forall (fun tile => GridSpace.type tile = Some KFood) l ->
  filter (fun tile => GridSpace.is_food tile = true) l = l.
Proof.
  induction 1 as [|tile l Ht Hl IH]; [reflexivity|].
  rewrite filter_cons_True by (unfold GridSpace.is_food; rewrite Ht; reflexivity).
  rewrite IH. reflexivity.
Qed.

Lemma snapshot_ok_init (g : GameGrid.t) :
  tiles_ok g ->
  Z.of_nat (length (GameGrid.occupied_spaces g)) <= MAX_NUM_FOOD_ON_GRID ->
  player_ok (GameGrid.player g) ->
  snapshot_ok (GameState.init g).
Proof.
  intros [H1 H2 H3] Hc [Ha He Hm Hs Hf Hp Hty].
  assert (Hfoods : GameState.foods_loc (GameState.init g) = positions g).
  { unfold GameState.init, positions. cbn. rewrite (filter_all_food _ H3). reflexivity. }
  split; try assumption.
  - rewrite Hfoods. apply H1.
  - rewrite Hfoods. exact H2.
  - rewrite Hfoods. unfold positions. rewrite length_map. exact Hc.
Qed.

Lemma saveGameState_inv (m : GameManager.t) :
  manager_inv m -> manager_inv (GameManager.saveGameState m).
Proof.
  intros [Ht Hc Hp Hh]. unfold GameManager.saveGameState.
  assert (Hsnap : snapshot_ok (GameState.init (GameManager.game_grid m)))
    by (apply snapshot_ok_init; assumption).
  destruct (MAX_SAVED_GAME_STATES <=? Z.of_nat (length (GameManager.game_states m)));
    split; cbn; try assumption; apply Forall_app; split.
  - unfold py_suffix. apply Forall_drop, Hh.
  - constructor; [exact Hsnap | constructor].
  - exact Hh.
  - constructor; [exact Hsnap | constructor].
Qed.

Lemma checkEndStates_inv (m : GameManager.t) :
  tiles_ok (GameManager.game_grid m) ->
  Z.of_nat (length (GameGrid.occupied_spaces (GameManager.game_grid m)))
  <= MAX_NUM_FOOD_ON_GRID ->
  player_mid (GameGrid.player (GameManager.game_grid m)) ->
  Forall snapshot_ok (GameManager.game_states m) ->
  manager_inv (GameManager.checkEndStates m).
Proof.
  intros Ht Hc [Hp Hty Hm Ha Hd] Hh. unfold GameManager.checkEndStates.
  assert (Hend : forall m', tiles_ok (GameManager.game_grid m') ->
                   manager_inv (GameManager.endRound m')).
  { intros m' Ht'. split; cbn.
    - apply tiles_ok_reset, Ht'.
    - unfold MAX_NUM_FOOD_ON_GRID. lia.
    - exact player_ok_init.
    - constructor. }
  destruct (FOOD_PER_ROUND <=? Player.food_eaten (GameGrid.player (GameManager.game_grid m))).
  - apply Hend, Ht.
  - destruct (Player.alive (GameGrid.player (GameManager.game_grid m))) eqn:Halive;
      cbn [negb].
    + destruct (Ha eq_refl) as (He & Hs & Hf).
      split; try assumption. split; assumption.
    + apply Hend. cbn. apply tiles_ok_set_player, Ht.
Qed.

Lemma addFood_random_length (st : bool) (g g' : GameGrid.t) (tp tp' : tape) :
  tiles_ok g -> GameGrid.addFood st (-1) (-1) g tp = Ok (g', tp') ->
  tiles_ok g' /\ GameGrid.player g' = GameGrid.player g /\
  (length (GameGrid.occupied_spaces g') <= S (length (GameGrid.occupied_spaces g)))%nat.
Proof.
  intros Hok H.
  destruct (addFood_random_tiles_ok st (-1) (-1) g g' tp tp' Hok ltac:(lia) H)
    as (Hok' & Hp & Hpos).
  split; [exact Hok'|]. split; [exact Hp|].
  assert (Hl : forall g0, length (GameGrid.occupied_spaces g0) = length (positions g0))
    by (intros g0; unfold positions; rewrite length_map; reflexivity).
  rewrite !Hl.
  destruct Hpos as [->|(c & _ & _ & ->)]; [lia|]. rewrite length_app. cbn. lia.
Qed.

(** The middle of a tick: the tiles are well formed and at most
    [MAX_NUM_FOOD_ON_GRID], and the player satisfies [player_mid]. *)
Lemma logicTick_move_inv (st : bool) (m : GameManager.t) (tp tp' : tape)
  (g : GameGrid.t) :
  manager_inv m -> GameManager.logicTick_move st m tp = Ok (g, tp') ->
  tiles_ok g /\
  Z.of_nat (length (GameGrid.occupied_spaces g)) <= MAX_NUM_FOOD_ON_GRID /\
  player_mid (GameGrid.player g).
Proof.
  intros [Ht Hc Hp Hh] H. unfold GameManager.logicTick_move in H.
  apply bindM_Ok in H as (g1 & tp1 & Hfood & H).
  assert (H1 : tiles_ok g1 /\
               GameGrid.player g1 = GameGrid.player (GameManager.game_grid m) /\
               Z.of_nat (length (GameGrid.occupied_spaces g1)) <= MAX_NUM_FOOD_ON_GRID).
  { destruct (GameGrid.occupied_spaces (GameManager.game_grid m)) as [|t0 l0] eqn:El.
    - change (seqZ 0 MAX_NUM_FOOD_ON_GRID) with [0; 1] in Hfood.
      cbn [foldM] in Hfood.
      apply bindM_Ok in Hfood as (ga & tpa & Ha & Hfood).
      apply bindM_Ok in Hfood as (gb & tpb & Hb & Hfood).
      apply ret_Ok in Hfood as [-> ->].
      destruct (addFood_random_length st _ _ _ _ Ht Ha) as (Hta & Hpa & Hla).
      destruct (addFood_random_length st _ _ _ _ Hta Hb) as (Htb & Hpb & Hlb).
      split; [exact Htb|]. split; [congruence|].
      rewrite El in Hla. cbn in Hla. unfold MAX_NUM_FOOD_ON_GRID. lia.
    - apply ret_Ok in Hfood as [-> ->]. rewrite ?El. auto. }
  destruct H1 as (Ht1 & Hp1 & Hc1).
  apply bindM_Ok in H as (g2 & tp2 & Hcalc & H).
  apply lift_Ok in Hcalc as [Hcalc ->].
  apply calcSmellMatrix_frame in Hcalc as [sg ->].
  apply bindM_Ok in H as (movement & tp3 & _ & H).
  apply lift_Ok in H as [H ->].
  set (g3 := GameGrid.calcPlayerSense (GameGrid.set_smell_grid sg g1)) in H.
  assert (Ht3 : tiles_ok g3).
  { subst g3. unfold GameGrid.calcPlayerSense.
    apply tiles_ok_set_player, tiles_ok_set_smell_grid, Ht1. }
  assert (Hp3 : player_ok (GameGrid.player g3)).
  { subst g3. unfold GameGrid.calcPlayerSense. cbn [GameGrid.player GameGrid.set_player
      GameGrid.set_smell_grid]. apply player_ok_set_smell_matrix. rewrite Hp1. exact Hp. }
  destruct (movePlayer_spec st movement g3 Ht3) as (g' & k & Hmv & Ht' & Hp' & _ & Hl').
  rewrite Hmv in H. injection H as <-.
  split; [exact Ht'|]. split.
  - assert (length (GameGrid.occupied_spaces g3) = length (GameGrid.occupied_spaces g1))
      by reflexivity. lia.
  - rewrite Hp'. destruct (player_mid_move movement _ Hp3) as [Hm1 Hm2].
    destruct k; assumption.
Qed.

Lemma logicTick_inv (st : bool) (m m' : GameManager.t) (tp tp' : tape) :
  manager_inv m -> GameManager.logicTick st m tp = Ok (m', tp') -> manager_inv m'.
Proof.
  intros Hinv H. unfold GameManager.logicTick in H.
  apply bindM_Ok in H as (g & tp1 & Hmove & H).
  apply ret_Ok in H as [-> ->].
  destruct (logicTick_move_inv st m tp tp1 g Hinv Hmove) as (Ht & Hc & Hp).
  apply saveGameState_inv, checkEndStates_inv; cbn; try assumption.
  apply Hinv.
Qed.

(** ** Restoring a snapshot *)

Lemma tiles_ok_reset_wf (g : GameGrid.t) : grid_wf g -> tiles_ok (GameGrid.reset g).
Proof.
  intros Hwf. split.
  - apply grid_wf_reset, Hwf.
  - constructor.
  - constructor.
Qed.

Lemma in_bounds_scan_order (c : Z * Z) :
  in_bounds c -> c ∈ GameGrid.scan_order GAME_GRID_WIDTH GAME_GRID_HEIGHT.
Proof.
  intros [Hx Hy]. apply list_elem_of_In. unfold GameGrid.scan_order.
  apply in_flat_map. exists c.1. split.
  - apply list_elem_of_In, elem_of_seqZ. unfold GAME_GRID_HEIGHT. lia.
  - apply in_map_iff. exists c.2. split; [destruct c; reflexivity|].
    apply list_elem_of_In, elem_of_seqZ. unfold GAME_GRID_HEIGHT in Hy. lia.
Qed.

(** Distinct cells of the grid are at most [NUM_SPACES] many. *)
Lemma distinct_cells_bound (fs : list (Z * Z)) :
  NoDup fs -> Forall in_bounds fs -> Z.of_nat (length fs) <= NUM_SPACES.
Proof.
  intros Hnd Hb.
  assert (Hsub : fs ⊆+ GameGrid.scan_order GAME_GRID_WIDTH GAME_GRID_HEIGHT).
  { apply NoDup_submseteq; [exact Hnd|]. intros c Hc.
    apply in_bounds_scan_order. rewrite List.Forall_forall in Hb.
    apply Hb, list_elem_of_In, Hc. }
  apply submseteq_length in Hsub.
  change (length (GameGrid.scan_order GAME_GRID_WIDTH GAME_GRID_HEIGHT)) with 100%nat in Hsub.
  unfold NUM_SPACES, GAME_GRID_HEIGHT, GAME_GRID_WIDTH. lia.
Qed.

(** The loop of [restoreGameState]: every saved food cell receives a fresh
    food tile, in the saved order, and no random draw is consumed. *)
Lemma restore_foods (st : bool) (fs : list (Z * Z)) :
  forall (g : GameGrid.t) (tp : tape),
    tiles_ok g -> Forall in_bounds fs -> NoDup (positions g ++ fs) ->
    exists g',
      foldM (fun g food => GameGrid.addFood st food.1 food.2 g) fs g tp = Ok (g', tp) /\
      tiles_ok g' /\ GameGrid.player g' = GameGrid.player g /\
      positions g' = positions g ++ fs.
Proof.
  induction fs as [|c fs IH]; intros g tp Hok Hb Hnd; cbn [foldM].
  - exists g. rewrite app_nil_r. split; [reflexivity|]. split; [exact Hok|].
    split; reflexivity.
  - apply Forall_cons in Hb as [Hc Hb].
    assert (Hfree : (c.1, c.2) ∉ positions g).
    { apply NoDup_app in Hnd as (_ & Hdis & _). intros Hin.
      apply (Hdis _ Hin). destruct c; left. }
    assert (Hroom : Z.of_nat (length (GameGrid.occupied_spaces g)) < NUM_SPACES).
    { assert (Hall : Forall in_bounds (positions g ++ c :: fs)).
      { apply Forall_app. split; [apply (tiles_wf g Hok)|]. constructor; assumption. }
      pose proof (distinct_cells_bound _ Hnd Hall) as Hbound.
      rewrite length_app in Hbound. unfold positions in Hbound.
      rewrite length_map in Hbound. cbn [length] in Hbound. lia. }
    destruct (addFood_free_tiles_ok st c.1 c.2 g tp Hok
                ltac:(destruct c; exact Hc) Hfree Hroom)
      as (g1 & Hadd & Hok1 & Hp1 & _ & _ & Hl1).
    assert (Hpos1 : positions g1 = positions g ++ [c]).
    { unfold positions. rewrite Hl1, map_app. destruct c; reflexivity. }
    destruct (IH g1 tp Hok1 Hb) as (g' & Hfold & Hok' & Hp' & Hpos').
    { rewrite Hpos1, <- app_assoc. exact Hnd. }
    exists g'. unfold bindM. rewrite Hadd. split; [exact Hfold|].
    split; [exact Hok'|]. split; [congruence|].
    rewrite Hpos', Hpos1, <- app_assoc. reflexivity.
Qed.

Lemma restoreGameState_spec (st : bool) (s : GameState.t) (m : GameManager.t)
  (tp : tape) :
  grid_wf (GameManager.game_grid m) ->
  Forall in_bounds (GameState.foods_loc s) -> NoDup (GameState.foods_loc s) ->
  exists g',
    GameManager.restoreGameState st s m tp = Ok (GameManager.set_game_grid g' m, tp) /\
    tiles_ok g' /\ GameGrid.player g' = GameState.restorePlayer s /\
    positions g' = GameState.foods_loc s.
Proof.
  intros Hwf Hb Hnd. unfold GameManager.restoreGameState.
  set (g0 := GameGrid.set_player (GameState.restorePlayer s)
               (GameGrid.reset (GameManager.game_grid m))).
  assert (Hok0 : tiles_ok g0)
    by (subst g0; apply tiles_ok_set_player, tiles_ok_reset_wf, Hwf).
  destruct (restore_foods st (GameState.foods_loc s) g0 tp Hok0 Hb)
    as (g' & Hfold & Hok' & Hp' & Hpos'); [exact Hnd|].
  exists g'. unfold bindM. rewrite Hfold. split; [reflexivity|].
  split; [exact Hok'|]. split; [exact Hp'|]. exact Hpos'.
Qed.

Lemma player_ok_restore (s : GameState.t) :
  snapshot_ok s -> player_ok (GameState.restorePlayer s).
Proof. intros [H1 H2 H3 H4 H5 H6 H7]. split; cbn; auto. Qed.

Lemma rewind_inv (st : bool) (n : Z) (m m' : GameManager.t) (tp tp' : tape) :
  manager_inv m -> GameManager.rewindGameState st n m tp = Ok (m', tp') ->
  manager_inv m'.
Proof.
  intros Hinv H. unfold GameManager.rewindGameState in H.
  destruct (Z.of_nat (length (GameManager.game_states m)) <=? 1).
  - apply ret_Ok in H as [-> ->]. exact Hinv.
  - match type of H with
    | context [py_prefix (GameManager.game_states m) ?k] =>
        set (hist := py_prefix (GameManager.game_states m) k) in H
    end.
    assert (Hhist : Forall snapshot_ok hist).
    { subst hist. unfold py_prefix. apply Forall_take, Hinv. }
    apply bindM_Ok in H as (i & tp1 & _ & H).
    cbn [GameManager.game_states GameManager.set_game_states] in H.
    destruct (hist !! i) as [s|] eqn:Es; [|discriminate].
    assert (Hs : snapshot_ok s) by (rewrite Forall_lookup in Hhist; exact (Hhist i s Es)).
    destruct (restoreGameState_spec st s (GameManager.set_game_states hist m) tp1)
      as (g' & Hres & Hok' & Hp' & Hpos').
    + apply Hinv.
    + apply Hs.
    + apply Hs.
    + rewrite Hres in H. injection H as <- <-. split; cbn.
      * exact Hok'.
      * pose proof (snap_count s Hs) as Hc. rewrite <- Hpos' in Hc.
        unfold positions in Hc. rewrite length_map in Hc. exact Hc.
      * rewrite Hp'. apply player_ok_restore, Hs.
      * exact Hhist.
Qed.

Lemma init_inv (st : bool) (m : GameManager.t) (tp tp' : tape) :
  GameManager.init st GAME_GRID_WIDTH GAME_GRID_HEIGHT tp = Ok (m, tp') ->
  manager_inv m.
Proof.
  intros H. unfold GameManager.init in H.
  apply bindM_Ok in H as (g & tp1 & Hadd & H). apply ret_Ok in H as [-> ->].
  assert (Hok0 : tiles_ok (GameGrid.init GAME_GRID_HEIGHT GAME_GRID_WIDTH)).
  { split; [exact grid_wf_init | constructor | constructor]. }
  destruct (addFood_random_length st _ _ _ _ Hok0 Hadd) as (Hok & Hp & Hl).
  split; cbn.
  - exact Hok.
  - cbn in Hl. unfold MAX_NUM_FOOD_ON_GRID. lia.
  - rewrite Hp. exact player_ok_init.
  - constructor.
Qed.

(** Every state the program reaches satisfies the invariant. *)
Lemma reachable_inv (m : GameManager.t) : reachable m -> manager_inv m.
Proof.
  induction 1 as [st tp tp' m Hinit | st tp tp' m m' _ IH Htick
                 | st n tp tp' m m' _ IH Hrew | m _ IH].
  - exact (init_inv st m tp tp' Hinit).
  - exact (logicTick_inv st m m' tp tp' IH Htick).
  - exact (rewind_inv st n m m' tp tp' IH Hrew).
  - destruct IH as [H1 H2 H3 H4]. split; assumption.
Qed.

(** ** The dead player *)

Lemma set_player_same (g : GameGrid.t) : GameGrid.set_player (GameGrid.player g) g = g.
Proof. destruct g; reflexivity. Qed.

(** C7 (amended). Once the player is dead, [Player.move] changes no field of
    it, and [movePlayer] leaves the whole grid, player included, unchanged
    whenever no tile lies on the player's cell.  ([eatFood] and [useEnergy]
    carry no liveness test of their own.) *)
Theorem dead_player_frame (st : bool) (direction : Z) (g : GameGrid.t) :
  Player.alive (GameGrid.player g) = false ->
  (forall difficulty,
      Player.move direction difficulty (GameGrid.player g)
      = (GameGrid.player g, GridSpace.pos (Player.tile (GameGrid.player g)))) /\
  (grid_wf g -> GridSpace.pos (Player.tile (GameGrid.player g)) ∉ positions g ->
   GameGrid.movePlayer st direction g = Ok g).
Proof.
  intros Hdead. split.
  - intros difficulty. exact (move_dead direction difficulty _ Hdead).
  - intros Hwf Hfree. unfold GameGrid.movePlayer.
    rewrite (move_dead direction 1 _ Hdead). cbn [fst snd].
    rewrite set_player_same. unfold GameGrid.removeTile.
    rewrite (checkOccupied_wf _ _ g Hwf). cbn [bind].
    rewrite bool_decide_eq_false_2; [reflexivity|].
    intros [_ Hin]. exact (Hfree Hin).
Qed.

Lemma dead_player_frame_witness :
  Player.move NORTH 1 (Player.die (Player.init 4 4))
  = (Player.die (Player.init 4 4), (4, 4)) /\
  GameGrid.movePlayer true NORTH
    (GameGrid.set_player (Player.die (Player.init 4 4)) food_north_grid)
  = Ok (GameGrid.set_player (Player.die (Player.init 4 4)) food_north_grid).
Proof.
  destruct (dead_player_frame true NORTH
              (GameGrid.set_player (Player.die (Player.init 4 4)) food_north_grid)
              eq_refl) as [Hmove Hgrid].
  split; [exact (Hmove 1)|]. apply Hgrid.
  - apply grid_wf_set_player. unfold food_north_grid.
    destruct (addTile_in_bounds (GridSpace.setFood (GridSpace.init 0 0))
                (GameGrid.init 10 10) grid_wf_init) as [Hadd Hwf].
    + split; cbn; unfold GAME_GRID_HEIGHT, GAME_GRID_WIDTH; lia.
    + rewrite Hadd. apply grid_wf_set_player, Hwf.
  - vm_compute. intros Hin. apply list_elem_of_In in Hin.
    destruct Hin as [E|[]]. discriminate E.
Defined.

(** C7 (as stated) fails: on a dead player [eatFood] and [useEnergy] still
    update the fields, and [movePlayer] feeds a dead player that stands on a
    food tile. *)
Lemma dead_player_counterexample :
  Player.alive (Player.die (Player.init 0 0)) = false /\
  Player.food_eaten (Player.eatFood (Player.die (Player.init 0 0))) = 1 /\
  Player.score (Player.eatFood (Player.die (Player.init 0 0))) = 100 /\
  Player.energy (Player.useEnergy 1 (Player.die (Player.init 0 0))) = 99 /\
  Player.alive (GameGrid.player dead_on_food_grid) = false /\
  Player.food_eaten (GameGrid.player dead_on_food_grid) = 0 /\
  exists g', GameGrid.movePlayer true NORTH dead_on_food_grid = Ok g' /\
    Player.alive (GameGrid.player g') = false /\
    Player.food_eaten (GameGrid.player g') = 1 /\
    positions g' = [].
Proof.
  repeat (split; [reflexivity|]).
  destruct (GameGrid.movePlayer true NORTH dead_on_food_grid) as [g'|e] eqn:E.
  - exists g'. split; [reflexivity|].
    vm_compute in E. injection E as <-. repeat split.
  - vm_compute in E. discriminate E.
Qed.

(** ** Energy, score and food count in reachable states *)

(** C8. In every reachable state the player is alive with its energy in
    [0, MAX_ENERGY] and its score and food count non-negative.  In the middle
    of any tick taken from such a state, after the move and the feeding, a
    player that is (still) alive has its energy in [0, MAX_ENERGY] and a
    non-negative score and food count, and a negative energy means that this
    very step has made the player dead. *)
Theorem energy_score_invariant (m : GameManager.t) :
  reachable m ->
  let p := GameGrid.player (GameManager.game_grid m) in
  (Player.alive p = true /\ 0 <= Player.energy p <= MAX_ENERGY /\
   0 <= Player.score p /\ 0 <= Player.food_eaten p) /\
  (forall st tp tp' g, GameManager.logicTick_move st m tp = Ok (g, tp') ->
     let p' := GameGrid.player g in
     (Player.alive p' = true ->
      0 <= Player.energy p' <= MAX_ENERGY /\ 0 <= Player.score p' /\
      0 <= Player.food_eaten p') /\
     (Player.energy p' < 0 -> Player.alive p' = false)).
Proof.
  intros Hreach. pose proof (reachable_inv m Hreach) as Hinv. cbn zeta. split.
  - destruct (inv_player m Hinv). auto.
  - intros st tp tp' g Hmove.
    destruct (logicTick_move_inv st m tp tp' g Hinv Hmove) as (_ & _ & Hmid).
    split; [exact (mid_alive _ Hmid) | exact (mid_dead _ Hmid)].
Qed.

Lemma energy_score_invariant_witness :
  Player.energy (GameGrid.player (GameManager.game_grid ticked_manager)) = 99 /\
  0 <= Player.score (GameGrid.player (GameManager.game_grid ticked_manager)).
Proof.
  split; [vm_compute; reflexivity|].
  assert (Hreach : reachable ticked_manager).
  { apply (reach_tick true [0] [] fresh_manager).
    - apply (reach_init true [3; 2] []). vm_compute. reflexivity.
    - vm_compute. reflexivity. }
  destruct (energy_score_invariant ticked_manager Hreach) as [(_ & _ & Hscore & _) _].
  exact Hscore.
Defined.

(** ** The player's cell and the occupancy structures *)

Lemma find_app_last (f : GridSpace.t -> bool) (l : list GridSpace.t) (tile : GridSpace.t) :
  Forall (fun t => f t = false) l -> f tile = true -> find f (l ++ [tile]) = Some tile.
Proof.
  induction 1 as [|t l Ht Hl IH]; intros Htile; cbn [app find].
  - rewrite Htile. reflexivity.
  - rewrite Ht. exact (IH Htile).
Qed.

(** On a grid that holds no tile at [c], a food tile appended at [c] is the
    one [checkForFood] finds. *)
Lemma checkForFood_new_tile (sg : list (list Z)) (c : Z * Z) (g : GameGrid.t) :
  grid_wf g -> in_bounds c -> c ∉ positions g ->
  GameGrid.checkForFood c.1 c.2
    (GameGrid.set_smell_grid sg (with_tile (GridSpace.setFood (GridSpace.init c.1 c.2)) g))
  = Ok true.
Proof.
  intros Hwf Hb Hfree.
  set (tile := GridSpace.setFood (GridSpace.init c.1 c.2)).
  assert (Hwf' : grid_wf (GameGrid.set_smell_grid sg (with_tile tile g))).
  { apply grid_wf_set_smell_grid, addTile_in_bounds; [exact Hwf | destruct c; exact Hb]. }
  unfold GameGrid.checkForFood. rewrite (checkOccupied_wf _ _ _ Hwf'). cbn [bind].
  rewrite bool_decide_eq_true_2.
  - unfold GameGrid.getTile.
    rewrite (proj2 (checkValidTile_spec c.1 c.2)) by (destruct c; exact Hb).
    cbn [negb GameGrid.occupied_spaces GameGrid.set_smell_grid with_tile
         GameGrid.set_occupied_grid GameGrid.set_occupied_spaces].
    rewrite (find_app_last _ _ tile); [reflexivity| |].
    + apply not_in_positions in Hfree.
      eapply Forall_impl; [exact Hfree|]. intros t Hne. cbn beta.
      destruct (Z.eqb_spec (GridSpace.x t) c.1) as [Hx|Hx]; [|reflexivity].
      destruct (Z.eqb_spec (GridSpace.y t) c.2) as [Hy|Hy]; [|reflexivity].
      exfalso. apply Hne. unfold GridSpace.pos. destruct c; cbn in *; congruence.
    + subst tile. cbn. rewrite !Z.eqb_refl. reflexivity.
  - split; [destruct c; exact Hb|].
    change (positions (GameGrid.set_smell_grid sg (with_tile tile g)))
      with (positions (with_tile tile g)).
    rewrite positions_with_tile. apply elem_of_app. right.
    apply list_elem_of_singleton. subst tile. destruct c; reflexivity.
Qed.

(** C10 (amended). In every reachable state the player's tile is not in
    [occupied_spaces], which holds food tiles only, and the marks of
    [occupied_grid] are exactly the cells of those food tiles: the player
    itself occupies nothing, and its cell is marked exactly when a food tile
    lies on it.  When no food tile lies there, the player's cell reads as
    unoccupied, the sampler accepts it when it is drawn, and [addFood] then
    puts a food tile on the very cell the player stands on. *)
Theorem player_cell_not_reserved (m : GameManager.t) :
  reachable m ->
  let g := GameManager.game_grid m in
  let c := GridSpace.pos (Player.tile (GameGrid.player g)) in
  ~ In (Player.tile (GameGrid.player g)) (GameGrid.occupied_spaces g) /\
  Forall (fun tile => GridSpace.type tile = Some KFood) (GameGrid.occupied_spaces g) /\
  marks_agree (GameGrid.occupied_grid g) (positions g) /\
  (c ∉ positions g ->
   cell (GameGrid.occupied_grid g) c.1 c.2 = 0 /\
   GameGrid.checkOccupied c.1 c.2 g = Ok false /\
   forall st rx ry tp, rx mod 10 = c.1 -> ry mod 10 = c.2 ->
     GameGrid.randEmptySpace g (rx :: ry :: tp) = Ok (c, tp) /\
     exists g', GameGrid.addFood st (-1) (-1) g (rx :: ry :: tp) = Ok (g', tp) /\
       positions g' = positions g ++ [c] /\
       GameGrid.player g' = GameGrid.player g /\
       GameGrid.checkForFood c.1 c.2 g' = Ok true).
Proof.
  intros Hreach. pose proof (reachable_inv m Hreach) as [Ht Hc Hp Hh]. cbn zeta.
  set (g := GameManager.game_grid m) in *.
  set (c := GridSpace.pos (Player.tile (GameGrid.player g))).
  pose proof (tiles_wf g Ht) as Hwf.
  pose proof (ok_pos _ Hp) as Hb. fold c in Hb.
  split; [|split; [exact (tiles_food g Ht)|split; [exact (wf_marks g Hwf)|]]].
  - intros Hin. pose proof (tiles_food g Ht) as Hfood.
    rewrite List.Forall_forall in Hfood. specialize (Hfood _ Hin).
    rewrite (ok_tile_type _ Hp) in Hfood. discriminate.
  - intros Hfree.
    assert (Hz : cell (GameGrid.occupied_grid g) c.1 c.2 = 0).
    { rewrite (wf_marks g Hwf) by apply Hb.
      rewrite bool_decide_eq_false_2; [reflexivity | destruct c; exact Hfree]. }
    assert (Hhalf : 2 * Z.of_nat (length (GameGrid.occupied_spaces g)) < NUM_SPACES).
    { unfold MAX_NUM_FOOD_ON_GRID, NUM_SPACES, GAME_GRID_HEIGHT, GAME_GRID_WIDTH in *. lia. }
    split; [exact Hz|]. split.
    + rewrite (checkOccupied_wf _ _ g Hwf).
      rewrite bool_decide_eq_false_2; [reflexivity|].
      intros [_ Hin]. apply Hfree. destruct c; exact Hin.
    + intros st rx ry tp Hrx Hry.
      assert (Hc' : (rx mod 10, ry mod 10) = c) by (destruct c; cbn in *; congruence).
      split.
      * unfold GameGrid.randEmptySpace.
        destruct (Z.ltb_spec (2 * Z.of_nat (length (GameGrid.occupied_spaces g))) NUM_SPACES);
          [|lia].
        rewrite (rejection_loop_hit _ rx ry tp (wf_shape g Hwf)); [rewrite Hc'; reflexivity|].
        rewrite Hrx, Hry. exact Hz.
      * destruct (addFood_draw st g rx ry tp Hwf Hhalf) as [sg Hadd];
          [rewrite Hc'; exact Hfree|].
        eexists. split; [exact Hadd|].
        rewrite Hrx, Hry. split; [|split; [reflexivity|]].
        -- change (positions (GameGrid.set_smell_grid sg
                                (with_tile (GridSpace.setFood (GridSpace.init c.1 c.2)) g)))
             with (positions (with_tile (GridSpace.setFood (GridSpace.init c.1 c.2)) g)).
           rewrite positions_with_tile. destruct c; reflexivity.
        -- exact (checkForFood_new_tile sg c g Hwf Hb Hfree).
Qed.

Lemma player_cell_not_reserved_witness :
  GridSpace.pos (Player.tile (GameGrid.player (GameManager.game_grid fresh_manager)))
  = (0, 0) /\
  positions (GameManager.game_grid fresh_manager) = [(3, 2)] /\
  exists g',
    GameGrid.addFood true (-1) (-1) (GameManager.game_grid fresh_manager) [20; 30; 7]
    = Ok (g', [7]) /\
    positions g' = [(3, 2); (0, 0)] /\
    GameGrid.checkForFood 0 0 g' = Ok true.
Proof.
  split; [vm_compute; reflexivity|]. split; [vm_compute; reflexivity|].
  assert (Hreach : reachable fresh_manager).
  { apply (reach_init true [3; 2] []). vm_compute. reflexivity. }
  destruct (player_cell_not_reserved fresh_manager Hreach) as (_ & _ & _ & Hplace).
  destruct Hplace as (_ & _ & Hdraw).
  { vm_compute. intros Hin. apply list_elem_of_In in Hin.
    destruct Hin as [E|[]]. discriminate E. }
  destruct (Hdraw true 20 30 [7]) as (_ & g' & Hadd & Hpos & _ & Hfood).
  - vm_compute. reflexivity.
  - vm_compute. reflexivity.
  - exists g'. split; [exact Hadd|]. split; [|exact Hfood].
    rewrite Hpos. vm_compute. reflexivity.
Defined.

(** C10 (as stated) fails: the player's cell can be marked and present in the
    tile list.  In the game constructed from the draws 0, 0 the first food
    tile lies on [(0, 0)], the cell the player stands on. *)
Lemma player_cell_marked_counterexample :
  reachable food_on_player_manager /\
  GridSpace.pos (Player.tile (GameGrid.player (GameManager.game_grid food_on_player_manager)))
  = (0, 0) /\
  positions (GameManager.game_grid food_on_player_manager) = [(0, 0)] /\
  cell (GameGrid.occupied_grid (GameManager.game_grid food_on_player_manager)) 0 0 = 1 /\
  GameGrid.checkOccupied 0 0 (GameManager.game_grid food_on_player_manager) = Ok true.
Proof.
  split.
  - apply (reach_init true [0; 0] []). vm_compute. reflexivity.
  - vm_compute. repeat split.
Qed.

(** ** Placement and distinct cells *)








(** ** Save and rewind *)

Lemma saveGameState_below_capacity (m : GameManager.t) :
  Z.of_nat (length (GameManager.game_states m)) < MAX_SAVED_GAME_STATES ->
  GameManager.saveGameState m
  = GameManager.set_game_states
      (GameManager.game_states m ++ [GameState.init (GameManager.game_grid m)]) m.
Proof.
  intros Hlen. unfold GameManager.saveGameState.
  destruct (Z.leb_spec MAX_SAVED_GAME_STATES
              (Z.of_nat (length (GameManager.game_states m)))); [lia | reflexivity].
Qed.

Lemma saveGameState_game_grid (m : GameManager.t) :
  GameManager.game_grid (GameManager.saveGameState m) = GameManager.game_grid m.
Proof.
  unfold GameManager.saveGameState.
  destruct (MAX_SAVED_GAME_STATES <=? Z.of_nat (length (GameManager.game_states m)));
    reflexivity.
Qed.

(** Below the capacity no snapshot is evicted: the history grows by the
    snapshots of the pushed grids, in order. *)
Lemma push_all_states (gs : list GameGrid.t) :
  forall m : GameManager.t,
    Z.of_nat (length (GameManager.game_states m) + length gs) <= MAX_SAVED_GAME_STATES ->
    GameManager.game_states (push_all gs m)
    = GameManager.game_states m ++ map GameState.init gs.
Proof.
  induction gs as [|g gs IH]; intros m Hlen; cbn [push_all fold_left map].
  - rewrite app_nil_r. reflexivity.
  - cbn [length] in Hlen.
    fold (push_all gs (GameManager.saveGameState (GameManager.set_game_grid g m))).
    rewrite saveGameState_below_capacity by (cbn; lia).
    rewrite IH by (cbn; rewrite length_app; cbn; lia).
    cbn. rewrite <- app_assoc. reflexivity.
Qed.

(** The live grid after the pushes is one of the pushed grids. *)
Lemma push_all_grid (P : GameGrid.t -> Prop) (gs : list GameGrid.t) :
  forall m : GameManager.t,
    Forall P gs -> P (GameManager.game_grid m) ->
    P (GameManager.game_grid (push_all gs m)).
Proof.
  induction gs as [|g gs IH]; intros m Hgs Hm; cbn [push_all fold_left].
  - exact Hm.
  - apply Forall_cons in Hgs as [Hg Hgs].
    fold (push_all gs (GameManager.saveGameState (GameManager.set_game_grid g m))).
    apply IH; [exact Hgs|]. rewrite saveGameState_game_grid. exact Hg.
Qed.

Lemma food_positions_bounds (g : GameGrid.t) :
  grid_wf g -> Forall in_bounds (GameState.foods_loc (GameState.init g)).
Proof.
  intros Hwf. cbn. apply List.Forall_forall. intros p Hp.
  apply in_map_iff in Hp as (tile & <- & Ht).
  apply list_elem_of_In, list_elem_of_filter in Ht as [_ Ht].
  pose proof (wf_bounds g Hwf) as Hb. rewrite List.Forall_forall in Hb.
  apply Hb. unfold positions. apply in_map, list_elem_of_In, Ht.
Qed.

Lemma food_positions_nodup (g : GameGrid.t) :
  NoDup (positions g) -> NoDup (GameState.foods_loc (GameState.init g)).
Proof.
  unfold positions. cbn. induction (GameGrid.occupied_spaces g) as [|tile l IH];
    intros Hnd; [constructor|].
  cbn [map] in Hnd. apply NoDup_cons in Hnd as [Hnotin Hnd].
  destruct (decide (GridSpace.is_food tile = true)) as [Hf|Hf].
  - rewrite filter_cons_True by exact Hf. cbn [map]. apply NoDup_cons.
    split; [|exact (IH Hnd)].
    intros Hin. apply Hnotin. apply list_elem_of_In in Hin.
    apply in_map_iff in Hin as (t & Ht & Hin). apply list_elem_of_In.
    apply in_map_iff. exists t. split; [exact Ht|].
    apply list_elem_of_In, list_elem_of_filter in Hin as [_ Hin].
    apply list_elem_of_In, Hin.
  - rewrite filter_cons_False by exact Hf. exact (IH Hnd).
Qed.

(** [game_states[:-(N-1)]] keeps the first of [N] snapshots. *)
Lemma py_prefix_keep_first {A : Type} (a : A) (l : list A) :
  (1 <= length l)%nat ->
  py_prefix (a :: l) (- Z.of_nat (length l)) = [a].
Proof.
  intros Hlen. unfold py_prefix, py_bound. cbn [length].
  destruct (Z.ltb_spec (- Z.of_nat (length l)) 0); [|lia].
  replace (Z.to_nat (Z.max 0 (Z.of_nat (S (length l)) + - Z.of_nat (length l))))
    with 1%nat by lia.
  reflexivity.
Qed.

(** [l[-1]] is the last index of a non-empty list. *)
Lemma np_index_last (n : nat) : np_index (S n) (-1) = Ok n.
Proof.
  unfold np_index. cbn [Z.leb Z.compare andb].
  destruct (Z.leb_spec (- Z.of_nat (S n)) (-1)); [|lia]. cbn [andb Z.ltb Z.compare].
  f_equal. lia.
Qed.

(** In the pure model: from an empty history, push the snapshots of [N >= 2]
    grids, [N] at most the capacity, and call [rewind(N - 1)].  The call
    returns; the history is the first snapshot alone; the live player has the
    position, energy, score and food count of the first grid's player; the
    live tiles are food tiles at exactly the first grid's food cells. *)
Lemma rewind_round_trip (st : bool) (m0 : GameManager.t) (g1 : GameGrid.t)
  (gs : list GameGrid.t) (tp : tape) :
  GameManager.game_states m0 = [] ->
  (1 <= length gs)%nat ->
  Z.of_nat (S (length gs)) <= MAX_SAVED_GAME_STATES ->
  Forall grid_wf (g1 :: gs) -> NoDup (positions g1) ->
  exists m',
    GameManager.rewindGameState st (Z.of_nat (length gs)) (push_all (g1 :: gs) m0) tp
    = Ok (m', tp) /\
    GameManager.game_states m' = [GameState.init g1] /\
    (let p := GameGrid.player (GameManager.game_grid m') in
     let p1 := GameGrid.player g1 in
     GridSpace.pos (Player.tile p) = GridSpace.pos (Player.tile p1) /\
     Player.energy p = Player.energy p1 /\
     Player.score p = Player.score p1 /\
     Player.food_eaten p = Player.food_eaten p1) /\
    positions (GameManager.game_grid m')
    = map GridSpace.pos
        (filter (fun tile => GridSpace.is_food tile = true) (GameGrid.occupied_spaces g1)) /\
    Forall (fun tile => GridSpace.type tile = Some KFood)
      (GameGrid.occupied_spaces (GameManager.game_grid m')).
Proof.
  intros Hempty Hlen Hcap Hwf Hnd.
  pose proof (push_all_states (g1 :: gs) m0) as Hstates.
  rewrite Hempty in Hstates. cbn [app map length Nat.add] in Hstates.
  specialize (Hstates Hcap).
  assert (Hwf1 : grid_wf g1) by (apply Forall_cons in Hwf; tauto).
  assert (HwfN : grid_wf (GameManager.game_grid (push_all (g1 :: gs) m0))).
  { cbn [push_all fold_left].
    fold (push_all gs (GameManager.saveGameState (GameManager.set_game_grid g1 m0))).
    apply push_all_grid; [apply Forall_cons in Hwf; tauto|].
    rewrite saveGameState_game_grid. exact Hwf1. }
  set (mN := push_all (g1 :: gs) m0) in *.
  unfold GameManager.rewindGameState. rewrite Hstates. cbn [length].
  rewrite length_map.
  destruct (Z.leb_spec (Z.of_nat (S (length gs))) 1); [lia|].
  destruct (Z.leb_spec (Z.of_nat (S (length gs))) (Z.of_nat (length gs))); [lia|].
  cbn [GameManager.game_states GameManager.set_game_states].
  pose proof (py_prefix_keep_first (GameState.init g1) (map GameState.init gs)) as Hpre.
  rewrite length_map in Hpre. rewrite (Hpre Hlen).
  cbn [length]. rewrite np_index_last. unfold bindM at 1. cbn [lift lookup list_lookup].
  destruct (restoreGameState_spec st (GameState.init g1)
              (GameManager.set_game_states [GameState.init g1] mN) tp HwfN
              (food_positions_bounds g1 Hwf1) (food_positions_nodup g1 Hnd))
    as (g' & Hres & Hok' & Hp' & Hpos').
  rewrite Hres. eexists. split; [reflexivity|].
  cbn [GameManager.game_states GameManager.set_game_states GameManager.set_game_grid
       GameManager.game_grid].
  split; [reflexivity|]. split; [rewrite Hp'; cbn; repeat split|].
  split; [exact Hpos'|]. exact (tiles_food g' Hok').
Qed.

Example rewind_round_trip_example :
  exists m',
    GameManager.rewindGameState true 1
      (push_all [GameManager.game_grid fresh_manager; GameManager.game_grid ticked_manager]
         fresh_manager) []
    = Ok (m', []) /\
    GameManager.game_states m' = [GameState.init (GameManager.game_grid fresh_manager)] /\
    positions (GameManager.game_grid m') = [(3, 2)] /\
    Player.energy (GameGrid.player (GameManager.game_grid m')) = 100.
Proof.
  assert (Hfresh : reachable fresh_manager).
  { apply (reach_init true [3; 2] []). vm_compute. reflexivity. }
  assert (Hticked : reachable ticked_manager).
  { apply (reach_tick true [0] [] fresh_manager); [exact Hfresh|].
    vm_compute. reflexivity. }
  pose proof (reachable_inv _ Hfresh) as Hinv1.
  pose proof (reachable_inv _ Hticked) as Hinv2.
  destruct (rewind_round_trip true fresh_manager
              (GameManager.game_grid fresh_manager)
              [GameManager.game_grid ticked_manager] [])
    as (m' & Hrew & Hstates & (_ & Henergy & _) & Hpos & _).
  - vm_compute. reflexivity.
  - cbn. lia.
  - cbn. unfold MAX_SAVED_GAME_STATES, MAX_ENERGY. lia.
  - constructor; [apply Hinv1 | constructor; [apply Hinv2 | constructor]].
  - apply Hinv1.
  - exists m'. split; [exact Hrew|]. split; [exact Hstates|]. split.
    + rewrite Hpos. vm_compute. reflexivity.
    + rewrite Henergy. vm_compute. reflexivity.
Qed.

(** ** The counting scan, draw by draw *)

(** A counting pass returns the free cell number [choice - count] of the
    cells it visits, and falls through, having counted them all, when there
    are not that many. *)
Lemma scan_pass_spec (og : list (list Z)) (choice : Z) (cells : list (Z * Z)) :
  shape 10 10 og ->
  Forall (fun c => 0 <= c.1 < 10 /\ 0 <= c.2 < 10) cells ->
  forall count : Z,
    GameGrid.scan_pass og choice cells count
    = Ok (match filter (fun c => cell og c.1 c.2 = 0) cells !! Z.to_nat (choice - count) with
          | Some c => inl c
          | None =>
              inr (count + Z.of_nat (length (filter (fun c => cell og c.1 c.2 = 0) cells)))
          end).
Proof.
  intros Hs Hcells. induction Hcells as [|[i j] cells [Hi Hj] Hrest IH];
    intros count; cbn [GameGrid.scan_pass].
  - cbn. rewrite Z.add_0_r. reflexivity.
  - cbn [fst snd] in Hi, Hj.
    rewrite (np_get2_in_range 10 10) by (try assumption; lia). cbn [bind].
    destruct (Z.eqb_spec (cell og i j) 0) as [Hz|Hnz].
    + rewrite filter_cons_True by exact Hz.
      destruct (Z.leb_spec choice count) as [Hle|Hgt].
      * replace (Z.to_nat (choice - count)) with 0%nat by lia. reflexivity.
      * rewrite IH.
        replace (Z.to_nat (choice - count)) with (S (Z.to_nat (choice - (count + 1))))
          by lia.
        change (((i, j) :: filter (fun c => cell og c.1 c.2 = 0) cells)
                !! S (Z.to_nat (choice - (count + 1))))
          with (filter (fun c => cell og c.1 c.2 = 0) cells
                !! Z.to_nat (choice - (count + 1))).
        destruct (filter (fun c => cell og c.1 c.2 = 0) cells
                  !! Z.to_nat (choice - (count + 1))); [reflexivity|].
        cbn [length]. do 2 f_equal. lia.
    + rewrite filter_cons_False by exact Hnz. apply IH.
Qed.

(** The draw [choice = k] below the number of free cells returns free cell
    number [k]; the draw [choice = number of free cells], which
    [randint(0, empty_left)] allows, falls through the first pass and makes
    the second pass return free cell number 0 again. *)
Lemma scan_empty_by_choice (g : GameGrid.t) :
  grid_wf g ->
  (forall (k : nat) (c : Z * Z),
      empty_cells g !! k = Some c -> GameGrid.scan_empty g (Z.of_nat k) = Ok c) /\
  (forall c : Z * Z,
      empty_cells g !! 0%nat = Some c ->
      GameGrid.scan_empty g (Z.of_nat (length (empty_cells g))) = Ok c).
Proof.
  intros Hwf.
  assert (Hcells : Forall (fun c => 0 <= c.1 < 10 /\ 0 <= c.2 < 10)
                     (GameGrid.scan_order (GameGrid.width g) (GameGrid.height g))).
  { rewrite (wf_width g Hwf), (wf_height g Hwf).
    apply List.Forall_forall. intros c' Hc'. apply scan_order_bounds in Hc'. exact Hc'. }
  pose proof (scan_pass_spec (GameGrid.occupied_grid g)) as Hpass.
  unfold empty_cells, GameGrid.scan_empty. split.
  - intros k c Hk.
    rewrite (Hpass _ _ (wf_shape g Hwf) Hcells). cbn [bind].
    replace (Z.to_nat (Z.of_nat k - 0)) with k by lia. rewrite Hk. reflexivity.
  - intros c Hc.
    rewrite (Hpass _ _ (wf_shape g Hwf) Hcells). cbn [bind].
    match goal with |- context [filter ?P ?l !! Z.to_nat ?e] =>
      replace (Z.to_nat e) with (length (filter P l)) by lia
    end.
    rewrite lookup_ge_None_2 by lia.
    rewrite (Hpass _ _ (wf_shape g Hwf) Hcells). cbn [bind].
    match goal with |- context [filter ?P ?l !! Z.to_nat ?e] =>
      replace (Z.to_nat e) with 0%nat by lia
    end.
    rewrite Hc. reflexivity.
Qed.

(** ** Rewind requests that return *)

Lemma py_prefix_length {A : Type} (l : list A) (k : Z) :
  k <> 0 -> (2 <= length l)%nat -> k < Z.of_nat (length l) ->
  (1 <= length (py_prefix l (- k)))%nat.
Proof.
  intros Hk Hlen Hlt. unfold py_prefix, py_bound. rewrite length_take.
  destruct (Z.ltb_spec (- k) 0); lia.
Qed.

(** Every request other than [n = 0] returns, and the state it leaves
    satisfies the invariant of the game. *)
Lemma rewind_returns (st : bool) (n : Z) (m : GameManager.t) (tp : tape) :
  manager_inv m -> n <> 0 ->
  exists m', GameManager.rewindGameState st n m tp = Ok (m', tp) /\ manager_inv m'.
Proof.
  intros Hinv Hn.
  assert (Hret : exists m', GameManager.rewindGameState st n m tp = Ok (m', tp)).
  { unfold GameManager.rewindGameState.
    destruct (Z.leb_spec (Z.of_nat (length (GameManager.game_states m))) 1) as [Hle|Hgt].
    - exists m. reflexivity.
    - match goal with
      | |- context [py_prefix (GameManager.game_states m) (- ?k)] =>
          pose proof (py_prefix_length (GameManager.game_states m) k) as Hpre;
          set (hist := py_prefix (GameManager.game_states m) (- k)) in *
      end.
      assert (Hlen : (1 <= length hist)%nat).
      { apply Hpre.
        - destruct (Z.leb_spec (Z.of_nat (length (GameManager.game_states m))) n); lia.
        - lia.
        - destruct (Z.leb_spec (Z.of_nat (length (GameManager.game_states m))) n); lia. }
      assert (Hhist : Forall snapshot_ok hist).
      { subst hist. unfold py_prefix. apply Forall_take, Hinv. }
      cbn [GameManager.game_states GameManager.set_game_states].
      destruct (length hist) as [|j] eqn:Ej; [lia|].
      rewrite np_index_last. unfold bindM at 1. cbn [lift].
      destruct (lookup_lt_is_Some_2 hist j ltac:(lia)) as [s Hs].
      rewrite Hs.
      assert (Hok : snapshot_ok s) by (rewrite Forall_lookup in Hhist; exact (Hhist j s Hs)).
      destruct (restoreGameState_spec st s (GameManager.set_game_states hist m) tp)
        as (g' & Hres & _); [apply Hinv | apply Hok | apply Hok |].
      rewrite Hres. eexists. reflexivity. }
  destruct Hret as [m' Hm']. exists m'. split; [exact Hm'|].
  exact (rewind_inv st n m m' tp tp Hinv Hm').
Qed.

(** * Further properties of the code *)

(** ** Player.move at the walls *)

(** X1. A living player on the grid stays on the grid whatever integer is passed
    as direction, and moves by at most one step; against a wall, or with a
    direction outside 0..3, the position is unchanged.  The cost is deducted
    in every case, and the player survives exactly when the energy left is
    not negative. *)
Theorem move_stays_on_grid (direction difficulty : Z) (p : Player.t) :
  Player.alive p = true -> in_bounds (GridSpace.pos (Player.tile p)) ->
  let x := GridSpace.x (Player.tile p) in
  let y := GridSpace.y (Player.tile p) in
  let p' := (Player.move direction difficulty p).1 in
  let x' := GridSpace.x (Player.tile p') in
  let y' := GridSpace.y (Player.tile p') in
  (Player.move direction difficulty p).2 = (x', y') /\
  in_bounds (x', y') /\
  Z.abs (x' - x) + Z.abs (y' - y) <= 1 /\
  (blocked direction x y <-> (x', y') = (x, y)) /\
  Player.energy p' = Player.energy p - difficulty /\
  (Player.alive p' = true <-> 0 <= Player.energy p - difficulty).
Proof.
  intros Halive [Hx Hy]. cbn zeta.
  destruct (move_alive direction difficulty p Halive)
    as (Hret & He & Ha & _ & _ & _ & _ & _).
  split; [exact Hret|]. rewrite He, Ha.
  assert (Hlive : negb (Player.energy p - difficulty <? 0) = true
                  <-> 0 <= Player.energy p - difficulty).
  { destruct (Z.ltb_spec (Player.energy p - difficulty) 0); cbn; split;
      intros; try lia; try discriminate; reflexivity. }
  cut (let x' := GridSpace.x (Player.tile (Player.move direction difficulty p).1) in
       let y' := GridSpace.y (Player.tile (Player.move direction difficulty p).1) in
       in_bounds (x', y') /\
       Z.abs (x' - GridSpace.x (Player.tile p)) + Z.abs (y' - GridSpace.y (Player.tile p)) <= 1 /\
       (blocked direction (GridSpace.x (Player.tile p)) (GridSpace.y (Player.tile p))
        <-> (x', y') = (GridSpace.x (Player.tile p), GridSpace.y (Player.tile p)))).
  { cbn zeta. tauto. }
  unfold Player.move. rewrite Halive. cbn [fst].
  match goal with |- context [Player.useEnergy difficulty ?q] =>
    replace (Player.tile (Player.useEnergy difficulty q)) with (Player.tile q)
      by (symmetry; apply useEnergy_spec)
  end.
  cbn [Player.tile Player.set_tile].
  unfold in_bounds, blocked, GridSpace.pos in *. cbn [fst snd] in *.
  unfold GAME_GRID_HEIGHT, GAME_GRID_WIDTH in *.
  destruct (Z.eqb_spec direction 0); [|destruct (Z.eqb_spec direction 1);
    [|destruct (Z.eqb_spec direction 2); [|destruct (Z.eqb_spec direction 3)]]];
    repeat match goal with
           | |- context [if Z.ltb ?a ?b then _ else _] => destruct (Z.ltb_spec a b)
           end;
    cbn [GridSpace.x GridSpace.y GridSpace.set_x GridSpace.set_y];
    (split; [lia|]); (split; [lia|]);
    (split; [intros Hb; f_equal; lia
            | intros E; pose proof (f_equal fst E) as E1; pose proof (f_equal snd E) as E2;
              cbn [fst snd] in E1, E2; lia]).
Qed.

Lemma move_stays_on_grid_witness :
  Player.move WEST 1 (Player.init 0 5) = (Player.useEnergy 1 (Player.init 0 5), (0, 5)) /\
  Player.energy (Player.move WEST 1 (Player.init 0 5)).1 = 99.
Proof.
  destruct (move_stays_on_grid WEST 1 (Player.init 0 5) eq_refl)
    as (Hret & _ & _ & Hblocked & Henergy & _).
  - split; cbn; unfold GAME_GRID_HEIGHT, GAME_GRID_WIDTH; lia.
  - split; [reflexivity | exact Henergy].
Defined.

(** ** Queries, placement and removal on a grid of food tiles *)

Lemma find_position (x y : Z) (l : list GridSpace.t) :
  (x, y) ∈ map GridSpace.pos l ->
  exists tile,
    find (fun tile => (GridSpace.x tile =? x) && (GridSpace.y tile =? y)) l = Some tile /\
    In tile l.
Proof.
  intros Hin. apply list_elem_of_In, in_map_iff in Hin as (t & Hpos & Ht).
  destruct (find (fun tile => (GridSpace.x tile =? x) && (GridSpace.y tile =? y)) l)
    as [tile|] eqn:E.
  - exists tile. split; [reflexivity|]. apply find_some in E. tauto.
  - exfalso. pose proof (find_none _ _ E t Ht) as Hno. cbn beta in Hno.
    unfold GridSpace.pos in Hpos. injection Hpos as Hx Hy.
    rewrite Hx, Hy, !Z.eqb_refl in Hno. discriminate.
Qed.

Lemma checkForFood_food_grid (x y : Z) (g : GameGrid.t) :
  tiles_ok g -> GameGrid.checkForFood x y g = Ok (bool_decide ((x, y) ∈ positions g)).
Proof.
  intros Hok. pose proof (tiles_wf g Hok) as Hwf.
  unfold GameGrid.checkForFood. rewrite (checkOccupied_wf x y g Hwf). cbn [bind].
  destruct (decide ((x, y) ∈ positions g)) as [Hin|Hnotin].
  - assert (Hb : in_bounds (x, y)).
    { pose proof (wf_bounds g Hwf) as Hbs. rewrite List.Forall_forall in Hbs.
      apply Hbs, list_elem_of_In, Hin. }
    rewrite bool_decide_eq_true_2 by auto.
    rewrite (bool_decide_eq_true_2 _ Hin).
    unfold GameGrid.getTile. rewrite (proj2 (checkValidTile_spec x y) Hb). cbn [negb].
    destruct (find_position x y _ Hin) as (tile & -> & Ht).
    pose proof (tiles_food g Hok) as Hfood. rewrite List.Forall_forall in Hfood.
    unfold GridSpace.is_food. rewrite (Hfood tile Ht). reflexivity.
  - rewrite bool_decide_eq_false_2 by tauto.
    rewrite (bool_decide_eq_false_2 _ Hnotin). reflexivity.
Qed.

Lemma removeTile_food_grid (x y : Z) (g : GameGrid.t) :
  tiles_ok g ->
  exists g',
    GameGrid.removeTile x y g
    = Ok (g', if bool_decide ((x, y) ∈ positions g) then Some KFood else None) /\
    tiles_ok g' /\ GameGrid.player g' = GameGrid.player g /\
    GameGrid.occupied_spaces g'
    = filter (fun tile => GridSpace.pos tile <> (x, y)) (GameGrid.occupied_spaces g).
Proof.
  intros Hok.
  destruct (removeTile_wf x y g (tiles_wf g Hok) (tiles_nodup g Hok))
    as (g' & k & Hrm & Hwf' & Hp & Hl & Hk).
  exists g'. split; [|split; [exact (tiles_ok_filter _ _ _ Hok Hwf' Hl)|auto]].
  rewrite Hrm. do 2 f_equal.
  unfold GameGrid.removeTile in Hrm.
  rewrite (checkOccupied_wf x y g (tiles_wf g Hok)) in Hrm. cbn [bind] in Hrm.
  destruct (decide ((x, y) ∈ positions g)) as [Hin|Hnotin].
  - rewrite (bool_decide_eq_true_2 _ Hin).
    assert (Hb : in_bounds (x, y)).
    { pose proof (wf_bounds g (tiles_wf g Hok)) as Hbs. rewrite List.Forall_forall in Hbs.
      apply Hbs, list_elem_of_In, Hin. }
    rewrite bool_decide_eq_true_2 in Hrm by auto.
    apply bind_Ok in Hrm as (og & _ & Hrm).
    destruct (remove_loop_nodup x y (GameGrid.occupied_spaces g) None
                (tiles_nodup g Hok) Hin) as (tile & Ht & _ & Hloop).
    rewrite Hloop in Hrm. cbn [fst snd] in Hrm. injection Hrm as _ <-.
    pose proof (tiles_food g Hok) as Hfood. rewrite List.Forall_forall in Hfood.
    exact (Hfood tile Ht).
  - rewrite (bool_decide_eq_false_2 _ Hnotin).
    rewrite bool_decide_eq_false_2 in Hrm by tauto. injection Hrm as _ <-. reflexivity.
Qed.

Lemma movePlayer_contract (st : bool) (direction : Z) (g : GameGrid.t) :
  tiles_ok g ->
  let mv := Player.move direction 1 (GameGrid.player g) in
  exists g',
    GameGrid.movePlayer st direction g = Ok g' /\
    GameGrid.player g'
    = (if bool_decide (mv.2 ∈ positions g) then Player.eatFood mv.1 else mv.1) /\
    positions g' = filter (fun c => c <> mv.2) (positions g) /\
    tiles_ok g'.
Proof.
  intros Hok. cbn zeta. unfold GameGrid.movePlayer.
  set (mv := Player.move direction 1 (GameGrid.player g)).
  pose proof (tiles_ok_set_player mv.1 g Hok) as Hok1.
  destruct (removeTile_food_grid mv.2.1 mv.2.2 _ Hok1) as (g1 & Hrm & Hok2 & Hp1 & Hl1).
  rewrite Hrm. cbn [bind fst snd].
  change (positions (GameGrid.set_player mv.1 g)) with (positions g).
  replace (mv.2.1, mv.2.2) with mv.2 in * by (destruct (mv.2); reflexivity).
  assert (Hpos : positions g1 = filter (fun c => c <> mv.2) (positions g)).
  { unfold positions. rewrite Hl1. apply positions_filter. }
  destruct (bool_decide (mv.2 ∈ positions g)).
  - pose proof (tiles_ok_set_player (Player.eatFood (GameGrid.player g1)) g1 Hok2)
      as Hok3.
    destruct (calcSmellMatrix_wf st _ (tiles_wf _ Hok3)) as [sg Hsg].
    rewrite Hsg. eexists. split; [reflexivity|].
    split; [cbn; rewrite Hp1; reflexivity|].
    split; [exact Hpos | apply tiles_ok_set_smell_grid, Hok3].
  - exists g1. split; [reflexivity|]. split; [exact Hp1|]. split; [exact Hpos | exact Hok2].
Qed.

(** X2. The contract of [movePlayer] on a grid of food tiles at distinct cells:
    it returns; the player is moved, and fed exactly when a food tile lay on
    the cell it arrives at (or stays on); that tile, and no other, is removed. *)
Theorem movePlayer_feeds_on_arrival (st : bool) (direction : Z) (g : GameGrid.t) :
  tiles_ok g ->
  let mv := Player.move direction 1 (GameGrid.player g) in
  exists g',
    GameGrid.movePlayer st direction g = Ok g' /\
    GameGrid.player g'
    = (if bool_decide (mv.2 ∈ positions g) then Player.eatFood mv.1 else mv.1) /\
    positions g' = filter (fun c => c <> mv.2) (positions g) /\
    tiles_ok g'.
Proof. exact (movePlayer_contract st direction g). Qed.

Lemma tiles_ok_food_north : tiles_ok food_north_grid.
Proof.
  unfold food_north_grid.
  destruct (addTile_in_bounds (GridSpace.setFood (GridSpace.init 0 0))
              (GameGrid.init 10 10) grid_wf_init) as [Hadd Hwf].
  { split; cbn; unfold GAME_GRID_HEIGHT, GAME_GRID_WIDTH; lia. }
  rewrite Hadd. apply tiles_ok_set_player. split.
  - exact Hwf.
  - apply (bool_decide_unpack _). vm_compute. exact I.
  - repeat constructor.
Qed.

Lemma movePlayer_feeds_on_arrival_witness :
  exists g', GameGrid.movePlayer true NORTH food_north_grid = Ok g' /\
    Player.food_eaten (GameGrid.player g') = 1 /\
    Player.score (GameGrid.player g') = 99 /\
    Player.energy (GameGrid.player g') = 100 /\
    positions g' = [].
Proof.
  destruct (movePlayer_feeds_on_arrival true NORTH food_north_grid tiles_ok_food_north)
    as (g' & Hmv & Hp & Hpos & _).
  exists g'. split; [exact Hmv|]. rewrite Hp, Hpos.
  repeat split; vm_compute; reflexivity.
Defined.

(** X3. Place a food tile on a free cell, then remove it: the placement is seen by
    [checkForFood], the removal returns the kind Food, and the tiles and the
    occupancy marks are what they were; removing once more finds nothing. *)
Theorem addFood_removeTile_round_trip (st : bool) (x y : Z) (g : GameGrid.t)
  (tp : tape) :
  tiles_ok g -> in_bounds (x, y) -> (x, y) ∉ positions g ->
  Z.of_nat (length (GameGrid.occupied_spaces g)) < NUM_SPACES ->
  exists g1 g2,
    GameGrid.addFood st x y g tp = Ok (g1, tp) /\
    GameGrid.checkForFood x y g1 = Ok true /\
    GameGrid.removeTile x y g1 = Ok (g2, Some KFood) /\
    GameGrid.occupied_spaces g2 = GameGrid.occupied_spaces g /\
    (forall a b, in_bounds (a, b) ->
       cell (GameGrid.occupied_grid g2) a b = cell (GameGrid.occupied_grid g) a b) /\
    GameGrid.checkForFood x y g2 = Ok false /\
    GameGrid.removeTile x y g2 = Ok (g2, None).
Proof.
  intros Hok Hb Hfree Hroom.
  destruct (addFood_free_tiles_ok st x y g tp Hok Hb Hfree Hroom)
    as (g1 & Hadd & Hok1 & _ & _ & _ & Hl1).
  assert (Hpos1 : positions g1 = positions g ++ [(x, y)])
    by (unfold positions; rewrite Hl1, map_app; reflexivity).
  assert (Hin1 : (x, y) ∈ positions g1).
  { rewrite Hpos1. apply elem_of_app. right. left. }
  destruct (removeTile_food_grid x y g1 Hok1) as (g2 & Hrm & Hok2 & _ & Hl2).
  rewrite (bool_decide_eq_true_2 _ Hin1) in Hrm.
  assert (Hspaces : GameGrid.occupied_spaces g2 = GameGrid.occupied_spaces g).
  { rewrite Hl2, Hl1, filter_app.
    rewrite (filter_no_match x y _ (not_in_positions _ _ Hfree)).
    rewrite filter_cons_False by (cbn; tauto). apply app_nil_r. }
  assert (Hpos2 : positions g2 = positions g) by (unfold positions; rewrite Hspaces; reflexivity).
  assert (Hfree2 : (x, y) ∉ positions g2) by (rewrite Hpos2; exact Hfree).
  exists g1, g2. split; [exact Hadd|]. split.
  { rewrite (checkForFood_food_grid x y g1 Hok1).
    rewrite (bool_decide_eq_true_2 _ Hin1). reflexivity. }
  split; [exact Hrm|]. split; [exact Hspaces|]. split.
  { intros a b [Ha Hb']. cbn [fst snd] in Ha, Hb'.
    rewrite (wf_marks g2 (tiles_wf g2 Hok2) a b Ha Hb').
    rewrite (wf_marks g (tiles_wf g Hok) a b Ha Hb'). rewrite Hpos2. reflexivity. }
  split.
  { rewrite (checkForFood_food_grid x y g2 Hok2).
    rewrite (bool_decide_eq_false_2 _ Hfree2). reflexivity. }
  destruct (removeTile_food_grid x y g2 Hok2) as (g3 & Hrm3 & _).
  rewrite (bool_decide_eq_false_2 _ Hfree2) in Hrm3.
  unfold GameGrid.removeTile in Hrm3 |- *.
  rewrite (checkOccupied_wf x y g2 (tiles_wf g2 Hok2)) in Hrm3 |- *.
  rewrite bool_decide_eq_false_2 by tauto. reflexivity.
Qed.

Lemma addFood_removeTile_round_trip_witness :
  exists g1 g2,
    GameGrid.addFood true 4 4 food_north_grid [] = Ok (g1, []) /\
    GameGrid.removeTile 4 4 g1 = Ok (g2, Some KFood) /\
    GameGrid.occupied_spaces g2 = GameGrid.occupied_spaces food_north_grid.
Proof.
  destruct (addFood_removeTile_round_trip true 4 4 food_north_grid []
              tiles_ok_food_north)
    as (g1 & g2 & Hadd & _ & Hrm & Hsp & _).
  - split; cbn; unfold GAME_GRID_HEIGHT, GAME_GRID_WIDTH; lia.
  - vm_compute. intros Hin. apply list_elem_of_In in Hin.
    destruct Hin as [E|[]]. discriminate E.
  - vm_compute. reflexivity.
  - exists g1, g2. auto.
Defined.

(** ** The bounds test of genTile *)

Lemma np_index_at_length (n : nat) : np_index n (Z.of_nat n) = Raise IndexError.
Proof.
  unfold np_index.
  destruct (Z.ltb_spec (Z.of_nat n) (Z.of_nat n)); [lia|].
  destruct (Z.ltb_spec (Z.of_nat n) 0); [lia|].
  rewrite !andb_false_r. reflexivity.
Qed.

(** X4. [genTile] compares with [>] where [checkValidTile] compares with [<]:
    a requested coordinate equal to the grid size passes the test, no cell is
    drawn, and [addTile] raises [IndexError] on the occupancy array. *)
Theorem addFood_at_grid_size_faults (st : bool) (x y : Z) (g : GameGrid.t) (tp : tape) :
  grid_wf g ->
  Z.of_nat (length (GameGrid.occupied_spaces g)) < NUM_SPACES ->
  (x = GAME_GRID_WIDTH /\ 0 <= y <= GAME_GRID_HEIGHT) \/
  (0 <= x <= GAME_GRID_WIDTH /\ y = GAME_GRID_HEIGHT) ->
  GameGrid.checkValidTile x y = false /\
  GameGrid.addFood st x y g tp = Raise IndexError /\
  GameGrid.addPlayer x y g tp = Raise IndexError.
Proof.
  intros Hwf Hroom Hxy.
  assert (Hgen : GameGrid.genTile x y g tp = Ok (Some (GridSpace.init x y), tp)).
  { unfold GameGrid.genTile.
    destruct (Z.leb_spec NUM_SPACES (Z.of_nat (length (GameGrid.occupied_spaces g))));
      [lia|].
    unfold GAME_GRID_HEIGHT, GAME_GRID_WIDTH in *.
    destruct (Z.ltb_spec x 0); [lia|]. destruct (Z.ltb_spec 10 x); [lia|].
    destruct (Z.ltb_spec y 0); [lia|]. destruct (Z.ltb_spec 10 y); [lia|].
    reflexivity. }
  assert (Hset : forall v, np_set2 (GameGrid.occupied_grid g) x y v = Raise IndexError).
  { intros v. pose proof (wf_shape g Hwf) as Hs. pose proof Hs as [Hlen _].
    unfold np_set2. rewrite Hlen.
    unfold GAME_GRID_HEIGHT, GAME_GRID_WIDTH in *.
    destruct (decide (x = 10)) as [->|Hx].
    - exact (f_equal (fun r => bind r _) (np_index_at_length 10)).
    - rewrite np_index_in_range by lia. cbn [bind].
      destruct (shape_lookup 10 10 _ (Z.to_nat x) Hs) as (row & -> & Hrl); [lia|].
      rewrite Hrl. assert (y = 10) as -> by lia.
      exact (f_equal (fun r => bind r _) (np_index_at_length 10)). }
  split; [|split].
  - unfold GameGrid.checkValidTile, GAME_GRID_HEIGHT, GAME_GRID_WIDTH in *.
    destruct (Z.ltb_spec x 10), (Z.ltb_spec y 10); try lia;
      destruct ((0 <=? x) && (0 <=? y)); reflexivity.
  - unfold GameGrid.addFood, bindM. rewrite Hgen. unfold lift, GameGrid.addTile.
    cbn [GameGrid.occupied_grid GameGrid.set_occupied_spaces GridSpace.setFood
         GridSpace.init GridSpace.x GridSpace.y].
    rewrite Hset. reflexivity.
  - unfold GameGrid.addPlayer, bindM. rewrite Hgen. unfold lift, GameGrid.addTile.
    cbn [GameGrid.occupied_grid GameGrid.set_occupied_spaces GridSpace.setPlayer
         GridSpace.init GridSpace.x GridSpace.y].
    rewrite Hset. reflexivity.
Qed.

Lemma addFood_at_grid_size_faults_witness :
  GameGrid.addFood true 10 3 (GameGrid.init 10 10) [] = Raise IndexError.
Proof.
  apply (addFood_at_grid_size_faults true 10 3 (GameGrid.init 10 10) [] grid_wf_init).
  - vm_compute. reflexivity.
  - left. unfold GAME_GRID_HEIGHT, GAME_GRID_WIDTH. lia.
Defined.

(** ** Placement on a full grid *)

(** X5. When the tile list has [NUM_SPACES] entries or more, placement adds
    nothing, whatever position is requested, and draws nothing from the
    random source: [addPlayer] returns the grid as it is, [addFood] only
    recomputes the scent field. *)
Theorem placement_on_full_grid (st : bool) (x y : Z) (g : GameGrid.t) (tp : tape) :
  GameGrid.width g = GAME_GRID_WIDTH -> GameGrid.height g = GAME_GRID_HEIGHT ->
  Forall in_bounds (positions g) ->
  NUM_SPACES <= Z.of_nat (length (GameGrid.occupied_spaces g)) ->
  GameGrid.genTile x y g tp = Ok (None, tp) /\
  GameGrid.addPlayer x y g tp = Ok (g, tp) /\
  exists sg, GameGrid.addFood st x y g tp = Ok (GameGrid.set_smell_grid sg g, tp).
Proof.
  intros Hw Hh Hb Hfull.
  assert (Hgen : GameGrid.genTile x y g tp = Ok (None, tp)).
  { unfold GameGrid.genTile.
    destruct (Z.leb_spec NUM_SPACES (Z.of_nat (length (GameGrid.occupied_spaces g))));
      [reflexivity | lia]. }
  split; [exact Hgen|]. split.
  - unfold GameGrid.addPlayer, bindM. rewrite Hgen. reflexivity.
  - destruct (calcSmellMatrix_ok st g Hw Hh Hb) as [sg Hsg]. exists sg.
    unfold GameGrid.addFood, bindM. rewrite Hgen. cbn [ret lift]. rewrite Hsg.
    reflexivity.
Qed.

Lemma placement_on_full_grid_witness :
  length (GameGrid.occupied_spaces full_grid) = 100%nat /\
  GameGrid.addPlayer (-1) (-1) full_grid [1; 2] = Ok (full_grid, [1; 2]).
Proof.
  split; [vm_compute; reflexivity|].
  apply (placement_on_full_grid true (-1) (-1) full_grid [1; 2]).
  - vm_compute. reflexivity.
  - vm_compute. reflexivity.
  - apply (bool_decide_unpack _). vm_compute. exact I.
  - vm_compute. discriminate.
Defined.

(** ** Snapshots: restore, then capture *)

Lemma restore_capture (st : bool) (s : GameState.t) (m : GameManager.t)
  (tp : tape) :
  grid_wf (GameManager.game_grid m) ->
  Forall in_bounds (GameState.foods_loc s) -> NoDup (GameState.foods_loc s) ->
  exists m',
    GameManager.restoreGameState st s m tp = Ok (m', tp) /\
    GameState.init (GameManager.game_grid m') = s /\
    Player.alive (GameGrid.player (GameManager.game_grid m')) = true /\
    GameManager.game_states m' = GameManager.game_states m /\
    GameManager.round m' = GameManager.round m /\
    GameManager.round_scores m' = GameManager.round_scores m.
Proof.
  intros Hwf Hb Hnd.
  destruct (restoreGameState_spec st s m tp Hwf Hb Hnd) as (g' & Hres & Hok & Hp & Hpos).
  eexists. split; [exact Hres|].
  cbn [GameManager.game_grid GameManager.set_game_grid GameManager.game_states
       GameManager.round GameManager.round_scores].
  split; [|split; [rewrite Hp; reflexivity | auto]].
  unfold GameState.init. rewrite (filter_all_food _ (tiles_food g' Hok)).
  fold (positions g'). rewrite Hpos, Hp. destruct s; reflexivity.
Qed.

(** X6. Restoring a snapshot whose food cells are distinct cells of the grid
    returns without a draw, and the snapshot of the restored grid is the
    snapshot that was restored; history, round and ledger are not touched. *)
Theorem restore_then_capture (st : bool) (s : GameState.t) (m : GameManager.t)
  (tp : tape) :
  grid_wf (GameManager.game_grid m) ->
  Forall in_bounds (GameState.foods_loc s) -> NoDup (GameState.foods_loc s) ->
  exists m',
    GameManager.restoreGameState st s m tp = Ok (m', tp) /\
    GameState.init (GameManager.game_grid m') = s /\
    Player.alive (GameGrid.player (GameManager.game_grid m')) = true /\
    GameManager.game_states m' = GameManager.game_states m /\
    GameManager.round m' = GameManager.round m /\
    GameManager.round_scores m' = GameManager.round_scores m.
Proof. exact (restore_capture st s m tp). Qed.

Lemma restore_then_capture_witness :
  exists m',
    GameManager.restoreGameState true (GameState.mk 2 3 50 4 300 [(1, 1); (7, 8)])
      fresh_manager [9]
    = Ok (m', [9]) /\
    GameState.init (GameManager.game_grid m')
    = GameState.mk 2 3 50 4 300 [(1, 1); (7, 8)].
Proof.
  destruct (restore_then_capture true (GameState.mk 2 3 50 4 300 [(1, 1); (7, 8)])
              fresh_manager [9]) as (m' & Hres & Hcap & _).
  - apply reachable_inv. apply (reach_init true [3; 2] []). vm_compute. reflexivity.
  - repeat constructor; cbn; unfold GAME_GRID_HEIGHT, GAME_GRID_WIDTH; lia.
  - apply (bool_decide_unpack _). vm_compute. exact I.
  - exists m'. auto.
Defined.

(** ** History and ledger in reachable states *)

Lemma restore_history_fields (st : bool) (s : GameState.t) (m m' : GameManager.t)
  (tp tp' : tape) :
  GameManager.restoreGameState st s m tp = Ok (m', tp') ->
  GameManager.game_states m' = GameManager.game_states m /\
  GameManager.round m' = GameManager.round m /\
  GameManager.round_scores m' = GameManager.round_scores m.
Proof.
  unfold GameManager.restoreGameState. intros H.
  apply bindM_Ok in H as (g & tp1 & _ & H). apply ret_Ok in H as [-> _].
  repeat split.
Qed.

Lemma saveGameState_history (m : GameManager.t) :
  Z.of_nat (length (GameManager.game_states m)) <= MAX_SAVED_GAME_STATES ->
  history_inv (GameManager.set_game_states [] m) ->
  history_inv (GameManager.saveGameState m).
Proof.
  intros Hlen [_ _ Hledger]. cbn in Hledger. unfold GameManager.saveGameState.
  destruct (Z.leb_spec MAX_SAVED_GAME_STATES
              (Z.of_nat (length (GameManager.game_states m)))); split; cbn;
    try exact Hledger; try (right; apply last_snoc).
  - unfold py_suffix. rewrite length_app, length_drop. cbn.
    unfold py_bound. cbn. unfold MAX_SAVED_GAME_STATES, MAX_ENERGY in *. lia.
  - rewrite length_app. cbn. lia.
Qed.

Lemma logicTick_history (st : bool) (m m' : GameManager.t) (tp tp' : tape) :
  history_inv m -> GameManager.logicTick st m tp = Ok (m', tp') -> history_inv m'.
Proof.
  intros [Hlen Hlast Hledger] H. unfold GameManager.logicTick in H.
  apply bindM_Ok in H as (g & tp1 & _ & H). apply ret_Ok in H as [-> ->].
  assert (Hend : forall m0, Z.of_nat (length (GameManager.round_scores m0))
                            = GameManager.round m0 ->
                   history_inv (GameManager.saveGameState (GameManager.endRound m0))).
  { intros m0 Hl. apply saveGameState_history; cbn.
    - unfold MAX_SAVED_GAME_STATES, MAX_ENERGY. lia.
    - split; cbn; [unfold MAX_SAVED_GAME_STATES, MAX_ENERGY; lia | left; reflexivity|].
      rewrite length_app. cbn. lia. }
  unfold GameManager.checkEndStates.
  cbn [GameManager.game_grid GameManager.set_game_grid].
  destruct (FOOD_PER_ROUND <=? Player.food_eaten (GameGrid.player g)).
  - apply Hend. exact Hledger.
  - destruct (negb (Player.alive (GameGrid.player g))).
    + apply Hend. exact Hledger.
    + apply saveGameState_history; [exact Hlen|].
      split; cbn; [unfold MAX_SAVED_GAME_STATES, MAX_ENERGY; lia | left; reflexivity|].
      exact Hledger.
Qed.

Lemma rewind_history (st : bool) (n : Z) (m m' : GameManager.t) (tp tp' : tape) :
  manager_inv m -> history_inv m ->
  GameManager.rewindGameState st n m tp = Ok (m', tp') -> history_inv m'.
Proof.
  intros Hinv [Hlen Hlast Hledger] H. unfold GameManager.rewindGameState in H.
  destruct (Z.of_nat (length (GameManager.game_states m)) <=? 1).
  - apply ret_Ok in H as [-> ->]. split; assumption.
  - match type of H with
    | context [py_prefix (GameManager.game_states m) ?k] =>
        set (hist := py_prefix (GameManager.game_states m) k) in H
    end.
    assert (Hhist : Forall snapshot_ok hist).
    { subst hist. unfold py_prefix. apply Forall_take, Hinv. }
    assert (Hhlen : (length hist <= length (GameManager.game_states m))%nat).
    { subst hist. unfold py_prefix. rewrite length_take. lia. }
    apply bindM_Ok in H as (i & tp1 & Hi & H).
    cbn [GameManager.game_states GameManager.set_game_states] in H, Hi.
    apply lift_Ok in Hi as [Hi ->].
    destruct (hist !! i) as [s|] eqn:Es; [|discriminate].
    assert (Hlasts : last hist = Some s).
    { destruct (length hist) as [|j] eqn:Ej.
      - apply lookup_lt_Some in Es. lia.
      - rewrite np_index_last in Hi. injection Hi as <-.
        rewrite last_lookup, Ej. exact Es. }
    assert (Hs : snapshot_ok s) by (rewrite Forall_lookup in Hhist; exact (Hhist i s Es)).
    destruct (restore_capture st s (GameManager.set_game_states hist m) tp)
      as (m2 & Hres & Hcap & _ & Hgs & Hr & Hrs).
    + apply Hinv.
    + apply Hs.
    + apply Hs.
    + rewrite Hres in H. injection H as <- <-. split.
      * rewrite Hgs. cbn. lia.
      * right. rewrite Hgs, Hcap. exact Hlasts.
      * rewrite Hr, Hrs. exact Hledger.
Qed.

Lemma reachable_history_inv (m : GameManager.t) : reachable m -> history_inv m.
Proof.
  induction 1 as [st tp tp' m Hinit | st tp tp' m m' Hm IH Htick
                 | st n tp tp' m m' Hm IH Hrew | m _ IH].
  - unfold GameManager.init in Hinit.
    apply bindM_Ok in Hinit as (g & tp1 & _ & H). apply ret_Ok in H as [-> _].
    split; cbn; [unfold MAX_SAVED_GAME_STATES, MAX_ENERGY; lia | left; reflexivity
                | reflexivity].
  - exact (logicTick_history st m m' tp tp' IH Htick).
  - exact (rewind_history st n m m' tp tp' (reachable_inv m Hm) IH Hrew).
  - destruct IH as [H1 H2 H3]. split; assumption.
Qed.

(** X7. In every reachable state the history holds at most
    [MAX_SAVED_GAME_STATES] snapshots, and, unless it is empty, its last
    snapshot is the snapshot of the live grid. *)
Theorem history_bounded_and_current (m : GameManager.t) :
  reachable m ->
  Z.of_nat (length (GameManager.game_states m)) <= MAX_SAVED_GAME_STATES /\
  (GameManager.game_states m = [] \/
   last (GameManager.game_states m) = Some (GameState.init (GameManager.game_grid m))).
Proof.
  intros Hreach. destruct (reachable_history_inv m Hreach) as [H1 H2 _]. auto.
Qed.

Lemma history_bounded_and_current_witness :
  last (GameManager.game_states ticked_twice_manager)
  = Some (GameState.init (GameManager.game_grid ticked_twice_manager)).
Proof.
  destruct (history_bounded_and_current ticked_twice_manager) as [_ [Hnil|Hlast]].
  - apply (reach_tick true [0] [] ticked_manager); [|vm_compute; reflexivity].
    apply (reach_tick true [0] [] fresh_manager); [|vm_compute; reflexivity].
    apply (reach_init true [3; 2] []). vm_compute. reflexivity.
  - exfalso. vm_compute in Hnil. discriminate Hnil.
  - exact Hlast.
Defined.

(** X8. The round counter and the score ledger advance together: in every
    reachable state [round_scores] holds exactly [round] entries. *)
Theorem one_score_per_round (m : GameManager.t) :
  reachable m ->
  Z.of_nat (length (GameManager.round_scores m)) = GameManager.round m.
Proof.
  intros Hreach. exact (hist_ledger m (reachable_history_inv m Hreach)).
Qed.

Lemma one_score_per_round_witness :
  Z.of_nat (length (GameManager.round_scores ticked_manager))
  = GameManager.round ticked_manager.
Proof.
  apply (one_score_per_round ticked_manager).
  apply (reach_tick true [0] [] fresh_manager); [|vm_compute; reflexivity].
  apply (reach_init true [3; 2] []). vm_compute. reflexivity.
Defined.

(** ** Rewind after a tick *)

Lemma py_prefix_drop_last {A : Type} (l : list A) (a : A) :
  (1 <= length l)%nat -> py_prefix (l ++ [a]) (Z.opp 1) = l.
Proof.
  intros Hlen. unfold py_prefix, py_bound. rewrite length_app. cbn [length].
  change (Z.opp 1) with (-1).
  destruct (Z.ltb_spec (- 1) 0); [|lia].
  replace (Z.to_nat (Z.max 0 (Z.of_nat (length l + 1) + - 1))) with (length l) by lia.
  apply take_app_length.
Qed.

Lemma py_suffix_1 {A : Type} (a : A) (l : list A) : py_suffix (a :: l) 1 = l.
Proof.
  unfold py_suffix, py_bound. cbn [length].
  destruct (Z.ltb_spec 1 0); [lia|]. rewrite Z.min_l by lia. reflexivity.
Qed.

Lemma saveGameState_at_capacity (m : GameManager.t) :
  MAX_SAVED_GAME_STATES <= Z.of_nat (length (GameManager.game_states m)) ->
  GameManager.saveGameState m
  = GameManager.set_game_states
      (py_suffix (GameManager.game_states m) 1 ++ [GameState.init (GameManager.game_grid m)])
      m.
Proof.
  intros Hlen. unfold GameManager.saveGameState.
  destruct (Z.leb_spec MAX_SAVED_GAME_STATES
              (Z.of_nat (length (GameManager.game_states m)))); [|lia].
  destruct m; reflexivity.
Qed.

Lemma last_drop_1 {A : Type} (l : list A) :
  (2 <= length l)%nat -> last (drop 1 l) = last l.
Proof.
  destruct l as [|a [|b l]]; cbn [length]; intros H; try lia. reflexivity.
Qed.

(** X9. One tick that does not end the round, then [rewind(1)]: the call returns
    without a draw and the live grid is back at the snapshot it had before the
    tick (position, energy, food count, score and food cells), provided the
    history was not empty before the tick. *)
Theorem rewind_undoes_tick (st st' : bool) (m m1 : GameManager.t) (tp tp1 tp2 : tape) :
  reachable m -> GameManager.game_states m <> [] ->
  GameManager.logicTick st m tp = Ok (m1, tp1) ->
  GameManager.round m1 = GameManager.round m ->
  exists m2,
    GameManager.rewindGameState st' 1 m1 tp2 = Ok (m2, tp2) /\
    GameState.init (GameManager.game_grid m2) = GameState.init (GameManager.game_grid m) /\
    length (GameManager.game_states m2) = pred (length (GameManager.game_states m1)).
Proof.
  intros Hreach Hne Htick Hround.
  pose proof (reachable_inv m Hreach) as Hinv.
  destruct (reachable_history_inv m Hreach) as [Hlen [Hnil|Hlast] _]; [contradiction|].
  pose proof (reachable_inv m1 (reach_tick st tp tp1 m m1 Hreach Htick)) as Hinv1.
  assert (Hh1 : exists h s1, GameManager.game_states m1 = h ++ [s1] /\
                             (1 <= length h)%nat /\
                             last h = Some (GameState.init (GameManager.game_grid m))).
  { unfold GameManager.logicTick in Htick.
    apply bindM_Ok in Htick as (g & tp0 & _ & H). apply ret_Ok in H as [-> _].
    unfold GameManager.checkEndStates in *.
    cbn [GameManager.game_grid GameManager.set_game_grid] in *.
    assert (Hsame : forall m0, GameManager.round (GameManager.saveGameState
                                 (GameManager.endRound m0)) <> GameManager.round m0).
    { intros m0. unfold GameManager.saveGameState.
      destruct (MAX_SAVED_GAME_STATES
                <=? Z.of_nat (length (GameManager.game_states (GameManager.endRound m0))));
        cbn; lia. }
    destruct (FOOD_PER_ROUND <=? Player.food_eaten (GameGrid.player g));
      [exfalso; match type of Hround with
                | context [GameManager.endRound ?X] => exact (Hsame X Hround)
                end|].
    destruct (negb (Player.alive (GameGrid.player g)));
      [exfalso; match type of Hround with
                | context [GameManager.endRound ?X] => exact (Hsame X Hround)
                end|].
    set (m0 := GameManager.set_game_grid g m) in *.
    assert (Hgs0 : GameManager.game_states m0 = GameManager.game_states m) by reflexivity.
    destruct (GameManager.game_states m) as [|s0 l0] eqn:El; [contradiction|].
    destruct (Z.leb_spec MAX_SAVED_GAME_STATES (Z.of_nat (length (s0 :: l0)))) as [Hfull|Hroom].
    - rewrite saveGameState_at_capacity by (rewrite Hgs0; exact Hfull).
      cbn [GameManager.game_states GameManager.set_game_states].
      rewrite Hgs0, py_suffix_1.
      eexists _, _. split; [reflexivity|].
      unfold MAX_SAVED_GAME_STATES, MAX_ENERGY in Hfull. cbn [length] in Hfull.
      split; [lia|].
      rewrite <- Hlast. apply (last_drop_1 (s0 :: l0)). cbn [length]. lia.
    - rewrite saveGameState_below_capacity by (rewrite Hgs0; exact Hroom).
      cbn [GameManager.game_states GameManager.set_game_states]. rewrite Hgs0.
      eexists _, _. split; [reflexivity|]. split; [cbn [length]; lia | exact Hlast]. }
  destruct Hh1 as (h & s1 & Hgs & Hhlen & Hhlast).
  unfold GameManager.rewindGameState. rewrite Hgs, length_app. cbn [length].
  destruct (Z.leb_spec (Z.of_nat (length h + 1)) 1); [lia|].
  cbn [GameManager.game_states GameManager.set_game_states].
  rewrite (py_prefix_drop_last h s1 Hhlen).
  destruct (length h) as [|j] eqn:Ej; [lia|].
  rewrite np_index_last. unfold bindM at 1. cbn [lift].
  rewrite last_lookup, Ej in Hhlast. cbn [pred] in Hhlast. rewrite Hhlast.
  assert (Hsnap : snapshot_ok (GameState.init (GameManager.game_grid m))).
  { apply snapshot_ok_init; apply Hinv. }
  destruct (restore_capture st' (GameState.init (GameManager.game_grid m))
              (GameManager.set_game_states h m1) tp2)
    as (m2 & Hres & Hcap & _ & Hgs2 & _); [apply Hinv1 | apply Hsnap | apply Hsnap |].
  exists m2. split; [exact Hres|]. split; [exact Hcap|].
  rewrite Hgs2. cbn [GameManager.game_states GameManager.set_game_states]. lia.
Qed.

Lemma rewind_undoes_tick_witness :
  exists m2,
    GameManager.rewindGameState true 1 ticked_twice_manager [] = Ok (m2, []) /\
    GameState.init (GameManager.game_grid m2)
    = GameState.init (GameManager.game_grid ticked_manager).
Proof.
  assert (Hreach : reachable ticked_manager).
  { apply (reach_tick true [0] [] fresh_manager); [|vm_compute; reflexivity].
    apply (reach_init true [3; 2] []). vm_compute. reflexivity. }
  destruct (rewind_undoes_tick true true ticked_manager ticked_twice_manager [0] [] []
              Hreach) as (m2 & Hrew & Hcap & _).
  - vm_compute. discriminate.
  - vm_compute. reflexivity.
  - vm_compute. reflexivity.
  - exists m2. auto.
Defined.

(** ** Rewind requests in reachable states *)

(** X10. In a reachable state every request other than [n = 0] returns without a
    draw and leaves a reachable state; round and ledger are unchanged; with two
    snapshots or more, a request [n >= 1] discards the last
    [min(n, len - 1)] snapshots and keeps the others. *)
Theorem rewind_discards_suffix (st : bool) (n : Z) (m : GameManager.t) (tp : tape) :
  reachable m -> n <> 0 ->
  exists m',
    GameManager.rewindGameState st n m tp = Ok (m', tp) /\
    reachable m' /\
    GameManager.round m' = GameManager.round m /\
    GameManager.round_scores m' = GameManager.round_scores m /\
    ((length (GameManager.game_states m) <= 1)%nat -> m' = m) /\
    ((2 <= length (GameManager.game_states m))%nat -> 1 <= n ->
     GameManager.game_states m'
     = take (length (GameManager.game_states m)
             - Z.to_nat (Z.min n (Z.of_nat (length (GameManager.game_states m)) - 1)))
         (GameManager.game_states m)).
Proof.
  intros Hreach Hn.
  destruct (rewind_returns st n m tp (reachable_inv m Hreach) Hn) as (m' & Hrew & _).
  exists m'. split; [exact Hrew|].
  split; [exact (reach_rewind st n tp tp m m' Hreach Hrew)|].
  unfold GameManager.rewindGameState in Hrew.
  destruct (Z.leb_spec (Z.of_nat (length (GameManager.game_states m))) 1) as [Hle|Hgt].
  - apply ret_Ok in Hrew as [-> _]. repeat split; intros; try reflexivity; lia.
  - apply bindM_Ok in Hrew as (i & tp1 & _ & Hrew).
    cbn [GameManager.game_states GameManager.set_game_states] in Hrew.
    match type of Hrew with
    | context [py_prefix ?l ?k !! i] => destruct (py_prefix l k !! i) as [s|] eqn:Es
    end; [|discriminate].
    destruct (restore_history_fields _ _ _ _ _ _ Hrew) as (Hgs & Hr & Hrs).
    split; [exact Hr|]. split; [exact Hrs|]. split; [intros; lia|].
    intros _ Hpos. rewrite Hgs. cbn [GameManager.game_states GameManager.set_game_states].
    unfold py_prefix, py_bound. f_equal.
    destruct (Z.leb_spec (Z.of_nat (length (GameManager.game_states m))) n).
    + destruct (Z.ltb_spec (- (Z.of_nat (length (GameManager.game_states m)) - 1)) 0); lia.
    + destruct (Z.ltb_spec (- n) 0); lia.
Qed.

Lemma rewind_discards_suffix_witness :
  exists m',
    GameManager.rewindGameState true 7 ticked_twice_manager [] = Ok (m', []) /\
    GameManager.game_states m' = take 1 (GameManager.game_states ticked_twice_manager).
Proof.
  destruct (rewind_discards_suffix true 7 ticked_twice_manager [])
    as (m' & Hrew & _ & _ & _ & _ & Hgs).
  - apply (reach_tick true [0] [] ticked_manager); [|vm_compute; reflexivity].
    apply (reach_tick true [0] [] fresh_manager); [|vm_compute; reflexivity].
    apply (reach_init true [3; 2] []). vm_compute. reflexivity.
  - discriminate.
  - exists m'. split; [exact Hrew|]. rewrite Hgs.
    + vm_compute. reflexivity.
    + vm_compute. lia.
    + lia.
Defined.

(** ** The tiles in reachable states *)

(** X11. In every reachable state the grid is 10 by 10, the tiles are food tiles
    on pairwise distinct cells of the grid, at most [MAX_NUM_FOOD_ON_GRID] of
    them, each marked in the occupancy array, and the player stands on a cell
    of the grid. *)
Theorem reachable_grid_invariant (m : GameManager.t) :
  reachable m ->
  let g := GameManager.game_grid m in
  GameGrid.width g = GAME_GRID_WIDTH /\ GameGrid.height g = GAME_GRID_HEIGHT /\
  NoDup (positions g) /\ Forall in_bounds (positions g) /\
  Z.of_nat (length (GameGrid.occupied_spaces g)) <= MAX_NUM_FOOD_ON_GRID /\
  (forall x y, GameGrid.checkForFood x y g = Ok (bool_decide ((x, y) ∈ positions g))) /\
  in_bounds (GridSpace.pos (Player.tile (GameGrid.player g))).
Proof.
  intros Hreach. destruct (reachable_inv m Hreach) as [Ht Hc Hp _]. cbn zeta.
  pose proof (tiles_wf _ Ht) as Hwf.
  split; [apply Hwf|]. split; [apply Hwf|]. split; [apply Ht|]. split; [apply Hwf|].
  split; [exact Hc|]. split; [|apply Hp].
  intros x y. exact (checkForFood_food_grid x y _ Ht).
Qed.

Lemma reachable_grid_invariant_witness :
  NoDup (positions (GameManager.game_grid ticked_manager)) /\
  GameGrid.checkForFood 3 2 (GameManager.game_grid ticked_manager) = Ok true.
Proof.
  destruct (reachable_grid_invariant ticked_manager) as (_ & _ & Hnd & _ & _ & Hfood & _).
  - apply (reach_tick true [0] [] fresh_manager); [|vm_compute; reflexivity].
    apply (reach_init true [3; 2] []). vm_compute. reflexivity.
  - split; [exact Hnd|]. rewrite (Hfood 3 2). vm_compute. reflexivity.
Defined.

(** ** Bounds of the scent field *)

(** A rounded contribution lies between 0 and 1. *)
Lemma round5_inv_dist_bounds (d2 : Z) : 0 <= round5_inv_dist d2 <= SCENT_ONE.
Proof.
  unfold round5_inv_dist.
  set (s := Z.sqrt (d2 * SQRT_PRECISION * SQRT_PRECISION)).
  assert (Hs : 0 <= s) by apply Z.sqrt_nonneg.
  assert (Hp : 0 < SQRT_PRECISION) by reflexivity.
  assert (Hone : 0 < SCENT_ONE) by reflexivity.
  split.
  - apply Z.div_pos; nia.
  - apply Z.lt_succ_r. apply Z.div_lt_upper_bound; nia.
Qed.

Lemma scent_between_bounds (p q : Z * Z) : 0 <= scent_between p q <= SCENT_ONE.
Proof. apply round5_inv_dist_bounds. Qed.

Lemma smell_value_nonneg (st : bool) (tile : GridSpace.t) (i j old : Z) :
  0 <= old -> 0 <= smell_value st tile i j old.
Proof.
  intros Hold. unfold smell_value.
  pose proof (scent_between_bounds (i, j) (GridSpace.x tile, GridSpace.y tile)) as Hd.
  destruct (negb st).
  - destruct (Z.ltb_spec old (scent_between (i, j) (GridSpace.x tile, GridSpace.y tile))); lia.
  - destruct ((j =? GridSpace.x tile) && (i =? GridSpace.y tile)); lia.
Qed.

Lemma smell_fold_nonneg (st : bool) (l : list GridSpace.t) :
  forall sg : list (list Z),
    shape 10 10 sg -> Forall (tile_in GAME_GRID_WIDTH GAME_GRID_HEIGHT) l ->
    (forall a b, 0 <= a < GAME_GRID_WIDTH -> 0 <= b < GAME_GRID_HEIGHT -> 0 <= cell sg a b) ->
    exists sg',
      fold_result (GameGrid.smell_source st GAME_GRID_WIDTH GAME_GRID_HEIGHT) l sg = Ok sg' /\
      shape 10 10 sg' /\
      (forall a b, 0 <= a < GAME_GRID_WIDTH -> 0 <= b < GAME_GRID_HEIGHT -> 0 <= cell sg' a b).
Proof.
  induction l as [|tile l IH]; intros sg Hs Hl Hnn; cbn [fold_result].
  - exists sg. auto.
  - apply Forall_cons in Hl as [Ht Hl].
    destruct (smell_source_ok 10 10 GAME_GRID_WIDTH GAME_GRID_HEIGHT eq_refl eq_refl
                st sg tile Hs Ht) as (sg1 & -> & Hs1 & Hc1). cbn [bind].
    apply IH; [exact Hs1 | exact Hl|].
    intros a b Ha Hb. rewrite (Hc1 a b Ha Hb). apply smell_value_nonneg.
    destruct Ht as [Hx Hy].
    rewrite (cell_set_cell 10 10)
      by (try assumption; unfold GAME_GRID_HEIGHT, GAME_GRID_WIDTH in *; lia).
    case_bool_decide; [unfold SCENT_ONE; lia | apply Hnn; assumption].
Qed.

(** X12. In stacking mode the scent computation returns a field without negative
    values, and a cell [[a][b]] that is not some tile's own cell [[x][y]]
    holds the sum, over all tiles, of the rounded contribution at the point
    [(b, a)].  (The array is filled as [smell_grid[j][i]] from the distance
    of [(i, j)].) *)
Theorem stacking_field_is_sum (g : GameGrid.t) :
  GameGrid.width g = GAME_GRID_WIDTH -> GameGrid.height g = GAME_GRID_HEIGHT ->
  Forall in_bounds (positions g) ->
  exists g',
    GameGrid.calcSmellMatrix true g = Ok g' /\
    (forall a b, in_bounds (a, b) -> 0 <= cell (GameGrid.smell_grid g') a b) /\
    (forall a b, in_bounds (a, b) -> (a, b) ∉ positions g ->
       cell (GameGrid.smell_grid g') a b = scent_sum (b, a) (GameGrid.occupied_spaces g)).
Proof.
  intros Hw Hh Hb. pose proof (in_bounds_tile_in g Hw Hh Hb) as Hin.
  unfold GameGrid.calcSmellMatrix. rewrite Hw, Hh in *.
  destruct (smell_fold_nonneg true (GameGrid.occupied_spaces g)
              (np_zeros GAME_GRID_WIDTH GAME_GRID_HEIGHT) (shape_np_zeros 10 10) Hin)
    as (sg & Hok & _ & Hnn).
  { intros a b _ _. rewrite cell_np_zeros. lia. }
  rewrite Hok. cbn [bind]. eexists. split; [reflexivity|].
  cbn [GameGrid.smell_grid GameGrid.set_smell_grid]. split.
  - intros a b [Ha Hb']. exact (Hnn a b Ha Hb').
  - intros a b [Ha Hb'] Hfree. cbn [fst snd] in Ha, Hb'.
    destruct (smell_fold_other 10 10 GAME_GRID_WIDTH GAME_GRID_HEIGHT eq_refl eq_refl
                (GameGrid.occupied_spaces g) (np_zeros GAME_GRID_WIDTH GAME_GRID_HEIGHT)
                a b (shape_np_zeros 10 10) Hin Ha Hb' Hfree) as (sg2 & Hok2 & _ & Hc).
    rewrite Hok in Hok2. injection Hok2 as <-.
    rewrite Hc, cell_np_zeros. lia.
Qed.

Lemma stacking_field_is_sum_witness :
  exists g',
    GameGrid.calcSmellMatrix true two_food_grid = Ok g' /\
    cell (GameGrid.smell_grid g') 0 2 = 74754.
Proof.
  destruct (stacking_field_is_sum two_food_grid) as (g' & Hcalc & _ & Hsum).
  - vm_compute. reflexivity.
  - vm_compute. reflexivity.
  - apply (bool_decide_unpack _). vm_compute. exact I.
  - exists g'. split; [exact Hcalc|]. rewrite Hsum.
    + vm_compute. reflexivity.
    + split; cbn; unfold GAME_GRID_HEIGHT, GAME_GRID_WIDTH; lia.
    + apply (bool_decide_unpack _). vm_compute. exact I.
Defined.

(** The maximum mode, tile by tile: values stay between 0 and 1 and never
    decrease; once a tile is processed its own cell holds 1 and every cell
    holds at least that tile's contribution. *)
Lemma max_fold (l : list GridSpace.t) :
  forall sg : list (list Z),
    shape 10 10 sg -> Forall (tile_in GAME_GRID_WIDTH GAME_GRID_HEIGHT) l ->
    (forall a b, in_bounds (a, b) -> 0 <= cell sg a b <= SCENT_ONE) ->
    exists sg',
      fold_result (GameGrid.smell_source false GAME_GRID_WIDTH GAME_GRID_HEIGHT) l sg = Ok sg' /\
      (forall a b, in_bounds (a, b) -> cell sg a b <= cell sg' a b <= SCENT_ONE) /\
      (forall tile, In tile l ->
         cell sg' (GridSpace.x tile) (GridSpace.y tile) = SCENT_ONE /\
         forall a b, in_bounds (a, b) ->
           scent_between (b, a) (GridSpace.pos tile) <= cell sg' a b).
Proof.
  induction l as [|tile l IH]; intros sg Hs Hl Hrange; cbn [fold_result].
  - exists sg. split; [reflexivity|]. split.
    + intros a b Hab. specialize (Hrange a b Hab). lia.
    + intros tile [].
  - apply Forall_cons in Hl as [Ht Hl].
    destruct (smell_source_ok 10 10 GAME_GRID_WIDTH GAME_GRID_HEIGHT eq_refl eq_refl
                false sg tile Hs Ht) as (sg1 & -> & Hs1 & Hc1). cbn [bind].
    assert (Hstep : forall a b, in_bounds (a, b) ->
              cell sg a b <= cell sg1 a b <= SCENT_ONE /\
              scent_between (b, a) (GridSpace.pos tile) <= cell sg1 a b /\
              ((a, b) = GridSpace.pos tile -> cell sg1 a b = SCENT_ONE)).
    { intros a b Hab. pose proof Hab as [Ha Hb]. cbn [fst snd] in Ha, Hb.
      rewrite (Hc1 a b Ha Hb). unfold smell_value. cbn [negb].
      destruct Ht as [Hx Hy].
      rewrite (cell_set_cell 10 10)
        by (try assumption; unfold GAME_GRID_HEIGHT, GAME_GRID_WIDTH in *; lia).
      pose proof (scent_between_bounds (b, a) (GridSpace.x tile, GridSpace.y tile)) as Hd.
      pose proof (Hrange a b Hab) as Hold. unfold GridSpace.pos.
      case_bool_decide as Hown.
      - destruct (Z.ltb_spec SCENT_ONE
                    (scent_between (b, a) (GridSpace.x tile, GridSpace.y tile)));
          repeat split; try lia; intros; reflexivity || lia.
      - destruct (Z.ltb_spec (cell sg a b)
                    (scent_between (b, a) (GridSpace.x tile, GridSpace.y tile)));
          repeat split; try lia; intros E; exfalso; apply Hown; injection E; auto. }
    destruct (IH sg1 Hs1 Hl) as (sg' & Hok & Hmono & Htiles).
    { intros a b Hab. destruct (Hstep a b Hab) as [H1 _]. pose proof (Hrange a b Hab). lia. }
    exists sg'. split; [exact Hok|]. split.
    + intros a b Hab. destruct (Hstep a b Hab) as [H1 _]. pose proof (Hmono a b Hab). lia.
    + intros t [<-|Hin]; [|exact (Htiles t Hin)].
      assert (Hown : in_bounds (GridSpace.x tile, GridSpace.y tile)) by exact Ht.
      split.
      * destruct (Hstep _ _ Hown) as (_ & _ & Hone). pose proof (Hmono _ _ Hown).
        specialize (Hone eq_refl). lia.
      * intros a b Hab. destruct (Hstep a b Hab) as (_ & Hd & _).
        pose proof (Hmono a b Hab). lia.
Qed.

Lemma max_field (g : GameGrid.t) :
  GameGrid.width g = GAME_GRID_WIDTH -> GameGrid.height g = GAME_GRID_HEIGHT ->
  Forall in_bounds (positions g) ->
  exists g',
    GameGrid.calcSmellMatrix false g = Ok g' /\
    (forall a b, in_bounds (a, b) -> 0 <= cell (GameGrid.smell_grid g') a b <= SCENT_ONE) /\
    (forall tile, In tile (GameGrid.occupied_spaces g) ->
       cell (GameGrid.smell_grid g') (GridSpace.x tile) (GridSpace.y tile) = SCENT_ONE /\
       forall a b, in_bounds (a, b) ->
         scent_between (b, a) (GridSpace.pos tile) <= cell (GameGrid.smell_grid g') a b).
Proof.
  intros Hw Hh Hb. pose proof (in_bounds_tile_in g Hw Hh Hb) as Hin.
  unfold GameGrid.calcSmellMatrix. rewrite Hw, Hh in *.
  destruct (max_fold (GameGrid.occupied_spaces g)
              (np_zeros GAME_GRID_WIDTH GAME_GRID_HEIGHT) (shape_np_zeros 10 10) Hin)
    as (sg & Hok & Hmono & Htiles).
  { intros a b _. rewrite cell_np_zeros. unfold SCENT_ONE. lia. }
  rewrite Hok. cbn [bind]. eexists. split; [reflexivity|].
  cbn [GameGrid.smell_grid GameGrid.set_smell_grid]. split; [|exact Htiles].
  intros a b Hab. pose proof (Hmono a b Hab) as Hm. rewrite cell_np_zeros in Hm. exact Hm.
Qed.

(** X13. In the maximum mode ([SCENT_STACKING] off) the scent computation returns
    a field whose values lie between 0 and 1; the cell [[x][y]] of every tile
    holds exactly 1, whatever the other tiles are, and a cell [[a][b]] holds
    at least every tile's rounded contribution at the point [(b, a)]. *)
Theorem max_field_bounds (g : GameGrid.t) :
  GameGrid.width g = GAME_GRID_WIDTH -> GameGrid.height g = GAME_GRID_HEIGHT ->
  Forall in_bounds (positions g) ->
  exists g',
    GameGrid.calcSmellMatrix false g = Ok g' /\
    (forall a b, in_bounds (a, b) -> 0 <= cell (GameGrid.smell_grid g') a b <= SCENT_ONE) /\
    (forall tile, In tile (GameGrid.occupied_spaces g) ->
       cell (GameGrid.smell_grid g') (GridSpace.x tile) (GridSpace.y tile) = SCENT_ONE /\
       forall a b, in_bounds (a, b) ->
         scent_between (b, a) (GridSpace.pos tile) <= cell (GameGrid.smell_grid g') a b).
Proof. exact (max_field g). Qed.

Lemma max_field_bounds_witness :
  exists g',
    GameGrid.calcSmellMatrix false two_food_grid = Ok g' /\
    cell (GameGrid.smell_grid g') 0 0 = SCENT_ONE /\
    cell (GameGrid.smell_grid g') 1 1 = SCENT_ONE.
Proof.
  destruct (max_field_bounds two_food_grid) as (g' & Hcalc & _ & Htiles).
  - vm_compute. reflexivity.
  - vm_compute. reflexivity.
  - apply (bool_decide_unpack _). vm_compute. exact I.
  - exists g'. split; [exact Hcalc|]. split.
    + apply (Htiles (GridSpace.setFood (GridSpace.init 0 0))). vm_compute. auto.
    + apply (Htiles (GridSpace.setFood (GridSpace.init 1 1))). vm_compute. auto.
Defined.

(** ** The sense window *)

Lemma py_slice_window {A : Type} (l : list A) (x : Z) :
  0 <= x -> x + 3 <= Z.of_nat (length l) ->
  py_slice l x (x + 3) = take 3 (drop (Z.to_nat x) l).
Proof.
  intros H0 H3. unfold py_slice, py_bound.
  destruct (Z.ltb_spec x 0); [lia|]. destruct (Z.ltb_spec (x + 3) 0); [lia|].
  rewrite !Z.min_l by lia. replace (Z.to_nat (x + 3) - Z.to_nat x)%nat with 3%nat by lia.
  reflexivity.
Qed.

Lemma shape_np_pad1 (n m : nat) (a : list (list Z)) :
  shape n m a -> (0 < n)%nat -> shape (S (S n)) (S (S m)) (np_pad1 a).
Proof.
  intros [Hn Hrows] Hpos. unfold np_pad1.
  assert (Hm : match a with [] => 0%nat | row :: _ => length row end = m).
  { destruct a as [|row a]; [cbn in Hn; lia|]. apply Forall_cons in Hrows as [Hr _]. exact Hr. }
  rewrite Hm. split.
  - cbn [length]. rewrite length_app, length_map. cbn [length]. lia.
  - constructor; [apply length_replicate|]. apply Forall_app. split.
    + rewrite Forall_map. eapply Forall_impl; [exact Hrows|].
      intros row Hr. cbn [length]. rewrite length_app. cbn [length]. cbn beta in Hr. lia.
    + constructor; [apply length_replicate | constructor].
Qed.

(** The padded array holds the original one shifted by one row and one column
    and zeros on its border. *)
Lemma cell_np_pad1 (n m : nat) (a : list (list Z)) (i j : Z) :
  shape n m a -> (0 < n)%nat ->
  0 <= i < Z.of_nat n + 2 -> 0 <= j < Z.of_nat m + 2 ->
  cell (np_pad1 a) i j
  = if (1 <=? i) && (i <=? Z.of_nat n) && (1 <=? j) && (j <=? Z.of_nat m)
    then cell a (i - 1) (j - 1) else 0.
Proof.
  intros [Hn Hrows] Hpos Hi Hj. unfold np_pad1, cell.
  assert (Hm : match a with [] => 0%nat | row :: _ => length row end = m).
  { destruct a as [|row a]; [cbn in Hn; lia|]. apply Forall_cons in Hrows as [Hr _]. exact Hr. }
  rewrite Hm.
  assert (Hzero : forall k, default 0 (replicate (S (S m)) 0 !! k) = 0).
  { intros k. destruct (replicate (S (S m)) 0 !! k) as [v|] eqn:E; [|reflexivity].
    apply lookup_replicate in E as [-> _]. reflexivity. }
  destruct (Z.to_nat i) as [|k] eqn:Ei.
  - rewrite lookup_cons. cbv beta iota. rewrite Hzero.
    destruct (Z.leb_spec 1 i); [lia|]. reflexivity.
  - rewrite lookup_cons. cbv beta iota.
    destruct (decide (k < n)%nat) as [Hk|Hk].
    + rewrite lookup_app_l by (rewrite length_map; lia).
      replace (Z.to_nat (i - 1)) with k by lia.
      destruct (a !! k) as [row|] eqn:Erow;
        [|apply lookup_ge_None_1 in Erow; lia].
      change (map ?f ?l) with (f <$> l). rewrite list_lookup_fmap, Erow.
      cbn [fmap option_fmap option_map].
      assert (Hr : length row = m).
      { rewrite List.Forall_forall in Hrows. apply Hrows.
        apply list_elem_of_In, list_elem_of_lookup. eauto. }
      destruct (Z.leb_spec 1 i); [|lia]. destruct (Z.leb_spec i (Z.of_nat n)); [|lia].
      cbn [andb].
      destruct (Z.to_nat j) as [|c] eqn:Ej.
      * rewrite lookup_cons. cbv beta iota. cbn [default].
        destruct (Z.leb_spec 1 j); [lia|]. reflexivity.
      * rewrite lookup_cons. cbv beta iota.
        destruct (Z.leb_spec 1 j); [|lia]. cbn [andb].
        replace (Z.to_nat (j - 1)) with c by lia.
        destruct (decide (c < m)%nat) as [Hc|Hc].
        -- rewrite lookup_app_l by lia.
           destruct (Z.leb_spec j (Z.of_nat m)); [|lia]. reflexivity.
        -- rewrite lookup_app_r by lia. replace (c - length row)%nat with 0%nat by lia.
           rewrite lookup_cons. cbv beta iota. cbn [default].
           destruct (Z.leb_spec j (Z.of_nat m)); [lia|]. reflexivity.
    + rewrite lookup_app_r by (rewrite length_map; lia).
      rewrite length_map. replace (k - length a)%nat with 0%nat by lia.
      rewrite lookup_cons. cbv beta iota. rewrite Hzero.
      destruct (Z.leb_spec i (Z.of_nat n)); [lia|].
      rewrite andb_false_r. reflexivity.
Qed.

Lemma window_cells (n m : nat) (p : list (list Z)) (x y : Z) :
  shape n m p ->
  0 <= x -> x + 3 <= Z.of_nat m -> 0 <= y -> y + 3 <= Z.of_nat n ->
  shape 3 3 (map (fun row => py_slice row x (x + 3)) (py_slice p y (y + 3))) /\
  forall r c, 0 <= r < 3 -> 0 <= c < 3 ->
    cell (map (fun row => py_slice row x (x + 3)) (py_slice p y (y + 3))) r c
    = cell p (y + r) (x + c).
Proof.
  intros [Hn Hrows] Hx0 Hx3 Hy0 Hy3.
  rewrite (py_slice_window p y) by lia.
  assert (Hrow : forall row, row ∈ take 3 (drop (Z.to_nat y) p) -> length row = m).
  { intros row Hin. rewrite List.Forall_forall in Hrows. apply Hrows, list_elem_of_In.
    apply (subseteq_drop (Z.to_nat y)), (subseteq_take 3), Hin. }
  split.
  - split.
    + rewrite length_map, length_take, length_drop. lia.
    + rewrite Forall_map. apply List.Forall_forall. intros row Hin%list_elem_of_In.
      cbn beta. rewrite py_slice_window by (rewrite ?(Hrow row Hin); lia).
      rewrite length_take, length_drop, (Hrow row Hin). lia.
  - intros r c Hr Hc. unfold cell.
    change (map ?f ?l) with (f <$> l). rewrite list_lookup_fmap.
    rewrite lookup_take_lt by lia. rewrite lookup_drop.
    replace (Z.to_nat y + Z.to_nat r)%nat with (Z.to_nat (y + r)) by lia.
    destruct (p !! Z.to_nat (y + r)) as [row|] eqn:Erow;
      [|apply lookup_ge_None_1 in Erow; lia].
    cbn [fmap option_fmap option_map].
    assert (Hlen : length row = m).
    { rewrite List.Forall_forall in Hrows. apply Hrows.
      apply list_elem_of_In, list_elem_of_lookup. eauto. }
    rewrite py_slice_window by lia.
    rewrite lookup_take_lt by lia. rewrite lookup_drop.
    replace (Z.to_nat x + Z.to_nat c)%nat with (Z.to_nat (x + c)) by lia.
    reflexivity.
Qed.

Lemma sense_window_cells (g : GameGrid.t) :
  shape 10 10 (GameGrid.smell_grid g) ->
  in_bounds (GridSpace.pos (Player.tile (GameGrid.player g))) ->
  shape 3 3 (Player.smell_matrix (GameGrid.player (GameGrid.calcPlayerSense g))) /\
  forall r c, 0 <= r < 3 -> 0 <= c < 3 ->
    cell (Player.smell_matrix (GameGrid.player (GameGrid.calcPlayerSense g))) r c
    = if bool_decide (in_bounds (GridSpace.x (Player.tile (GameGrid.player g)) + c - 1,
                                 GridSpace.y (Player.tile (GameGrid.player g)) + r - 1))
      then cell (GameGrid.smell_grid g)
             (GridSpace.y (Player.tile (GameGrid.player g)) + r - 1)
             (GridSpace.x (Player.tile (GameGrid.player g)) + c - 1)
      else 0.
Proof.
  intros Hs [Hx Hy]. unfold GridSpace.pos in Hx, Hy. cbn [fst snd] in Hx, Hy.
  unfold GAME_GRID_HEIGHT, GAME_GRID_WIDTH in Hx, Hy.
  unfold GameGrid.calcPlayerSense.
  cbn [GameGrid.player GameGrid.set_player Player.smell_matrix Player.set_smell_matrix].
  set (x := GridSpace.x (Player.tile (GameGrid.player g))) in *.
  set (y := GridSpace.y (Player.tile (GameGrid.player g))) in *.
  pose proof (shape_np_pad1 10 10 _ Hs ltac:(lia)) as Hp.
  destruct (window_cells 12 12 _ x y Hp) as [Hshape Hcells]; try lia.
  split; [exact Hshape|].
  intros r c Hr Hc. rewrite (Hcells r c Hr Hc).
  rewrite (cell_np_pad1 10 10) by (try assumption; lia).
  unfold in_bounds, GAME_GRID_HEIGHT, GAME_GRID_WIDTH. cbn [fst snd].
  case_bool_decide as Hin.
  - destruct (Z.leb_spec 1 (y + r)); [|lia]. destruct (Z.leb_spec (y + r) (Z.of_nat 10)); [|lia].
    destruct (Z.leb_spec 1 (x + c)); [|lia]. destruct (Z.leb_spec (x + c) (Z.of_nat 10)); [|lia].
    reflexivity.
  - destruct (Z.leb_spec 1 (y + r)), (Z.leb_spec (y + r) (Z.of_nat 10)),
      (Z.leb_spec 1 (x + c)), (Z.leb_spec (x + c) (Z.of_nat 10)); cbn [andb]; try reflexivity.
    exfalso. apply Hin. lia.
Qed.

(** ** The decision policy *)

Lemma choice_elem {A : Type} (l : list A) (r : Z) (tp : tape) :
  l <> [] -> exists a, choice l (r :: tp) = Ok (a, tp) /\ a ∈ l.
Proof.
  intros Hne. unfold choice. destruct l as [|a0 l0]; [congruence|].
  set (l1 := a0 :: l0).
  assert (Hlen : (Z.to_nat (r mod Z.of_nat (length l1)) < length l1)%nat).
  { pose proof (Z.mod_pos_bound r (Z.of_nat (length l1))) as Hm.
    subst l1. cbn [length] in *. lia. }
  destruct (lookup_lt_is_Some_2 _ _ Hlen) as [a Ha].
  exists a. rewrite Ha. split; [reflexivity|]. apply list_elem_of_lookup. eauto.
Qed.

Lemma argmax_four (n s w e : Z) :
  argmax_indexes [n; s; w; e] <> [] /\
  forall d, d ∈ argmax_indexes [n; s; w; e] ->
    0 <= d <= 3 /\
    forall v, v ∈ [n; s; w; e] -> v <= default 0 ([n; s; w; e] !! Z.to_nat d).
Proof.
  unfold argmax_indexes, list_max. cbn [fold_left length].
  change (seqZ 0 (Z.of_nat 4)) with [0; 1; 2; 3].
  cbn [zip_with].
  set (M := Z.max (Z.max (Z.max n s) w) e).
  assert (HM : n <= M /\ s <= M /\ w <= M /\ e <= M /\
               (n = M \/ s = M \/ w = M \/ e = M)) by lia.
  clearbody M.
  rewrite !filter_cons, filter_nil. cbn [snd].
  repeat case_decide; cbn [map fst];
    (split; [first [discriminate | exfalso; lia] |]);
    intros d Hd; repeat (apply elem_of_cons in Hd as [->|Hd]);
    try (apply elem_of_nil in Hd; contradiction);
    (split; [lia|]); intros v Hv; repeat (apply elem_of_cons in Hv as [->|Hv]);
    try (apply elem_of_nil in Hv; contradiction);
    match goal with
    | |- context [Z.to_nat ?k] =>
        let i := eval vm_compute in (Z.to_nat k) in change (Z.to_nat k) with i
    end;
    cbn; lia.
Qed.

Lemma isPlayerNext2Food_spec (g : GameGrid.t) :
  tiles_ok g ->
  let x := GridSpace.x (Player.tile (GameGrid.player g)) in
  let y := GridSpace.y (Player.tile (GameGrid.player g)) in
  exists dirs,
    GameGrid.isPlayerNext2Food g
    = Ok (match dirs with [] => None | _ :: _ => Some dirs end) /\
    NoDup dirs /\
    forall d, d ∈ dirs <->
      (d = WEST /\ (x - 1, y) ∈ positions g) \/ (d = EAST /\ (x + 1, y) ∈ positions g) \/
      (d = NORTH /\ (x, y - 1) ∈ positions g) \/ (d = SOUTH /\ (x, y + 1) ∈ positions g).
Proof.
  intros Hok. cbn zeta.
  set (x := GridSpace.x (Player.tile (GameGrid.player g))).
  set (y := GridSpace.y (Player.tile (GameGrid.player g))).
  exists ((if bool_decide ((x - 1, y) ∈ positions g) then [WEST] else []) ++
          (if bool_decide ((x + 1, y) ∈ positions g) then [EAST] else []) ++
          (if bool_decide ((x, y - 1) ∈ positions g) then [NORTH] else []) ++
          (if bool_decide ((x, y + 1) ∈ positions g) then [SOUTH] else [])).
  split; [|split].
  - unfold GameGrid.isPlayerNext2Food. fold x. fold y.
    rewrite (checkForFood_food_grid _ _ g Hok). cbn [bind].
    rewrite (checkForFood_food_grid _ _ g Hok). cbn [bind].
    rewrite (checkForFood_food_grid _ _ g Hok). cbn [bind].
    rewrite (checkForFood_food_grid _ _ g Hok). cbn [bind].
    repeat destruct (bool_decide _); reflexivity.
  - repeat destruct (bool_decide _); cbn [app];
      apply (bool_decide_unpack _); vm_compute; exact I.
  - intros d. unfold WEST, EAST, NORTH, SOUTH.
    repeat case_bool_decide; cbn [app];
      rewrite ?elem_of_cons, ?elem_of_nil; intuition (try lia; try congruence).
Qed.

Lemma move_target (direction difficulty : Z) (p : Player.t) :
  Player.alive p = true ->
  let x := GridSpace.x (Player.tile p) in
  let y := GridSpace.y (Player.tile p) in
  (direction = WEST -> 0 < x -> (Player.move direction difficulty p).2 = (x - 1, y)) /\
  (direction = EAST -> x < GAME_GRID_WIDTH - 1 ->
   (Player.move direction difficulty p).2 = (x + 1, y)) /\
  (direction = NORTH -> 0 < y -> (Player.move direction difficulty p).2 = (x, y - 1)) /\
  (direction = SOUTH -> y < GAME_GRID_HEIGHT - 1 ->
   (Player.move direction difficulty p).2 = (x, y + 1)).
Proof.
  intros Halive. cbn zeta. unfold Player.move. rewrite Halive. cbn [snd].
  repeat split; intros -> Hlt; unfold WEST, EAST, NORTH, SOUTH; cbn [Z.eqb Pos.eqb];
    match goal with
    | |- context [if ?a <? ?b then _ else _] => destruct (Z.ltb_spec a b); [|lia]
    end;
    rewrite (proj1 (proj2 (proj2 (useEnergy_spec _ _)))); reflexivity.
Qed.

Lemma filter_absent (c : Z * Z) (l : list (Z * Z)) :
  c ∉ l -> filter (fun c' => c' <> c) l = l.
Proof.
  induction l as [|a l IH]; intros Hnotin; [reflexivity|].
  apply not_elem_of_cons in Hnotin as [Hne Hnotin].
  rewrite filter_cons_True by congruence. rewrite IH by exact Hnotin. reflexivity.
Qed.

Lemma length_filter_remove_one (c : Z * Z) (l : list (Z * Z)) :
  NoDup l -> c ∈ l -> S (length (filter (fun c' => c' <> c) l)) = length l.
Proof.
  induction 1 as [|a l Hnotin Hnd IH]; intros Hin.
  - apply elem_of_nil in Hin. contradiction.
  - apply elem_of_cons in Hin as [->|Hin].
    + rewrite filter_cons_False by tauto. rewrite filter_absent by exact Hnotin.
      reflexivity.
    + rewrite filter_cons_True by (intros ->; contradiction).
      cbn [length]. rewrite IH by exact Hin. reflexivity.
Qed.

Lemma smart_mouse_returns (w : list (list Z)) (g : GameGrid.t) (r : Z) (tp : tape) :
  tiles_ok g -> shape 3 3 w ->
  exists d, smart_mouse w g (r :: tp) = Ok (d, tp) /\ 0 <= d <= 3 /\
    (np_any w = true ->
     (forall dirs, GameGrid.isPlayerNext2Food g = Ok (Some dirs) -> d ∈ dirs) /\
     (GameGrid.isPlayerNext2Food g = Ok None ->
      forall v, v ∈ [cell w 0 1; cell w 2 1; cell w 1 0; cell w 1 2] ->
        v <= default 0 ([cell w 0 1; cell w 2 1; cell w 1 0; cell w 1 2] !! Z.to_nat d))).
Proof.
  intros Hok Hs. unfold smart_mouse.
  destruct (np_any w) eqn:Hany; cbn [negb].
  - cbn [USE_DIAGONAL_SCENT].
    unfold bindM at 1.
    rewrite (np_get2_in_range 3 3 w 0 1 Hs) by lia. cbn [lift].
    unfold bindM at 1.
    rewrite (np_get2_in_range 3 3 w 2 1 Hs) by lia. cbn [lift].
    unfold bindM at 1.
    rewrite (np_get2_in_range 3 3 w 1 0 Hs) by lia. cbn [lift].
    unfold bindM at 1.
    rewrite (np_get2_in_range 3 3 w 1 2 Hs) by lia. cbn [lift].
    unfold bindM.
    destruct (isPlayerNext2Food_spec g Hok) as (dirs & Hn & _ & Hdirs).
    rewrite Hn. cbn [lift].
    destruct dirs as [|d0 dirs0].
    + destruct (argmax_four (cell w 0 1) (cell w 2 1) (cell w 1 0) (cell w 1 2))
        as [Hne Hmax].
      destruct (choice_elem _ r tp Hne) as (d & Hd & Hin).
      destruct (Hmax d Hin) as [Hrange Hbest].
      exists d. split; [exact Hd|]. split; [exact Hrange|]. intros _. split.
      * intros dirs Hdirs'. discriminate.
      * intros _. exact Hbest.
    + destruct (choice_elem (d0 :: dirs0) r tp ltac:(discriminate)) as (d & Hd & Hin).
      exists d. split; [exact Hd|]. split.
      * apply Hdirs in Hin. unfold WEST, EAST, NORTH, SOUTH in Hin. lia.
      * intros _. split; [|discriminate].
        intros dirs Hdirs'. injection Hdirs' as <-. exact Hin.
  - unfold simple_mouse.
    destruct (choice_elem (seqZ 0 4) r tp ltac:(discriminate)) as (d & Hd & Hin).
    exists d. split; [exact Hd|]. split; [|discriminate].
    apply elem_of_seqZ in Hin. lia.
Qed.

(** X14. Whatever the window and the grid of food tiles, [smart_mouse] returns one
    of the four directions and consumes exactly one draw.  When the window is
    not all zeros the direction is one of those [isPlayerNext2Food] reports,
    if it reports any, and otherwise one whose reading (north, south, west,
    east: the middle of the window's top and bottom rows and of its left and
    right columns) is the largest of the four. *)
Theorem smart_mouse_policy (w : list (list Z)) (g : GameGrid.t) (r : Z) (tp : tape) :
  tiles_ok g -> shape 3 3 w ->
  exists d, smart_mouse w g (r :: tp) = Ok (d, tp) /\ 0 <= d <= 3 /\
    (np_any w = true ->
     (forall dirs, GameGrid.isPlayerNext2Food g = Ok (Some dirs) -> d ∈ dirs) /\
     (GameGrid.isPlayerNext2Food g = Ok None ->
      forall v, v ∈ [cell w 0 1; cell w 2 1; cell w 1 0; cell w 1 2] ->
        v <= default 0 ([cell w 0 1; cell w 2 1; cell w 1 0; cell w 1 2] !! Z.to_nat d))).
Proof. exact (smart_mouse_returns w g r tp). Qed.

Lemma smart_mouse_policy_witness :
  smart_mouse [[0; 7; 0]; [2; 0; 9]; [0; 4; 0]] (GameGrid.init 10 10) [5; 6]
  = Ok (EAST, [6]).
Proof.
  destruct (smart_mouse_policy [[0; 7; 0]; [2; 0; 9]; [0; 4; 0]] (GameGrid.init 10 10) 5 [6])
    as (d & Hd & Hrange & Hbest).
  - apply tiles_ok_reset_wf, grid_wf_init.
  - split; [reflexivity | repeat constructor].
  - rewrite Hd. destruct (Hbest eq_refl) as [_ Hmax].
    specialize (Hmax eq_refl 9 ltac:(do 3 right; left)).
    assert (Hcases : d = 0 \/ d = 1 \/ d = 2 \/ d = 3) by lia.
    destruct Hcases as [-> | [-> | [-> | ->]]]; vm_compute in Hmax;
      try (exfalso; apply Hmax; reflexivity).
    reflexivity.
Defined.

(** ** Food next to the player *)

(** X15. On a grid of food tiles at distinct cells with a living player,
    [isPlayerNext2Food] returns; it returns [None] exactly when no food lies
    at distance one (in steps) of the player; every direction it lists is one
    of the four, and moving in it feeds the player and removes one tile; and
    every food at distance one is the target of a listed direction. *)
Theorem adjacent_food_is_eaten (st : bool) (g : GameGrid.t) :
  tiles_ok g -> Player.alive (GameGrid.player g) = true ->
  let x := GridSpace.x (Player.tile (GameGrid.player g)) in
  let y := GridSpace.y (Player.tile (GameGrid.player g)) in
  exists r,
    GameGrid.isPlayerNext2Food g = Ok r /\
    (r = None <->
     forall c, c ∈ positions g -> Z.abs (c.1 - x) + Z.abs (c.2 - y) <> 1) /\
    (forall dirs, r = Some dirs ->
       NoDup dirs /\
       (forall d, d ∈ dirs ->
          0 <= d <= 3 /\
          exists g', GameGrid.movePlayer st d g = Ok g' /\
            Player.food_eaten (GameGrid.player g')
            = Player.food_eaten (GameGrid.player g) + 1 /\
            S (length (GameGrid.occupied_spaces g'))
            = length (GameGrid.occupied_spaces g)) /\
       (forall c, c ∈ positions g -> Z.abs (c.1 - x) + Z.abs (c.2 - y) = 1 ->
          exists d, d ∈ dirs /\ (Player.move d 1 (GameGrid.player g)).2 = c)).
Proof.
  intros Hok Halive. cbn zeta.
  destruct (isPlayerNext2Food_spec g Hok) as (dirs & Hn & Hnd & Hdirs). cbn zeta in Hdirs.
  set (x := GridSpace.x (Player.tile (GameGrid.player g))) in *.
  set (y := GridSpace.y (Player.tile (GameGrid.player g))) in *.
  destruct (move_target WEST 1 _ Halive) as (Hwest & _).
  destruct (move_target EAST 1 _ Halive) as (_ & Heast & _).
  destruct (move_target NORTH 1 _ Halive) as (_ & _ & Hnorth & _).
  destruct (move_target SOUTH 1 _ Halive) as (_ & _ & _ & Hsouth).
  fold x in Hwest, Heast, Hnorth, Hsouth. fold y in Hwest, Heast, Hnorth, Hsouth.
  assert (Hbound : forall c, c ∈ positions g -> in_bounds c).
  { intros c Hc. pose proof (wf_bounds g (tiles_wf g Hok)) as Hb.
    rewrite List.Forall_forall in Hb. apply Hb, list_elem_of_In, Hc. }
  assert (Htarget : forall d, d ∈ dirs ->
            0 <= d <= 3 /\ (Player.move d 1 (GameGrid.player g)).2 ∈ positions g).
  { intros d Hd. apply Hdirs in Hd.
    destruct Hd as [[-> Hin]|[[-> Hin]|[[-> Hin]|[-> Hin]]]];
      pose proof (Hbound _ Hin) as [Hbx Hby]; cbn [fst snd] in Hbx, Hby;
      (split; [unfold WEST, EAST, NORTH, SOUTH; lia|]).
    - rewrite Hwest by (reflexivity || lia). exact Hin.
    - rewrite Heast by (reflexivity || lia). exact Hin.
    - rewrite Hnorth by (reflexivity || lia). exact Hin.
    - rewrite Hsouth by (reflexivity || lia). exact Hin. }
  assert (Hnear : forall c, c ∈ positions g -> Z.abs (c.1 - x) + Z.abs (c.2 - y) = 1 ->
            exists d, d ∈ dirs /\ (Player.move d 1 (GameGrid.player g)).2 = c).
  { intros [a b] Hc Hdist. cbn [fst snd] in Hdist.
    pose proof (Hbound _ Hc) as [Hbx Hby]. cbn [fst snd] in Hbx, Hby.
    assert (Hcases : (a = x - 1 /\ b = y) \/ (a = x + 1 /\ b = y) \/
                     (a = x /\ b = y - 1) \/ (a = x /\ b = y + 1)) by lia.
    destruct Hcases as [[-> ->]|[[-> ->]|[[-> ->]|[-> ->]]]].
    - exists WEST. split; [apply Hdirs; auto | apply Hwest; [reflexivity | lia]].
    - exists EAST. split; [apply Hdirs; auto | apply Heast; [reflexivity | lia]].
    - exists NORTH. split; [apply Hdirs; auto 6 | apply Hnorth; [reflexivity | lia]].
    - exists SOUTH. split; [apply Hdirs; auto 6 | apply Hsouth; [reflexivity | lia]]. }
  eexists. split; [exact Hn|]. split; [|].
  - split.
    + intros Hnone c Hc Hdist. destruct dirs as [|d0 dirs0]; [|discriminate].
      destruct (Hnear c Hc Hdist) as (d & Hd & _). apply elem_of_nil in Hd. exact Hd.
    + intros Hfar. destruct dirs as [|d0 dirs0]; [reflexivity|]. exfalso.
      destruct (Htarget d0 ltac:(left)) as [_ Hin].
      assert (Hd0 : d0 ∈ d0 :: dirs0) by left.
      apply Hdirs in Hd0.
      destruct Hd0 as [[_ Hc]|[[_ Hc]|[[_ Hc]|[_ Hc]]]];
        apply (Hfar _ Hc); cbn [fst snd]; lia.
  - intros dirs' Hsome.
    assert (dirs' = dirs) as -> by (destruct dirs; [discriminate | congruence]).
    split; [exact Hnd|]. split; [|exact Hnear].
    intros d Hd. destruct (Htarget d Hd) as [Hrange Hin]. split; [exact Hrange|].
    destruct (movePlayer_contract st d g Hok) as (g' & Hmv & Hp & Hpos & _).
    cbn zeta in Hp, Hpos.
    exists g'. split; [exact Hmv|]. split.
    + rewrite Hp, bool_decide_eq_true_2 by exact Hin.
      rewrite eatFood_unfold.
      cbn [Player.food_eaten Player.set_energy Player.set_score Player.set_food_eaten].
      destruct (move_alive d 1 _ Halive) as (_ & _ & _ & _ & Hfe & _).
      cbn zeta in Hfe. rewrite Hfe. reflexivity.
    + unfold positions in Hpos.
      rewrite <- (length_map GridSpace.pos (GameGrid.occupied_spaces g')).
      rewrite <- (length_map GridSpace.pos (GameGrid.occupied_spaces g)).
      rewrite Hpos. apply length_filter_remove_one; [apply (tiles_nodup g Hok) | exact Hin].
Qed.

Lemma adjacent_food_is_eaten_witness :
  GameGrid.isPlayerNext2Food food_north_grid = Ok (Some [NORTH]) /\
  exists g', GameGrid.movePlayer true NORTH food_north_grid = Ok g' /\
    Player.food_eaten (GameGrid.player g') = 1.
Proof.
  destruct (adjacent_food_is_eaten true food_north_grid tiles_ok_food_north eq_refl)
    as (r & Hr & _ & Hsome).
  assert (Hval : GameGrid.isPlayerNext2Food food_north_grid = Ok (Some [NORTH]))
    by (vm_compute; reflexivity).
  split; [exact Hval|].
  rewrite Hval in Hr. injection Hr as <-.
  destruct (Hsome [NORTH] eq_refl) as (_ & Hdirs & _).
  destruct (Hdirs NORTH ltac:(left)) as (_ & g' & Hmv & Hfe & _).
  exists g'. split; [exact Hmv|]. rewrite Hfe. vm_compute. reflexivity.
Defined.

(** ** What the player senses *)

Lemma calcSmellMatrix_shape (st : bool) (g : GameGrid.t) :
  grid_wf g ->
  exists sg, GameGrid.calcSmellMatrix st g = Ok (GameGrid.set_smell_grid sg g) /\
    shape 10 10 sg.
Proof.
  intros Hwf. unfold GameGrid.calcSmellMatrix.
  pose proof (in_bounds_tile_in g (wf_width g Hwf) (wf_height g Hwf) (wf_bounds g Hwf))
    as Hin.
  rewrite (wf_width g Hwf), (wf_height g Hwf) in *.
  destruct (smell_fold_ok 10 10 GAME_GRID_WIDTH GAME_GRID_HEIGHT eq_refl eq_refl st
              (GameGrid.occupied_spaces g)
              (np_zeros GAME_GRID_WIDTH GAME_GRID_HEIGHT)) as (sg & Hok & Hs).
  - exact (shape_np_zeros 10 10).
  - exact Hin.
  - exists sg. rewrite Hok. split; [reflexivity | exact Hs].
Qed.

(** X16. [calcPlayerSense] gives the player a 3x3 window centred on its cell:
    entry [[r][c]] is the scent array's entry [[y + r - 1][x + c - 1]], and 0
    where that index pair falls outside the array (the zero padding), so
    nothing wraps around at the edges.  Tiles and scent array are untouched. *)
Theorem sense_window (g : GameGrid.t) :
  shape 10 10 (GameGrid.smell_grid g) ->
  in_bounds (GridSpace.pos (Player.tile (GameGrid.player g))) ->
  let x := GridSpace.x (Player.tile (GameGrid.player g)) in
  let y := GridSpace.y (Player.tile (GameGrid.player g)) in
  let g' := GameGrid.calcPlayerSense g in
  shape 3 3 (Player.smell_matrix (GameGrid.player g')) /\
  (forall r c, 0 <= r < 3 -> 0 <= c < 3 ->
     cell (Player.smell_matrix (GameGrid.player g')) r c
     = if bool_decide (in_bounds (x + c - 1, y + r - 1))
       then cell (GameGrid.smell_grid g) (y + r - 1) (x + c - 1)
       else 0) /\
  GameGrid.smell_grid g' = GameGrid.smell_grid g /\
  GameGrid.occupied_spaces g' = GameGrid.occupied_spaces g /\
  Player.tile (GameGrid.player g') = Player.tile (GameGrid.player g).
Proof.
  intros Hs Hb. cbn zeta.
  destruct (sense_window_cells g Hs Hb) as [Hshape Hcells].
  split; [exact Hshape|]. split; [exact Hcells|]. repeat split.
Qed.

Lemma sense_window_witness :
  let w := Player.smell_matrix (GameGrid.player (GameGrid.calcPlayerSense two_food_grid)) in
  cell w 0 0 = 0 /\ cell w 0 1 = 0 /\ cell w 1 0 = 0 /\
  cell w 1 1 = cell (GameGrid.smell_grid two_food_grid) 0 0 /\
  cell w 2 2 = cell (GameGrid.smell_grid two_food_grid) 1 1.
Proof.
  cbn zeta.
  destruct (sense_window two_food_grid) as (_ & Hcells & _).
  - split; [vm_compute; reflexivity|]. apply (bool_decide_unpack _). vm_compute. exact I.
  - apply (bool_decide_unpack _). vm_compute. exact I.
  - cbn zeta in Hcells.
    rewrite (Hcells 0 0), (Hcells 0 1), (Hcells 1 0), (Hcells 1 1), (Hcells 2 2) by lia.
    vm_compute. repeat split.
Defined.

(** X17. In the maximum mode, computing the scent and then the window on a
    well-formed grid returns a window with entries between 0 and 1 in which
    every tile lying on the player's cell or on one of its eight neighbours
    reads exactly 1 at its place in the window. *)
Theorem sense_reads_nearby_tiles (g : GameGrid.t) :
  grid_wf g -> in_bounds (GridSpace.pos (Player.tile (GameGrid.player g))) ->
  let x := GridSpace.x (Player.tile (GameGrid.player g)) in
  let y := GridSpace.y (Player.tile (GameGrid.player g)) in
  exists g1,
    GameGrid.calcSmellMatrix false g = Ok g1 /\
    let w := Player.smell_matrix (GameGrid.player (GameGrid.calcPlayerSense g1)) in
    (forall r c, 0 <= r < 3 -> 0 <= c < 3 -> 0 <= cell w r c <= SCENT_ONE) /\
    (forall tile r c, In tile (GameGrid.occupied_spaces g) ->
       0 <= r < 3 -> 0 <= c < 3 ->
       GridSpace.x tile = x + c - 1 -> GridSpace.y tile = y + r - 1 ->
       cell w r c = SCENT_ONE).
Proof.
  intros Hwf Hb. cbn zeta.
  destruct (max_field g (wf_width g Hwf) (wf_height g Hwf) (wf_bounds g Hwf))
    as (g1 & Hcalc & Hrange & Htiles).
  destruct (calcSmellMatrix_shape false g Hwf) as (sg & Hcalc' & Hs).
  rewrite Hcalc in Hcalc'. injection Hcalc' as ->.
  exists (GameGrid.set_smell_grid sg g). split; [exact Hcalc|].
  destruct (sense_window_cells (GameGrid.set_smell_grid sg g) Hs Hb) as [_ Hcells].
  cbn [GameGrid.player GameGrid.set_smell_grid GameGrid.smell_grid] in Hcells, Hrange, Htiles.
  set (x := GridSpace.x (Player.tile (GameGrid.player g))) in *.
  set (y := GridSpace.y (Player.tile (GameGrid.player g))) in *.
  assert (Hswap : forall a b, in_bounds (a, b) -> in_bounds (b, a)).
  { unfold in_bounds, GAME_GRID_HEIGHT. cbn [fst snd]. tauto. }
  split.
  - intros r c Hr Hc. rewrite (Hcells r c Hr Hc).
    case_bool_decide as Hin; [|unfold SCENT_ONE; lia].
    apply Hrange, Hswap, Hin.
  - intros tile r c Htile Hr Hc Hx Hy. rewrite (Hcells r c Hr Hc).
    assert (Hin : in_bounds (GridSpace.x tile, GridSpace.y tile)).
    { pose proof (wf_bounds g Hwf) as Hbs. rewrite List.Forall_forall in Hbs.
      apply (Hbs (GridSpace.pos tile)). apply in_map. exact Htile. }
    rewrite <- Hx, <- Hy. rewrite bool_decide_eq_true_2 by exact Hin.
    destruct (Htiles tile Htile) as [_ Hlow].
    specialize (Hlow _ _ (Hswap _ _ Hin)).
    pose proof (Hrange _ _ (Hswap _ _ Hin)) as Hup.
    unfold scent_between, GridSpace.pos in Hlow. cbn [fst snd] in Hlow.
    replace ((GridSpace.x tile - GridSpace.x tile) * (GridSpace.x tile - GridSpace.x tile)
             + (GridSpace.y tile - GridSpace.y tile) * (GridSpace.y tile - GridSpace.y tile))
      with 0 in Hlow by lia.
    rewrite round5_inv_dist_zero in Hlow. lia.
Qed.

Lemma sense_reads_nearby_tiles_witness :
  exists g1,
    GameGrid.calcSmellMatrix false food_north_grid = Ok g1 /\
    cell (Player.smell_matrix (GameGrid.player (GameGrid.calcPlayerSense g1))) 0 1
    = SCENT_ONE.
Proof.
  destruct (sense_reads_nearby_tiles food_north_grid) as (g1 & Hcalc & _ & Htiles).
  - apply tiles_wf, tiles_ok_food_north.
  - apply (bool_decide_unpack _). vm_compute. exact I.
  - exists g1. split; [exact Hcalc|]. cbn zeta in Htiles.
    apply (Htiles (GridSpace.setFood (GridSpace.init 0 0))); try lia.
    + vm_compute. auto.
    + vm_compute. reflexivity.
    + vm_compute. reflexivity.
Defined.

(** ** A tick never faults *)

Lemma rejection_loop_raise (og : list (list Z)) (n : nat) :
  shape 10 10 og ->
  forall (tp : tape) (e : fault), (length tp <= n)%nat ->
    GameGrid.rejection_loop og tp = Raise e -> e = OutOfDraws.
Proof.
  intros Hs. induction n as [|n IH]; intros tp e Hlen H.
  - destruct tp; [cbn in H; congruence | cbn in Hlen; lia].
  - destruct tp as [|rx [|ry tp1]]; try (cbn in H; congruence).
    cbn [GameGrid.rejection_loop] in H.
    change (0 + rx mod (GAME_GRID_WIDTH - 1 - 0 + 1)) with (rx mod 10) in H.
    change (0 + ry mod (GAME_GRID_HEIGHT - 1 - 0 + 1)) with (ry mod 10) in H.
    pose proof (Z.mod_pos_bound rx 10 ltac:(lia)) as Hx.
    pose proof (Z.mod_pos_bound ry 10 ltac:(lia)) as Hy.
    rewrite (np_get2_in_range 10 10) in H by (try assumption; lia).
    cbn [bind] in H.
    destruct (Z.eqb_spec (cell og (rx mod 10) (ry mod 10)) 0) as [Hz|Hnz]; [discriminate|].
    apply (IH tp1 e); [cbn in Hlen; lia | exact H].
Qed.

(** On a grid less than half full a random placement can only fail for want
    of draws. *)
Lemma addFood_random_raise (st : bool) (g : GameGrid.t) (tp : tape) (e : fault) :
  grid_wf g ->
  2 * Z.of_nat (length (GameGrid.occupied_spaces g)) < NUM_SPACES ->
  GameGrid.addFood st (-1) (-1) g tp = Raise e -> e = OutOfDraws.
Proof.
  intros Hwf Hhalf H.
  unfold GameGrid.addFood, GameGrid.genTile, GameGrid.randEmptySpace, bindM, lift, ret in H.
  destruct (Z.leb_spec NUM_SPACES (Z.of_nat (length (GameGrid.occupied_spaces g))));
    [unfold NUM_SPACES in *; cbn in *; lia|].
  cbn [Z.ltb orb Z.compare] in H.
  destruct (Z.ltb_spec (2 * Z.of_nat (length (GameGrid.occupied_spaces g))) NUM_SPACES);
    [|lia].
  destruct (GameGrid.rejection_loop (GameGrid.occupied_grid g) tp) as [[c tp1]|e1] eqn:E.
  - exfalso.
    destruct (rejection_loop_spec _ (length tp) (wf_shape g Hwf) tp tp1 c (le_n _) E)
      as [Hb _].
    destruct (addTile_in_bounds (GridSpace.setFood (GridSpace.init c.1 c.2)) g Hwf)
      as [Hok Hwf1]; [destruct c; exact Hb|].
    destruct (calcSmellMatrix_wf st _ Hwf1) as [sg Hsg].
    cbn [fst snd] in H. rewrite Hok in H. cbn [orb] in H. rewrite Hsg in H. discriminate.
  - injection H as <-.
    exact (rejection_loop_raise _ (length tp) (wf_shape g Hwf) tp e1 (le_n _) E).
Qed.

Lemma smart_mouse_no_draw (w : list (list Z)) (g : GameGrid.t) :
  tiles_ok g -> shape 3 3 w -> smart_mouse w g [] = Raise OutOfDraws.
Proof.
  intros Hok Hs. unfold smart_mouse.
  destruct (np_any w) eqn:Hany; cbn [negb].
  - cbn [USE_DIAGONAL_SCENT].
    unfold bindM at 1.
    rewrite (np_get2_in_range 3 3 w 0 1 Hs) by lia. cbn [lift].
    unfold bindM at 1.
    rewrite (np_get2_in_range 3 3 w 2 1 Hs) by lia. cbn [lift].
    unfold bindM at 1.
    rewrite (np_get2_in_range 3 3 w 1 0 Hs) by lia. cbn [lift].
    unfold bindM at 1.
    rewrite (np_get2_in_range 3 3 w 1 2 Hs) by lia. cbn [lift].
    unfold bindM.
    destruct (isPlayerNext2Food_spec g Hok) as (dirs & Hn & _ & _).
    rewrite Hn. cbn [lift].
    destruct dirs as [|d0 dirs0].
    + destruct (argmax_four (cell w 0 1) (cell w 2 1) (cell w 1 0) (cell w 1 2))
        as [Hne _].
      unfold choice.
      destruct (argmax_indexes [cell w 0 1; cell w 2 1; cell w 1 0; cell w 1 2]);
        [congruence | reflexivity].
    + reflexivity.
  - reflexivity.
Qed.

(** The part of a tick that follows the placement of food: scent, window,
    decision, move.  It consumes exactly one draw. *)
Lemma tick_tail (st : bool) (g : GameGrid.t) :
  tiles_ok g -> in_bounds (GridSpace.pos (Player.tile (GameGrid.player g))) ->
  (forall r tp, exists g1 d,
      GameGrid.calcSmellMatrix st g = Ok g1 /\
      smart_mouse (Player.smell_matrix (GameGrid.player (GameGrid.calcPlayerSense g1)))
        (GameGrid.calcPlayerSense g1) (r :: tp) = Ok (d, tp) /\
      exists g', GameGrid.movePlayer st d (GameGrid.calcPlayerSense g1) = Ok g') /\
  (exists g1,
      GameGrid.calcSmellMatrix st g = Ok g1 /\
      smart_mouse (Player.smell_matrix (GameGrid.player (GameGrid.calcPlayerSense g1)))
        (GameGrid.calcPlayerSense g1) [] = Raise OutOfDraws).
Proof.
  intros Hok Hb.
  destruct (calcSmellMatrix_shape st g (tiles_wf g Hok)) as (sg & Hcalc & Hs).
  set (g1 := GameGrid.set_smell_grid sg g) in *.
  assert (Hok1 : tiles_ok g1) by (apply tiles_ok_set_smell_grid, Hok).
  assert (Hok2 : tiles_ok (GameGrid.calcPlayerSense g1)).
  { unfold GameGrid.calcPlayerSense. apply tiles_ok_set_player, Hok1. }
  destruct (sense_window_cells g1 Hs Hb) as [Hw _].
  split.
  - intros r tp.
    destruct (smart_mouse_returns _ _ r tp Hok2 Hw) as (d & Hd & _).
    destruct (movePlayer_contract st d _ Hok2) as (g' & Hmv & _).
    exists g1, d. split; [exact Hcalc|]. split; [exact Hd|]. exists g'. exact Hmv.
  - exists g1. split; [exact Hcalc|]. exact (smart_mouse_no_draw _ _ Hok2 Hw).
Qed.

Lemma logicTick_move_from (st : bool) (m : GameManager.t) (g : GameGrid.t)
  (tp0 tp : tape) :
  (match GameGrid.occupied_spaces (GameManager.game_grid m) with
   | [] =>
       foldM (fun g _ => GameGrid.addFood st (-1) (-1) g)
         (seqZ 0 MAX_NUM_FOOD_ON_GRID) (GameManager.game_grid m)
   | _ :: _ => ret (GameManager.game_grid m)
   end) tp0 = Ok (g, tp) ->
  tiles_ok g -> in_bounds (GridSpace.pos (Player.tile (GameGrid.player g))) ->
  match tp with
  | [] => GameManager.logicTick st m tp0 = Raise OutOfDraws
  | _ :: tp' => exists m', GameManager.logicTick st m tp0 = Ok (m', tp')
  end.
Proof.
  intros Hfood Hok Hb.
  destruct (tick_tail st g Hok Hb) as [Hrun Hstop].
  destruct tp as [|r tp'].
  - destruct Hstop as (g1 & Hcalc & Hsm).
    unfold GameManager.logicTick, GameManager.logicTick_move.
    unfold bindM at 1. unfold bindM at 1. rewrite Hfood. cbv beta iota.
    unfold bindM at 1. rewrite Hcalc. cbn [lift].
    unfold bindM at 1. rewrite Hsm. reflexivity.
  - destruct (Hrun r tp') as (g1 & d & Hcalc & Hsm & g' & Hmv).
    eexists.
    unfold GameManager.logicTick, GameManager.logicTick_move.
    unfold bindM at 1. unfold bindM at 1. rewrite Hfood. cbv beta iota.
    unfold bindM at 1. rewrite Hcalc. cbn [lift].
    unfold bindM at 1. rewrite Hsm. rewrite Hmv. cbn [lift].
    reflexivity.
Qed.

(** X18. A tick from a reachable state raises nothing but the end of the supply
    of draws: every array access is in range and every [random.choice] is
    from a list that is not empty.  When it returns, the state it leaves is
    reachable; and when there is food on the grid it returns with any supply
    that is not empty, having consumed exactly one draw. *)
Theorem tick_faults_only_on_draws (st : bool) (m : GameManager.t) :
  reachable m ->
  (forall tp e, GameManager.logicTick st m tp = Raise e -> e = OutOfDraws) /\
  (forall tp m' tp', GameManager.logicTick st m tp = Ok (m', tp') -> reachable m') /\
  (GameGrid.occupied_spaces (GameManager.game_grid m) <> [] ->
   forall r tp, exists m', GameManager.logicTick st m (r :: tp) = Ok (m', tp)).
Proof.
  intros Hreach. pose proof (reachable_inv m Hreach) as [Ht Hc Hp Hh].
  split; [|split].
  - intros tp e H.
    destruct (GameGrid.occupied_spaces (GameManager.game_grid m)) as [|t0 l0] eqn:El.
    + assert (Hfold : forall g tp1,
                (match GameGrid.occupied_spaces (GameManager.game_grid m) with
                 | [] =>
                     foldM (fun g _ => GameGrid.addFood st (-1) (-1) g)
                       (seqZ 0 MAX_NUM_FOOD_ON_GRID) (GameManager.game_grid m)
                 | _ :: _ => ret (GameManager.game_grid m)
                 end) tp = Ok (g, tp1) ->
                tiles_ok g /\ GameGrid.player g = GameGrid.player (GameManager.game_grid m)).
      { intros g tp1 Hf. rewrite El in Hf.
        change (seqZ 0 MAX_NUM_FOOD_ON_GRID) with [0; 1] in Hf. cbn [foldM] in Hf.
        apply bindM_Ok in Hf as (ga & tpa & Ha & Hf).
        apply bindM_Ok in Hf as (gb & tpb & Hb & Hf).
        apply ret_Ok in Hf as [-> ->].
        destruct (addFood_random_length st _ _ _ _ Ht Ha) as (Hta & Hpa & _).
        destruct (addFood_random_length st _ _ _ _ Hta Hb) as (Htb & Hpb & _).
        split; [exact Htb | congruence]. }
      destruct ((match GameGrid.occupied_spaces (GameManager.game_grid m) with
                 | [] =>
                     foldM (fun g _ => GameGrid.addFood st (-1) (-1) g)
                       (seqZ 0 MAX_NUM_FOOD_ON_GRID) (GameManager.game_grid m)
                 | _ :: _ => ret (GameManager.game_grid m)
                 end) tp) as [[g tp1]|e1] eqn:Ef.
      * destruct (Hfold g tp1 eq_refl) as [Hok Hpl].
        assert (Hb : in_bounds (GridSpace.pos (Player.tile (GameGrid.player g))))
          by (rewrite Hpl; apply Hp).
        pose proof (logicTick_move_from st m g tp tp1 Ef Hok Hb) as Hres.
        destruct tp1 as [|r tp1'].
        -- rewrite Hres in H. congruence.
        -- destruct Hres as [m' Hres]. rewrite Hres in H. discriminate.
      * assert (He : GameManager.logicTick st m tp = Raise e1).
        { unfold GameManager.logicTick, GameManager.logicTick_move.
          unfold bindM at 1. unfold bindM at 1. rewrite Ef. reflexivity. }
        rewrite He in H. injection H as <-.
        rewrite El in Ef. change (seqZ 0 MAX_NUM_FOOD_ON_GRID) with [0; 1] in Ef.
        cbn [foldM] in Ef. unfold bindM at 1 in Ef.
        destruct (GameGrid.addFood st (-1) (-1) (GameManager.game_grid m) tp)
          as [[ga tpa]|ea] eqn:Ea.
        -- destruct (addFood_random_length st _ _ _ _ Ht Ea) as (Hta & _ & Hla).
           rewrite El in Hla. cbn [length] in Hla.
           unfold bindM at 1 in Ef.
           destruct (GameGrid.addFood st (-1) (-1) ga tpa) as [[gb tpb]|eb] eqn:Eb;
             [discriminate|].
           injection Ef as <-.
           apply (addFood_random_raise st ga tpa eb (tiles_wf ga Hta)); [|exact Eb].
           unfold NUM_SPACES, GAME_GRID_HEIGHT, GAME_GRID_WIDTH. lia.
        -- injection Ef as <-.
           apply (addFood_random_raise st _ tp ea (tiles_wf _ Ht)); [|exact Ea].
           rewrite El. cbn [length]. unfold NUM_SPACES, GAME_GRID_HEIGHT, GAME_GRID_WIDTH.
           lia.
    + assert (Ef : (match GameGrid.occupied_spaces (GameManager.game_grid m) with
                    | [] =>
                        foldM (fun g _ => GameGrid.addFood st (-1) (-1) g)
                          (seqZ 0 MAX_NUM_FOOD_ON_GRID) (GameManager.game_grid m)
                    | _ :: _ => ret (GameManager.game_grid m)
                    end) tp = Ok (GameManager.game_grid m, tp))
        by (rewrite El; reflexivity).
      pose proof (logicTick_move_from st m _ tp tp Ef Ht (ok_pos _ Hp)) as Hres.
      destruct tp as [|r tp1].
      * rewrite Hres in H. congruence.
      * destruct Hres as [m' Hres]. rewrite Hres in H. discriminate.
  - intros tp m' tp' H. exact (reach_tick st tp tp' m m' Hreach H).
  - intros Hfood r tp.
    assert (Ef : (match GameGrid.occupied_spaces (GameManager.game_grid m) with
                  | [] =>
                      foldM (fun g _ => GameGrid.addFood st (-1) (-1) g)
                        (seqZ 0 MAX_NUM_FOOD_ON_GRID) (GameManager.game_grid m)
                  | _ :: _ => ret (GameManager.game_grid m)
                  end) (r :: tp) = Ok (GameManager.game_grid m, r :: tp)).
    { destruct (GameGrid.occupied_spaces (GameManager.game_grid m));
        [congruence | reflexivity]. }
    exact (logicTick_move_from st m _ (r :: tp) (r :: tp) Ef Ht (ok_pos _ Hp)).
Qed.

Lemma tick_faults_only_on_draws_witness :
  (exists m', GameManager.logicTick true fresh_manager [5; 8] = Ok (m', [8])) /\
  GameManager.logicTick true fresh_manager [] = Raise OutOfDraws.
Proof.
  assert (Hreach : reachable fresh_manager).
  { apply (reach_init true [3; 2] []). vm_compute. reflexivity. }
  destruct (tick_faults_only_on_draws true fresh_manager Hreach) as (Hraise & _ & Hfood).
  split.
  - apply Hfood. vm_compute. discriminate.
  - destruct (GameManager.logicTick true fresh_manager []) as [[m' tp']|e] eqn:E.
    + vm_compute in E. discriminate.
    + rewrite (Hraise [] e E). reflexivity.
Defined.

(** ** What a tick does to the agent *)

Lemma saveGameState_fields (m : GameManager.t) :
  GameManager.round (GameManager.saveGameState m) = GameManager.round m /\
  GameManager.round_scores (GameManager.saveGameState m) = GameManager.round_scores m.
Proof.
  unfold GameManager.saveGameState.
  destruct (MAX_SAVED_GAME_STATES <=? Z.of_nat (length (GameManager.game_states m)));
    split; reflexivity.
Qed.

Lemma move_ignores_smell_matrix (d c : Z) (w : list (list Z)) (p : Player.t) :
  (Player.move d c (Player.set_smell_matrix w p)).2 = (Player.move d c p).2.
Proof.
  unfold Player.move, Player.useEnergy, Player.die. destruct p as [tl fe me en al sm sc].
  cbn. destruct al; [|reflexivity].
  repeat match goal with
         | |- context [if ?b then _ else _] => destruct b; cbn
         end; reflexivity.
Qed.

(** The grid a tick leaves before the end-of-round check.  [g1] is the grid
    after the replenishment that opens the tick, [d] the direction decided:
    the player of the state is moved once at cost 1, fed exactly when a tile
    of [g1] lies on the cell it arrives at, and that tile is removed. *)
Lemma logicTick_move_outcome (st : bool) (m : GameManager.t) (tp tp' : tape)
  (g : GameGrid.t) :
  manager_inv m -> GameManager.logicTick_move st m tp = Ok (g, tp') ->
  exists (d : Z) (g1 : GameGrid.t) (w : list (list Z)),
    0 <= d <= 3 /\
    tiles_ok g1 /\
    Z.of_nat (length (GameGrid.occupied_spaces g1)) <= MAX_NUM_FOOD_ON_GRID /\
    (GameGrid.occupied_spaces (GameManager.game_grid m) <> [] ->
     positions g1 = positions (GameManager.game_grid m)) /\
    let p := GameGrid.player (GameManager.game_grid m) in
    let target := (Player.move d 1 p).2 in
    let q := (Player.move d 1 (Player.set_smell_matrix w p)).1 in
    GameGrid.player g
    = (if bool_decide (target ∈ positions g1) then Player.eatFood q else q) /\
    GridSpace.pos (Player.tile q) = target /\
    positions g = filter (fun c => c <> target) (positions g1).
Proof.
  intros [Ht Hc Hp Hh] H. unfold GameManager.logicTick_move in H.
  apply bindM_Ok in H as (g1 & tp1 & Hfood & H).
  assert (H1 : tiles_ok g1 /\
               GameGrid.player g1 = GameGrid.player (GameManager.game_grid m) /\
               Z.of_nat (length (GameGrid.occupied_spaces g1)) <= MAX_NUM_FOOD_ON_GRID /\
               (GameGrid.occupied_spaces (GameManager.game_grid m) <> [] ->
                positions g1 = positions (GameManager.game_grid m))).
  { destruct (GameGrid.occupied_spaces (GameManager.game_grid m)) as [|t0 l0] eqn:El.
    - change (seqZ 0 MAX_NUM_FOOD_ON_GRID) with [0; 1] in Hfood.
      cbn [foldM] in Hfood.
      apply bindM_Ok in Hfood as (ga & tpa & Ha & Hfood).
      apply bindM_Ok in Hfood as (gb & tpb & Hb & Hfood).
      apply ret_Ok in Hfood as [-> ->].
      destruct (addFood_random_length st _ _ _ _ Ht Ha) as (Hta & Hpa & Hla).
      destruct (addFood_random_length st _ _ _ _ Hta Hb) as (Htb & Hpb & Hlb).
      split; [exact Htb|]. split; [congruence|]. split; [|congruence].
      rewrite El in Hla. cbn in Hla. unfold MAX_NUM_FOOD_ON_GRID. lia.
    - apply ret_Ok in Hfood as [-> ->]. rewrite ?El. auto. }
  destruct H1 as (Ht1 & Hp1 & Hc1 & Hsame).
  apply bindM_Ok in H as (g2 & tp2 & Hcalc & H).
  apply lift_Ok in Hcalc as [Hcalc ->].
  destruct (calcSmellMatrix_shape st g1 (tiles_wf g1 Ht1)) as (sg & Hcalc' & Hs).
  rewrite Hcalc in Hcalc'. injection Hcalc' as ->.
  apply bindM_Ok in H as (movement & tp3 & Hsm & H).
  apply lift_Ok in H as [H ->].
  set (g3 := GameGrid.calcPlayerSense (GameGrid.set_smell_grid sg g1)) in *.
  assert (Ht3 : tiles_ok g3).
  { subst g3. unfold GameGrid.calcPlayerSense.
    apply tiles_ok_set_player, tiles_ok_set_smell_grid, Ht1. }
  assert (Hb : in_bounds (GridSpace.pos
                            (Player.tile (GameGrid.player (GameGrid.set_smell_grid sg g1))))).
  { cbn [GameGrid.player GameGrid.set_smell_grid]. rewrite Hp1. apply Hp. }
  destruct (sense_window_cells (GameGrid.set_smell_grid sg g1) Hs Hb) as [Hw _].
  fold g3 in Hw.
  assert (Hrange : 0 <= movement <= 3).
  { destruct tp1 as [|r tp2'].
    - rewrite (smart_mouse_no_draw _ _ Ht3 Hw) in Hsm. discriminate.
    - destruct (smart_mouse_returns _ _ r tp2' Ht3 Hw) as (d & Hd & Hr & _).
      rewrite Hd in Hsm. injection Hsm as <- _. exact Hr. }
  destruct (movePlayer_contract st movement g3 Ht3) as (g' & Hmv & Hp' & Hpos' & _).
  cbn zeta in Hp', Hpos'. rewrite Hmv in H. injection H as <-.
  assert (E : GameGrid.player g3
              = Player.set_smell_matrix (Player.smell_matrix (GameGrid.player g3))
                  (GameGrid.player (GameManager.game_grid m))).
  { subst g3. unfold GameGrid.calcPlayerSense.
    cbn [GameGrid.player GameGrid.set_player GameGrid.set_smell_grid
         Player.smell_matrix Player.set_smell_matrix].
    rewrite Hp1. reflexivity. }
  assert (Htarget : (Player.move movement 1 (GameGrid.player g3)).2
                    = (Player.move movement 1 (GameGrid.player (GameManager.game_grid m))).2).
  { rewrite E. apply move_ignores_smell_matrix. }
  assert (Hpos3 : positions g3 = positions g1) by reflexivity.
  exists movement, g1, (Player.smell_matrix (GameGrid.player g3)).
  split; [exact Hrange|]. split; [exact Ht1|]. split; [exact Hc1|]. split; [exact Hsame|].
  cbn zeta. rewrite <- E, <- Htarget, <- Hpos3.
  split; [exact Hp'|]. split; [|exact Hpos'].
  assert (Halive : Player.alive (GameGrid.player g3) = true) by (rewrite E; apply Hp).
  destruct (move_alive movement 1 (GameGrid.player g3) Halive) as (Hret & _).
  symmetry. exact Hret.
Qed.

(** X19. The account of one tick.  [ps] are the cells of the food tiles after
    the replenishment that opens the tick (the tiles of the state when it has
    any), [d] is the direction decided and [target] the cell the player
    arrives at.  The move costs one unit of energy; a meal takes place exactly
    when a food tile lies on [target], it adds [ENERGY_PER_FOOD], capped at
    [MAX_ENERGY], and adds to the score the energy left after the move.  The
    round ends when the meals reach [FOOD_PER_ROUND], or when the move was
    made on no energy: the ledger then receives the score, or 0 for a death
    that does not complete the round, and the game restarts with a fresh
    player, no food and a history of one snapshot.  Otherwise the agent lives
    on, on [target], with the new figures, and the tiles are those of [ps]
    other than the one eaten. *)
Theorem tick_accounting (st : bool) (m m' : GameManager.t) (tp tp' : tape) :
  reachable m -> GameManager.logicTick st m tp = Ok (m', tp') ->
  let p := GameGrid.player (GameManager.game_grid m) in
  let p' := GameGrid.player (GameManager.game_grid m') in
  let e := Player.energy p - 1 in
  exists (d : Z) (ps : list (Z * Z)),
    0 <= d <= 3 /\
    NoDup ps /\ Forall in_bounds ps /\ Z.of_nat (length ps) <= MAX_NUM_FOOD_ON_GRID /\
    (GameGrid.occupied_spaces (GameManager.game_grid m) <> [] ->
     ps = positions (GameManager.game_grid m)) /\
    let target := (Player.move d 1 p).2 in
    let ate := bool_decide (target ∈ ps) in
    let q_energy := if ate then Z.min (e + ENERGY_PER_FOOD) MAX_ENERGY else e in
    let q_score := if ate then Player.score p + e else Player.score p in
    let q_food := if ate then Player.food_eaten p + 1 else Player.food_eaten p in
    if (FOOD_PER_ROUND <=? q_food) || (e <? 0) then
      GameManager.round m' = GameManager.round m + 1 /\
      GameManager.round_scores m'
      = GameManager.round_scores m ++ [if FOOD_PER_ROUND <=? q_food then q_score else 0] /\
      p' = Player.init 0 0 /\
      GameGrid.occupied_spaces (GameManager.game_grid m') = [] /\
      GameManager.game_states m' = [GameState.init (GameManager.game_grid m')]
    else
      GameManager.round m' = GameManager.round m /\
      GameManager.round_scores m' = GameManager.round_scores m /\
      Player.energy p' = q_energy /\ Player.score p' = q_score /\
      Player.food_eaten p' = q_food /\ Player.alive p' = true /\
      GridSpace.pos (Player.tile p') = target /\
      positions (GameManager.game_grid m') = filter (fun c => c <> target) ps.
Proof.
  intros Hreach H. cbn zeta.
  pose proof (reachable_inv m Hreach) as Hinv.
  pose proof (inv_player m Hinv) as Hp.
  unfold GameManager.logicTick in H.
  apply bindM_Ok in H as (g & tp1 & Hmove & H). apply ret_Ok in H as [-> ->].
  destruct (logicTick_move_outcome st m tp tp1 g Hinv Hmove)
    as (d & g1 & w & Hd & Ht1 & Hc1 & Hsame & Hq & Htile & Hpos).
  cbn zeta in Hq, Htile, Hpos.
  set (p := GameGrid.player (GameManager.game_grid m)) in *.
  set (pw := Player.set_smell_matrix w p) in *.
  set (target := (Player.move d 1 p).2) in *.
  set (ate := bool_decide (target ∈ positions g1)) in *.
  assert (Halive : Player.alive pw = true) by (apply Hp).
  destruct (move_alive d 1 pw Halive) as (_ & He & Ha & Hs & Hf & Hm & _).
  cbn zeta in He, Ha, Hs, Hf, Hm.
  change (Player.energy pw) with (Player.energy p) in *.
  change (Player.score pw) with (Player.score p) in *.
  change (Player.food_eaten pw) with (Player.food_eaten p) in *.
  change (Player.max_energy pw) with (Player.max_energy p) in *.
  rewrite (ok_max_energy p Hp) in Hm.
  assert (HP : Player.energy (GameGrid.player g)
               = (if ate then Z.min (Player.energy p - 1 + ENERGY_PER_FOOD) MAX_ENERGY
                  else Player.energy p - 1) /\
               Player.score (GameGrid.player g)
               = (if ate then Player.score p + (Player.energy p - 1) else Player.score p) /\
               Player.food_eaten (GameGrid.player g)
               = (if ate then Player.food_eaten p + 1 else Player.food_eaten p) /\
               Player.alive (GameGrid.player g) = negb (Player.energy p - 1 <? 0) /\
               GridSpace.pos (Player.tile (GameGrid.player g)) = target).
  { rewrite Hq. destruct ate.
    - rewrite eatFood_unfold.
      cbn [Player.energy Player.score Player.food_eaten Player.alive Player.tile
           Player.set_energy Player.set_score Player.set_food_eaten].
      rewrite He, Hs, Hf, Ha, Hm. auto.
    - rewrite He, Hs, Hf, Ha. auto. }
  destruct HP as (HPe & HPs & HPf & HPa & HPt).
  exists d, (positions g1).
  split; [exact Hd|]. split; [exact (tiles_nodup g1 Ht1)|].
  split; [exact (wf_bounds g1 (tiles_wf g1 Ht1))|].
  split; [unfold positions; rewrite length_map; exact Hc1|].
  split; [exact Hsame|].
  fold target. fold ate.
  unfold GameManager.checkEndStates.
  cbn [GameManager.game_grid GameManager.set_game_grid].
  rewrite HPf, HPa.
  destruct (FOOD_PER_ROUND
            <=? (if ate then Player.food_eaten p + 1 else Player.food_eaten p)) eqn:Efood;
    cbn [orb].
  - rewrite saveGameState_game_grid.
    destruct (saveGameState_fields
                (GameManager.endRound (GameManager.set_game_grid g m))) as [-> ->].
    unfold GameManager.saveGameState, GameManager.endRound, GameManager.reset.
    cbn [GameManager.game_grid GameManager.set_game_grid GameManager.round
         GameManager.round_scores GameManager.game_states GameManager.set_game_states
         GameGrid.reset GameGrid.player GameGrid.occupied_spaces length].
    rewrite HPs. repeat split.
  - rewrite negb_involutive.
    destruct (Player.energy p - 1 <? 0) eqn:Edead.
    + cbn [DEATH_PENALTY]. rewrite saveGameState_game_grid.
      match goal with
      | |- context [GameManager.saveGameState ?X] =>
          destruct (saveGameState_fields X) as [-> ->]
      end.
      unfold GameManager.saveGameState, GameManager.endRound, GameManager.reset.
      cbn [GameManager.game_grid GameManager.set_game_grid GameManager.round
           GameManager.round_scores GameManager.game_states GameManager.set_game_states
           GameGrid.reset GameGrid.player GameGrid.set_player GameGrid.occupied_spaces
           Player.score Player.set_score length].
      repeat split.
    + rewrite saveGameState_game_grid.
      destruct (saveGameState_fields (GameManager.set_game_grid g m)) as [-> ->].
      cbn [GameManager.game_grid GameManager.set_game_grid GameManager.round
           GameManager.round_scores].
      rewrite HPe, HPs, HPf, HPa, HPt, Hpos. repeat split.
Qed.

Lemma tick_accounting_witness :
  GameManager.round ticked_manager = GameManager.round fresh_manager /\
  Player.energy (GameGrid.player (GameManager.game_grid ticked_manager)) = 99 /\
  Player.score (GameGrid.player (GameManager.game_grid ticked_manager)) = 0 /\
  positions (GameManager.game_grid ticked_manager) = [(3, 2)].
Proof.
  assert (Hreach : reachable fresh_manager).
  { apply (reach_init true [3; 2] []). vm_compute. reflexivity. }
  assert (Htick : GameManager.logicTick true fresh_manager [0] = Ok (ticked_manager, []))
    by (vm_compute; reflexivity).
  destruct (tick_accounting true fresh_manager ticked_manager [0] [] Hreach Htick)
    as (d & ps & Hd & _ & _ & _ & Hps & H).
  rewrite (Hps ltac:(vm_compute; discriminate)) in H. clear Hps.
  assert (Hcases : d = 0 \/ d = 1 \/ d = 2 \/ d = 3) by lia.
  destruct Hcases as [-> | [-> | [-> | ->]]]; vm_compute in H;
    destruct H as (Hr & _ & He & Hs & _ & _ & _ & Hpos);
    (split; [exact Hr|]); (split; [exact He|]); (split; [exact Hs|]);
    vm_compute; reflexivity.
Defined.

(** ** The rejection sampler and the constructor *)

(** X20. On a grid less than half full [randEmptySpace] consumes the draws two by
    two, skips every pair that designates an occupied cell and returns the
    first pair that designates a free one. *)
Theorem rejection_returns_first_free_draw (g : GameGrid.t) (skipped : list (Z * Z))
  (rx ry : Z) (tp : tape) :
  grid_wf g ->
  2 * Z.of_nat (length (GameGrid.occupied_spaces g)) < NUM_SPACES ->
  Forall (fun d => (d.1 mod 10, d.2 mod 10) ∈ positions g) skipped ->
  (rx mod 10, ry mod 10) ∉ positions g ->
  GameGrid.randEmptySpace g (flat_map (fun d => [d.1; d.2]) skipped ++ rx :: ry :: tp)
  = Ok ((rx mod 10, ry mod 10), tp).
Proof.
  intros Hwf Hhalf Hskip Hfree. unfold GameGrid.randEmptySpace.
  destruct (Z.ltb_spec (2 * Z.of_nat (length (GameGrid.occupied_spaces g))) NUM_SPACES);
    [|lia].
  induction Hskip as [|[sx sy] skipped Hocc _ IH]; cbn [flat_map app].
  - apply rejection_loop_hit; [apply Hwf|].
    pose proof (Z.mod_pos_bound rx 10 ltac:(lia)) as Hx.
    pose proof (Z.mod_pos_bound ry 10 ltac:(lia)) as Hy.
    rewrite (wf_marks g Hwf) by (exact Hx || exact Hy).
    rewrite bool_decide_eq_false_2 by exact Hfree. reflexivity.
  - cbn [fst snd] in *. cbn [GameGrid.rejection_loop].
    change (0 + sx mod (GAME_GRID_WIDTH - 1 - 0 + 1)) with (sx mod 10).
    change (0 + sy mod (GAME_GRID_HEIGHT - 1 - 0 + 1)) with (sy mod 10).
    pose proof (Z.mod_pos_bound sx 10 ltac:(lia)) as Hx.
    pose proof (Z.mod_pos_bound sy 10 ltac:(lia)) as Hy.
    rewrite (np_get2_in_range 10 10) by (try apply Hwf; lia). cbn [bind].
    rewrite (wf_marks g Hwf) by (exact Hx || exact Hy).
    rewrite bool_decide_eq_true_2 by exact Hocc. cbn. exact IH.
Qed.

Lemma rejection_returns_first_free_draw_witness :
  GameGrid.randEmptySpace food_north_grid [0; 0; 10; 20; 13; 4; 7] = Ok ((3, 4), [7]).
Proof.
  apply (rejection_returns_first_free_draw food_north_grid [(0, 0); (10, 20)] 13 4 [7]).
  - apply tiles_wf, tiles_ok_food_north.
  - vm_compute. reflexivity.
  - repeat constructor; apply (bool_decide_unpack _); vm_compute; exact I.
  - apply (bool_decide_unpack _). vm_compute. exact I.
Defined.

(** X21. The constructor consumes two draws [rx], [ry] and returns a game in
    round 0, not paused, with no history and no scores, a fresh player on
    [(0, 0)] and one food tile, on the cell [(rx mod 10, ry mod 10)], which
    may be the player's own; with fewer than two draws it cannot place the
    food. *)
Theorem fresh_game (st : bool) (rx ry : Z) (tp : tape) :
  (exists m,
     GameManager.init st GAME_GRID_WIDTH GAME_GRID_HEIGHT (rx :: ry :: tp) = Ok (m, tp) /\
     GameManager.round m = 0 /\ GameManager.paused m = false /\
     GameManager.game_states m = [] /\ GameManager.round_scores m = [] /\
     GameGrid.player (GameManager.game_grid m) = Player.init 0 0 /\
     GameGrid.occupied_spaces (GameManager.game_grid m)
     = [GridSpace.setFood (GridSpace.init (rx mod 10) (ry mod 10))] /\
     reachable m) /\
  GameManager.init st GAME_GRID_WIDTH GAME_GRID_HEIGHT [rx] = Raise OutOfDraws /\
  GameManager.init st GAME_GRID_WIDTH GAME_GRID_HEIGHT [] = Raise OutOfDraws.
Proof.
  split; [|split; reflexivity].
  destruct (addFood_draw st (GameGrid.init GAME_GRID_HEIGHT GAME_GRID_WIDTH) rx ry tp
              grid_wf_init) as [sg Hadd].
  - cbn. unfold NUM_SPACES, GAME_GRID_HEIGHT, GAME_GRID_WIDTH. lia.
  - apply not_elem_of_nil.
  - assert (Hinit : GameManager.init st GAME_GRID_WIDTH GAME_GRID_HEIGHT (rx :: ry :: tp)
                    = Ok (GameManager.mk
                            (GameGrid.set_smell_grid sg
                               (with_tile
                                  (GridSpace.setFood (GridSpace.init (rx mod 10) (ry mod 10)))
                                  (GameGrid.init GAME_GRID_HEIGHT GAME_GRID_WIDTH)))
                            0 false [] [], tp)).
    { unfold GameManager.init, bindM. rewrite Hadd. reflexivity. }
    eexists. split; [exact Hinit|]. repeat split.
    exact (reach_init st _ _ _ Hinit).
Qed.

(** ** Two tiles on one cell *)

Lemma remove_loop_app (x y : Z) (l r : list GridSpace.t) (ty : option kind) :
  Forall (fun tile => GridSpace.pos tile <> (x, y)) l ->
  GameGrid.remove_loop x y (l ++ r) ty
  = (l ++ (GameGrid.remove_loop x y r ty).1, (GameGrid.remove_loop x y r ty).2).
Proof.
  induction 1 as [|tile l Hne Hl IH]; cbn [app].
  - destruct (GameGrid.remove_loop x y r ty). reflexivity.
  - cbn [GameGrid.remove_loop].
    destruct (Z.eqb_spec (GridSpace.x tile) x) as [Hx|Hx];
      [destruct (Z.eqb_spec (GridSpace.y tile) y) as [Hy|Hy]|]; cbn [andb].
    + exfalso. apply Hne. unfold GridSpace.pos. congruence.
    + rewrite IH. reflexivity.
    + rewrite IH. reflexivity.
Qed.

(** X22. [addFood] at a given cell does not look at what the cell holds, and
    [removeTile] skips the tile that follows the one it removes.  So after
    two [addFood] at the same free cell the tile list holds two food tiles
    there, and one [removeTile] takes the first, clears the mark of the cell
    and leaves the second: a tile that [getTile] still finds and that
    [checkOccupied] and [checkForFood] no longer see. *)
Theorem duplicate_tile_survives_removal (st : bool) (x y : Z) (g : GameGrid.t)
  (tp : tape) :
  tiles_ok g -> in_bounds (x, y) -> (x, y) ∉ positions g ->
  Z.of_nat (length (GameGrid.occupied_spaces g)) + 1 < NUM_SPACES ->
  let food := GridSpace.setFood (GridSpace.init x y) in
  exists g1 g2 g3,
    GameGrid.addFood st x y g tp = Ok (g1, tp) /\
    GameGrid.addFood st x y g1 tp = Ok (g2, tp) /\
    GameGrid.occupied_spaces g2 = GameGrid.occupied_spaces g ++ [food; food] /\
    GameGrid.removeTile x y g2 = Ok (g3, Some KFood) /\
    GameGrid.occupied_spaces g3 = GameGrid.occupied_spaces g ++ [food] /\
    GameGrid.getTile x y g3 = Some food /\
    GameGrid.checkOccupied x y g3 = Ok false /\
    GameGrid.checkForFood x y g3 = Ok false /\
    GameGrid.removeTile x y g3 = Ok (g3, None).
Proof.
  intros Hok Hb Hfree Hroom. cbn zeta.
  set (food := GridSpace.setFood (GridSpace.init x y)).
  pose proof Hb as [Hx Hy]. cbn [fst snd] in Hx, Hy.
  unfold GAME_GRID_HEIGHT, GAME_GRID_WIDTH in Hx, Hy.
  destruct (addFood_free_tiles_ok st x y g tp Hok Hb Hfree ltac:(lia))
    as (g1 & Hadd1 & Hok1 & _ & _ & _ & Hl1).
  destruct (addFood_given st x y g1 tp (tiles_wf g1 Hok1) Hb) as [sg Hadd2].
  { rewrite Hl1, length_app. cbn [length]. lia. }
  fold food in Hl1, Hadd2.
  set (g2 := GameGrid.set_smell_grid sg (with_tile food g1)) in *.
  assert (Hwf2 : grid_wf g2).
  { apply grid_wf_set_smell_grid.
    apply (addTile_in_bounds food g1 (tiles_wf g1 Hok1)). exact Hb. }
  assert (Hl2 : GameGrid.occupied_spaces g2 = GameGrid.occupied_spaces g ++ [food; food]).
  { subst g2. cbn. rewrite Hl1, <- app_assoc. reflexivity. }
  assert (Hin2 : (x, y) ∈ positions g2).
  { unfold positions. rewrite Hl2, map_app. apply elem_of_app. right. left. }
  assert (Hclean : Forall (fun tile => GridSpace.pos tile <> (x, y))
                     (GameGrid.occupied_spaces g)) by exact (not_in_positions _ _ Hfree).
  set (og3 := set_cell (GameGrid.occupied_grid g2) x y 0).
  set (g3 := GameGrid.set_occupied_spaces (GameGrid.occupied_spaces g ++ [food])
               (GameGrid.set_occupied_grid og3 g2)).
  assert (Hrm : GameGrid.removeTile x y g2 = Ok (g3, Some KFood)).
  { unfold GameGrid.removeTile. rewrite (checkOccupied_wf x y g2 Hwf2).
    rewrite bool_decide_eq_true_2 by (split; assumption). cbn [bind].
    rewrite (np_set2_in_range 10 10) by (try apply Hwf2; lia). cbn [bind].
    rewrite Hl2, (remove_loop_app x y _ _ None Hclean).
    cbn [GameGrid.remove_loop food GridSpace.setFood GridSpace.init GridSpace.x GridSpace.y
         GridSpace.type fst snd].
    rewrite !Z.eqb_refl. cbn [andb fst snd]. reflexivity. }
  assert (Hocc : GameGrid.checkOccupied x y g3 = Ok false).
  { unfold GameGrid.checkOccupied.
    rewrite (proj2 (checkValidTile_spec x y) Hb).
    cbn [g3 GameGrid.occupied_grid GameGrid.set_occupied_spaces GameGrid.set_occupied_grid].
    rewrite (np_get2_in_range 10 10)
      by (try (apply shape_set_cell, Hwf2); lia).
    cbn [bind]. unfold og3.
    rewrite (cell_set_cell 10 10) by (try apply Hwf2; lia).
    rewrite bool_decide_eq_true_2 by auto. reflexivity. }
  exists g1, g2, g3.
  split; [exact Hadd1|]. split; [exact Hadd2|]. split; [exact Hl2|].
  split; [exact Hrm|]. split; [reflexivity|]. split; [|split; [exact Hocc|split]].
  - unfold GameGrid.getTile. rewrite (proj2 (checkValidTile_spec x y) Hb). cbn [negb].
    cbn [g3 GameGrid.occupied_spaces GameGrid.set_occupied_spaces].
    apply find_app_last.
    + eapply Forall_impl; [exact Hclean|]. intros tile Hne. cbn beta in *.
      destruct (Z.eqb_spec (GridSpace.x tile) x) as [Ex|Ex];
        [destruct (Z.eqb_spec (GridSpace.y tile) y) as [Ey|Ey]|]; cbn [andb];
        try reflexivity.
      exfalso. apply Hne. unfold GridSpace.pos. congruence.
    + cbn. rewrite !Z.eqb_refl. reflexivity.
  - unfold GameGrid.checkForFood. rewrite Hocc. reflexivity.
  - unfold GameGrid.removeTile. rewrite Hocc. reflexivity.
Qed.

Lemma duplicate_tile_survives_removal_witness :
  exists g1 g2 g3,
    GameGrid.addFood true 3 3 (GameGrid.init 10 10) [] = Ok (g1, []) /\
    GameGrid.addFood true 3 3 g1 [] = Ok (g2, []) /\
    GameGrid.removeTile 3 3 g2 = Ok (g3, Some KFood) /\
    positions g3 = [(3, 3)] /\
    GameGrid.checkForFood 3 3 g3 = Ok false.
Proof.
  destruct (duplicate_tile_survives_removal true 3 3 (GameGrid.init 10 10) [])
    as (g1 & g2 & g3 & H1 & H2 & _ & H3 & Hl & _ & _ & Hfood & _).
  - apply tiles_ok_reset_wf, grid_wf_init.
  - split; cbn; unfold GAME_GRID_HEIGHT, GAME_GRID_WIDTH; lia.
  - apply not_elem_of_nil.
  - vm_compute. reflexivity.
  - exists g1, g2, g3. repeat split; try assumption.
    unfold positions. rewrite Hl. reflexivity.
Defined.

(** * Objects and references: save and rewind *)

(** ** The object store: one step at a time *)

Lemma hbind_Done {A B : Type} (m : HM A) (k : A -> HM B) (w w' : world) (a : A) :
  m w = Done a w' -> hbind m k w = k a w'.
Proof. intros H. unfold hbind. rewrite H. reflexivity. Qed.

Lemma hbind_hret {A B : Type} (a : A) (k : A -> HM B) (w : world) :
  hbind (hret a) k w = k a w.
Proof. reflexivity. Qed.

Lemma hbind_load {B : Type} (a : addr) (o : obj) (k : obj -> HM B) (h : heap) (tp : tape) :
  h !! a = Some o -> hbind (load a) k (h, tp) = k o (h, tp).
Proof. intros H. unfold hbind, load. cbn [fst snd]. rewrite H. reflexivity. Qed.

Lemma hbind_store {B : Type} (a : addr) (o o' : obj) (k : unit -> HM B) (h : heap)
  (tp : tape) :
  h !! a = Some o' -> hbind (store a o) k (h, tp) = k tt (<[a := o]> h, tp).
Proof. intros H. unfold hbind, store. cbn [fst snd]. rewrite H. reflexivity. Qed.

Lemma store_Done (a : addr) (o o' : obj) (h : heap) (tp : tape) :
  h !! a = Some o' -> store a o (h, tp) = Done tt (<[a := o]> h, tp).
Proof. intros H. unfold store. cbn [fst snd]. rewrite H. reflexivity. Qed.

Lemma hbind_alloc {B : Type} (o : obj) (k : addr -> HM B) (h : heap) (tp : tape) :
  hbind (alloc o) k (h, tp) = k (length h) (h ++ [o], tp).
Proof. reflexivity. Qed.

Lemma hbind_hlift {A B : Type} (r : result A) (a : A) (k : A -> HM B) (w : world) :
  r = Ok a -> hbind (hlift r) k w = k a w.
Proof. intros ->. reflexivity. Qed.

Lemma hbind_draw {A B : Type} (m : M A) (a : A) (k : A -> HM B) (h : heap) (tp tp' : tape) :
  m tp = Ok (a, tp') -> hbind (draw m) k (h, tp) = k a (h, tp').
Proof. intros H. unfold hbind, draw. cbn [fst snd]. rewrite H. reflexivity. Qed.

Lemma lookup_snoc_new (h : heap) (o : obj) : (h ++ [o]) !! length h = Some o.
Proof. apply list_lookup_middle. reflexivity. Qed.

Lemma lookup_snoc_old (h : heap) (o : obj) (a : addr) :
  (a < length h)%nat -> (h ++ [o]) !! a = h !! a.
Proof. intros H. apply lookup_app_l. exact H. Qed.

(** ** Reading lists of objects *)

Lemma read_all_ext {A : Type} (f f' : addr -> option A) (l : list addr) :
  (forall a, a ∈ l -> f' a = f a) -> read_all f' l = read_all f l.
Proof.
  induction l as [|a l IH]; intros H; [reflexivity|]. cbn [read_all].
  rewrite (H a) by left. rewrite IH; [reflexivity|].
  intros b Hb. apply H. right. exact Hb.
Qed.

Lemma read_all_Forall2 {A : Type} (f : addr -> option A) (l : list addr) (xs : list A) :
  read_all f l = Some xs <-> Forall2 (fun a x => f a = Some x) l xs.
Proof.
  revert xs. induction l as [|a l IH]; intros xs; cbn [read_all].
  - split.
    + intros E. injection E as <-. constructor.
    + intros H. inversion H. reflexivity.
  - split.
    + destruct (f a) as [x|] eqn:Ea; [|discriminate].
      destruct (read_all f l) as [ys|] eqn:El; [|discriminate].
      intros E. injection E as <-. constructor; [exact Ea|]. apply IH. reflexivity.
    + intros H. inversion H as [|? x ? ys Ha Hl]; subst.
      rewrite Ha. apply IH in Hl. rewrite Hl. reflexivity.
Qed.

(** ** Reading depends on the objects reached only *)

Lemma read_snapshot_local (h h' : heap) (a : addr) :
  (forall b, b ∈ fp_snapshot h a -> h' !! b = h !! b) ->
  read_snapshot h' a = read_snapshot h a /\ fp_snapshot h' a = fp_snapshot h a.
Proof.
  intros H. unfold read_snapshot, fp_snapshot in *.
  assert (Ha : h' !! a = h !! a).
  { apply H. destruct (h !! a) as [[]|]; left. }
  rewrite Ha. destruct (h !! a) as [[| | | | |x y en fe sc fl| |]|]; try (split; reflexivity).
  assert (Hfl : h' !! fl = h !! fl) by (apply H; right; left).
  unfold read_refs. rewrite Hfl.
  destruct (h !! fl) as [[|l| | | | | |]|]; try (split; reflexivity).
  rewrite (read_all_ext (read_cell h) (read_cell h') l); [split; reflexivity|].
  intros b Hb. unfold read_cell. rewrite (H b); [reflexivity|]. right. right. exact Hb.
Qed.

Lemma read_player_local (h h' : heap) (p : addr) :
  h' !! p = h !! p ->
  (forall t fe me en al sm sc, h !! p = Some (OPlayer t fe me en al sm sc) ->
     h' !! t = h !! t /\ h' !! sm = h !! sm) ->
  read_player h' p = read_player h p.
Proof.
  intros Hp H. unfold read_player. rewrite Hp.
  destruct (h !! p) as [[| | | |t fe me en al sm sc| | |]|]; try reflexivity.
  destruct (H t fe me en al sm sc eq_refl) as [Ht Hsm].
  unfold read_tile, read_array. rewrite Ht, Hsm. reflexivity.
Qed.

Lemma read_grid_local (h h' : heap) (a : addr) :
  (forall b, b ∈ fp_grid h a -> h' !! b = h !! b) ->
  read_grid h' a = read_grid h a /\ fp_grid h' a = fp_grid h a.
Proof.
  intros H. unfold read_grid, fp_grid in *.
  assert (Ha : h' !! a = h !! a).
  { apply H. destruct (h !! a) as [[]|]; left. }
  rewrite Ha. destruct (h !! a) as [[| | | | | |w hh sg og os p|]|]; try (split; reflexivity).
  assert (Hsg : h' !! sg = h !! sg) by (apply H; do 1 right; left).
  assert (Hog : h' !! og = h !! og) by (apply H; do 2 right; left).
  assert (Hos : h' !! os = h !! os) by (apply H; do 3 right; left).
  assert (Hp : h' !! p = h !! p) by (apply H; do 4 right; left).
  rewrite Hos, Hp.
  assert (Hpl : read_player h' p = read_player h p).
  { apply read_player_local; [exact Hp|]. intros t fe me en al sm sc E.
    rewrite E in H. split; apply H; do 5 right; apply elem_of_app; right.
    - left.
    - right. left. }
  unfold read_array, read_refs. rewrite Hsg, Hog, Hos, Hpl.
  split; [|reflexivity].
  destruct (h !! sg) as [[]|]; try reflexivity.
  destruct (h !! og) as [[]|]; try reflexivity.
  destruct (h !! os) as [[|l| | | | | |]|] eqn:Eos; try reflexivity.
  destruct (read_player h p); try reflexivity.
  rewrite (read_all_ext (read_tile h) (read_tile h') l); [reflexivity|].
  intros b Hb. unfold read_tile. rewrite (H b); [reflexivity|].
  do 5 right. apply elem_of_app. left. exact Hb.
Qed.

(** What a readable grid is made of. *)
Lemma read_grid_inv (h : heap) (a : addr) (v : GameGrid.t) :
  read_grid h a = Some v ->
  exists sg og os p t sm l,
    h !! a = Some (OGameGrid (GameGrid.width v) (GameGrid.height v) sg og os p) /\
    h !! sg = Some (OArray (GameGrid.smell_grid v)) /\
    h !! og = Some (OArray (GameGrid.occupied_grid v)) /\
    h !! os = Some (ORefs l) /\
    Forall2 (fun b s => h !! b = Some (OGridSpace s)) l (GameGrid.occupied_spaces v) /\
    h !! p = Some (OPlayer t (Player.food_eaten (GameGrid.player v))
                     (Player.max_energy (GameGrid.player v))
                     (Player.energy (GameGrid.player v))
                     (Player.alive (GameGrid.player v)) sm
                     (Player.score (GameGrid.player v))) /\
    h !! t = Some (OGridSpace (Player.tile (GameGrid.player v))) /\
    h !! sm = Some (OArray (Player.smell_matrix (GameGrid.player v))).
Proof.
  unfold read_grid, read_player, read_array, read_refs, read_tile. intros H.
  destruct (h !! a) as [[| | | | | |w hh sg og os p|]|] eqn:Ea; try discriminate.
  destruct (h !! sg) as [[| |sga| | | | |]|] eqn:Esg; try discriminate.
  destruct (h !! og) as [[| |oga| | | | |]|] eqn:Eog; try discriminate.
  destruct (h !! os) as [[|l| | | | | |]|] eqn:Eos; try discriminate.
  destruct (h !! p) as [[| | | |t fe me en al sm sc| | |]|] eqn:Ep; try discriminate.
  destruct (h !! t) as [[| | |ts| | | |]|] eqn:Et; try discriminate.
  destruct (h !! sm) as [[| |sma| | | | |]|] eqn:Esm; try discriminate.
  destruct (read_all _ l) as [tiles|] eqn:El; try discriminate.
  injection H as <-. cbn.
  exists sg, og, os, p, t, sm, l. repeat split; try assumption; try reflexivity.
  apply read_all_Forall2 in El.
  eapply Forall2_impl; [exact El|]. intros b s Hb. cbn beta in Hb.
  destruct (h !! b) as [[]|]; try discriminate. injection Hb as ->. reflexivity.
Qed.

Lemma read_grid_intro (h : heap) (a sg og os p t sm : addr) (w hh : Z)
  (sga oga sma : list (list Z)) (l : list addr) (ts : list GridSpace.t)
  (fe me en sc : Z) (al : bool) (s : GridSpace.t) :
  h !! a = Some (OGameGrid w hh sg og os p) ->
  h !! sg = Some (OArray sga) -> h !! og = Some (OArray oga) ->
  h !! os = Some (ORefs l) ->
  Forall2 (fun b s => h !! b = Some (OGridSpace s)) l ts ->
  h !! p = Some (OPlayer t fe me en al sm sc) ->
  h !! t = Some (OGridSpace s) -> h !! sm = Some (OArray sma) ->
  read_grid h a = Some (GameGrid.mk w hh sga oga ts (Player.mk s fe me en al sma sc)).
Proof.
  intros Ha Hsg Hog Hos Hl Hp Ht Hsm.
  unfold read_grid, read_player, read_array, read_refs, read_tile.
  rewrite Ha, Hsg, Hog, Hos, Hp, Ht, Hsm.
  assert (El : read_all (fun a0 => match h !! a0 with
                                   | Some (OGridSpace s0) => Some s0
                                   | _ => None
                                   end) l = Some ts).
  { apply read_all_Forall2. eapply Forall2_impl; [exact Hl|].
    intros b s0 Hb. cbn beta in *. rewrite Hb. reflexivity. }
  rewrite El. reflexivity.
Qed.

(** The objects of a readable grid are objects of the store. *)
Lemma fp_grid_allocated (h : heap) (a : addr) (v : GameGrid.t) :
  read_grid h a = Some v -> forall b, b ∈ fp_grid h a -> (b < length h)%nat.
Proof.
  intros H b Hb.
  destruct (read_grid_inv h a v H)
    as (sg & og & os & p & t & sm & l & Ha & Hsg & Hog & Hos & Hl & Hp & Ht & Hsm).
  unfold fp_grid in Hb. rewrite Ha, Hos, Hp in Hb.
  repeat (apply elem_of_cons in Hb as [->|Hb]; [eapply lookup_lt_Some; eassumption|]).
  apply elem_of_app in Hb as [Hb|Hb].
  - apply list_elem_of_lookup in Hb as [i Hi].
    destruct (Forall2_lookup_l _ _ _ _ _ Hl Hi) as (s & _ & Hs).
    eapply lookup_lt_Some; eassumption.
  - repeat (apply elem_of_cons in Hb as [->|Hb]; [eapply lookup_lt_Some; eassumption|]).
    apply elem_of_nil in Hb. contradiction.
Qed.

(** ** Taking a snapshot *)

Lemma for_loop_unfold (fuel i : nat) (la : addr) (body : addr -> HM unit) (w : world) :
  for_loop fuel i la body w
  = match w.1 !! la with
    | Some (ORefs l) =>
        match l !! i with
        | None => Done tt w
        | Some x =>
            match fuel with
            | O => Unmodelled
            | S fuel' => hbind (body x) (fun _ => for_loop fuel' (S i) la body) w
            end
        end
    | _ => Stuck
    end.
Proof. destruct fuel; reflexivity. Qed.

Lemma for_loop_done (fuel i : nat) (la : addr) (body : addr -> HM unit) (h : heap)
  (tp : tape) (l : list addr) :
  h !! la = Some (ORefs l) -> l !! i = None ->
  for_loop fuel i la body (h, tp) = Done tt (h, tp).
Proof. intros H1 H2. rewrite for_loop_unfold. cbn [fst snd]. rewrite H1, H2. reflexivity. Qed.

Lemma for_loop_step (fuel i : nat) (la : addr) (body : addr -> HM unit) (h : heap)
  (tp : tape) (l : list addr) (x : addr) :
  h !! la = Some (ORefs l) -> l !! i = Some x ->
  for_loop (S fuel) i la body (h, tp)
  = hbind (body x) (fun _ => for_loop fuel (S i) la body) (h, tp).
Proof. intros H1 H2. rewrite for_loop_unfold. cbn [fst snd]. rewrite H1, H2. reflexivity. Qed.

Lemma for_each_unfold (la : addr) (body : addr -> HM unit) (h : heap) (tp : tape)
  (l : list addr) :
  h !! la = Some (ORefs l) ->
  for_each la body (h, tp) = for_loop (length l) 0 la body (h, tp).
Proof. intros H. unfold for_each. cbn [fst snd]. rewrite H. reflexivity. Qed.

Lemma lookup_ext (h ext : heap) (a : addr) (o : obj) :
  h !! a = Some o -> (h ++ ext) !! a = Some o.
Proof. apply lookup_app_l_Some. Qed.

Lemma food_cells_app (a b : list GridSpace.t) :
  food_cells (a ++ b) = food_cells a ++ food_cells b.
Proof. unfold food_cells. rewrite filter_app, map_app. reflexivity. Qed.

Lemma food_cells_cons (t : GridSpace.t) (ts : list GridSpace.t) :
  food_cells (t :: ts)
  = (if GridSpace.is_food t then [GridSpace.pos t] else []) ++ food_cells ts.
Proof.
  unfold food_cells. destruct (GridSpace.is_food t) eqn:E.
  - rewrite filter_cons_True by exact E. reflexivity.
  - rewrite filter_cons_False by (rewrite E; discriminate). reflexivity.
Qed.

Lemma snapshot_objs_snoc (n : nat) (cs : list (Z * Z)) (c : Z * Z) (h : heap) :
  length h = n ->
  <[n := ORefs (seq (S n) (length cs) ++ [(n + S (length cs))%nat])]>
    ((h ++ snapshot_objs n cs) ++ [OInts [c.1; c.2]])
  = h ++ snapshot_objs n (cs ++ [c]).
Proof.
  intros Hn. unfold snapshot_objs. rewrite <- app_assoc.
  rewrite insert_app_r_alt by lia. rewrite Hn, Nat.sub_diag. cbn [app].
  cbn [insert list_insert]. rewrite length_app. cbn [length].
  rewrite Nat.add_1_r, seq_S, map_app. cbn [map].
  replace (S n + length cs)%nat with (n + S (length cs))%nat by lia. reflexivity.
Qed.

Lemma snapshot_objs_length (n : nat) (cs : list (Z * Z)) :
  length (snapshot_objs n cs) = S (length cs).
Proof. unfold snapshot_objs. cbn [length]. rewrite length_map. reflexivity. Qed.

Lemma record_food_step (h : heap) (tp : tape) (cs : list (Z * Z)) (ta : addr)
  (t : GridSpace.t) :
  h !! ta = Some (OGridSpace t) ->
  HGameState.record_food (length h) ta (h ++ snapshot_objs (length h) cs, tp)
  = Done tt (h ++ snapshot_objs (length h) (cs ++ food_cells [t]), tp).
Proof.
  intros Hta. pose proof (lookup_lt_Some _ _ _ Hta) as Hlt.
  unfold HGameState.record_food.
  rewrite (hbind_load ta (OGridSpace t)) by (apply lookup_ext; exact Hta).
  rewrite food_cells_cons. change (food_cells []) with (@nil (Z * Z)). rewrite app_nil_r.
  destruct (GridSpace.is_food t).
  - rewrite hbind_alloc.
    rewrite (hbind_load (length h) (ORefs (seq (S (length h)) (length cs)))).
    + rewrite (store_Done _ _ (ORefs (seq (S (length h)) (length cs))))
        by (rewrite <- app_assoc; apply list_lookup_middle; reflexivity).
      rewrite length_app, snapshot_objs_length.
      rewrite <- (snapshot_objs_snoc (length h) cs (GridSpace.pos t) h eq_refl).
      reflexivity.
    + rewrite <- app_assoc. apply list_lookup_middle. reflexivity.
  - rewrite app_nil_r. reflexivity.
Qed.

Lemma init_loop (h : heap) (tp : tape) (os : addr) :
  forall (post : list addr) (post_ts : list GridSpace.t),
    Forall2 (fun a t => h !! a = Some (OGridSpace t)) post post_ts ->
    forall (pre : list addr) (cs : list (Z * Z)) (fuel : nat),
      h !! os = Some (ORefs (pre ++ post)) -> (length post <= fuel)%nat ->
      for_loop fuel (length pre) os (HGameState.record_food (length h))
        (h ++ snapshot_objs (length h) cs, tp)
      = Done tt (h ++ snapshot_objs (length h) (cs ++ food_cells post_ts), tp).
Proof.
  induction 1 as [|a t post post_ts Ha _ IH]; intros pre cs fuel Hos Hfuel.
  - rewrite (for_loop_done _ _ _ _ _ _ (pre ++ [])).
    + change (food_cells []) with (@nil (Z * Z)). rewrite app_nil_r. reflexivity.
    + apply lookup_ext. exact Hos.
    + apply lookup_ge_None_2. rewrite app_nil_r. lia.
  - destruct fuel as [|fuel]; [cbn in Hfuel; lia|].
    rewrite (for_loop_step _ _ _ _ _ _ (pre ++ a :: post) a).
    2:{ apply lookup_ext. exact Hos. }
    2:{ apply list_lookup_middle. reflexivity. }
    rewrite (hbind_Done _ _ _ _ _ (record_food_step h tp cs a t Ha)).
    replace (S (length pre)) with (length (pre ++ [a])) by (rewrite length_app; cbn; lia).
    rewrite (IH (pre ++ [a]) (cs ++ food_cells [t]) fuel).
    + rewrite <- app_assoc, <- food_cells_app. reflexivity.
    + rewrite <- app_assoc. exact Hos.
    + cbn in Hfuel. lia.
Qed.

(** [GameState(game_grid)] on a readable grid reads and creates, nothing
    else: the store is extended by the list of food cells, the cells and the
    snapshot. *)
Lemma GameState_init_spec (h : heap) (tp : tape) (ag : addr) (v : GameGrid.t) :
  read_grid h ag = Some v ->
  let s := GameState.init v in
  HGameState.init ag (h, tp)
  = Done (S (length h + length (GameState.foods_loc s)))
      (h ++ snapshot_objs (length h) (GameState.foods_loc s)
         ++ [OGameState (GameState.player_loc_x s) (GameState.player_loc_y s)
               (GameState.player_energy s) (GameState.player_food_eaten s)
               (GameState.player_score s) (length h)], tp).
Proof.
  intros Hv. cbn zeta.
  destruct (read_grid_inv h ag v Hv)
    as (sg & og & os & p & t & sm & l & Ha & Hsg & Hog & Hos & Hl & Hp & Ht & Hsm).
  unfold HGameState.init.
  rewrite (hbind_load _ _ _ _ _ Ha). rewrite (hbind_load _ _ _ _ _ Hp).
  rewrite (hbind_load _ _ _ _ _ Ht). rewrite hbind_alloc.
  assert (Hloop : for_each os (HGameState.record_food (length h)) (h ++ [ORefs []], tp)
                  = Done tt (h ++ snapshot_objs (length h)
                                    (food_cells (GameGrid.occupied_spaces v)), tp)).
  { rewrite (for_each_unfold _ _ _ _ l) by (apply lookup_ext; exact Hos).
    exact (init_loop h tp os l _ Hl [] [] (length l) Hos (le_n _)). }
  rewrite (hbind_Done _ _ _ _ _ Hloop).
  unfold alloc. cbn [fst snd]. rewrite length_app, snapshot_objs_length.
  rewrite <- app_assoc. unfold GameState.init, food_cells.
  cbn [GameState.foods_loc GameState.player_loc_x GameState.player_loc_y
       GameState.player_energy GameState.player_food_eaten GameState.player_score].
  rewrite Nat.add_succ_r. reflexivity.
Qed.

Lemma saveGameState_spec (h : heap) (tp : tape) (am ag gs rs : addr) (r : Z) (p : bool)
  (snaps : list addr) (v : GameGrid.t) :
  h !! am = Some (OGameManager ag r p gs rs) ->
  h !! gs = Some (ORefs snaps) ->
  Z.of_nat (length snaps) < MAX_SAVED_GAME_STATES ->
  read_grid h ag = Some v ->
  let s := GameState.init v in
  HGameManager.saveGameState am (h, tp)
  = Done tt
      (<[gs := ORefs (snaps ++ [S (length h + length (GameState.foods_loc s))])]>
         (h ++ snapshot_objs (length h) (GameState.foods_loc s)
            ++ [OGameState (GameState.player_loc_x s) (GameState.player_loc_y s)
                  (GameState.player_energy s) (GameState.player_food_eaten s)
                  (GameState.player_score s) (length h)]), tp).
Proof.
  intros Ham Hgs Hlen Hv. cbn zeta.
  unfold HGameManager.saveGameState, HGameManager.len_game_states,
    HGameManager.game_states, HGameManager.game_grid.
  rewrite (hbind_Done _ _ (h, tp) (h, tp) (Z.of_nat (length snaps))).
  2:{ rewrite (hbind_Done _ _ (h, tp) (h, tp) gs).
      - rewrite (hbind_load _ _ _ _ _ Hgs). reflexivity.
      - rewrite (hbind_load _ _ _ _ _ Ham). reflexivity. }
  destruct (Z.leb_spec MAX_SAVED_GAME_STATES (Z.of_nat (length snaps))); [lia|].
  rewrite hbind_hret.
  rewrite (hbind_Done _ _ (h, tp) (h, tp) gs)
    by (rewrite (hbind_load _ _ _ _ _ Ham); reflexivity).
  rewrite (hbind_Done _ _ (h, tp) (h, tp) ag)
    by (rewrite (hbind_load _ _ _ _ _ Ham); reflexivity).
  rewrite (hbind_Done _ _ _ _ _ (GameState_init_spec h tp ag v Hv)).
  rewrite (hbind_load gs (ORefs snaps)) by (apply lookup_ext; exact Hgs).
  rewrite (store_Done _ _ (ORefs snaps)) by (apply lookup_ext; exact Hgs).
  reflexivity.
Qed.

(** ** The history between two pushes *)

Lemma Forall2_ext_in {A B : Type} (P Q : A -> B -> Prop) (l : list A) (k : list B) :
  Forall2 P l k -> (forall a b, a ∈ l -> P a b -> Q a b) -> Forall2 Q l k.
Proof.
  induction 1 as [|a b l k Hab _ IH]; intros H; constructor.
  - apply H; [left | exact Hab].
  - apply IH. intros a' b' Ha'. apply H. right. exact Ha'.
Qed.

Lemma Forall2_seq {B : Type} (P : nat -> B -> Prop) (k : list B) :
  forall s : nat,
    (forall i b, k !! i = Some b -> P (s + i)%nat b) -> Forall2 P (seq s (length k)) k.
Proof.
  induction k as [|b k IH]; intros s H; cbn [length seq]; constructor.
  - rewrite <- (Nat.add_0_r s). apply H. reflexivity.
  - apply IH. intros i b' Hi. replace (S s + i)%nat with (s + S i)%nat by lia.
    apply H. exact Hi.
Qed.

Lemma fp_live_grid (h : heap) (am g : addr) (r : Z) (p : bool) (gs rs : addr) :
  h !! am = Some (OGameManager g r p gs rs) -> fp_live h am = fp_grid h g.
Proof. intros H. unfold fp_live, grid_of. rewrite H. reflexivity. Qed.

Lemma upd_ext_old (h ext : heap) (a b : addr) (o : obj) :
  (b < length h)%nat -> b <> a -> (<[a := o]> (h ++ ext)) !! b = h !! b.
Proof.
  intros Hb Hne.
  rewrite list_lookup_insert_ne by (intros E; apply Hne; symmetry; exact E).
  apply lookup_app_l. exact Hb.
Qed.

Lemma upd_ext_new (h ext : heap) (a : addr) (i : nat) (o : obj) :
  (a < length h)%nat -> (<[a := o]> (h ++ ext)) !! (length h + i)%nat = ext !! i.
Proof.
  intros Ha.
  rewrite list_lookup_insert_ne by lia.
  rewrite lookup_app_r by lia. f_equal. lia.
Qed.

Lemma upd_ext_eq (h ext : heap) (a : addr) (o : obj) :
  (a < length h)%nat -> (<[a := o]> (h ++ ext)) !! a = Some o.
Proof.
  intros Ha.
  apply list_lookup_insert_eq. rewrite length_app. lia.
Qed.

(** Work on the live grid leaves the history as it is. *)
Lemma hist_inv_live_step (am : addr) (h h1 : heap) (caps : list GameState.t) :
  hist_inv am h caps -> live_step am h h1 -> hist_inv am h1 caps.
Proof.
  intros (g & r & p & gs & rs & snaps & Ham & Hgs & Hall & Hamfp & Hgsfp & Hsep)
    [Hgrow Hframe Hfp Hok].
  pose proof (fp_live_grid h am g r p gs rs Ham) as Hlive.
  assert (Ham1 : h1 !! am = Some (OGameManager g r p gs rs)).
  { rewrite <- Ham. apply Hframe; [eapply lookup_lt_Some; exact Ham|].
    rewrite Hlive. exact Hamfp. }
  assert (Hgs1 : h1 !! gs = Some (ORefs snaps)).
  { rewrite <- Hgs. apply Hframe; [eapply lookup_lt_Some; exact Hgs|].
    rewrite Hlive. exact Hgsfp. }
  pose proof (fp_live_grid h1 am g r p gs rs Ham1) as Hlive1.
  assert (Hfresh : forall b, (b < length h)%nat -> b ∉ fp_grid h g -> b ∉ fp_grid h1 g).
  { intros b Hb Hnot Hin. rewrite <- Hlive1 in Hin.
    destruct (Hfp _ Hin) as [H|H]; [|lia]. rewrite Hlive in H. exact (Hnot H). }
  assert (Hsnap : forall a, a ∈ snaps ->
            read_snapshot h1 a = read_snapshot h a /\ fp_snapshot h1 a = fp_snapshot h a).
  { intros a Ha. apply read_snapshot_local. intros b Hb.
    destruct (Hsep a b Ha Hb) as (Hb1 & _ & _ & Hb4).
    apply Hframe; [exact Hb4|]. rewrite Hlive. exact Hb1. }
  exists g, r, p, gs, rs, snaps. split; [exact Ham1|]. split; [exact Hgs1|].
  split.
  { apply (Forall2_ext_in _ _ _ _ Hall). intros a s Ha Hs.
    destruct (Hsnap a Ha) as [-> _]. exact Hs. }
  split; [apply Hfresh; [eapply lookup_lt_Some; exact Ham | exact Hamfp]|].
  split; [apply Hfresh; [eapply lookup_lt_Some; exact Hgs | exact Hgsfp]|].
  intros a b Ha Hb. destruct (Hsnap a Ha) as [_ Hfpa]. rewrite Hfpa in Hb.
  destruct (Hsep a b Ha Hb) as (Hb1 & Hb2 & Hb3 & Hb4).
  split; [apply Hfresh; assumption|]. split; [exact Hb2|]. split; [exact Hb3|]. lia.
Qed.

Lemma capture_inv (h : heap) (am : addr) (s : GameState.t) (g : addr) (r : Z) (p : bool)
  (gs rs : addr) :
  h !! am = Some (OGameManager g r p gs rs) -> capture h am = Some s ->
  exists v, read_grid h g = Some v /\ s = GameState.init v.
Proof.
  intros Ham. unfold capture, grid_of. rewrite Ham.
  destruct (read_grid h g) as [v|]; [|discriminate].
  intros E. injection E as <-. exists v. split; reflexivity.
Qed.

(** The snapshot [saveGameState] appends is made of new objects only. *)
Lemma hist_inv_save (am : addr) (h1 h2 : heap) (caps : list GameState.t) (s : GameState.t)
  (tp tp' : tape) :
  hist_inv am h1 caps -> Z.of_nat (length caps) < MAX_SAVED_GAME_STATES ->
  capture h1 am = Some s ->
  HGameManager.saveGameState am (h1, tp) = Done tt (h2, tp') ->
  hist_inv am h2 (caps ++ [s]).
Proof.
  intros (g & r & p & gs & rs & snaps & Ham & Hgs & Hall & Hamfp & Hgsfp & Hsep)
    Hlen Hcap Hsave.
  destruct (capture_inv h1 am s g r p gs rs Ham Hcap) as (v & Hv & ->).
  pose proof (Forall2_length _ _ _ Hall) as Hlen2.
  rewrite (saveGameState_spec h1 tp am g gs rs r p snaps v Ham Hgs) in Hsave;
    [|lia|exact Hv].
  injection Hsave as Hh2 <-.
  set (s := GameState.init v) in *.
  set (n := length h1) in *.
  set (sa := S (n + length (GameState.foods_loc s))) in *.
  set (E := snapshot_objs n (GameState.foods_loc s)
              ++ [OGameState (GameState.player_loc_x s) (GameState.player_loc_y s)
                    (GameState.player_energy s) (GameState.player_food_eaten s)
                    (GameState.player_score s) n]) in *.
  assert (Hgslt : (gs < n)%nat) by (eapply lookup_lt_Some; exact Hgs).
  assert (Hamlt : (am < n)%nat) by (eapply lookup_lt_Some; exact Ham).
  assert (Hold : forall b, (b < n)%nat -> b <> gs -> h2 !! b = h1 !! b).
  { intros b Hb Hne. rewrite <- Hh2. apply upd_ext_old; assumption. }
  assert (Hnew : forall i, h2 !! (n + i)%nat = E !! i).
  { intros i. rewrite <- Hh2. apply upd_ext_new. exact Hgslt. }
  assert (Hgs2 : h2 !! gs = Some (ORefs (snaps ++ [sa]))).
  { rewrite <- Hh2. apply upd_ext_eq. exact Hgslt. }
  assert (HlenE : length E = S (S (length (GameState.foods_loc s)))).
  { subst E. rewrite length_app, snapshot_objs_length. cbn [length]. lia. }
  assert (Hlen2' : length h2 = (n + length E)%nat).
  { rewrite <- Hh2. rewrite length_insert, length_app. reflexivity. }
  clear Hh2.
  assert (Hgrid : read_grid h2 g = read_grid h1 g /\ fp_grid h2 g = fp_grid h1 g).
  { apply read_grid_local. intros b Hb. apply Hold.
    - exact (fp_grid_allocated h1 g v Hv b Hb).
    - intros ->. exact (Hgsfp Hb). }
  destruct Hgrid as [_ Hfpg].
  assert (Hsnap : forall a, a ∈ snaps ->
            read_snapshot h2 a = read_snapshot h1 a /\
            fp_snapshot h2 a = fp_snapshot h1 a).
  { intros a Ha. apply read_snapshot_local. intros b Hb.
    destruct (Hsep a b Ha Hb) as (_ & _ & Hb3 & Hb4). apply Hold; assumption. }
  assert (Hsa : h2 !! sa
                = Some (OGameState (GameState.player_loc_x s) (GameState.player_loc_y s)
                          (GameState.player_energy s) (GameState.player_food_eaten s)
                          (GameState.player_score s) n)).
  { replace sa with (n + S (length (GameState.foods_loc s)))%nat by (subst sa; lia).
    rewrite Hnew. subst E. rewrite <- (snapshot_objs_length n).
    apply list_lookup_middle. reflexivity. }
  assert (Hfl : h2 !! n = Some (ORefs (seq (S n) (length (GameState.foods_loc s))))).
  { pose proof (Hnew 0%nat) as H0. rewrite Nat.add_0_r in H0.
    rewrite H0. reflexivity. }
  assert (Hcells : forall i c, GameState.foods_loc s !! i = Some c ->
            h2 !! (S n + i)%nat = Some (OInts [c.1; c.2])).
  { intros i c Hi. replace (S n + i)%nat with (n + S i)%nat by lia.
    rewrite Hnew. subst E. unfold snapshot_objs. cbn [app]. rewrite lookup_cons.
    rewrite lookup_app_l by (rewrite length_map; eapply lookup_lt_Some; exact Hi).
    rewrite list_lookup_fmap, Hi. reflexivity. }
  exists g, r, p, gs, rs, (snaps ++ [sa]).
  split. { rewrite Hold; [exact Ham | exact Hamlt |]. intros ->. congruence. }
  split; [exact Hgs2|].
  split.
  { apply Forall2_app.
    - apply (Forall2_ext_in _ _ _ _ Hall). intros a s' Ha Hs.
      destruct (Hsnap a Ha) as [-> _]. exact Hs.
    - constructor; [|constructor]. unfold read_snapshot. rewrite Hsa.
      unfold read_refs. rewrite Hfl.
      assert (Hread : read_all (read_cell h2)
                        (seq (S n) (length (GameState.foods_loc s)))
                      = Some (GameState.foods_loc s)).
      { apply read_all_Forall2. apply Forall2_seq. intros i c Hi.
        unfold read_cell. rewrite (Hcells i c Hi). destruct c; reflexivity. }
      rewrite Hread. destruct s; reflexivity. }
  rewrite Hfpg. split; [exact Hamfp|]. split; [exact Hgsfp|].
  intros a b Ha Hb. rewrite Hlen2', HlenE.
  apply elem_of_app in Ha as [Ha|Ha].
  - destruct (Hsnap a Ha) as [_ Hfpa]. rewrite Hfpa in Hb.
    destruct (Hsep a b Ha Hb) as (Hb1 & Hb2 & Hb3 & Hb4). fold n in Hb4.
    repeat split; try assumption. lia.
  - apply list_elem_of_singleton in Ha. subst a.
    unfold fp_snapshot in Hb. rewrite Hsa, Hfl in Hb.
    assert (Hbn : (n <= b)%nat /\ (b <= sa)%nat).
    { apply elem_of_cons in Hb as [->|Hb]; [subst sa; lia|].
      apply elem_of_cons in Hb as [->|Hb]; [subst sa; lia|].
      apply list_elem_of_In, in_seq in Hb. subst sa. lia. }
    split.
    { intros Hin. pose proof (fp_grid_allocated h1 g v Hv b Hin). fold n in H. lia. }
    split; [lia|]. split; [lia|]. subst sa. lia.
Qed.

Lemma pushes_inv (am : addr) (h0 h : heap) (caps : list GameState.t) :
  history_empty h0 am -> pushes am h0 caps h ->
  Z.of_nat (length caps) <= MAX_SAVED_GAME_STATES ->
  hist_inv am h caps.
Proof.
  intros (g & r & p & gs & rs & Ham & Hgs & Hamfp & Hgsfp) Hp.
  induction Hp as [|caps h h1 h2 s tp Hp IH Hstep Hcap Hsave]; intros Hlen.
  - exists g, r, p, gs, rs, []. split; [exact Ham|]. split; [exact Hgs|].
    split; [constructor|]. split; [exact Hamfp|]. split; [exact Hgsfp|].
    intros a b Ha. inversion Ha.
  - rewrite length_app in Hlen. cbn [length] in Hlen.
    apply (hist_inv_save am h1 h2 caps s tp tp); [|lia|exact Hcap|exact Hsave].
    apply (hist_inv_live_step am h h1); [apply IH; lia|exact Hstep].
Qed.

(** ** The live grid in the store *)

Lemma grid_at_read (h : heap) (ag sg og os p t sm : addr) (l : list addr) (v : GameGrid.t) :
  grid_at h ag sg og os p t sm l v -> read_grid h ag = Some v.
Proof.
  intros [H1 H2 H3 H4 H5 H6 H7 H8].
  destruct v as [w hh s o ts [tl fe me en al m sc]]. cbn in *.
  exact (read_grid_intro h ag sg og os p t sm w hh s o m l ts fe me en sc al tl
           H1 H2 H3 H4 H5 H6 H7 H8).
Qed.

Lemma read_grid_at (h : heap) (ag : addr) (v : GameGrid.t) :
  read_grid h ag = Some v -> exists sg og os p t sm l, grid_at h ag sg og os p t sm l v.
Proof.
  intros H.
  destruct (read_grid_inv h ag v H)
    as (sg & og & os & p & t & sm & l & Ha & Hsg & Hog & Hos & Hl & Hp & Ht & Hsm).
  exists sg, og, os, p, t, sm, l. split; assumption.
Qed.

Lemma grid_at_fp (h : heap) (ag sg og os p t sm : addr) (l : list addr) (v : GameGrid.t) :
  grid_at h ag sg og os p t sm l v ->
  fp_grid h ag = ag :: sg :: og :: os :: p :: (l ++ [t; sm]).
Proof.
  intros [H1 H2 H3 H4 H5 H6 H7 H8]. unfold fp_grid. rewrite H1, H4, H6. reflexivity.
Qed.

(** Objects created or changed elsewhere leave the grid as it reads. *)
Lemma grid_at_frame (h h' : heap) (ag sg og os p t sm : addr) (l : list addr)
  (v : GameGrid.t) :
  grid_at h ag sg og os p t sm l v ->
  (forall b o, h !! b = Some o -> h' !! b = Some o) ->
  grid_at h' ag sg og os p t sm l v.
Proof.
  intros [H1 H2 H3 H4 H5 H6 H7 H8] Hf. split; try (apply Hf; assumption).
  eapply Forall2_impl; [exact H5|]. intros b s Hb. apply Hf. exact Hb.
Qed.

Ltac differ := let E := fresh in intros E; subst; congruence.

(** [addTile]: the list of tiles and the occupancy array are updated in
    place. *)
Lemma addTile_sim (h : heap) (tp : tape) (ag sg og os p t sm ta : addr) (l : list addr)
  (v v1 : GameGrid.t) (s : GridSpace.t) :
  grid_at h ag sg og os p t sm l v -> og <> sg -> og <> sm ->
  h !! ta = Some (OGridSpace s) ->
  GameGrid.addTile s v = Ok v1 ->
  exists h',
    HGameGrid.addTile ta ag (h, tp) = Done tt (h', tp) /\
    grid_at h' ag sg og os p t sm (l ++ [ta]) v1 /\
    length h' = length h /\
    (forall b, b <> os -> b <> og -> h' !! b = h !! b).
Proof.
  intros Hg Hsg Hsm Hta Hadd. pose proof Hg as [H1 H2 H3 H4 H5 H6 H7 H8].
  unfold GameGrid.addTile in Hadd. apply bind_Ok in Hadd as (marks' & Hset & Hv1).
  injection Hv1 as <-. cbn [GameGrid.occupied_grid GameGrid.set_occupied_spaces] in Hset.
  assert (Hos : (os < length h)%nat) by (eapply lookup_lt_Some; exact H4).
  assert (Hog : (og < length h)%nat) by (eapply lookup_lt_Some; exact H3).
  assert (Hne : os <> og) by differ.
  set (hA := <[os := ORefs (l ++ [ta])]> h).
  set (hB := <[og := OArray marks']> hA).
  assert (HoldA : forall b, b <> os -> hA !! b = h !! b).
  { intros b Hb. subst hA. apply list_lookup_insert_ne. congruence. }
  assert (HoldB : forall b, b <> os -> b <> og -> hB !! b = h !! b).
  { intros b Hb1 Hb2. subst hB. rewrite list_lookup_insert_ne by congruence.
    apply HoldA. exact Hb1. }
  exists hB. split.
  { unfold HGameGrid.addTile.
    rewrite (hbind_load _ _ _ _ _ H1). rewrite (hbind_load _ _ _ _ _ H4).
    rewrite (hbind_store _ _ _ _ _ _ H4). fold hA.
    rewrite (hbind_load ta (OGridSpace s)) by (rewrite HoldA by differ; exact Hta).
    rewrite (hbind_load og (OArray (GameGrid.occupied_grid v)))
      by (rewrite HoldA by differ; exact H3).
    rewrite (hbind_hlift _ _ _ _ Hset).
    rewrite (store_Done _ _ (OArray (GameGrid.occupied_grid v)))
      by (rewrite HoldA by differ; exact H3).
    reflexivity. }
  split.
  { split; cbn [GameGrid.width GameGrid.height GameGrid.smell_grid GameGrid.occupied_grid
                GameGrid.occupied_spaces GameGrid.player GameGrid.set_occupied_grid
                GameGrid.set_occupied_spaces].
    - rewrite HoldB by differ. exact H1.
    - rewrite HoldB by (differ || congruence). exact H2.
    - subst hB. apply list_lookup_insert_eq. subst hA. rewrite length_insert. exact Hog.
    - subst hB. rewrite list_lookup_insert_ne by congruence.
      subst hA. apply list_lookup_insert_eq. exact Hos.
    - apply Forall2_app.
      + eapply Forall2_impl; [exact H5|]. intros b s' Hb. cbn beta in *.
        rewrite HoldB by differ. exact Hb.
      + constructor; [|constructor]. rewrite HoldB by differ. exact Hta.
    - rewrite HoldB by differ. exact H6.
    - rewrite HoldB by differ. exact H7.
    - rewrite HoldB by (differ || congruence). exact H8. }
  split.
  { subst hB hA. rewrite !length_insert. reflexivity. }
  exact HoldB.
Qed.

(** [calcSmellMatrix]: a new array, filled, takes the place of the old one. *)
Lemma calcSmellMatrix_sim (st : bool) (h : heap) (tp : tape)
  (ag sg og os p t sm : addr) (l : list addr) (v v' : GameGrid.t) :
  grid_at h ag sg og os p t sm l v ->
  GameGrid.calcSmellMatrix st v = Ok v' ->
  exists h',
    HGameGrid.calcSmellMatrix st ag (h, tp) = Done tt (h', tp) /\
    grid_at h' ag (length h) og os p t sm l v' /\
    length h' = S (length h) /\
    (forall b, (b < length h)%nat -> b <> ag -> h' !! b = h !! b).
Proof.
  intros Hg Hcalc. pose proof Hg as [H1 H2 H3 H4 H5 H6 H7 H8].
  pose proof (grid_at_read _ _ _ _ _ _ _ _ _ _ Hg) as Hread.
  assert (Hv' : v' = GameGrid.set_smell_grid (GameGrid.smell_grid v') v).
  { unfold GameGrid.calcSmellMatrix in Hcalc. apply bind_Ok in Hcalc as (x & _ & Hx).
    injection Hx as <-. reflexivity. }
  assert (Hag : (ag < length h)%nat) by (eapply lookup_lt_Some; exact H1).
  set (o' := OGameGrid (GameGrid.width v) (GameGrid.height v) (length h) og os p).
  set (h' := <[ag := o']> (h ++ [OArray (GameGrid.smell_grid v')])).
  assert (Hold : forall b, (b < length h)%nat -> b <> ag -> h' !! b = h !! b).
  { intros b Hb Hne. subst h'. apply upd_ext_old; assumption. }
  exists h'. split.
  { unfold HGameGrid.calcSmellMatrix, HGameGrid.view.
    unfold hbind at 1. cbn [fst snd]. rewrite Hread.
    rewrite (hbind_hlift _ _ _ _ Hcalc). rewrite hbind_alloc.
    rewrite (hbind_load ag _ _ _ _ (lookup_ext _ _ _ _ H1)).
    rewrite (store_Done _ _ _ _ _ (lookup_ext _ _ _ _ H1)). reflexivity. }
  split.
  { rewrite Hv'.
    split; cbn [GameGrid.width GameGrid.height GameGrid.smell_grid GameGrid.occupied_grid
                GameGrid.occupied_spaces GameGrid.player GameGrid.set_smell_grid].
    - subst h'. apply upd_ext_eq. exact Hag.
    - pose proof (upd_ext_new h [OArray (GameGrid.smell_grid v')] ag 0 o' Hag) as Hn.
      rewrite Nat.add_0_r in Hn. exact Hn.
    - rewrite Hold; [exact H3 | eapply lookup_lt_Some; exact H3 | differ].
    - rewrite Hold; [exact H4 | eapply lookup_lt_Some; exact H4 | differ].
    - eapply Forall2_impl; [exact H5|]. intros b s' Hb. cbn beta in *.
      rewrite Hold; [exact Hb | eapply lookup_lt_Some; exact Hb | differ].
    - rewrite Hold; [exact H6 | eapply lookup_lt_Some; exact H6 | differ].
    - rewrite Hold; [exact H7 | eapply lookup_lt_Some; exact H7 | differ].
    - rewrite Hold; [exact H8 | eapply lookup_lt_Some; exact H8 | differ]. }
  split.
  { subst h'. rewrite length_insert, length_app. cbn [length]. lia. }
  exact Hold.
Qed.

Lemma hbind_view {B : Type} (a : addr) (v : GameGrid.t) (k : GameGrid.t -> HM B) (h : heap)
  (tp : tape) :
  read_grid h a = Some v -> hbind (HGameGrid.view a) k (h, tp) = k v (h, tp).
Proof. intros H. unfold hbind, HGameGrid.view. cbn [fst snd]. rewrite H. reflexivity. Qed.

Lemma setFood_new (h : heap) (tp : tape) (s : GridSpace.t) :
  HGridSpace.setFood (length h) (h ++ [OGridSpace s], tp)
  = Done tt (h ++ [OGridSpace (GridSpace.setFood s)], tp).
Proof.
  unfold HGridSpace.setFood.
  rewrite (hbind_load _ _ _ _ _ (lookup_snoc_new h (OGridSpace s))).
  rewrite (store_Done _ _ _ _ _ (lookup_snoc_new h (OGridSpace s))).
  rewrite insert_app_r_alt by lia. rewrite Nat.sub_diag. reflexivity.
Qed.

(** [addFood] on the live grid does what the pure [addFood] does on its
    value; it changes the grid object, its tile list and its occupancy array
    in place, and everything else it writes is new. *)
Lemma addFood_sim (st : bool) (x y : Z) (h : heap) (tp tp' : tape)
  (ag sg og os p t sm : addr) (l : list addr) (v v' : GameGrid.t) :
  grid_at h ag sg og os p t sm l v -> og <> sg -> og <> sm ->
  GameGrid.addFood st x y v tp = Ok (v', tp') ->
  exists h' sg' l',
    HGameGrid.addFood st x y ag (h, tp) = Done tt (h', tp') /\
    grid_at h' ag sg' og os p t sm l' v' /\
    (length h <= sg')%nat /\ (length h <= length h')%nat /\
    (forall b, (b < length h)%nat -> b <> ag -> b <> os -> b <> og -> h' !! b = h !! b) /\
    (forall b, b ∈ l' -> b ∈ l \/ (length h <= b)%nat).
Proof.
  intros Hg Hsg Hsm Hadd.
  pose proof (grid_at_read _ _ _ _ _ _ _ _ _ _ Hg) as Hread.
  unfold GameGrid.addFood in Hadd.
  apply bindM_Ok in Hadd as (ot & tp1 & Hgen & Hadd).
  apply bindM_Ok in Hadd as (v1 & tp2 & Hmid & Hcalc).
  apply lift_Ok in Hcalc as [Hcalc ->].
  unfold HGameGrid.addFood, HGameGrid.genTile.
  rewrite (hbind_Done _ _ (h, tp)
             (match ot with Some s => h ++ [OGridSpace s] | None => h end, tp1)
             (match ot with Some _ => Some (length h) | None => None end)).
  2:{ rewrite (hbind_view _ _ _ _ _ Hread). rewrite (hbind_draw _ _ _ _ _ _ Hgen).
      destruct ot; reflexivity. }
  destruct ot as [s|].
  - apply lift_Ok in Hmid as [Hmid ->].
    set (hA := h ++ [OGridSpace (GridSpace.setFood s)]).
    assert (HgA : grid_at hA ag sg og os p t sm l v).
    { apply (grid_at_frame h); [exact Hg|]. intros b o Hb. apply lookup_ext. exact Hb. }
    assert (Hta : hA !! length h = Some (OGridSpace (GridSpace.setFood s)))
      by apply lookup_snoc_new.
    destruct (addTile_sim hA tp1 ag sg og os p t sm (length h) l v v1 _
                HgA Hsg Hsm Hta Hmid) as (hB & HrunB & HgB & HlenB & HframeB).
    destruct (calcSmellMatrix_sim st hB tp1 ag sg og os p t sm _ v1 v' HgB Hcalc)
      as (hC & HrunC & HgC & HlenC & HframeC).
    assert (HlenA : length hA = S (length h))
      by (subst hA; rewrite length_app; cbn [length]; lia).
    exists hC, (length hB), (l ++ [length h]). split.
    { rewrite (hbind_Done _ _ (h ++ [OGridSpace s], tp1) (hB, tp1) tt).
      - exact HrunC.
      - rewrite (hbind_Done _ _ _ _ _ (setFood_new h tp1 s)). exact HrunB. }
    split; [exact HgC|]. split; [lia|]. split; [lia|]. split.
    + intros b Hb1 Hb2 Hb3 Hb4. rewrite HframeC by (try lia; exact Hb2).
      rewrite HframeB by assumption. subst hA. apply lookup_app_l. exact Hb1.
    + intros b Hb. apply elem_of_app in Hb as [Hb|Hb]; [left; exact Hb|].
      apply list_elem_of_singleton in Hb. subst b. right. lia.
  - apply ret_Ok in Hmid as [-> ->].
    destruct (calcSmellMatrix_sim st h tp1 ag sg og os p t sm _ v v' Hg Hcalc)
      as (hC & HrunC & HgC & HlenC & HframeC).
    exists hC, (length h), l. split.
    { rewrite hbind_hret. exact HrunC. }
    split; [exact HgC|]. split; [lia|]. split; [lia|]. split.
    + intros b Hb1 Hb2 _ _. apply HframeC; assumption.
    + intros b Hb. left. exact Hb.
Qed.

Lemma game_grid_Done (h : heap) (tp : tape) (am ag : addr) (r : Z) (pa : bool)
  (gs rs : addr) :
  h !! am = Some (OGameManager ag r pa gs rs) ->
  HGameManager.game_grid am (h, tp) = Done ag (h, tp).
Proof.
  intros H. unfold HGameManager.game_grid. rewrite (hbind_load _ _ _ _ _ H). reflexivity.
Qed.

Lemma game_states_Done (h : heap) (tp : tape) (am ag : addr) (r : Z) (pa : bool)
  (gs rs : addr) :
  h !! am = Some (OGameManager ag r pa gs rs) ->
  HGameManager.game_states am (h, tp) = Done gs (h, tp).
Proof.
  intros H. unfold HGameManager.game_states. rewrite (hbind_load _ _ _ _ _ H). reflexivity.
Qed.

(** The loop of [restoreGameState], from any turn on: the list it runs over
    and the cells in it are not written to, so it visits every cell, and the
    grid is built by [addFood] as in the pure model. *)
Lemma restore_loop (st : bool) (am ag og os p t sm fl : addr) (h0 : heap)
  (r : Z) (pa : bool) (gs rs : addr) :
  h0 !! am = Some (OGameManager ag r pa gs rs) ->
  (length h0 <= os)%nat -> (length h0 <= og)%nat ->
  forall (post : list addr) (cells : list (Z * Z)),
    Forall2 (fun c xy => h0 !! c = Some (OInts [xy.1; xy.2])) post cells ->
    forall (pre : list addr) (h : heap) (sg : addr) (l : list addr) (v v' : GameGrid.t)
      (tp tp' : tape) (fuel : nat),
      h0 !! fl = Some (ORefs (pre ++ post)) ->
      ag <> am -> ag <> fl -> ag ∉ post ->
      (length h0 <= length h)%nat ->
      (forall b, (b < length h0)%nat -> b <> ag -> h !! b = h0 !! b) ->
      grid_at h ag sg og os p t sm l v -> og <> sg -> og <> sm ->
      foldM (fun g food => GameGrid.addFood st food.1 food.2 g) cells v tp = Ok (v', tp') ->
      (length post <= fuel)%nat ->
      exists h' sg' l',
        for_loop fuel (length pre) fl (HGameManager.restore_food st am) (h, tp)
        = Done tt (h', tp') /\
        grid_at h' ag sg' og os p t sm l' v' /\ og <> sg' /\
        (length h <= length h')%nat /\
        (forall b, (b < length h0)%nat -> b <> ag -> h' !! b = h0 !! b) /\
        (sg' = sg \/ (length h <= sg')%nat) /\
        (forall b, b ∈ l' -> b ∈ l \/ (length h <= b)%nat).
Proof.
  intros Ham Hos Hog.
  induction 1 as [|c xy post cells Hc _ IH];
    intros pre h sg l v v' tp tp' fuel Hfl Hne1 Hne2 Hne3 Hlen Hframe Hg Hsg Hsm Hfold Hfuel.
  - cbn [foldM] in Hfold. apply ret_Ok in Hfold as [-> ->].
    exists h, sg, l. split.
    { apply (for_loop_done _ _ _ _ _ _ (pre ++ [])).
      - rewrite Hframe; [exact Hfl | eapply lookup_lt_Some; exact Hfl | congruence].
      - apply lookup_ge_None_2. rewrite app_nil_r. lia. }
    split; [exact Hg|]. split; [exact Hsg|]. split; [lia|]. split; [exact Hframe|].
    split; [left; reflexivity|]. intros b Hb. left. exact Hb.
  - cbn [foldM] in Hfold. apply bindM_Ok in Hfold as (v1 & tp1 & Hadd & Hfold).
    apply not_elem_of_cons in Hne3 as [Hne3 Hne4].
    destruct fuel as [|fuel]; [cbn in Hfuel; lia|].
    destruct (addFood_sim st xy.1 xy.2 h tp tp1 ag sg og os p t sm l v v1 Hg Hsg Hsm Hadd)
      as (h1 & sg1 & l1 & Hrun1 & Hg1 & Hsg1 & Hlen1 & Hframe1 & Hl1).
    assert (Hoglt : (og < length h)%nat)
      by (eapply lookup_lt_Some; exact (ga_marks _ _ _ _ _ _ _ _ _ _ Hg)).
    assert (Hframe' : forall b, (b < length h0)%nat -> b <> ag -> h1 !! b = h0 !! b).
    { intros b Hb1 Hb2. rewrite Hframe1 by (try lia; exact Hb2). apply Hframe; assumption. }
    destruct (IH (pre ++ [c]) h1 sg1 l1 v1 v' tp1 tp' fuel) as
      (h' & sg' & l' & Hrun & Hg' & Hsg' & Hlen' & Hframe'' & Hsgf & Hlf);
      try assumption; try lia.
    { rewrite <- app_assoc. exact Hfl. }
    { cbn in Hfuel. lia. }
    exists h', sg', l'. split.
    { rewrite (for_loop_step _ _ _ _ _ _ (pre ++ c :: post) c).
      2:{ rewrite Hframe; [exact Hfl | eapply lookup_lt_Some; exact Hfl | congruence]. }
      2:{ apply list_lookup_middle. reflexivity. }
      rewrite (hbind_Done _ _ (h, tp) (h1, tp1) tt).
      - replace (S (length pre)) with (length (pre ++ [c]))
          by (rewrite length_app; cbn; lia).
        exact Hrun.
      - unfold HGameManager.restore_food.
        rewrite (hbind_load c (OInts [xy.1; xy.2]))
          by (rewrite Hframe; [exact Hc | eapply lookup_lt_Some; exact Hc | congruence]).
        rewrite (hbind_hlift _ xy.1) by reflexivity.
        rewrite (hbind_hlift _ xy.2) by reflexivity.
        rewrite (hbind_Done _ _ (h, tp) (h, tp) ag).
        + exact Hrun1.
        + apply (game_grid_Done h tp am ag r pa gs rs).
          rewrite Hframe; [exact Ham | eapply lookup_lt_Some; exact Ham | congruence]. }
    split; [exact Hg'|]. split; [exact Hsg'|]. split; [lia|]. split; [exact Hframe''|].
    split.
    + destruct Hsgf as [->|Hsgf]; right; lia.
    + intros b Hb. destruct (Hlf b Hb) as [Hb1|Hb1]; [|right; lia].
      destruct (Hl1 b Hb1) as [Hb2|Hb2]; [left; exact Hb2 | right; lia].
Qed.

(** ** [reset], [restorePlayer] *)

Lemma setPlayer_new (h : heap) (tp : tape) (s : GridSpace.t) :
  HGridSpace.setPlayer (length h) (h ++ [OGridSpace s], tp)
  = Done tt (h ++ [OGridSpace (GridSpace.setPlayer s)], tp).
Proof.
  unfold HGridSpace.setPlayer.
  rewrite (hbind_load _ _ _ _ _ (lookup_snoc_new h (OGridSpace s))).
  rewrite (store_Done _ _ _ _ _ (lookup_snoc_new h (OGridSpace s))).
  rewrite insert_app_r_alt by lia. rewrite Nat.sub_diag. reflexivity.
Qed.

Lemma Player_init_spec (x y : Z) (h : heap) (tp : tape) :
  HPlayer.init x y (h, tp)
  = Done (length h + 2)%nat
      (h ++ [OGridSpace (GridSpace.setPlayer (GridSpace.init x y));
             OArray (np_zeros 3 3);
             OPlayer (length h) 0 MAX_ENERGY MAX_ENERGY true (length h + 1)%nat 0], tp).
Proof.
  unfold HPlayer.init, HGridSpace.init. rewrite hbind_alloc.
  rewrite (hbind_Done _ _ _ _ _ (setPlayer_new h tp (GridSpace.init x y))).
  rewrite hbind_alloc. unfold alloc. cbn [fst snd].
  rewrite !length_app. cbn [length]. rewrite <- !app_assoc. cbn [app].
  replace (length h + 1 + 1)%nat with (length h + 2)%nat by lia. reflexivity.
Qed.

Lemma restorePlayer_spec (h : heap) (tp : tape) (a : addr) (x y en fe sc : Z) (fl : addr) :
  h !! a = Some (OGameState x y en fe sc fl) ->
  HGameState.restorePlayer a (h, tp)
  = Done (length h + 2)%nat
      (h ++ [OGridSpace (GridSpace.setPlayer (GridSpace.init x y));
             OArray (np_zeros 3 3);
             OPlayer (length h) fe MAX_ENERGY en true (length h + 1)%nat sc], tp).
Proof.
  intros Ha. unfold HGameState.restorePlayer.
  rewrite (hbind_load _ _ _ _ _ Ha).
  rewrite (hbind_Done _ _ _ _ _ (Player_init_spec x y h tp)).
  set (E := [OGridSpace (GridSpace.setPlayer (GridSpace.init x y));
             OArray (np_zeros 3 3);
             OPlayer (length h) 0 MAX_ENERGY MAX_ENERGY true (length h + 1)%nat 0]).
  assert (Hp : (h ++ E) !! (length h + 2)%nat
               = Some (OPlayer (length h) 0 MAX_ENERGY MAX_ENERGY true (length h + 1)%nat 0)).
  { rewrite lookup_app_r by lia. replace (length h + 2 - length h)%nat with 2%nat by lia.
    reflexivity. }
  rewrite (hbind_load _ _ _ _ _ Hp). rewrite (hbind_store _ _ _ _ _ _ Hp).
  unfold hret. rewrite insert_app_r_alt by lia.
  replace (length h + 2 - length h)%nat with 2%nat by lia. reflexivity.
Qed.

Lemma reset_spec (h : heap) (tp : tape) (ag : addr) (w hh : Z) (sg og os p : addr) :
  h !! ag = Some (OGameGrid w hh sg og os p) ->
  HGameGrid.reset ag (h, tp)
  = Done tt
      (<[ag := OGameGrid w hh (length h) (length h + 1)%nat (length h + 2)%nat
                 (length h + 5)%nat]>
         (h ++ [OArray (np_zeros w hh); OArray (np_zeros w hh); ORefs [];
                OGridSpace (GridSpace.setPlayer (GridSpace.init 0 0));
                OArray (np_zeros 3 3);
                OPlayer (length h + 3)%nat 0 MAX_ENERGY MAX_ENERGY true
                  (length h + 4)%nat 0]), tp).
Proof.
  intros Ha. unfold HGameGrid.reset.
  rewrite (hbind_load _ _ _ _ _ Ha). rewrite !hbind_alloc.
  rewrite (hbind_Done _ _ _ _ _ (Player_init_spec 0 0 _ tp)).
  rewrite !length_app. cbn [length]. rewrite <- !app_assoc. cbn [app].
  replace (length h + 1 + 1)%nat with (length h + 2)%nat by lia.
  replace (length h + 2 + 1)%nat with (length h + 3)%nat by lia.
  replace (length h + 3 + 2)%nat with (length h + 5)%nat by lia.
  replace (length h + 3 + 1)%nat with (length h + 4)%nat by lia.
  rewrite (store_Done _ _ _ _ _ (lookup_ext _ _ _ _ Ha)). reflexivity.
Qed.

Lemma read_cell_inv (h : heap) (c : addr) (xy : Z * Z) :
  read_cell h c = Some xy -> h !! c = Some (OInts [xy.1; xy.2]).
Proof.
  unfold read_cell. destruct (h !! c) as [[l| | | | | | |]|]; try discriminate.
  destruct l as [|x [|y [|z l]]]; try discriminate.
  intros E. injection E as <-. reflexivity.
Qed.

(** What a readable snapshot is made of. *)
Lemma read_snapshot_inv (h : heap) (a : addr) (s : GameState.t) :
  read_snapshot h a = Some s ->
  exists fl cl,
    h !! a = Some (OGameState (GameState.player_loc_x s) (GameState.player_loc_y s)
                     (GameState.player_energy s) (GameState.player_food_eaten s)
                     (GameState.player_score s) fl) /\
    h !! fl = Some (ORefs cl) /\
    Forall2 (fun c xy => h !! c = Some (OInts [xy.1; xy.2])) cl (GameState.foods_loc s).
Proof.
  unfold read_snapshot, read_refs. intros H.
  destruct (h !! a) as [[| | | | |x y en fe sc fl| |]|] eqn:Ea; try discriminate.
  destruct (h !! fl) as [[|cl| | | | | |]|] eqn:Efl; try discriminate.
  destruct (read_all (read_cell h) cl) as [cs|] eqn:Ecs; try discriminate.
  injection H as <-. exists fl, cl. split; [reflexivity|]. split; [exact Efl|].
  cbn [GameState.foods_loc]. apply read_all_Forall2 in Ecs.
  eapply Forall2_impl; [exact Ecs|]. intros c xy Hc. apply read_cell_inv. exact Hc.
Qed.

(** [restoreGameState] builds the live grid anew: of the objects the store
    had, only the grid object itself is written to, and the grid reads as the
    snapshot says. *)
Lemma restoreGameState_sim (st : bool) (h : heap) (tp : tape) (am ag a1 : addr)
  (r : Z) (pa : bool) (gs rs sg og os p : addr) (s1 : GameState.t) :
  h !! am = Some (OGameManager ag r pa gs rs) ->
  h !! ag = Some (OGameGrid GAME_GRID_WIDTH GAME_GRID_HEIGHT sg og os p) ->
  read_snapshot h a1 = Some s1 ->
  Forall in_bounds (GameState.foods_loc s1) -> NoDup (GameState.foods_loc s1) ->
  exists h' v',
    HGameManager.restoreGameState st a1 am (h, tp) = Done tt (h', tp) /\
    (length h <= length h')%nat /\
    (forall b, (b < length h)%nat -> b <> ag -> h' !! b = h !! b) /\
    read_grid h' ag = Some v' /\ GameState.init v' = s1 /\
    GameGrid.width v' = GAME_GRID_WIDTH /\ GameGrid.height v' = GAME_GRID_HEIGHT /\
    (forall b, b ∈ fp_grid h' ag -> b = ag \/ (length h <= b)%nat).
Proof.
  intros Ham Hag Hs Hb Hnd.
  destruct (read_snapshot_inv h a1 s1 Hs) as (fl & cl & Ha1 & Hfl & Hcl).
  assert (Haglt : (ag < length h)%nat) by (eapply lookup_lt_Some; exact Hag).
  (* the pure run *)
  set (m0 := GameManager.mk (GameGrid.init GAME_GRID_WIDTH GAME_GRID_HEIGHT) 0 false [] []).
  destruct (restoreGameState_spec st s1 m0 tp grid_wf_init Hb Hnd)
    as (g' & Hres & Hok & Hpl & Hpos).
  assert (Hinit : GameState.init g' = s1).
  { unfold GameState.init. rewrite (filter_all_food _ (tiles_food g' Hok)).
    fold (positions g'). rewrite Hpos, Hpl. destruct s1; reflexivity. }
  unfold GameManager.restoreGameState in Hres.
  apply bindM_Ok in Hres as (g'' & tp1 & Hfold & Hret).
  apply ret_Ok in Hret as [Hg'' Htp]. subst tp1.
  assert (g'' = g') by (injection Hg'' as ->; reflexivity). subst g''. clear Hg''.
  set (v0 := GameGrid.set_player (GameState.restorePlayer s1)
               (GameGrid.reset (GameManager.game_grid m0))) in Hfold.
  (* reset, restorePlayer and the assignment of the player *)
  pose proof (reset_spec h tp ag _ _ sg og os p Hag) as Hreset.
  match type of Hreset with _ = Done tt (<[_ := ?G]> (_ ++ ?E), _) =>
    set (G1 := G) in *; set (E1 := E) in * end.
  set (h1 := <[ag := G1]> (h ++ E1)) in *.
  assert (Hlen1 : length h1 = (length h + 6)%nat).
  { subst h1. rewrite length_insert, length_app. reflexivity. }
  assert (Hold1 : forall b, (b < length h)%nat -> b <> ag -> h1 !! b = h !! b).
  { intros b Hb1 Hb2. subst h1. apply upd_ext_old; assumption. }
  assert (Hnew1 : forall i, h1 !! (length h + i)%nat = E1 !! i).
  { intros i. subst h1. apply upd_ext_new. exact Haglt. }
  assert (Hag1 : h1 !! ag = Some G1) by (subst h1; apply upd_ext_eq; exact Haglt).
  assert (Ha1' : h1 !! a1 = h !! a1).
  { apply Hold1; [eapply lookup_lt_Some; exact Ha1 | differ]. }
  rewrite Ha1 in Ha1'.
  pose proof (restorePlayer_spec h1 tp a1 _ _ _ _ _ _ Ha1') as Hrp.
  match type of Hrp with _ = Done _ (_ ++ ?E, _) => set (E2 := E) in * end.
  set (G2 := OGameGrid GAME_GRID_WIDTH GAME_GRID_HEIGHT (length h) (length h + 1)%nat
               (length h + 2)%nat (length h1 + 2)%nat).
  set (h3 := <[ag := G2]> (h1 ++ E2)).
  assert (Haglt1 : (ag < length h1)%nat) by lia.
  assert (Hlen3 : length h3 = (length h + 9)%nat).
  { subst h3. rewrite length_insert, length_app, Hlen1. subst E2. cbn [length]. lia. }
  assert (Hold3 : forall b, (b < length h1)%nat -> b <> ag -> h3 !! b = h1 !! b).
  { intros b Hb1 Hb2. subst h3. apply upd_ext_old; assumption. }
  assert (Hnew3 : forall i, h3 !! (length h1 + i)%nat = E2 !! i).
  { intros i. subst h3. apply upd_ext_new. exact Haglt1. }
  assert (Hag3 : h3 !! ag = Some G2) by (subst h3; apply upd_ext_eq; exact Haglt1).
  assert (Hframe3 : forall b, (b < length h)%nat -> b <> ag -> h3 !! b = h !! b).
  { intros b Hb1 Hb2. rewrite Hold3 by (try lia; exact Hb2). apply Hold1; assumption. }
  assert (Hmid3 : forall i, (i < 6)%nat -> h3 !! (length h + i)%nat = E1 !! i).
  { intros i Hi. rewrite Hold3 by lia. apply Hnew1. }
  assert (Hg3 : grid_at h3 ag (length h) (length h + 1)%nat (length h + 2)%nat
                  (length h1 + 2)%nat (length h1) (length h1 + 1)%nat [] v0).
  { split.
    - exact Hag3.
    - rewrite <- (Nat.add_0_r (length h)) at 1. rewrite (Hmid3 0%nat) by lia. reflexivity.
    - rewrite (Hmid3 1%nat) by lia. reflexivity.
    - rewrite (Hmid3 2%nat) by lia. reflexivity.
    - constructor.
    - rewrite (Hnew3 2%nat). reflexivity.
    - rewrite <- (Nat.add_0_r (length h1)) at 1. rewrite (Hnew3 0%nat). reflexivity.
    - rewrite (Hnew3 1%nat). reflexivity. }
  destruct (restore_loop st am ag (length h + 1)%nat (length h + 2)%nat (length h1 + 2)%nat
              (length h1) (length h1 + 1)%nat fl h r pa gs rs Ham
              ltac:(lia) ltac:(lia) cl (GameState.foods_loc s1) Hcl
              [] h3 (length h) [] v0 g' tp tp (length cl))
    as (h' & sg' & l' & Hrun & Hg' & Hsg' & Hlen' & Hframe' & Hsgf & Hlf);
    try assumption; try lia; try differ.
  { intros Hin. apply list_elem_of_lookup in Hin as [i Hi].
    destruct (Forall2_lookup_l _ _ _ _ _ Hcl Hi) as (xy & _ & Hxy). congruence. }
  exists h', g'. split.
  { unfold HGameManager.restoreGameState.
    rewrite (hbind_Done _ _ _ _ _ (game_grid_Done h tp am ag r pa gs rs Ham)).
    rewrite (hbind_Done _ _ _ _ _ Hreset).
    rewrite (hbind_Done _ _ (h1, tp) (h1, tp) ag).
    2:{ apply (game_grid_Done h1 tp am ag r pa gs rs).
        rewrite Hold1; [exact Ham | eapply lookup_lt_Some; exact Ham | differ]. }
    rewrite (hbind_Done _ _ _ _ _ Hrp).
    rewrite (hbind_load ag G1) by (apply lookup_ext; exact Hag1).
    subst G1. cbv beta iota.
    rewrite (hbind_store ag _ _ _ _ _ (lookup_ext _ _ _ _ Hag1)).
    change (<[ag := OGameGrid GAME_GRID_WIDTH GAME_GRID_HEIGHT (length h)
                     (length h + 1)%nat (length h + 2)%nat (length h1 + 2)%nat]>
              (h1 ++ E2)) with h3.
    rewrite (hbind_load a1 _ _ h3 tp)
      by (rewrite Hframe3; [exact Ha1 | eapply lookup_lt_Some; exact Ha1 | differ]).
    cbv beta iota.
    rewrite (for_each_unfold _ _ _ _ cl)
      by (rewrite Hframe3; [exact Hfl | eapply lookup_lt_Some; exact Hfl | differ]).
    exact Hrun. }
  split; [lia|]. split; [exact Hframe'|].
  split; [exact (grid_at_read _ _ _ _ _ _ _ _ _ _ Hg')|].
  split; [exact Hinit|].
  split; [exact (wf_width g' (tiles_wf g' Hok))|].
  split; [exact (wf_height g' (tiles_wf g' Hok))|].
  intros b Hin. rewrite (grid_at_fp _ _ _ _ _ _ _ _ _ _ Hg') in Hin.
  apply elem_of_cons in Hin as [->|Hin]; [left; reflexivity|]. right.
  apply elem_of_cons in Hin as [->|Hin]; [destruct Hsgf as [->|?]; lia|].
  apply elem_of_cons in Hin as [->|Hin]; [lia|].
  apply elem_of_cons in Hin as [->|Hin]; [lia|].
  apply elem_of_cons in Hin as [->|Hin]; [lia|].
  apply elem_of_app in Hin as [Hin|Hin].
  - destruct (Hlf b Hin) as [Hb0|Hb0]; [inversion Hb0 | lia].
  - apply elem_of_cons in Hin as [->|Hin]; [lia|].
    apply list_elem_of_singleton in Hin. subst b. lia.
Qed.

(** ** [rewindGameState] *)

Lemma len_game_states_Done (h : heap) (tp : tape) (am ag : addr) (r : Z) (pa : bool)
  (gs rs : addr) (snaps : list addr) :
  h !! am = Some (OGameManager ag r pa gs rs) -> h !! gs = Some (ORefs snaps) ->
  HGameManager.len_game_states am (h, tp) = Done (Z.of_nat (length snaps)) (h, tp).
Proof.
  intros Ham Hgs. unfold HGameManager.len_game_states.
  rewrite (hbind_Done _ _ _ _ _ (game_states_Done h tp am ag r pa gs rs Ham)).
  rewrite (hbind_load _ _ _ _ _ Hgs). reflexivity.
Qed.

Lemma fp_grid_head (h : heap) (a : addr) : a ∈ fp_grid h a.
Proof. unfold fp_grid. destruct (h !! a) as [[]|]; left. Qed.

Lemma fp_snapshot_head (h : heap) (a : addr) : a ∈ fp_snapshot h a.
Proof. unfold fp_snapshot. destruct (h !! a) as [[]|]; left. Qed.

(** Rewinding a history of [N >= 2] snapshots by [N - 1]: the first
    snapshot is restored, the live grid is made of the grid object and of
    objects created by the call, and no object of the snapshot is written
    to. *)
Lemma rewind_to_first (st : bool) (am : addr) (h : heap) (tp : tape)
  (s1 : GameState.t) (rest : list GameState.t) :
  hist_inv am h (s1 :: rest) -> live_ok h am ->
  (1 <= length rest)%nat ->
  Forall in_bounds (GameState.foods_loc s1) -> NoDup (GameState.foods_loc s1) ->
  exists (h' : heap) (a1 g gs' : addr) (r : Z) (pa : bool) (rs : addr) (v' : GameGrid.t),
    HGameManager.rewindGameState st (Z.of_nat (length rest)) am (h, tp) = Done tt (h', tp) /\
    h' !! am = Some (OGameManager g r pa gs' rs) /\
    h' !! gs' = Some (ORefs [a1]) /\
    read_snapshot h' a1 = Some s1 /\
    read_grid h' g = Some v' /\ GameState.init v' = s1 /\
    GameGrid.width v' = GAME_GRID_WIDTH /\ GameGrid.height v' = GAME_GRID_HEIGHT /\
    (length h < length h')%nat /\
    (forall b, b ∈ fp_grid h' g -> b = g \/ (length h < b)%nat) /\
    (forall b, b ∈ fp_snapshot h' a1 -> b <> g /\ (b < length h)%nat) /\
    am <> g /\ (am < length h)%nat /\ gs' = length h /\ (g < length h)%nat.
Proof.
  intros (g & r & pa & gs & rs & snaps & Ham & Hgs & Hall & Hamfp & Hgsfp & Hsep)
    (g0 & v & Hgo & Hv & Hw & Hh) Hlen Hb Hnd.
  assert (g0 = g) by (unfold grid_of in Hgo; rewrite Ham in Hgo; congruence). subst g0.
  destruct (read_grid_inv h g v Hv)
    as (sg & og & os & p & t & sm & l & Hg & _). rewrite Hw, Hh in Hg.
  inversion Hall as [|a1 s1' arest rest' Hs1 Hrest]; subst.
  pose proof (Forall2_length _ _ _ Hrest) as Hlr.
  assert (Hamlt : (am < length h)%nat) by (eapply lookup_lt_Some; exact Ham).
  assert (Hglt : (g < length h)%nat) by (eapply lookup_lt_Some; exact Hg).
  assert (Hamg : am <> g) by differ.
  set (M := OGameManager g r pa (length h) rs).
  set (hA := <[am := M]> (h ++ [ORefs [a1]])).
  assert (HlenA : length hA = S (length h)).
  { subst hA. rewrite length_insert, length_app. cbn [length]. lia. }
  assert (HoldA : forall b, (b < length h)%nat -> b <> am -> hA !! b = h !! b).
  { intros b Hb1 Hb2. subst hA. apply upd_ext_old; assumption. }
  assert (HamA : hA !! am = Some M) by (subst hA; apply upd_ext_eq; exact Hamlt).
  assert (HgsA : hA !! length h = Some (ORefs [a1])).
  { pose proof (upd_ext_new h [ORefs [a1]] am 0 M Hamlt) as Hn.
    rewrite Nat.add_0_r in Hn. exact Hn. }
  assert (Hsnap1 : forall b, b ∈ fp_snapshot h a1 ->
            b <> g /\ b <> am /\ (b < length h)%nat).
  { intros b Hin. destruct (Hsep a1 b ltac:(left) Hin) as (Hb1 & Hb2 & _ & Hb4).
    split; [|split; assumption]. intros ->. exact (Hb1 (fp_grid_head h g)). }
  assert (HsnapA : read_snapshot hA a1 = read_snapshot h a1 /\
                   fp_snapshot hA a1 = fp_snapshot h a1).
  { apply read_snapshot_local. intros b Hin.
    destruct (Hsnap1 b Hin) as (_ & Hb2 & Hb3). apply HoldA; assumption. }
  destruct HsnapA as [HreadA HfpA]. rewrite Hs1 in HreadA.
  assert (HgA : hA !! g = Some (OGameGrid GAME_GRID_WIDTH GAME_GRID_HEIGHT sg og os p)).
  { rewrite HoldA; [exact Hg | exact Hglt | congruence]. }
  destruct (restoreGameState_sim st hA tp am g a1 r pa (length h) rs sg og os p s1
              HamA HgA HreadA Hb Hnd)
    as (h' & v' & Hrun & Hlen' & Hframe & Hread' & Hinit & Hw' & Hh' & Hfp').
  assert (Hsnap' : read_snapshot h' a1 = read_snapshot hA a1 /\
                   fp_snapshot h' a1 = fp_snapshot hA a1).
  { apply read_snapshot_local. intros b Hin. rewrite HfpA in Hin.
    destruct (Hsnap1 b Hin) as (Hb1 & _ & Hb3). apply Hframe; [lia | exact Hb1]. }
  destruct Hsnap' as [Hread1 Hfp1].
  exists h', a1, g, (length h), r, pa, rs, v'. split.
  { unfold HGameManager.rewindGameState.
    rewrite (hbind_Done _ _ _ _ _
               (len_game_states_Done h tp am g r pa gs rs (a1 :: arest) Ham Hgs)).
    cbn [length].
    destruct (Z.leb_spec (Z.of_nat (S (length arest))) 1); [lia|].
    rewrite (hbind_Done _ _ _ _ _
               (len_game_states_Done h tp am g r pa gs rs (a1 :: arest) Ham Hgs)).
    cbn [length].
    destruct (Z.leb_spec (Z.of_nat (S (length arest))) (Z.of_nat (length rest))); [lia|].
    rewrite (hbind_Done _ _ _ _ _ (game_states_Done h tp am g r pa gs rs Ham)).
    rewrite (hbind_load _ _ _ _ _ Hgs). cbv beta iota.
    rewrite <- Hlr. rewrite (py_prefix_keep_first a1 arest) by lia.
    rewrite hbind_alloc.
    rewrite (hbind_Done _ _ (h ++ [ORefs [a1]], tp) (hA, tp) tt).
    2:{ unfold HGameManager.set_game_states.
        rewrite (hbind_load am _ _ _ _ (lookup_ext _ _ _ _ Ham)).
        rewrite (store_Done _ _ _ _ _ (lookup_ext _ _ _ _ Ham)). reflexivity. }
    rewrite (hbind_Done _ _ _ _ _
               (game_states_Done hA tp am g r pa (length h) rs HamA)).
    rewrite (hbind_load _ _ _ _ _ HgsA). cbv beta iota. cbn [length].
    rewrite (hbind_hlift _ 0%nat) by exact (np_index_last 0).
    cbn [lookup list_lookup]. exact Hrun. }
  split. { rewrite Hframe; [exact HamA | lia | exact Hamg]. }
  split. { rewrite Hframe; [exact HgsA | lia | lia]. }
  split. { rewrite Hread1. exact HreadA. }
  split; [exact Hread'|]. split; [exact Hinit|]. split; [exact Hw'|]. split; [exact Hh'|].
  split; [lia|]. split.
  { intros b Hin. destruct (Hfp' b Hin) as [->|Hge]; [left; reflexivity | right; lia]. }
  split.
  { intros b Hin. rewrite Hfp1, HfpA in Hin. destruct (Hsnap1 b Hin) as (H1 & _ & H3).
    split; assumption. }
  repeat split; assumption || reflexivity.
Qed.

Lemma live_step_refl (am : addr) (h : heap) : live_ok h am -> live_step am h h.
Proof.
  intros Hok. split.
  - lia.
  - reflexivity.
  - intros a Ha. left. exact Ha.
  - exact Hok.
Qed.

(** An assignment to an attribute of an object of the live grid that leaves
    the grid readable and made of the same objects. *)
Lemma live_step_store (am a : addr) (o : obj) (h : heap) :
  a ∈ fp_live h am -> live_ok (<[a := o]> h) am ->
  fp_live (<[a := o]> h) am = fp_live h am ->
  live_step am h (<[a := o]> h).
Proof.
  intros Ha Hok Hfp. split.
  - rewrite length_insert. lia.
  - intros b _ Hb. apply list_lookup_insert_ne. intros ->. exact (Hb Ha).
  - intros b Hb. left. rewrite <- Hfp. exact Hb.
  - exact Hok.
Qed.

(** C9. From an empty history, [N >= 2] snapshots are pushed, [N] at most the
    capacity, with any work on the live grid before each push and after the
    last, and [rewind(N - 1)] is called; the food cells of the first snapshot
    are distinct cells of the grid.  The call returns and draws nothing.  The
    history is the first snapshot alone, which still reads as the values
    captured by the first push, and a snapshot of the live grid taken now is
    equal to it: position, energy, score, food count and food cells.  No
    object of the live grid (the grid, its arrays, its tile list and tiles,
    its player with tile and window) is an object of the snapshot (the
    [GameState], its list [foods_loc], the coordinate lists in it), so that
    whatever is done to the live grid afterwards, the snapshot and the
    history read as before. *)
Theorem rewind_restores_first (st : bool) (am : addr) (h0 h hr : heap) (tp : tape)
  (s1 : GameState.t) (rest : list GameState.t) :
  history_empty h0 am ->
  pushes am h0 (s1 :: rest) h ->
  live_step am h hr ->
  (1 <= length rest)%nat ->
  Z.of_nat (S (length rest)) <= MAX_SAVED_GAME_STATES ->
  Forall in_bounds (GameState.foods_loc s1) -> NoDup (GameState.foods_loc s1) ->
  exists (h' : heap) (a1 : addr),
    HGameManager.rewindGameState st (Z.of_nat (length rest)) am (hr, tp)
    = Done tt (h', tp) /\
    history_of h' am = Some [a1] /\
    read_snapshot h' a1 = Some s1 /\
    capture h' am = Some s1 /\
    (forall a, a ∈ fp_live h' am -> a ∉ fp_snapshot h' a1) /\
    (forall h'', live_step am h' h'' ->
       read_snapshot h'' a1 = Some s1 /\ history_of h'' am = Some [a1]).
Proof.
  intros Hempty Hpush Hstep Hlen Hcap Hb Hnd.
  assert (Hinv : hist_inv am hr (s1 :: rest)).
  { apply (hist_inv_live_step am h hr); [|exact Hstep].
    apply (pushes_inv am h0 h); [exact Hempty | exact Hpush | cbn [length]; lia]. }
  destruct (rewind_to_first st am hr tp s1 rest Hinv (ls_ok _ _ _ Hstep) Hlen Hb Hnd)
    as (h' & a1 & g & gs' & r & pa & rs & v' & Hrun & Ham & Hgs & Hs1 & Hv' & Hinit
        & _ & _ & Hlt & Hfpg & Hfps & Hamg & Hamlt & Hgs' & Hglt).
  pose proof (fp_live_grid h' am g r pa gs' rs Ham) as Hlive.
  assert (Hdisj : forall a, a ∈ fp_live h' am -> a ∉ fp_snapshot h' a1).
  { intros a Ha Hin. rewrite Hlive in Ha.
    destruct (Hfps a Hin) as [Hne Hlt']. destruct (Hfpg a Ha) as [->|Hge]; [congruence|lia]. }
  exists h', a1. split; [exact Hrun|].
  split. { unfold history_of, read_refs. rewrite Ham, Hgs. reflexivity. }
  split; [exact Hs1|].
  split. { unfold capture, grid_of. rewrite Ham, Hv', Hinit. reflexivity. }
  split; [exact Hdisj|].
  intros h'' [Hgrow Hframe Hfp Hok].
  assert (Hout : forall b, (b < length h')%nat -> b ∉ fp_grid h' g -> h'' !! b = h' !! b).
  { intros b Hb1 Hb2. apply Hframe; [exact Hb1|]. rewrite Hlive. exact Hb2. }
  split.
  - rewrite <- Hs1. apply read_snapshot_local. intros b Hin.
    destruct (Hfps b Hin) as [Hne Hlt']. apply Hout; [lia|].
    intros Hg. rewrite <- Hlive in Hg. exact (Hdisj b Hg Hin).
  - assert (Ham'' : h'' !! am = h' !! am).
    { apply Hout; [lia|]. intros Hin. destruct (Hfpg am Hin) as [E|Hge]; [congruence|lia]. }
    assert (Hgs'' : h'' !! gs' = h' !! gs').
    { apply Hout; [lia|]. intros Hin. destruct (Hfpg gs' Hin) as [E|Hge]; lia. }
    unfold history_of, read_refs. rewrite Ham'', Ham, Hgs'', Hgs. reflexivity.
Qed.

Lemma rewind_restores_first_witness :
  exists (h' : heap) (a1 : addr),
    HGameManager.rewindGameState true 1 10%nat (pushed_twice, []) = Done tt (h', []) /\
    history_of h' 10%nat = Some [a1] /\
    read_snapshot h' a1 = Some (GameState.mk 0 0 100 0 0 [(3, 2)]) /\
    capture h' 10%nat = Some (GameState.mk 0 0 100 0 0 [(3, 2)]) /\
    (forall a, a ∈ fp_live h' 10%nat -> a ∉ fp_snapshot h' a1).
Proof.
  set (s1 := GameState.mk 0 0 100 0 0 [(3, 2)]).
  set (s2 := GameState.mk 0 0 99 0 0 [(3, 2)]).
  assert (Hempty : history_empty small_store 10%nat).
  { exists 7%nat, 0, false, 8%nat, 9%nat.
    split; [reflexivity|]. split; [reflexivity|].
    split; apply (bool_decide_unpack _); vm_compute; exact I. }
  assert (Hok0 : live_ok small_store 10%nat).
  { exists 7%nat. eexists. split; [reflexivity|].
    split; [vm_compute; reflexivity|]. split; reflexivity. }
  assert (Hok1 : live_ok moved_store 10%nat).
  { exists 7%nat. eexists. split; [reflexivity|].
    split; [vm_compute; reflexivity|]. split; reflexivity. }
  assert (Hok2 : live_ok pushed_twice 10%nat).
  { exists 7%nat. eexists. split; [reflexivity|].
    split; [vm_compute; reflexivity|]. split; reflexivity. }
  assert (Hstep1 : live_step 10%nat pushed_once moved_store).
  { apply live_step_store.
    - apply (bool_decide_unpack _). vm_compute. exact I.
    - exact Hok1.
    - vm_compute. reflexivity. }
  assert (Hpush : pushes 10%nat small_store [s1; s2] pushed_twice).
  { apply (pushes_snoc 10%nat small_store [s1] pushed_once moved_store pushed_twice s2 []).
    - apply (pushes_snoc 10%nat small_store [] small_store small_store pushed_once s1 []).
      + apply pushes_nil.
      + apply live_step_refl. exact Hok0.
      + vm_compute. reflexivity.
      + vm_compute. reflexivity.
    - exact Hstep1.
    - vm_compute. reflexivity.
    - vm_compute. reflexivity. }
  assert (Hb : Forall in_bounds (GameState.foods_loc s1)).
  { constructor; [|constructor]. split; vm_compute; split; congruence. }
  assert (Hnd : NoDup (GameState.foods_loc s1)).
  { apply NoDup_singleton. }
  destruct (rewind_restores_first true 10%nat small_store pushed_twice pushed_twice []
              s1 [s2] Hempty Hpush (live_step_refl _ _ Hok2) (le_n 1)
              ltac:(vm_compute; congruence) Hb Hnd)
    as (h' & a1 & H1 & H2 & H3 & H4 & H5 & _).
  exists h', a1. repeat split; assumption.
Defined.
